(** * verify_case.py: the case-document verifier, embedded and verified

    A shallow embedding of [src/verify_case.py].  The parsed document is a
    tree of Python values; every Python operation the checks perform on it
    is written out with the exception it can raise.  The diagnostics
    collector [Result] is append-only and never read by the checks, so a
    check is a computation that yields the messages it appends together
    with either a return value or the exception that stopped it.

    Conventions.
    - A Python [str] is a Rocq [string], one character per code point;
      texts range over the code points below 256.
    - A mapping of the document is an association list in document order
      with string keys (what [json.loads] yields, and [yaml.safe_load] on
      documents whose keys are plain strings); its keys are pairwise
      distinct, see [wf_value].
    - A float is the rational it denotes (no NaN, no infinities).
    - A message is kept as its template plus the interpolated values
      (type [diag]); each constructor quotes the f-string it stands for. *)

From Stdlib Require Import List String Ascii ZArith QArith Bool Lia Permutation Arith.
Import ListNotations.
Close Scope Q_scope.
Set Warnings "-register-all".
Local Open Scope string_scope.
Local Open Scope list_scope.

(* ------------------------------------------------------------------ *)
(** ** Python strings *)

Module PyStr.

(** [str.isspace] on one code point below 256 (also what [\s] matches and
    what [strip] removes): tab, LF, VT, FF, CR, FS, GS, RS, US, space,
    NEL, NBSP. *)
Definition is_space (c : ascii) : bool :=
  let n := nat_of_ascii c in
  (((9 <=? n) && (n <=? 13)) || ((28 <=? n) && (n <=? 32))
   || (n =? 133) || (n =? 160))%nat.

(** The line boundaries of [str.splitlines] below 256. *)
Definition is_linebreak (c : ascii) : bool :=
  let n := nat_of_ascii c in
  (((10 <=? n) && (n <=? 13)) || ((28 <=? n) && (n <=? 30)) || (n =? 133))%nat.

Definition is_empty (s : string) : bool :=
  match s with EmptyString => true | _ => false end.

(** [s.lstrip()] *)
Fixpoint lstrip (s : string) : string :=
  match s with
  | String c s' => if is_space c then lstrip s' else s
  | EmptyString => EmptyString
  end.

(** [s.rstrip()] *)
Fixpoint rstrip (s : string) : string :=
  match s with
  | EmptyString => EmptyString
  | String c s' =>
      match rstrip s' with
      | EmptyString => if is_space c then EmptyString else String c EmptyString
      | t => String c t
      end
  end.

(** [s.strip()] *)
Definition strip (s : string) : string := rstrip (lstrip s).

(** [s.lstrip(chars)], [s.rstrip(chars)], [s.strip(chars)] for a set of
    characters given as a predicate. *)
Fixpoint lstrip_chars (p : ascii -> bool) (s : string) : string :=
  match s with
  | String c s' => if p c then lstrip_chars p s' else s
  | EmptyString => EmptyString
  end.

Fixpoint rstrip_chars (p : ascii -> bool) (s : string) : string :=
  match s with
  | EmptyString => EmptyString
  | String c s' =>
      match rstrip_chars p s' with
      | EmptyString => if p c then EmptyString else String c EmptyString
      | t => String c t
      end
  end.

Definition strip_chars (p : ascii -> bool) (s : string) : string :=
  rstrip_chars p (lstrip_chars p s).

Definition is_quote (c : ascii) : bool :=
  Ascii.eqb c "039" || Ascii.eqb c "034".

(** [s.startswith(p)] *)
Definition startswith (p s : string) : bool := String.prefix p s.

(** [s.endswith(p)] *)
Fixpoint endswith (p s : string) : bool :=
  String.eqb p s ||
  match s with
  | EmptyString => false
  | String _ s' => endswith p s'
  end.

(** [sub in s] *)
Fixpoint contains (sub s : string) : bool :=
  String.prefix sub s ||
  match s with
  | EmptyString => false
  | String _ s' => contains sub s'
  end.

(** [s[n:]] *)
Fixpoint drop (n : nat) (s : string) : string :=
  match n, s with
  | S n', String _ s' => drop n' s'
  | _, _ => s
  end.

(** [s.split(sep)[0]] for a one-character separator. *)
Fixpoint split_head (sep : ascii) (s : string) : string :=
  match s with
  | EmptyString => EmptyString
  | String c s' => if Ascii.eqb c sep then EmptyString else String c (split_head sep s')
  end.

(** [s.split()[0:1]]: the first whitespace-delimited token, if any. *)
Fixpoint take_token (s : string) : string :=
  match s with
  | EmptyString => EmptyString
  | String c s' => if is_space c then EmptyString else String c (take_token s')
  end.

Definition first_token (s : string) : option string :=
  match lstrip s with
  | EmptyString => None
  | t => Some (take_token t)
  end.

(** [s.lower()] below 256: A-Z and the Latin-1 capitals (all of 192..222
    but the multiplication sign 215) move up by 32. *)
Definition lower_char (c : ascii) : ascii :=
  let n := nat_of_ascii c in
  if (((65 <=? n) && (n <=? 90))
      || ((192 <=? n) && (n <=? 222) && negb (n =? 215)))%nat
  then ascii_of_nat (n + 32) else c.

Fixpoint lower (s : string) : string :=
  match s with
  | EmptyString => EmptyString
  | String c s' => String (lower_char c) (lower s')
  end.

(** [s.splitlines()]: the lines without their terminators; CR LF is one
    terminator; no empty last line after a final terminator. *)
Fixpoint splitlines_aux (cur : string) (s : string) : list string :=
  match s with
  | EmptyString => if is_empty cur then [] else [cur]
  | String c s' =>
      if is_linebreak c then
        match s' with
        | String c' s'' =>
            if Ascii.eqb c "013" && Ascii.eqb c' "010"
            then cur :: splitlines_aux EmptyString s''
            else cur :: splitlines_aux EmptyString s'
        | EmptyString => [cur]
        end
      else splitlines_aux (cur ++ String c EmptyString) s'
  end.

Definition splitlines (s : string) : list string := splitlines_aux EmptyString s.

(** [posixpath.join(a, b)] *)
Definition path_join2 (a b : string) : string :=
  if startswith "/" b then b
  else if is_empty a || endswith "/" a then a ++ b
  else a ++ "/" ++ b.

(** [os.path.join(a, b, c)] *)
Definition path_join3 (a b c : string) : string := path_join2 (path_join2 a b) c.

End PyStr.

(* ------------------------------------------------------------------ *)
(** ** Python values and the operations the checks apply to them *)

Module Py.

(** The generic document tree: what the parser hands to the checks. *)
Inductive value : Type :=
| VNone
| VBool (b : bool)
| VInt (z : Z)
| VFloat (q : Q)
| VStr (s : string)
| VList (l : list value)
| VDict (d : list (string * value)).

(** The exceptions the checks can run into. *)
Inductive exn : Type := KeyError | TypeError | AttributeError | IndexError.

(** An expression either raises or has a value. *)
Definition res (A : Type) : Type := (exn + A)%type.

Definition rbind {A B} (x : res A) (f : A -> res B) : res B :=
  match x with
  | inl e => inl e
  | inr a => f a
  end.

Notation "'let?' x ':=' e 'in' k" := (rbind e (fun x => k))
  (at level 10, x name, e at level 100, k at level 200).

(** [bool(v)] *)
Definition truthy (v : value) : bool :=
  match v with
  | VNone => false
  | VBool b => b
  | VInt z => negb (Z.eqb z 0)
  | VFloat q => negb (Qeq_bool q 0)
  | VStr s => negb (PyStr.is_empty s)
  | VList l => match l with [] => false | _ => true end
  | VDict d => match d with [] => false | _ => true end
  end.

(** [type(v).__name__] *)
Definition type_name (v : value) : string :=
  match v with
  | VNone => "NoneType"
  | VBool _ => "bool"
  | VInt _ => "int"
  | VFloat _ => "float"
  | VStr _ => "str"
  | VList _ => "list"
  | VDict _ => "dict"
  end.

Definition is_dict (v : value) : bool := match v with VDict _ => true | _ => false end.
Definition is_list (v : value) : bool := match v with VList _ => true | _ => false end.
Definition is_none (v : value) : bool := match v with VNone => true | _ => false end.

(** [isinstance(v, (int, float))]; [bool] is a subclass of [int]. *)
Definition is_number (v : value) : bool :=
  match v with VBool _ | VInt _ | VFloat _ => true | _ => false end.

(** The number a numeric value stands for in comparisons. *)
Definition num_of (v : value) : option Q :=
  match v with
  | VBool b => Some (if b then 1%Q else 0%Q)
  | VInt z => Some (inject_Z z)
  | VFloat q => Some q
  | _ => None
  end.

(** Lists and dicts cannot be hashed: they are neither set elements nor
    dict keys, and looking one up in a set or dict raises [TypeError]. *)
Definition hashable (v : value) : bool :=
  match v with VList _ | VDict _ => false | _ => true end.

Fixpoint dict_lookup {V} (k : string) (d : list (string * V)) : option V :=
  match d with
  | [] => None
  | (k', v) :: d' => if String.eqb k k' then Some v else dict_lookup k d'
  end.

(** [a == b] *)
Fixpoint py_eq (a b : value) {struct a} : bool :=
  match a, b with
  | VNone, VNone => true
  | VStr s, VStr t => String.eqb s t
  | VList l, VList m =>
      (fix all2 (l m : list value) {struct l} : bool :=
         match l, m with
         | [], [] => true
         | x :: l', y :: m' => py_eq x y && all2 l' m'
         | _, _ => false
         end) l m
  | VDict d, VDict e =>
      Nat.eqb (List.length d) (List.length e) &&
      (fix sub (d : list (string * value)) {struct d} : bool :=
         match d with
         | [] => true
         | (k, v) :: d' =>
             match dict_lookup k e with
             | Some v' => py_eq v v'
             | None => false
             end && sub d'
         end) d
  | _, _ =>
      match num_of a, num_of b with
      | Some p, Some q => Qeq_bool p q
      | _, _ => false
      end
  end.

(** [a <= b] *)
Fixpoint py_le (a b : value) {struct a} : res bool :=
  match a, b with
  | VStr s, VStr t => inr (String.leb s t)
  | VList l, VList m =>
      (fix lex (l m : list value) {struct l} : res bool :=
         match l, m with
         | [], _ => inr true
         | _ :: _, [] => inr false
         | x :: l', y :: m' => if py_eq x y then lex l' m' else py_le x y
         end) l m
  | _, _ =>
      match num_of a, num_of b with
      | Some p, Some q => inr (Qle_bool p q)
      | _, _ => inl TypeError
      end
  end.

(** [v > 80] for a number [v] *)
Definition gt_80 (v : value) : bool :=
  match num_of v with
  | Some q => negb (Qle_bool q 80)
  | None => false
  end.

(** [c.get(k, dflt)]: only dicts have [get]. *)
Definition py_get (c : value) (k : string) (dflt : value) : res value :=
  match c with
  | VDict d => inr (match dict_lookup k d with Some v => v | None => dflt end)
  | _ => inl AttributeError
  end.

(** [c[k]] for a string [k]. *)
Definition py_getitem (c : value) (k : string) : res value :=
  match c with
  | VDict d => match dict_lookup k d with Some v => inr v | None => inl KeyError end
  | _ => inl TypeError
  end.

(** [c.items()], [c.keys()], [c.values()] *)
Definition py_items (c : value) : res (list (string * value)) :=
  match c with VDict d => inr d | _ => inl AttributeError end.

Definition py_keys (c : value) : res (list string) :=
  match c with VDict d => inr (map fst d) | _ => inl AttributeError end.

Definition py_values (c : value) : res (list value) :=
  match c with VDict d => inr (map snd d) | _ => inl AttributeError end.

Definition chars (s : string) : list value :=
  map (fun c => VStr (String c EmptyString)) (list_ascii_of_string s).

(** [iter(c)]: what a [for] loop over [c] runs through. *)
Definition py_iter (c : value) : res (list value) :=
  match c with
  | VList l => inr l
  | VDict d => inr (map (fun kv => VStr (fst kv)) d)
  | VStr s => inr (chars s)
  | _ => inl TypeError
  end.

(** [x in s] for a set [s]: [x] is hashed first. *)
Definition set_mem (x : value) (s : list value) : res bool :=
  if hashable x then inr (existsb (py_eq x) s) else inl TypeError.

(** [x in l] for a list or tuple [l]: compared element by element. *)
Definition list_mem (x : value) (l : list value) : bool := existsb (py_eq x) l.

(** [x in c] for an arbitrary [c]. *)
Definition py_in (x c : value) : res bool :=
  match c with
  | VList l => inr (list_mem x l)
  | VDict d => set_mem x (map (fun kv => VStr (fst kv)) d)
  | VStr s => match x with
              | VStr t => inr (PyStr.contains t s)
              | _ => inl TypeError
              end
  | _ => inl TypeError
  end.

(** [set(c)] and [s.update(c)]: every element must be hashable. *)
Fixpoint all_hashable (l : list value) : res (list value) :=
  match l with
  | [] => inr []
  | x :: l' => if hashable x then let? r := all_hashable l' in inr (x :: r)
               else inl TypeError
  end.

Definition py_set (c : value) : res (list value) :=
  let? l := py_iter c in all_hashable l.

(** [v.lower()], [v.lstrip('/')]: only strings have them. *)
Definition py_lower (v : value) : res string :=
  match v with VStr s => inr (PyStr.lower s) | _ => inl AttributeError end.

Definition py_lstrip_slash (v : value) : res string :=
  match v with
  | VStr s => inr (PyStr.lstrip_chars (Ascii.eqb "/") s)
  | _ => inl AttributeError
  end.

(** [v.split()[0]] *)
Definition py_first_word (v : value) : res string :=
  match v with
  | VStr s => match PyStr.first_token s with
              | Some t => inr t
              | None => inl IndexError
              end
  | _ => inl AttributeError
  end.

(** A Python dict whose keys are arbitrary hashable values, in insertion
    order.  [d[k] = v] overwrites the entry of an equal key in place. *)
Fixpoint vdict_set {V} (k : value) (v : V) (d : list (value * V)) : list (value * V) :=
  match d with
  | [] => [(k, v)]
  | (k', v') :: d' =>
      if py_eq k k' then (k', v) :: d' else (k', v') :: vdict_set k v d'
  end.

Fixpoint vdict_find {V} (k : value) (d : list (value * V)) : option V :=
  match d with
  | [] => None
  | (k', v) :: d' => if py_eq k k' then Some v else vdict_find k d'
  end.

(** [d.get(k)] on such a dict: [k] is hashed first. *)
Definition vdict_get {V} (k : value) (d : list (value * V)) : res (option V) :=
  if hashable k then inr (vdict_find k d) else inl TypeError.

(** The keys of every mapping in the tree are pairwise distinct. *)
Fixpoint wf_value (v : value) : Prop :=
  match v with
  | VList l => (fix all (l : list value) : Prop :=
                  match l with [] => True | x :: l' => wf_value x /\ all l' end) l
  | VDict d => NoDup (map fst d) /\
               (fix all (d : list (string * value)) : Prop :=
                  match d with [] => True | (_, x) :: d' => wf_value x /\ all d' end) d
  | _ => True
  end.

End Py.

Import Py.

(* ------------------------------------------------------------------ *)
(** ** Result collectors *)

(** Where an asset path comes from: the [context] argument of
    [check_asset]. *)
Inductive asset_context : Type :=
| VictimAvatar                      (* "Victim avatar" *)
| SuspectAvatar (sid : value)       (* "Suspect '{sid}' avatar" *)
| RoomImage (room_id : string).     (* "Room '{room_id}' image" *)

(** The three solution roles and the suspect flag that goes with each. *)
Inductive role : Type := Killer | Accomplice | SilentWitness.

(** One constructor per message template of the source, in source order;
    the arguments are the interpolated values. *)
Inductive diag : Type :=
(* check_schema *)
| SchemaMissingField (field : string)
    (* Schema: Missing required top-level field '{field}' *)
| SchemaVictimMissing (vf : string)
    (* Schema: Victim missing recommended field '{vf}' *)
| SchemaPointSystemMissing (pf : string)
    (* Schema: point_system missing field '{pf}' *)
(* check_duplicate_keys_raw *)
| DuplicateKey (lineno : nat) (key : string) (first : nat)
    (* Duplicate Key (line ~{lineno}): '{key}' already seen at line
       ~{first} within the same mapping block ... *)
(* check_map *)
| MapNoMapKey
    (* Map: No 'map' key defined *)
| MapBadConnection (room_id : string) (target : value)
    (* Map: Room '{room_id}' connects_to non-existent room '{target}' *)
| MapOneWay (room_id target : string)
    (* Map: '{room_id}' -> '{target}' is one-way (no return connection) *)
| MapUnreachable (room_id start : string)
    (* Map: Room '{room_id}' is unreachable from '{start}' ... *)
| MapMurderLocation (murder_loc : value)
    (* Map: murderLocation '{murder_loc}' not found in map rooms *)
(* check_suspects_and_solution *)
| SolutionRoleNotFound (ro : role) (id : value)
    (* Solution: Killer '{killer_id}' not found in suspects list
       Solution: Accomplice '{accomplice_id}' not found in suspects list
       Solution: Silent witness '{silent_witness_id}' not found ... *)
| SuspectLocation (sid cl : value)
    (* Suspect '{sid}': currentLocation '{cl}' not in map *)
| SuspectRoleFlagUnset (ro : role) (sid : value)
    (* Suspect '{sid}': is solution killer but isGuilty is not true
       Suspect '{sid}': is solution accomplice but isAccomplice is not true
       Suspect '{sid}': is solution silent_witness but isSilentWitness
       is not true *)
| SuspectFlagNotRole (ro : role) (sid : value)
    (* Suspect '{sid}': isGuilty is true but is not the solution killer
       Suspect '{sid}': isAccomplice is true but is not the solution
       accomplice
       Suspect '{sid}': isSilentWitness is true but is not the solution
       silent_witness *)
| SuspectNoAlibi (sid : value)
    (* Suspect '{sid}': Missing alibi field *)
| SuspectNoSecrets (sid : value)
    (* Suspect '{sid}': Has no secrets defined ... *)
| SuspectResistance (sid rl : value)
    (* Suspect '{sid}': Unrecognised resistance_level '{rl}' ... *)
(* check_evidence_ids *)
| DiscoveryRoom (room_id : string)
    (* Evidence: physical_discovery references non-existent room
       '{room_id}' *)
| DiscoveryNotList (room_id : string) (type : string)
    (* Evidence: physical_discovery['{room_id}'] must be a list, got
       {type(ev_list).__name__} *)
| DiscoveryUndeclared (room_id : string) (ev_id : value)
    (* Evidence: physical_discovery room '{room_id}' references
       undeclared evidence '{ev_id}' *)
| InteractableEvidence (name : value) (room_id : string) (eid : value)
    (* Map: Interactable '{item.get('name')}' in '{room_id}' has
       evidence_id '{eid}' not in physical_evidence *)
| EvidenceNotDiscoverable (ev_id : string)
    (* Evidence: '{ev_id}' is declared in physical_evidence but not
       listed in any physical_discovery room ... *)
| KeyEvidenceUndeclared (ev_id : value)
    (* Solution: key_evidence '{ev_id}' not declared in
       physical_evidence *)
| AllLocationsRoom (loc : value)
    (* Evidence: all_locations contains non-existent room '{loc}' *)
| DnaRoom (room_id : string)
    (* DNA: References non-existent room '{room_id}' *)
| DnaNotList (room_id : string) (type : string)
    (* DNA: Entry for room '{room_id}' must be a list (got {type}) ... *)
| DnaUnknownProfile (name : value) (room_id : string)
    (* DNA: Unknown profile '{name}' in room '{room_id}' *)
| KillerNoDna (killer_id murder_loc : value)
    (* Evidence: Killer '{killer_id}' has no DNA at murder location
       '{murder_loc}' ... *)
(* check_secret_triggers *)
| TriggerDotNotation (sid sec_id req : value)
    (* Suspect '{sid}' secret '{sec_id}': requiresEvidence uses
       dot-notation '{req}' ... *)
| TriggerUndeclaredEvidence (sid sec_id req : value)
    (* Suspect '{sid}' secret '{sec_id}': requiresEvidence references
       undeclared ID '{req}' *)
| TriggerUnknownSecret (sid sec_id req : value)
    (* Suspect '{sid}' secret '{sec_id}': requiresSecrets references
       unknown secret ID '{req}' *)
| TriggerSelfReference (sid sec_id : value)
    (* Suspect '{sid}' secret '{sec_id}': requiresSecrets references
       itself - circular dependency *)
| TriggerPressureType (sid sec_id mp : value)
    (* Suspect '{sid}' secret '{sec_id}': minPressure must be a number,
       got '{mp}' *)
| TriggerPressureHigh (sid sec_id mp : value)
    (* Suspect '{sid}' secret '{sec_id}': minPressure={mp} is very
       high ... *)
| TriggerPressureOrder (sid sec_id sec_mp req req_mp : value)
    (* Suspect '{sid}' secret '{sec_id}' (minPressure={sec_mp}) requires
       secret '{req}' (minPressure={req_mp}) but has equal or lower
       pressure ... *)
(* check_assets *)
| ResourceNotFound (context : asset_context) (asset_path : value) (full_path : string)
    (* Resource: {context} '{asset_path}' not found at {full_path} *)
(* check_narrative_consistency *)
| KeyEvidenceUnused (ev_id : value)
    (* Narrative: key_evidence '{ev_id}' is never required by any
       suspect secret trigger ... *)
| KillerNoMurderEvidence (killer_id : value)
    (* Narrative: Killer '{killer_id}' has no secret triggered by murder
       scene evidence ... *)
| KillerNoConfession (killer_id : value)
    (* Narrative: Killer '{killer_id}' has no confession/terminal
       secret ... *)
| SuspectNoStatement (sid : value)
    (* Narrative: Suspect '{sid}' has no initial police statement *)
| WinConditionsVague (killer_id : value).
    (* Narrative: win_conditions text doesn't mention killer
       '{killer_id}' - may be vague *)

(** [class Result]: the two message lists, in insertion order. *)
Record Result : Type := mkResult {
  errors : list diag;
  warnings : list diag
}.

Definition empty : Result := mkResult [] [].

Definition plus (r s : Result) : Result :=
  mkResult (errors r ++ errors s) (warnings r ++ warnings s).

(** What a check does to the collector [r] it is given and how it ends:
    the messages it appended to [r], and its value or its exception. *)
Definition M (A : Type) : Type := (Result * res A)%type.

Definition emitted {A} (m : M A) : Result := fst m.
Definition outcome {A} (m : M A) : res A := snd m.

Definition ret {A} (a : A) : M A := (empty, inr a).

Definition bind {A B} (m : M A) (f : A -> M B) : M B :=
  let (w, o) := m in
  match o with
  | inl e => (w, inl e)
  | inr a => let (w', o') := f a in (plus w w', o')
  end.

(** [r.err(msg)], [r.warn(msg)] *)
Definition err (msg : diag) : M unit := (mkResult [msg] [], inr tt).
Definition warn (msg : diag) : M unit := (mkResult [] [msg], inr tt).

(** An expression evaluated inside a check. *)
Definition lift {A} (x : res A) : M A := (empty, x).

Notation "x <- m ;; k" := (bind m (fun x => k))
  (at level 61, m at next level, right associativity).
Notation "x <~ e ;; k" := (bind (lift e) (fun x => k))
  (at level 61, e at next level, right associativity).
Notation "m ;; k" := (bind m (fun _ => k))
  (at level 61, right associativity).

(** [if c: m] *)
Definition when (c : bool) (m : M unit) : M unit := if c then m else ret tt.

(** [for x in xs: body(x)] *)
Fixpoint for_each {A} (xs : list A) (body : A -> M unit) : M unit :=
  match xs with
  | [] => ret tt
  | x :: xs' => body x ;; for_each xs' body
  end.

(** The collector after a check has run on it. *)
Definition run_on {A} (r : Result) (m : M A) : Result := plus r (emitted m).

(* ------------------------------------------------------------------ *)
(** ** The raw-text duplicate-key scanner *)

(** A stack entry [(indent_level, is_list_item_scope, seen)]; [seen] maps
    a key to the line it was first seen on. *)
Definition scope : Type := (Z * bool * list (string * nat))%type.

Definition scope_indent (sc : scope) : Z := fst (fst sc).
Definition scope_seen (sc : scope) : list (string * nat) := snd sc.

(** [while len(scope_stack) > 1 and scope_stack[-1][0] >= indent:
        scope_stack.pop()]
    The head of the list is the top of the stack, [scope_stack[-1]]. *)
Fixpoint pop_scopes (indent : Z) (scope_stack : list scope) : list scope :=
  match scope_stack with
  | top :: rest =>
      match rest with
      | [] => scope_stack
      | _ :: _ =>
          if (scope_indent top >=? indent)%Z then pop_scopes indent rest
          else scope_stack
      end
  | [] => scope_stack
  end.

(** Group 2 of the quoted-key pattern of line 105 (a single or double
    quote, a lazy run of characters, the same quote again, optional white
    space, a colon), matched at the start of [stripped], once the opening
    quote [q] is read: the shortest run of characters (none a line
    feed) that is followed by [q], optional white space and a colon. *)
Definition spaces_then_colon (s : string) : bool :=
  PyStr.startswith ":" (PyStr.lstrip s).

Fixpoint quoted_body (q : ascii) (s : string) : option string :=
  match s with
  | EmptyString => None
  | String c s' =>
      if Ascii.eqb c q && spaces_then_colon s' then Some EmptyString
      else if Ascii.eqb c "010" then None
      else option_map (String c) (quoted_body q s')
  end.

Definition match_quoted (stripped : string) : option string :=
  match stripped with
  | String q s' => if PyStr.is_quote q then quoted_body q s' else None
  | EmptyString => None
  end.

(** Lines 103-109: the key of a line that contains a colon. *)
Definition extract_key (stripped : string) : string :=
  match match_quoted stripped with
  | Some key => key
  | None => PyStr.strip_chars PyStr.is_quote (PyStr.strip (PyStr.split_head ":" stripped))
  end.

(** Line 128: does the key open a nested mapping? *)
Definition opens_block (stripped : string) : bool :=
  PyStr.endswith ":" (PyStr.rstrip stripped)
  || (negb (PyStr.contains ": " stripped) && PyStr.endswith ":" stripped).

(** Lines 113-129: the key against the scope that owns its indentation;
    [opens] is whether the key opens a nested mapping. *)
Definition record_key (lineno : nat) (key : string) (indent : Z) (opens : bool)
    (scope_stack : list scope) : M (list scope) :=
  let scope_stack := pop_scopes indent scope_stack in
  scope_stack <-
    match scope_stack with
    | (ind, is_li, current_scope) :: rest =>
        match dict_lookup key current_scope with
        | Some first => err (DuplicateKey lineno key first) ;; ret scope_stack
        | None => ret ((ind, is_li, current_scope ++ [(key, lineno)]) :: rest)
        end
    | [] => ret scope_stack
    end ;;
  if opens
  then ret (((indent + 1)%Z, false, []) :: scope_stack)
  else ret scope_stack.

(** Lines 100-129, for a line (or the rest of a list item) [stripped]
    that lives at [indent]. *)
Definition scan_key (lineno : nat) (stripped : string) (indent : Z)
    (scope_stack : list scope) : M (list scope) :=
  if negb (PyStr.contains ":" stripped) then ret scope_stack
  else
    let key := extract_key stripped in
    if PyStr.is_empty key || PyStr.startswith "{" key then ret scope_stack
    else record_key lineno key indent (opens_block stripped) scope_stack.

(** The body of the loop of [check_duplicate_keys_raw], lines 80-129. *)
Definition scan_line (lineno : nat) (raw_line : string)
    (scope_stack : list scope) : M (list scope) :=
  let stripped := PyStr.lstrip raw_line in
  if PyStr.is_empty stripped || PyStr.startswith "#" stripped then ret scope_stack
  else
    let indent := (Z.of_nat (String.length raw_line) - Z.of_nat (String.length stripped))%Z in
    if PyStr.startswith "- " stripped then
      let scope_stack := (indent, true, []) :: pop_scopes indent scope_stack in
      let stripped := PyStr.lstrip (PyStr.drop 2 stripped) in
      if PyStr.is_empty stripped || negb (PyStr.contains ":" stripped)
      then ret scope_stack
      else scan_key lineno stripped (indent + 2)%Z scope_stack
    else scan_key lineno stripped indent scope_stack.

(** [for lineno, raw_line in enumerate(lines, lineno): ...] *)
Fixpoint scan_lines (lineno : nat) (lines : list string)
    (scope_stack : list scope) : M (list scope) :=
  match lines with
  | [] => ret scope_stack
  | raw_line :: lines' =>
      scope_stack <- scan_line lineno raw_line scope_stack ;;
      scan_lines (S lineno) lines' scope_stack
  end.

Definition initial_stack : list scope := [((-1)%Z, false, [])].

Definition check_duplicate_keys_raw (text : string) : M unit :=
  scan_lines 1 (PyStr.splitlines text) initial_stack ;; ret tt.

(* ------------------------------------------------------------------ *)
(** ** Check helpers *)

(** [graph.get(node, [])] *)
Definition adj_get (node : string) (graph : list (string * list string)) : list string :=
  match dict_lookup node graph with
  | Some l => l
  | None => []
  end.

Definition str_mem (x : string) (s : list string) : bool := existsb (String.eqb x) s.

(** The [while stack:] loop of [_dfs_reachable]; the head of [stack] is
    its top, [visited] is kept in the order of the [add]s. *)
Fixpoint dfs_loop (fuel : nat) (graph : list (string * list string))
    (visited stack : list string) : option (list string) :=
  match stack with
  | [] => Some visited
  | node :: stack' =>
      match fuel with
      | O => None
      | S fuel' =>
          if str_mem node visited then dfs_loop fuel' graph visited stack'
          else dfs_loop fuel' graph (visited ++ [node])
                        (rev (adj_get node graph) ++ stack')
      end
  end.

(** Every iteration pops one entry, and entries are pushed only when a
    node is visited for the first time: one more than the number of
    edges bounds the number of iterations (lemma [dfs_loop_total]). *)
Definition dfs_fuel (graph : list (string * list string)) : nat :=
  S (S (list_sum (map (fun e => List.length (snd e)) graph))).

Definition _dfs_reachable (start : string) (graph : list (string * list string)) : list string :=
  match dfs_loop (dfs_fuel graph) graph [] [start] with
  | Some visited => visited
  | None => []
  end.

(* ------------------------------------------------------------------ *)
(** ** Section validators *)

(** [x not in rooms] for the set [rooms] of room ids; an [x] that is in
    [rooms] is one of its strings. *)
Definition find_room (x : value) (rooms : list string) : res (option string) :=
  if hashable x then
    inr (match x with
         | VStr t => if str_mem t rooms then Some t else None
         | _ => None
         end)
  else inl TypeError.

Definition in_rooms (x : value) (rooms : list string) : res bool :=
  let? r := find_room x rooms in
  inr (match r with Some _ => true | None => false end).

Definition required : list string :=
  ["id"; "name"; "description"; "victim"; "murderTime";
   "murderLocation"; "evidence"; "solution"; "suspects"; "settings"].

(** 1. Required top-level keys and basic types. *)
Definition check_schema (data : value) : M unit :=
  for_each required (fun field =>
    present <~ py_in (VStr field) data ;;
    when (negb present) (err (SchemaMissingField field))) ;;
  has_victim <~ py_in (VStr "victim") data ;;
  when has_victim
    (for_each ["name"; "id"; "avatar"] (fun vf =>
       victim <~ py_getitem data "victim" ;;
       present <~ py_in (VStr vf) victim ;;
       when (negb present) (warn (SchemaVictimMissing vf)))) ;;
  has_points <~ py_in (VStr "point_system") data ;;
  when has_points
    (for_each ["question_cost"; "search_cost"; "correct_deduction_reward";
               "key_evidence_reward"] (fun pf =>
       points <~ py_getitem data "point_system" ;;
       present <~ py_in (VStr pf) points ;;
       when (negb present) (warn (SchemaPointSystemMissing pf)))).

(** Lines 145-157: the connections a room declares. *)
Definition room_connects (room_info : value) : M value :=
  if is_dict room_info then
    connects <~ py_get room_info "connects_to" (VList []) ;;
    interactables <~ py_get room_info "interactables" (VList []) ;;
    items <~ py_iter interactables ;;
    for_each items (fun item =>
      eid <~ py_get item "evidence_id" VNone ;;
      ret tt) ;;
    ret connects
  else if is_list room_info then ret room_info
  else ret (VList []).

(** Lines 159-164: [adj[room_id]], the targets that are declared rooms. *)
Fixpoint valid_targets (rooms : list string) (room_id : string)
    (targets : list value) : M (list string) :=
  match targets with
  | [] => ret []
  | target :: targets' =>
      found <~ find_room target rooms ;;
      match found with
      | None =>
          err (MapBadConnection room_id target) ;;
          valid_targets rooms room_id targets'
      | Some t =>
          neighbors <- valid_targets rooms room_id targets' ;;
          ret (t :: neighbors)
      end
  end.

(** Lines 144-164: [adj], one entry per room in document order. *)
Fixpoint build_adj (rooms : list string) (items : list (string * value))
    : M (list (string * list string)) :=
  match items with
  | [] => ret []
  | (room_id, room_info) :: items' =>
      connects <- room_connects room_info ;;
      targets <~ py_iter connects ;;
      neighbors <- valid_targets rooms room_id targets ;;
      adj <- build_adj rooms items' ;;
      ret ((room_id, neighbors) :: adj)
  end.

(** Lines 166-170: the bidirectional check. *)
Definition check_one_way (adj : list (string * list string)) : M unit :=
  for_each adj (fun entry =>
    let room_id := fst entry in
    for_each (snd entry) (fun target =>
      when (negb (str_mem room_id (adj_get target adj)))
           (warn (MapOneWay room_id target)))).

Section Checks.

(** The order in which a [for] loop runs through a set of strings: some
    arrangement of its elements, fixed by the hash seed of the process. *)
Variable set_order : list string -> list string.

(** [os.path.exists] *)
Variable path_exists : string -> bool.

(** [json.dumps] *)
Variable json_dumps : value -> string.

(** Lines 172-178: connectivity from the first room. *)
Definition check_connectivity (rooms : list string)
    (adj : list (string * list string)) : M unit :=
  match rooms with
  | [] => ret tt
  | start :: _ =>
      let reachable := _dfs_reachable start adj in
      let isolated := filter (fun room_id => negb (str_mem room_id reachable)) rooms in
      for_each (set_order isolated) (fun room_id =>
        warn (MapUnreachable room_id start))
  end.

(** 2. Map room integrity + bidirectionality + connectivity. *)
Definition check_map (data : value) : M (list string * list (string * list string)) :=
  has_map <~ py_in (VStr "map") data ;;
  if negb has_map then
    err MapNoMapKey ;;
    ret ([], [])
  else
    map_ <~ py_getitem data "map" ;;
    items <~ py_items map_ ;;
    let rooms := map fst items in
    adj <- build_adj rooms items ;;
    check_one_way adj ;;
    check_connectivity rooms adj ;;
    murder_loc <~ py_get data "murderLocation" VNone ;;
    when (truthy murder_loc)
      (known <~ in_rooms murder_loc rooms ;;
       when (negb known) (err (MapMurderLocation murder_loc))) ;;
    ret (rooms, adj).

(** A comprehension over a list: the elements are evaluated in order, the
    first exception ends it. *)
Fixpoint map_res {A B} (f : A -> res B) (l : list A) : res (list B) :=
  match l with
  | [] => inr []
  | x :: l' => let? y := f x in let? ys := map_res f l' in inr (y :: ys)
  end.

(** [{s['id'] for s in c}] *)
Definition id_set (c : value) : res (list value) :=
  let? l := py_iter c in
  map_res (fun s => let? i := py_getitem s "id" in
                    if hashable i then inr i else inl TypeError) l.

Definition flag_of (ro : role) : string :=
  match ro with
  | Killer => "isGuilty"
  | Accomplice => "isAccomplice"
  | SilentWitness => "isSilentWitness"
  end.

(** Lines 216-233, once per role: the suspect's flag against the role. *)
Definition check_role_flag (ro : role) (suspect sid role_id : value) : M unit :=
  if py_eq sid role_id then
    flag <~ py_get suspect (flag_of ro) VNone ;;
    when (negb (truthy flag)) (err (SuspectRoleFlagUnset ro sid))
  else
    flag <~ py_get suspect (flag_of ro) VNone ;;
    when (truthy flag) (err (SuspectFlagNotRole ro sid)).

Definition resistance_levels : list value :=
  [VStr "low"; VStr "moderate"; VStr "high"; VStr "expert"].

(** Lines 207-247: the body of the loop over the suspects. *)
Definition check_suspect (rooms : list string)
    (killer_id accomplice_id silent_witness_id suspect : value) : M unit :=
  sid <~ py_getitem suspect "id" ;;
  cl <~ py_get suspect "currentLocation" VNone ;;
  when (truthy cl)
    (known <~ in_rooms cl rooms ;;
     when (negb known) (err (SuspectLocation sid cl))) ;;
  check_role_flag Killer suspect sid killer_id ;;
  check_role_flag Accomplice suspect sid accomplice_id ;;
  check_role_flag SilentWitness suspect sid silent_witness_id ;;
  alibi <~ py_get suspect "alibi" VNone ;;
  when (negb (truthy alibi)) (warn (SuspectNoAlibi sid)) ;;
  secrets <~ py_get suspect "secrets" VNone ;;
  when (negb (truthy secrets)) (warn (SuspectNoSecrets sid)) ;;
  rl <~ py_get suspect "resistance_level" VNone ;;
  when (truthy rl && negb (list_mem rl resistance_levels))
       (warn (SuspectResistance sid rl)).

(** Lines 198-203, once per role: the role id against the suspect ids;
    [sentinel] is whether the value 'none' stands for an unassigned role. *)
Definition check_role_id (ro : role) (sentinel : bool)
    (role_id : value) (suspect_ids : list value) : M unit :=
  when (negb (sentinel && py_eq role_id (VStr "none")))
    (known <~ set_mem role_id suspect_ids ;;
     when (negb known) (err (SolutionRoleNotFound ro role_id))).

(** 3. Suspect flags, solution coherence, currentLocation. *)
Definition check_suspects_and_solution (data : value) (rooms : list string)
    : M (list value * value * value * value) :=
  suspects <~ py_get data "suspects" (VList []) ;;
  suspect_ids <~ id_set suspects ;;
  solution <~ py_get data "solution" (VDict []) ;;
  killer_id <~ (if is_dict solution then py_get solution "killer" VNone
                else inr solution) ;;
  accomplice_id <~ (if is_dict solution
                    then py_get solution "accomplice" (VStr "none")
                    else inr (VStr "none")) ;;
  silent_witness_id <~ (if is_dict solution
                        then py_get solution "silent_witness" (VStr "none")
                        else inr (VStr "none")) ;;
  check_role_id Killer false killer_id suspect_ids ;;
  check_role_id Accomplice true accomplice_id suspect_ids ;;
  check_role_id SilentWitness true silent_witness_id suspect_ids ;;
  suspect_list <~ py_iter suspects ;;
  for_each suspect_list
    (check_suspect rooms killer_id accomplice_id silent_witness_id) ;;
  ret (suspect_ids, killer_id, accomplice_id, silent_witness_id).

(** [collect_all_secret_ids]: suspect id -> the set of its secret ids. *)
Fixpoint collect_secret_ids (suspects : list value)
    (result : list (value * list value)) : res (list (value * list value)) :=
  match suspects with
  | [] => inr result
  | suspect :: suspects' =>
      let? secrets := py_get suspect "secrets" (VList []) in
      let? ids := id_set secrets in
      let? sid := py_getitem suspect "id" in
      if hashable sid then collect_secret_ids suspects' (vdict_set sid ids result)
      else inl TypeError
  end.

Definition collect_all_secret_ids (data : value) : res (list (value * list value)) :=
  let? suspects := py_get data "suspects" (VList []) in
  let? suspect_list := py_iter suspects in
  collect_secret_ids suspect_list [].

(** [ev_id not in phys_ev_ids] and the like, for a set of strings. *)
Definition in_strs (x : value) (s : list string) : res bool := in_rooms x s.

(** Lines 268-276 and 313-321: one entry of [physical_discovery]. *)
Definition check_discovery_entry (rooms phys_ev_ids : list string)
    (entry : string * value) : M unit :=
  let (room_id, ev_list) := entry in
  when (negb (str_mem room_id rooms)) (err (DiscoveryRoom room_id)) ;;
  match ev_list with
  | VList evs =>
      for_each evs (fun ev_id =>
        known <~ in_strs ev_id phys_ev_ids ;;
        when (negb known) (err (DiscoveryUndeclared room_id ev_id)))
  | _ => err (DiscoveryNotList room_id (type_name ev_list))
  end.

(** Lines 279-285: the interactables of one room. *)
Definition check_interactables (phys_ev_ids : list string)
    (entry : string * value) : M unit :=
  let (room_id, room_info) := entry in
  if negb (is_dict room_info) then ret tt
  else
    interactables <~ py_get room_info "interactables" (VList []) ;;
    items <~ py_iter interactables ;;
    for_each items (fun item =>
      eid <~ py_get item "evidence_id" VNone ;;
      when (truthy eid)
        (known <~ in_strs eid phys_ev_ids ;;
         when (negb known)
           (name <~ py_get item "name" VNone ;;
            err (InteractableEvidence name room_id eid)))).

(** Lines 288-291: the set [discoverable]. *)
Fixpoint collect_discoverable (ev_lists : list value) : res (list value) :=
  match ev_lists with
  | [] => inr []
  | ev_list :: rest =>
      match ev_list with
      | VList evs =>
          let? here := all_hashable evs in
          let? there := collect_discoverable rest in
          inr (here ++ there)
      | _ => collect_discoverable rest
      end
  end.

(** Lines 313-321: one entry of [dna]. *)
Definition check_dna_entry (rooms : list string)
    (suspect_ids : list value) (victim_id victim_name : string)
    (entry : string * value) : M unit :=
  let (room_id, names) := entry in
  when (negb (str_mem room_id rooms)) (err (DnaRoom room_id)) ;;
  match names with
  | VList ns =>
      let known_profiles :=
        suspect_ids ++
        filter (fun p => negb (py_eq p (VStr "")))
               [VStr "victim"; VStr victim_id; VStr victim_name] in
      for_each ns (fun name =>
        known <~ set_mem name known_profiles ;;
        when (negb known) (warn (DnaUnknownProfile name room_id)))
  | _ => err (DnaNotList room_id (type_name names))
  end.

(** Lines 326-327: the rooms whose DNA list names the killer. *)
Definition killer_dna_rooms (killer_id : value) (dna : list (string * value)) : list string :=
  map fst (filter (fun entry =>
                     match snd entry with
                     | VList names => list_mem killer_id names
                     | _ => false
                     end) dna).

(** 4 & 5. Evidence cross-references, discovery rooms, DNA. *)
Definition check_evidence_ids (data : value) (rooms : list string)
    (suspect_ids : list value) (killer_id : value) : M unit :=
  evidence <~ py_get data "evidence" (VDict []) ;;
  phys_ev <~ py_get evidence "physical_evidence" (VDict []) ;;
  phys_ev_ids <~ py_keys phys_ev ;;
  solution <~ py_get data "solution" (VDict []) ;;
  (* physical_discovery rooms and IDs *)
  discovery <~ py_get evidence "physical_discovery" (VDict []) ;;
  discovery_items <~ py_items discovery ;;
  for_each discovery_items (check_discovery_entry rooms phys_ev_ids) ;;
  (* interactable evidence_id must exist in physical_evidence *)
  map_ <~ py_get data "map" (VDict []) ;;
  map_items <~ py_items map_ ;;
  for_each map_items (check_interactables phys_ev_ids) ;;
  (* every physical_evidence item must be discoverable somewhere *)
  discovery' <~ py_get evidence "physical_discovery" (VDict []) ;;
  ev_lists <~ py_values discovery' ;;
  discoverable <~ collect_discoverable ev_lists ;;
  for_each (set_order phys_ev_ids) (fun ev_id =>
    when (negb (list_mem (VStr ev_id) discoverable))
         (warn (EvidenceNotDiscoverable ev_id))) ;;
  (* key_evidence vs physical_evidence *)
  when (is_dict solution)
    (key_evidence <~ py_get solution "key_evidence" (VList []) ;;
     evs <~ py_iter key_evidence ;;
     for_each evs (fun ev_id =>
       known <~ in_strs ev_id phys_ev_ids ;;
       when (negb known) (err (KeyEvidenceUndeclared ev_id)))) ;;
  (* all_locations vs map *)
  all_locations <~ py_get evidence "all_locations" (VList []) ;;
  locs <~ py_iter all_locations ;;
  for_each locs (fun loc =>
    known <~ in_rooms loc rooms ;;
    when (negb known) (err (AllLocationsRoom loc))) ;;
  (* DNA *)
  victim_data <~ py_get data "victim" (VDict []) ;;
  victim_id_raw <~ py_get victim_data "id" (VStr "") ;;
  victim_id <~ py_lower victim_id_raw ;;
  victim_name_raw <~ py_get victim_data "name" (VStr "") ;;
  victim_first <~ py_first_word victim_name_raw ;;
  let victim_name := PyStr.lower victim_first in
  dna <~ py_get evidence "dna" (VDict []) ;;
  dna_items <~ py_items dna ;;
  for_each dna_items (check_dna_entry rooms suspect_ids victim_id victim_name) ;;
  (* killer should leave DNA at murder location *)
  murder_loc <~ py_get data "murderLocation" VNone ;;
  when (truthy murder_loc && truthy killer_id)
    (dna' <~ py_get evidence "dna" (VDict []) ;;
     dna_items' <~ py_items dna' ;;
     when (negb (list_mem murder_loc (map VStr (killer_dna_rooms killer_id dna_items'))))
          (warn (KillerNoDna killer_id murder_loc))).

(** Lines 350-379: the trigger of one secret of suspect [sid]. *)
Definition check_trigger (valid_flat_ids all_secret_ids_flat : list value)
    (sid secret : value) : M unit :=
  sec_id <~ py_getitem secret "id" ;;
  trigger <~ py_get secret "trigger" (VDict []) ;;
  (* requiresEvidence *)
  requires_evidence <~ py_get trigger "requiresEvidence" (VList []) ;;
  reqs <~ py_iter requires_evidence ;;
  for_each reqs (fun req =>
    dotted <~ py_in (VStr ".") req ;;
    if dotted then err (TriggerDotNotation sid sec_id req)
    else
      known <~ set_mem req valid_flat_ids ;;
      when (negb known) (err (TriggerUndeclaredEvidence sid sec_id req))) ;;
  (* requiresSecrets *)
  requires_secrets <~ py_get trigger "requiresSecrets" (VList []) ;;
  reqs <~ py_iter requires_secrets ;;
  for_each reqs (fun req =>
    known <~ set_mem req all_secret_ids_flat ;;
    when (negb known) (err (TriggerUnknownSecret sid sec_id req))) ;;
  (* secret requiring itself *)
  requires_secrets' <~ py_get trigger "requiresSecrets" (VList []) ;;
  self <~ py_in sec_id requires_secrets' ;;
  when self (err (TriggerSelfReference sid sec_id)) ;;
  (* minPressure *)
  mp <~ py_get trigger "minPressure" VNone ;;
  when (negb (is_none mp) && negb (is_number mp))
       (err (TriggerPressureType sid sec_id mp)) ;;
  when (is_number mp && gt_80 mp) (warn (TriggerPressureHigh sid sec_id mp)).

(** Lines 346-379: the secrets of one suspect. *)
Definition check_suspect_triggers (valid_flat_ids all_secret_ids_flat : list value)
    (all_secret_ids : list (value * list value)) (suspect : value) : M unit :=
  sid <~ py_getitem suspect "id" ;;
  own_secret_ids <~ vdict_get sid all_secret_ids ;;
  secrets <~ py_get suspect "secrets" (VList []) ;;
  secret_list <~ py_iter secrets ;;
  for_each secret_list (check_trigger valid_flat_ids all_secret_ids_flat sid).

(** Lines 384-387: secret id -> its own minPressure. *)
Fixpoint secret_pressures (secrets : list value) (secret_pressure : list (value * value))
    : res (list (value * value)) :=
  match secrets with
  | [] => inr secret_pressure
  | secret :: secrets' =>
      let? trigger := py_get secret "trigger" (VDict []) in
      let? mp := py_get trigger "minPressure" (VInt 0) in
      let? sec_id := py_getitem secret "id" in
      if hashable sec_id
      then secret_pressures secrets' (vdict_set sec_id mp secret_pressure)
      else inl TypeError
  end.

(** Lines 389-395: one secret against the secrets it requires. *)
Definition check_pressure_order (secret_pressure : list (value * value))
    (sid secret : value) : M unit :=
  sec_id <~ py_getitem secret "id" ;;
  found <~ vdict_get sec_id secret_pressure ;;
  let sec_mp := match found with Some mp => mp | None => VInt 0 end in
  trigger <~ py_get secret "trigger" (VDict []) ;;
  requires_secrets <~ py_get trigger "requiresSecrets" (VList []) ;;
  reqs <~ py_iter requires_secrets ;;
  for_each reqs (fun req =>
    found <~ vdict_get req secret_pressure ;;
    match found with
    | Some req_mp =>
        if is_none req_mp then ret tt
        else
          lower <~ py_le sec_mp req_mp ;;
          when lower (warn (TriggerPressureOrder sid sec_id sec_mp req req_mp))
    | None => ret tt
    end).

(** Lines 382-395: the secret ordering of one suspect. *)
Definition check_suspect_pressures (suspect : value) : M unit :=
  sid <~ py_getitem suspect "id" ;;
  secrets <~ py_get suspect "secrets" (VList []) ;;
  secret_list <~ py_iter secrets ;;
  secret_pressure <~ secret_pressures secret_list [] ;;
  secrets' <~ py_get suspect "secrets" (VList []) ;;
  secret_list' <~ py_iter secrets' ;;
  for_each secret_list' (check_pressure_order secret_pressure sid).

(** 5. requiresEvidence and requiresSecrets cross-references. *)
Definition check_secret_triggers (data : value) (rooms : list string) : M unit :=
  evidence <~ py_get data "evidence" (VDict []) ;;
  phys_ev <~ py_get evidence "physical_evidence" (VDict []) ;;
  phys_ev_ids <~ py_keys phys_ev ;;
  digital_logs <~ py_get evidence "digital_logs" (VDict []) ;;
  digital_log_ids <~ py_keys digital_logs ;;
  footage <~ py_get evidence "footage" (VDict []) ;;
  footage_ids <~ py_keys footage ;;
  let valid_flat_ids :=
    map VStr (phys_ev_ids ++ digital_log_ids ++ footage_ids ++ rooms) in
  all_secret_ids <~ collect_all_secret_ids data ;;
  let all_secret_ids_flat := List.concat (map snd all_secret_ids) in
  suspects <~ py_get data "suspects" (VList []) ;;
  suspect_list <~ py_iter suspects ;;
  for_each suspect_list
    (check_suspect_triggers valid_flat_ids all_secret_ids_flat all_secret_ids) ;;
  suspects' <~ py_get data "suspects" (VList []) ;;
  suspect_list' <~ py_iter suspects' ;;
  for_each suspect_list' check_suspect_pressures.

(** The nested function [check_asset] of [check_assets]. *)
Definition check_asset (project_root : string) (asset_path : value)
    (context : asset_context) : M unit :=
  if negb (truthy asset_path) then ret tt
  else
    relative_path <~ py_lstrip_slash asset_path ;;
    let full_path := PyStr.path_join3 project_root "public" relative_path in
    when (negb (path_exists full_path))
         (err (ResourceNotFound context asset_path full_path)).

(** 6. Avatar and room image file existence. *)
Definition check_assets (data : value) (project_root : string) : M unit :=
  victim <~ py_get data "victim" (VDict []) ;;
  avatar <~ py_get victim "avatar" VNone ;;
  check_asset project_root avatar VictimAvatar ;;
  suspects <~ py_get data "suspects" (VList []) ;;
  suspect_list <~ py_iter suspects ;;
  for_each suspect_list (fun suspect =>
    avatar <~ py_get suspect "avatar" VNone ;;
    sid <~ py_getitem suspect "id" ;;
    check_asset project_root avatar (SuspectAvatar sid)) ;;
  map_ <~ py_get data "map" (VDict []) ;;
  map_items <~ py_items map_ ;;
  for_each map_items (fun entry =>
    let room_id := fst entry in
    let room_info := snd entry in
    if is_dict room_info then
      has_image <~ py_in (VStr "image") room_info ;;
      when has_image
        (image <~ py_getitem room_info "image" ;;
         check_asset project_root image (RoomImage room_id))
    else ret tt).

(** [any(f(x) for x in l)]: stops at the first true element. *)
Fixpoint any_res {A} (f : A -> res bool) (l : list A) : res bool :=
  match l with
  | [] => inr false
  | x :: l' => let? b := f x in if b then inr true else any_res f l'
  end.

(** [{s['id']: s for s in suspects}] *)
Fixpoint suspects_by_id (suspects : list value) (acc : list (value * value))
    : res (list (value * value)) :=
  match suspects with
  | [] => inr acc
  | s :: suspects' =>
      let? sid := py_getitem s "id" in
      if hashable sid then suspects_by_id suspects' (vdict_set sid s acc)
      else inl TypeError
  end.

(** [c.get(k, dflt)] for an arbitrary key [k]. *)
Definition py_get_v (c k dflt : value) : res value :=
  match c with
  | VDict d =>
      if hashable k then
        inr (match k with
             | VStr s => match dict_lookup s d with Some v => v | None => dflt end
             | _ => dflt
             end)
      else inl TypeError
  | _ => inl AttributeError
  end.

(** Lines 427-430: the set of all evidence ids some trigger requires. *)
Fixpoint required_by_secrets (secrets : list value) : res (list value) :=
  match secrets with
  | [] => inr []
  | secret :: secrets' =>
      let? trigger := py_get secret "trigger" (VDict []) in
      let? requires_evidence := py_get trigger "requiresEvidence" (VList []) in
      let? here := py_set requires_evidence in
      let? there := required_by_secrets secrets' in
      inr (here ++ there)
  end.

Fixpoint required_by_suspects (suspects : list value) : res (list value) :=
  match suspects with
  | [] => inr []
  | suspect :: suspects' =>
      let? secrets := py_get suspect "secrets" (VList []) in
      let? secret_list := py_iter secrets in
      let? here := required_by_secrets secret_list in
      let? there := required_by_suspects suspects' in
      inr (here ++ there)
  end.

(** NEW #18: every key_evidence item should appear in a secret trigger. *)
Definition check_key_evidence_used (data solution : value) : M unit :=
  suspects <~ py_get data "suspects" (VList []) ;;
  suspect_list <~ py_iter suspects ;;
  all_required_evidence <~ required_by_suspects suspect_list ;;
  key_evidence <~ py_get solution "key_evidence" (VList []) ;;
  evs <~ py_iter key_evidence ;;
  for_each evs (fun ev_id =>
    known <~ set_mem ev_id all_required_evidence ;;
    when (negb known) (warn (KeyEvidenceUnused ev_id))).

(** [killer_id in suspects] followed by [suspects[killer_id]]. *)
Definition find_killer (killer_id : value) (suspects : list (value * value))
    : res (option value) :=
  vdict_get killer_id suspects.

(** NEW #19: the killer must have a secret that requires murder-scene
    evidence. *)
Definition check_murder_evidence (data evidence killer_id : value)
    (suspects : list (value * value)) : M unit :=
  murder_loc <~ py_get data "murderLocation" VNone ;;
  if truthy killer_id && truthy murder_loc then
    killer <~ find_killer killer_id suspects ;;
    match killer with
    | None => ret tt
    | Some killer =>
        killer_secrets <~ py_get killer "secrets" (VList []) ;;
        phys_discovery <~ py_get evidence "physical_discovery" (VDict []) ;;
        placed <~ py_get_v phys_discovery murder_loc (VList []) ;;
        murder_evidence <~ py_set placed ;;
        secret_list <~ py_iter killer_secrets ;;
        killer_requires_murder_ev <~
          any_res (fun s =>
            let? trigger := py_get s "trigger" (VDict []) in
            let? requires_evidence := py_get trigger "requiresEvidence" (VList []) in
            let? evs := py_iter requires_evidence in
            any_res (fun ev => set_mem ev murder_evidence) evs) secret_list ;;
        when (negb killer_requires_murder_ev
              && match murder_evidence with [] => false | _ => true end)
             (warn (KillerNoMurderEvidence killer_id))
    end
  else ret tt.

(** NEW #20: a confession-style terminal secret for the killer. *)
Definition check_confession (killer_id : value)
    (suspects : list (value * value)) : M unit :=
  if truthy killer_id then
    killer <~ find_killer killer_id suspects ;;
    match killer with
    | None => ret tt
    | Some killer =>
        killer_secrets <~ py_get killer "secrets" (VList []) ;;
        secret_list <~ py_iter killer_secrets ;;
        has_terminal <~
          any_res (fun s =>
            let? sec_id := py_getitem s "id" in
            let? low_id := py_lower sec_id in
            if PyStr.contains "confession" low_id then inr true
            else
              let? text := py_get s "text" (VStr "") in
              let? low_text := py_lower text in
              inr (PyStr.contains "confess" low_text)) secret_list ;;
        when (negb has_terminal) (warn (KillerNoConfession killer_id))
    end
  else ret tt.

(** NEW #21: initial police statements should exist for all suspects. *)
Definition check_statements (data evidence : value) : M unit :=
  statements <~ py_get evidence "initial_police_statements" (VDict []) ;;
  suspects <~ py_get data "suspects" (VList []) ;;
  suspect_list <~ py_iter suspects ;;
  for_each suspect_list (fun suspect =>
    sid <~ py_getitem suspect "id" ;;
    known <~ py_in sid statements ;;
    when (negb known) (warn (SuspectNoStatement sid))).

(** NEW #22: win conditions should reference the killer. *)
Definition check_win_conditions (data killer_id : value)
    (suspects : list (value * value)) : M unit :=
  wc <~ py_get data "win_conditions" (VDict []) ;;
  if truthy wc && truthy killer_id then
    let wc_text := PyStr.lower (json_dumps wc) in
    killer <~ vdict_get killer_id suspects ;;
    name <~ py_get (match killer with Some s => s | None => VDict [] end)
                   "name" (VStr "") ;;
    killer_name <~ py_lower name ;;
    low_id <~ py_lower killer_id ;;
    when (negb (PyStr.contains low_id wc_text)
          && negb (PyStr.contains killer_name wc_text))
         (warn (WinConditionsVague killer_id))
  else ret tt.

(** NEW #18-22: higher-level narrative / design coherence checks. *)
Definition check_narrative_consistency (data : value) : M unit :=
  solution' <~ py_get data "solution" VNone ;;
  let solution := if is_dict solution' then solution' else VDict [] in
  killer_id <~ py_get solution "killer" VNone ;;
  suspects_ <~ py_get data "suspects" (VList []) ;;
  suspect_list <~ py_iter suspects_ ;;
  suspects <~ suspects_by_id suspect_list [] ;;
  evidence <~ py_get data "evidence" (VDict []) ;;
  phys_ev <~ py_get evidence "physical_evidence" (VDict []) ;;
  phys_ev_ids <~ py_keys phys_ev ;;
  check_key_evidence_used data solution ;;
  check_murder_evidence data evidence killer_id suspects ;;
  check_confession killer_id suspects ;;
  check_statements data evidence ;;
  check_win_conditions data killer_id suspects.

(** The project root [validate_case] passes to [check_assets]. *)
Definition project_root : string := "/home/henry/Coding/Node/SherbotV2".

(** Lines 502-509 of [validate_case]: all checks, in order, on the parsed
    document. *)
Definition run_checks (data : value) : M unit :=
  check_schema data ;;
  ra <- check_map data ;;
  let rooms := fst ra in
  ids <- check_suspects_and_solution data rooms ;;
  let '(suspect_ids, killer_id, accomplice_id, silent_witness_id) := ids in
  check_evidence_ids data rooms suspect_ids killer_id ;;
  check_secret_triggers data rooms ;;
  check_assets data project_root ;;
  check_narrative_consistency data.

(** [validate_case] from the text that was read and the tree it parsed
    to: the scan of the raw text, then all checks, on one collector. *)
Definition verifier_run (raw_text : string) (data : value) : M unit :=
  check_duplicate_keys_raw raw_text ;; run_checks data.

(** The report is printed from the collector when every check has
    returned ([Some]); an exception leaves no report ([None]). *)
Definition validate_case (raw_text : string) (data : value) : option Result :=
  match outcome (verifier_run raw_text data) with
  | inr _ => Some (run_on empty (verifier_run raw_text data))
  | inl _ => None
  end.

End Checks.

(* ------------------------------------------------------------------ *)
(** * Vocabulary of the statements *)

(** Every error, resp. warning, a check appends satisfies [P]. *)
Definition errors_all (P : diag -> Prop) {A} (m : M A) : Prop :=
  Forall P (errors (emitted m)).

Definition warnings_all (P : diag -> Prop) {A} (m : M A) : Prop :=
  Forall P (warnings (emitted m)).

(** The suspects the document declares, as the loops run through them. *)
Definition suspects_of (data : value) : list value :=
  match (let? suspects := py_get data "suspects" (VList []) in py_iter suspects) with
  | inr l => l
  | inl _ => []
  end.

(** The suspect record the killer id of the solution resolves to, as
    [check_narrative_consistency] looks it up (lines 420-422 and 469). *)
Definition resolved_killer (data : value) : option value :=
  match py_get data "solution" VNone with
  | inr solution' =>
      let solution := if is_dict solution' then solution' else VDict [] in
      match py_get solution "killer" VNone,
            (let? suspects := py_get data "suspects" (VList []) in
             let? suspect_list := py_iter suspects in
             suspects_by_id suspect_list []) with
      | inr killer_id, inr suspects => vdict_find killer_id suspects
      | _, _ => None
      end
  | inl _ => None
  end.

(** The suspect has no 'name' field, or an empty one. *)
Definition name_missing_or_empty (suspect : value) : Prop :=
  py_get suspect "name" (VStr "") = inr (VStr "").

Definition is_win_conditions_warning (d : diag) : bool :=
  match d with WinConditionsVague _ => true | _ => false end.

(** The key of a role in the solution, and the value an absent key
    stands for (lines 194-196). *)
Definition role_key (ro : role) : string :=
  match ro with
  | Killer => "killer"
  | Accomplice => "accomplice"
  | SilentWitness => "silent_witness"
  end.

Definition role_default (ro : role) : value :=
  match ro with
  | Killer => VNone
  | _ => VStr "none"
  end.

(** The id the solution of the document gives a role: the solution is a
    structured object, or a bare killer id. *)
Definition solution_role (data : value) (ro : role) : value :=
  match py_get data "solution" (VDict []) with
  | inr (VDict d) =>
      match dict_lookup (role_key ro) d with
      | Some id => id
      | None => role_default ro
      end
  | inr solution =>
      match ro with
      | Killer => solution
      | _ => VStr "none"
      end
  | inl _ => role_default ro
  end.

(** [id] is the id of a declared suspect. *)
Definition declared_suspect (data : value) (id : value) : Prop :=
  exists s sid, In s (suspects_of data) /\ py_getitem s "id" = inr sid /\
                py_eq id sid = true.

(** The flag of a role, as a truth value: absent counts as false. *)
Definition flag_set (suspect : value) (ro : role) : bool :=
  match py_get suspect (flag_of ro) VNone with
  | inr flag => truthy flag
  | inl _ => false
  end.

(** The role is one for which 'none' means unassigned. *)
Definition has_sentinel (ro : role) : bool :=
  match ro with Killer => false | _ => true end.

(** A document for the narrative checks: the killer is a declared suspect
    without a name, the win conditions do not mention the killer. *)
Definition nameless_killer_case : value :=
  VDict [("solution", VDict [("killer", VStr "butler")]);
         ("suspects", VList [VDict [("id", VStr "butler")]]);
         ("win_conditions", VList [VStr "name the culprit"])].

(** The same with a name that the win conditions do not mention. *)
Definition named_killer_case : value :=
  VDict [("solution", VDict [("killer", VStr "butler")]);
         ("suspects", VList [VDict [("id", VStr "butler"); ("name", VStr "James")]]);
         ("win_conditions", VList [VStr "name the culprit"])].

(** [json.dumps] on the win conditions of these two documents. *)
Definition dumps_culprit (wc : value) : string := "[name the culprit]".

(** What lines 216-233 append for one role of one suspect. *)
Definition role_flag_errors (ro : role) (suspect sid role_id : value) : list diag :=
  if py_eq sid role_id then
    if flag_set suspect ro then [] else [SuspectRoleFlagUnset ro sid]
  else
    if flag_set suspect ro then [SuspectFlagNotRole ro sid] else [].

Definition is_flag_error (d : diag) : bool :=
  match d with
  | SuspectRoleFlagUnset _ _ | SuspectFlagNotRole _ _ => true
  | _ => false
  end.

Definition is_role_id_error (d : diag) : bool :=
  match d with SolutionRoleNotFound _ _ => true | _ => false end.

(** What lines 198-203 append for one role, given the suspect ids. *)
Definition role_id_errors (data : value) (ids : list value) (ro : role) : list diag :=
  if negb (has_sentinel ro && py_eq (solution_role data ro) (VStr "none"))
     && negb (list_mem (solution_role data ro) ids)
  then [SolutionRoleNotFound ro (solution_role data ro)] else [].

(** A document for the suspect checks: the killer lacks the flag, another
    suspect carries it, the accomplice is nobody declared, and no silent
    witness is given. *)
Definition flags_case : value :=
  VDict [("solution", VDict [("killer", VStr "butler"); ("accomplice", VStr "ghost")]);
         ("suspects", VList [VDict [("id", VStr "butler")];
                             VDict [("id", VStr "maid"); ("isGuilty", VBool true)]])].

(** The id of a suspect or secret, once [x['id']] is known to succeed. *)
Definition id_of (x : value) : value :=
  match py_getitem x "id" with
  | inr i => i
  | inl _ => VNone
  end.

(** The secrets a suspect declares, as the loops run through them. *)
Definition secrets_of (suspect : value) : list value :=
  match (let? secrets := py_get suspect "secrets" (VList []) in py_iter secrets) with
  | inr l => l
  | inl _ => []
  end.

(** Every declared secret with the id of its suspect, in document order. *)
Definition declared_secrets (data : value) : list (value * value) :=
  flat_map (fun suspect => map (fun secret => (id_of suspect, secret))
                               (secrets_of suspect))
           (suspects_of data).

(** The entries of the [requiresSecrets] list of a secret. *)
Definition requires_secrets (secret : value) : list value :=
  match (let? trigger := py_get secret "trigger" (VDict []) in
         let? requires := py_get trigger "requiresSecrets" (VList []) in
         py_iter requires) with
  | inr l => l
  | inl _ => []
  end.

(** The [requiresSecrets] of the secret contains the secret's own id
    (line 369). *)
Definition self_referencing (secret : value) : bool :=
  match (let? trigger := py_get secret "trigger" (VDict []) in
         let? requires := py_get trigger "requiresSecrets" (VList []) in
         py_in (id_of secret) requires) with
  | inr b => b
  | inl _ => false
  end.

(** [req] resolves to a secret id declared among any suspect's secrets
    (lines 342-344 and 365). *)
Definition resolves (data : value) (req : value) : bool :=
  match collect_all_secret_ids data with
  | inr all_secret_ids => list_mem req (List.concat (map snd all_secret_ids))
  | inl _ => false
  end.

Definition is_self_reference (d : diag) : bool :=
  match d with TriggerSelfReference _ _ => true | _ => false end.

(** A document for the trigger checks: a secret that lists itself twice
    and a secret nobody declares. *)
Definition self_reference_case : value :=
  VDict [("suspects", VList [VDict [("id", VStr "maid");
     ("secrets", VList [VDict [("id", VStr "affair");
        ("trigger", VDict [("requiresSecrets",
            VList [VStr "affair"; VStr "affair"; VStr "debt"])])]])]])].

(** Two suspects under one id: the secrets of the first are overwritten in
    [collect_all_secret_ids], so the self-reference of 'affair' does not
    resolve either. *)
Definition shadowed_secret_case : value :=
  VDict [("suspects", VList [
     VDict [("id", VStr "maid");
            ("secrets", VList [VDict [("id", VStr "affair");
               ("trigger", VDict [("requiresSecrets", VList [VStr "affair"])])]])];
     VDict [("id", VStr "maid"); ("secrets", VList [VDict [("id", VStr "debt")]])]])].

(** The entries of the map of the document, room id and room value. *)
Definition room_entries (data : value) : list (string * value) :=
  match (let? map_ := py_getitem data "map" in py_items map_) with
  | inr items => items
  | inl _ => []
  end.

Definition declared_room (data : value) (room : string) : bool :=
  str_mem room (map fst (room_entries data)).

(** What a room value lists as its connections (lines 145-157): the
    'connects_to' of a descriptor, or the bare list. *)
Definition listed_connections (room_info : value) : list value :=
  match room_info with
  | VDict info =>
      match py_iter (match dict_lookup "connects_to" info with
                     | Some c => c
                     | None => VList []
                     end) with
      | inr l => l
      | inl _ => []
      end
  | VList l => l
  | _ => []
  end.

Definition connections_of (data : value) (room : string) : list value :=
  match dict_lookup room (room_entries data) with
  | Some room_info => listed_connections room_info
  | None => []
  end.

(** Room [a] lists room [b], and how many times. *)
Definition lists (data : value) (a b : string) : bool :=
  list_mem (VStr b) (connections_of data a).

Definition times_listed (data : value) (a b : string) : nat :=
  List.length (filter (py_eq (VStr b)) (connections_of data a)).

Definition is_one_way (a b : string) (d : diag) : bool :=
  match d with
  | MapOneWay x y => String.eqb x a && String.eqb y b
  | _ => false
  end.

(** The number of one-way warnings that name the pair [(a, b)]. *)
Definition one_way_warnings (a b : string) (l : list diag) : nat :=
  List.length (filter (is_one_way a b) l).

Definition count_str (b : string) (l : list string) : nat :=
  List.length (filter (String.eqb b) l).

(** What lines 166-170 append for one entry of [adj]. *)
Definition one_way_of (adj : list (string * list string))
    (entry : string * list string) : list diag :=
  flat_map (fun target =>
              if str_mem (fst entry) (adj_get target adj) then []
              else [MapOneWay (fst entry) target]) (snd entry).

(** A map in which the hall lists the study twice and the study lists
    nothing. *)
Definition twice_listed_case : value :=
  VDict [("map", VDict [("hall", VDict [("connects_to", VList [VStr "study"; VStr "study"])]);
                        ("study", VDict [])])].

(** The same with the study listed once. *)
Definition once_listed_case : value :=
  VDict [("map", VDict [("hall", VDict [("connects_to", VList [VStr "study"])]);
                        ("study", VDict [])])].

(** The entry of a room in [adj], against what the room lists. *)
Definition adj_entry_ok (rooms : list string) (item : string * value)
    (entry : string * list string) : Prop :=
  fst entry = fst item /\
  forall b, count_str b (snd entry) =
            if str_mem b rooms
            then List.length (filter (py_eq (VStr b)) (listed_connections (snd item)))
            else 0.

(** Two runs end the same way with the same errors in the same order and
    the same warnings in some order. *)
Definition same_up_to_warning_order {A} (m1 m2 : M A) : Prop :=
  errors (emitted m1) = errors (emitted m2) /\
  Permutation (warnings (emitted m1)) (warnings (emitted m2)) /\
  outcome m1 = outcome m2.

(** A set is run through in some arrangement of its elements. *)
Definition arrangement (set_order : list string -> list string) : Prop :=
  forall l, Permutation (set_order l) l.

(** The two kinds of warning that come out of a loop over a set: the
    unreachable rooms (line 177) and the evidence that cannot be
    discovered (line 292). *)
Definition is_unreachable_warning (d : diag) : bool :=
  match d with MapUnreachable _ _ => true | _ => false end.

Definition is_undiscoverable_warning (d : diag) : bool :=
  match d with EvidenceNotDiscoverable _ => true | _ => false end.

(** Two runs end the same way with the same errors in the same order, and
    their warnings are one sequence but for the order inside one run of
    consecutive warnings, all of the kind [kind]. *)
Definition differ_in_block (kind : diag -> bool) {A} (m1 m2 : M A) : Prop :=
  errors (emitted m1) = errors (emitted m2) /\
  outcome m1 = outcome m2 /\
  exists before block1 block2 after,
    warnings (emitted m1) = before ++ block1 ++ after /\
    warnings (emitted m2) = before ++ block2 ++ after /\
    Permutation block1 block2 /\
    Forall (fun d => kind d = true) block1.

(** Two runs end the same way with the same errors in the same order, and
    their warnings are one sequence but for the order inside the run of
    the unreachable-room warnings and inside the run of the
    never-discoverable warnings: what comes before the first run, between
    the two and after the second is the same in both, warning by warning,
    and each of the two runs holds the same warnings in both. *)
Definition same_up_to_set_loops {A} (m1 m2 : M A) : Prop :=
  errors (emitted m1) = errors (emitted m2) /\
  outcome m1 = outcome m2 /\
  exists before unreachable1 unreachable2 between undiscoverable1 undiscoverable2 after,
    warnings (emitted m1)
    = before ++ unreachable1 ++ between ++ undiscoverable1 ++ after /\
    warnings (emitted m2)
    = before ++ unreachable2 ++ between ++ undiscoverable2 ++ after /\
    Permutation unreachable1 unreachable2 /\
    Forall (fun d => is_unreachable_warning d = true) unreachable1 /\
    Permutation undiscoverable1 undiscoverable2 /\
    Forall (fun d => is_undiscoverable_warning d = true) undiscoverable1.

(** A document that every check gets through, with two rooms that cannot
    be reached from the first. *)
Definition stranded_rooms_case : value :=
  VDict [("victim", VDict [("name", VStr "Ann Lee")]);
         ("map", VDict [("hall", VDict []); ("attic", VDict []); ("cellar", VDict [])])].

(** The same, with two pieces of evidence that no room holds. *)
Definition two_sets_case : value :=
  VDict [("victim", VDict [("name", VStr "Ann Lee")]);
         ("map", VDict [("hall", VDict []); ("attic", VDict []); ("cellar", VDict [])]);
         ("evidence", VDict [("physical_evidence",
                              VDict [("knife", VDict []); ("rope", VDict [])])])].

(** A complete case: every check gets through it without a message when
    the avatar of the victim exists. *)
Definition hall_case (victim : value) : value :=
  VDict [("id", VStr "case-1"); ("name", VStr "The Hall");
         ("description", VStr "A death in the hall");
         ("victim", victim);
         ("murderTime", VStr "22:00"); ("murderLocation", VStr "hall");
         ("evidence", VDict [
            ("physical_evidence", VDict [("knife", VDict [])]);
            ("physical_discovery", VDict [("hall", VList [VStr "knife"])]);
            ("dna", VDict [("hall", VList [VStr "butler"])]);
            ("initial_police_statements", VDict [("butler", VStr "I saw nothing")])]);
         ("solution", VDict [("killer", VStr "butler");
                             ("key_evidence", VList [VStr "knife"])]);
         ("suspects", VList [VDict [
            ("id", VStr "butler"); ("isGuilty", VBool true);
            ("alibi", VStr "polishing the silver");
            ("secrets", VList [VDict [
               ("id", VStr "confession");
               ("trigger", VDict [("requiresEvidence", VList [VStr "knife"])])]])]]);
         ("settings", VDict []);
         ("map", VDict [("hall", VDict [])])].

Definition named_victim : value :=
  VDict [("name", VStr "Ann Lee"); ("id", VStr "v1"); ("avatar", VStr "/v1.png")].

(** The victim without the recommended field 'name'. *)
Definition unnamed_victim : value :=
  VDict [("id", VStr "v1"); ("avatar", VStr "/v1.png")].

(* ------------------------------------------------------------------ *)
(** ** Vocabulary for the texts the scanner reads *)

Fixpoint all_chars (p : ascii -> bool) (s : string) : bool :=
  match s with
  | EmptyString => true
  | String c s' => p c && all_chars p s'
  end.

(** A character of an unquoted key: no white space, colon or quote. *)
Definition key_char (c : ascii) : bool :=
  negb (PyStr.is_space c) && negb (Ascii.eqb c ":") && negb (PyStr.is_quote c).

(** An unquoted key that starts neither a comment nor a flow mapping. *)
Definition plain_key (k : string) : bool :=
  match k with
  | EmptyString => false
  | String c _ =>
      negb (Ascii.eqb c "#") && negb (Ascii.eqb c "{") && all_chars key_char k
  end.

(** [n] spaces of indentation. *)
Fixpoint pad (n : nat) : string :=
  match n with
  | O => EmptyString
  | S n' => String " " (pad n')
  end.

(** The line [key:rest] at indentation [n], and the same as the first
    line of a list item. *)
Definition key_line (n : nat) (key rest : string) : string :=
  pad n ++ key ++ ":" ++ rest.

Definition item_line (n : nat) (key rest : string) : string :=
  pad n ++ "- " ++ key ++ ":" ++ rest.

(** A text from its lines, each ended by a line feed. *)
Fixpoint unlines (lines : list string) : string :=
  match lines with
  | [] => EmptyString
  | l :: lines' => l ++ String "010" (unlines lines')
  end.

Definition no_linebreak (s : string) : bool :=
  all_chars (fun c => negb (PyStr.is_linebreak c)) s.



(** The stack the scanner is left with after some lines. *)
Definition stack_after (lineno : nat) (lines : list string)
    (scope_stack : list scope) : list scope :=
  match outcome (scan_lines lineno lines scope_stack) with
  | inr st => st
  | inl _ => scope_stack
  end.

(** The scope that a key at indentation [n] is looked up in (lines
    114-117). *)
Definition owner (n : nat) (scope_stack : list scope) : list (string * nat) :=
  match pop_scopes (Z.of_nat n) scope_stack with
  | sc :: _ => scope_seen sc
  | [] => []
  end.

(** The errors reported for line [lineno]. *)
Definition reported_at (lineno : nat) (d : diag) : bool :=
  match d with
  | DuplicateKey l _ _ => Nat.eqb l lineno
  | _ => false
  end.

(** The errors reported for the [len] lines from line [from] on. *)
Definition reported_in (from len : nat) (d : diag) : bool :=
  match d with
  | DuplicateKey l _ _ => (from <=? l)%nat && (l <? from + len)%nat
  | _ => false
  end.

(** A list item: its keys with the text after each colon; the first key
    sits on the line of the dash, the others two columns deeper. *)
Definition item_lines (n : nat) (item : list (string * string)) : list string :=
  match item with
  | [] => []
  | (k, rest) :: more =>
      item_line n k rest :: map (fun kr => key_line (n + 2) (fst kr) (snd kr)) more
  end.


(** The scope that owns indentation [n] has seen key [a] on line [l1]. *)
Definition holds (n : nat) (a : string) (l1 : nat) (scope_stack : list scope) : Prop :=
  scope_stack <> [] /\ dict_lookup a (owner n scope_stack) = Some l1.

(** The scanner is inside a list item that starts at indentation [n] and
    has shown the keys [keys] so far: the scope of the item is on the
    stack, under at most the scope that the last key opened. *)
Definition in_item (n : nat) (keys : list string) (scope_stack : list scope) : Prop :=
  exists seen rest opened,
    scope_stack = opened ++ (Z.of_nat n, true, seen) :: rest /\
    rest <> [] /\ map fst seen = keys /\
    (opened = [] \/ exists sc, opened = [sc] /\ scope_indent sc = (Z.of_nat n + 3)%Z).






(** The key [a] is new at indentation [n]: the first scope below [n] (or
    the lowest scope of the stack, which is never popped) has not seen
    it, and neither has any scope above that one that a key at
    indentation [n] is not going to pop. *)
Definition unseen_in (a : string) (sc : scope) : Prop :=
  dict_lookup a (scope_seen sc) = None.

Definition new_at (n : nat) (a : string) (scope_stack : list scope) : Prop :=
  exists upper base rest,
    scope_stack = upper ++ base :: rest /\
    (rest = [] \/ (scope_indent base < Z.of_nat n)%Z) /\
    unseen_in a base /\
    Forall (fun sc => (Z.of_nat n <= scope_indent sc)%Z \/ unseen_in a sc) upper.

(** The scanner is inside a nested block: above a stack on which [a] is
    new at [n] there are scopes at [n] or deeper, the lowest of them
    below [m]. *)
Definition nested_at (n : nat) (m : Z) (a : string) (scope_stack : list scope) : Prop :=
  exists upper base lower,
    scope_stack = upper ++ base :: lower /\
    (scope_indent base < m)%Z /\
    Forall (fun sc => (Z.of_nat n <= scope_indent sc)%Z) (upper ++ [base]) /\
    new_at n a lower.

(** The block [a, b, a] and two list items that each hold an 'id'. *)
Definition sibling_lines : list string := ["a: 1"; "b: 2"; "a: 3"].

(** The block [a, b, a] under a parent whose line ends with a comment,
    after a top-level [a]. *)
Definition commented_parent_lines : list string :=
  ["a: 0"; "p:   # the parent"; "  a: 1"; "  b: 2"; "  a: 3"].

(** The same under a parent whose line ends with its colon. *)
Definition plain_parent_lines : list string :=
  ["a: 0"; "p:"; "  a: 1"; "  b: 2"; "  a: 3"].

(** A suspect that gives its 'id' twice. *)
Definition twice_id_lines : list string :=
  ["suspects:"; "  - id: butler"; "    name: James"; "    id: james"].

(** A block whose first sibling holds a nested [a]. *)
Definition nested_key_lines : list string :=
  ["a: 0"; "p:"; "  x:"; "    a: 1"; "  a: 2"; "  b: 3"; "  a: 4"].

(** The same, the first sibling a block scalar: its text is no nested
    block for the scanner. *)
Definition block_scalar_lines : list string :=
  ["a: 0"; "p:"; "  x: |"; "    a: 1"; "  a: 2"; "  b: 3"; "  a: 4"].


Definition id_items : list (list (string * string)) :=
  [[("id", " butler"); ("name", " James")]; [("id", " maid"); ("name", " Mary")]].

(** The edges that leave the nodes not yet visited: each iteration of the
    loop of [_dfs_reachable] takes one off this number plus the height of
    the stack. *)
Definition unvisited_edges (graph : list (string * list string))
    (visited : list string) : nat :=
  list_sum (map (fun e => if str_mem (fst e) visited then 0
                          else List.length (snd e)) graph).

(** A secret whose minPressure is a word, required by a secret whose
    minPressure is a number. *)
Definition worded_pressure_case : value :=
  VDict [("suspects", VList [VDict [("id", VStr "maid");
     ("secrets", VList [
        VDict [("id", VStr "debt");
               ("trigger", VDict [("minPressure", VStr "high")])];
        VDict [("id", VStr "affair");
               ("trigger", VDict [("requiresSecrets", VList [VStr "debt"]);
                                  ("minPressure", VInt 10)])]])]])].

(* ------------------------------------------------------------------ *)
(** * Vocabulary of the further properties *)

From Stdlib Require Import Sorted.

(** [b] can be reached from [a] along the edges of a relation. *)
Inductive reaches {A : Type} (edge : A -> A -> Prop) (a : A) : A -> Prop :=
| reaches_here : reaches edge a a
| reaches_step (x y : A) : reaches edge a x -> edge x y -> reaches edge a y.

(** An edge of a graph given as the dict of its successor lists; a node
    that is no key has no successors (line 36). *)
Definition graph_edge (graph : list (string * list string)) (x y : string) : Prop :=
  In y (adj_get x graph).

(** The document has a 'map' key, as line 137 tests it. *)
Definition has_map (data : value) : bool :=
  match py_in (VStr "map") data with
  | inr b => b
  | inl _ => false
  end.

(** The value is the id of a declared room. *)
Definition names_room (data : value) (target : value) : bool :=
  match target with
  | VStr t => declared_room data t
  | _ => false
  end.

(** Room [a] links to room [b]: [a] lists [b], and [b] is declared. *)
Definition links (data : value) (a b : string) : Prop :=
  declared_room data b = true /\ lists data a b = true.

(** The value of 'murderLocation', [None] when the key is absent. *)
Definition murder_location (data : value) : value :=
  match py_get data "murderLocation" VNone with
  | inr m => m
  | inl _ => VNone
  end.

(** A map of three rooms: the hall and the study list each other, the
    attic lists the hall and a room that is not declared, and nothing
    leads to the attic. *)
Definition attic_case : value :=
  VDict [("map", VDict [
           ("hall", VDict [("connects_to", VList [VStr "study"])]);
           ("study", VList [VStr "hall"]);
           ("attic", VDict [("connects_to", VList [VStr "hall"; VStr "roof"])])]);
         ("murderLocation", VStr "cellar")].

(** The value is one of the given strings (room ids, evidence ids). *)
Definition among (ids : list string) (x : value) : bool :=
  match x with
  | VStr t => str_mem t ids
  | _ => false
  end.

(** What lines 160-162 append for one room: an error for each listed
    target that is no declared room, in the order of the list. *)
Definition bad_connections (rooms : list string) (item : string * value) : list diag :=
  map (MapBadConnection (fst item))
      (filter (fun target => negb (among rooms target))
              (listed_connections (snd item))).

(** [d.get(k, dflt)] on the entries of a mapping. *)
Definition field (d : list (string * value)) (k : string) (dflt : value) : value :=
  match dict_lookup k d with
  | Some v => v
  | None => dflt
  end.

(** A loop over [c] can run through it, and every element satisfies [p]. *)
Definition iter_all (p : value -> bool) (c : value) : bool :=
  match py_iter c with
  | inr l => forallb p l
  | inl _ => false
  end.

(** The room values [check_map] gets through: a descriptor whose
    interactables are mappings and whose connections can be hashed, a bare
    list of connections that can be hashed, or anything else (taken as a
    room without connections). *)
Definition room_shape (room_info : value) : bool :=
  match room_info with
  | VDict info =>
      iter_all is_dict (field info "interactables" (VList []))
      && iter_all hashable (field info "connects_to" (VList []))
  | VList targets => forallb hashable targets
  | _ => true
  end.

(** The documents [check_map] gets through: no map at all, or a map that
    is a mapping of such room values, with a murder location that is
    falsy or can be hashed. *)
Definition map_shape (d : list (string * value)) : bool :=
  match dict_lookup "map" d with
  | None => true
  | Some (VDict rooms) =>
      forallb (fun entry => room_shape (snd entry)) rooms
      && (negb (truthy (field d "murderLocation" VNone))
          || hashable (field d "murderLocation" VNone))
  | Some _ => false
  end.

(* ------------------------------------------------------------------ *)
(** ** Vocabulary for further properties of the scanner *)

(** The line an error of the scanner is reported for. *)
Definition reported_line (d : diag) : nat :=
  match d with
  | DuplicateKey lineno _ _ => lineno
  | _ => 0
  end.

(** Every line number the scopes of the stack remember lies in [1, n). *)
Definition stack_below (n : nat) (scope_stack : list scope) : Prop :=
  Forall (fun sc => Forall (fun kv => 1 <= snd kv < n) (scope_seen sc)) scope_stack.

(** A line that line 81 skips: blank, or a comment. *)
Definition skipped_line (raw_line : string) : bool :=
  PyStr.is_empty (PyStr.lstrip raw_line)
  || PyStr.startswith "#" (PyStr.lstrip raw_line).

(** Line numbers after a line is inserted as line [p]. *)
Definition shift_line (p n : nat) : nat := if (p <=? n)%nat then S n else n.

Definition shift_diag (p : nat) (d : diag) : diag :=
  match d with
  | DuplicateKey lineno key first => DuplicateKey (shift_line p lineno) key (shift_line p first)
  | _ => d
  end.

Definition shift_scope (p : nat) (sc : scope) : scope :=
  (fst sc, map (fun kv => (fst kv, shift_line p (snd kv))) (snd sc)).

(** The line [q body q:rest] at indentation [n]: a key in quotes. *)
Definition quoted_line (n : nat) (q : ascii) (body rest : string) : string :=
  (pad n ++ String q (body ++ String q (String ":" rest)))%string.

(** A text between quotes [q] that the scanner reads as a key: not empty,
    not starting with a brace, without the quote [q] and without line
    feed. *)
Definition quotable (q : ascii) (body : string) : bool :=
  match body with
  | EmptyString => false
  | String c _ =>
      negb (Ascii.eqb c "{")
      && all_chars (fun c => negb (Ascii.eqb c q) && negb (Ascii.eqb c "010")) body
  end.

(** A step of the scanner with every line number moved by [shift_line]. *)
Definition shift_run (p : nat) (m : M (list scope)) : M (list scope) :=
  (mkResult (map (shift_diag p) (errors (emitted m)))
            (map (shift_diag p) (warnings (emitted m))),
   match outcome m with
   | inr scope_stack => inr (map (shift_scope p) scope_stack)
   | inl e => inl e
   end).

(* ------------------------------------------------------------------ *)
(** ** Vocabulary for the schema, suspect, evidence and trigger checks *)

(** The mapping has no entry for the key. *)
Definition lacks (d : list (string * value)) (k : string) : bool :=
  match dict_lookup k d with
  | Some _ => false
  | None => true
  end.

(** The values the [in] operator of lines 55 and 60 accepts on its right
    for a string on its left: mappings, lists and strings. *)
Definition is_container (v : value) : bool :=
  match v with
  | VDict _ | VList _ | VStr _ => true
  | _ => false
  end.

(** The key is absent from the mapping, or its value is a container. *)
Definition container_if_present (d : list (string * value)) (k : string) : bool :=
  match dict_lookup k d with
  | Some v => is_container v
  | None => true
  end.

(** [x['id']] has a value, and the value can be hashed. *)
Definition has_id (x : value) : bool :=
  match py_getitem x "id" with
  | inr i => hashable i
  | inl _ => false
  end.

(** The 'currentLocation' of a suspect is falsy or can be hashed. *)
Definition location_shape (suspect : value) : bool :=
  match py_get suspect "currentLocation" VNone with
  | inr cl => negb (truthy cl) || hashable cl
  | inl _ => false
  end.

(** The id the solution gives a role can be looked up in the set of the
    suspect ids: it is the value 'none' of an unassigned role, or it can
    be hashed. *)
Definition role_shape (data : value) (ro : role) : bool :=
  (has_sentinel ro && py_eq (solution_role data ro) (VStr "none"))
  || hashable (solution_role data ro).

(** The documents [check_suspects_and_solution] gets through. *)
Definition suspects_shape (data : value) : bool :=
  match py_get data "suspects" (VList []) with
  | inr suspects =>
      iter_all (fun s => has_id s && location_shape s) suspects
      && role_shape data Killer && role_shape data Accomplice
      && role_shape data SilentWitness
  | inl _ => false
  end.

(** A document whose solution is a bare killer id. *)
Definition bare_solution_case : value :=
  VDict [("solution", VStr "butler");
         ("suspects", VList [VDict [("id", VStr "butler"); ("isGuilty", VBool true);
                                    ("currentLocation", VStr "hall");
                                    ("resistance_level", VStr "stubborn")];
                             VDict [("id", VStr "maid"); ("alibi", VStr "in the kitchen");
                                    ("secrets", VList [VDict [("id", VStr "debt")]]);
                                    ("resistance_level", VStr "high")]])].

(** [x.get(k)] as a value, [None] where [x] has no [get]. *)
Definition attribute (x : value) (k : string) : value :=
  match py_get x k VNone with
  | inr v => v
  | inl _ => VNone
  end.

(** What lines 211-213 append for one suspect. *)
Definition location_errors (rooms : list string) (suspect : value) : list diag :=
  if truthy (attribute suspect "currentLocation")
     && negb (among rooms (attribute suspect "currentLocation"))
  then [SuspectLocation (id_of suspect) (attribute suspect "currentLocation")]
  else [].

(** The errors of lines 211-233 for one suspect. *)
Definition suspect_errors (data : value) (rooms : list string) (suspect : value)
    : list diag :=
  location_errors rooms suspect
  ++ role_flag_errors Killer suspect (id_of suspect) (solution_role data Killer)
  ++ role_flag_errors Accomplice suspect (id_of suspect) (solution_role data Accomplice)
  ++ role_flag_errors SilentWitness suspect (id_of suspect)
       (solution_role data SilentWitness).

(** The warnings of lines 237-247 for one suspect. *)
Definition suspect_warnings (suspect : value) : list diag :=
  (if truthy (attribute suspect "alibi") then []
   else [SuspectNoAlibi (id_of suspect)])
  ++ (if truthy (attribute suspect "secrets") then []
      else [SuspectNoSecrets (id_of suspect)])
  ++ (if truthy (attribute suspect "resistance_level")
         && negb (list_mem (attribute suspect "resistance_level") resistance_levels)
      then [SuspectResistance (id_of suspect) (attribute suspect "resistance_level")]
      else []).

(** The 'evidence' of the document, an empty mapping when absent. *)
Definition evidence_of (data : value) : value :=
  match py_get data "evidence" (VDict []) with
  | inr evidence => evidence
  | inl _ => VDict []
  end.

(** [c.get(k, {}).items()] *)
Definition entries_of (c : value) (k : string) : list (string * value) :=
  match (let? x := py_get c k (VDict []) in py_items x) with
  | inr items => items
  | inl _ => []
  end.

(** The ids of the declared physical evidence, the rooms of the physical
    discovery with what each holds, the rooms of the DNA with the names
    found in each. *)
Definition physical_ids (data : value) : list string :=
  map fst (entries_of (evidence_of data) "physical_evidence").

Definition discovery_of (data : value) : list (string * value) :=
  entries_of (evidence_of data) "physical_discovery".

Definition dna_of (data : value) : list (string * value) :=
  entries_of (evidence_of data) "dna".

(** The elements of a value that is a list; nothing for any other value
    (lines 271, 290, 316, 327). *)
Definition listed (v : value) : list value :=
  match v with
  | VList l => l
  | _ => []
  end.

(** The lower-cased id of the victim and the lower-cased first word of
    the name of the victim (lines 308-310); the empty string where the
    document gives none. *)
Definition victim_id_of (data : value) : string :=
  match (let? victim := py_get data "victim" (VDict []) in
         let? id := py_get victim "id" (VStr "") in
         py_lower id) with
  | inr s => s
  | inl _ => EmptyString
  end.

Definition victim_name_of (data : value) : string :=
  match (let? victim := py_get data "victim" (VDict []) in
         let? name := py_get victim "name" (VStr "") in
         py_first_word name) with
  | inr s => PyStr.lower s
  | inl _ => EmptyString
  end.

(** A complete case with evidence nobody can find and DNA of unknown
    names. *)
Definition lost_knife_case : value :=
  VDict [("victim", VDict [("id", VStr "V1"); ("name", VStr "Ann Lee")]);
         ("murderLocation", VStr "hall");
         ("evidence", VDict [
            ("physical_evidence", VDict [("knife", VDict []); ("rope", VDict [])]);
            ("physical_discovery", VDict [("hall", VList [VStr "rope"]);
                                          ("_note", VStr "knife")]);
            ("dna", VDict [("hall", VList [VStr "ann"; VStr "Ann"; VStr "v1";
                                           VStr "victim"; VStr "maid"]);
                           ("study", VList [VStr "butler"])])])].

(** The set of line 311: the suspect ids, then 'victim', the id of the
    victim and the first name of the victim, the last three without the
    empty string. *)
Definition known_profiles (suspect_ids : list value) (victim_id victim_name : string)
    : list value :=
  suspect_ids
  ++ filter (fun p => negb (py_eq p (VStr "")))
            [VStr "victim"; VStr victim_id; VStr victim_name].

(** What lines 319-321 append for one room of the DNA. *)
Definition dna_warnings (suspect_ids : list value) (victim_id victim_name : string)
    (entry : string * value) : list diag :=
  map (fun name => DnaUnknownProfile name (fst entry))
      (filter (fun name =>
                 negb (list_mem name (known_profiles suspect_ids victim_id victim_name)))
              (listed (snd entry))).

(** The entries of the [requiresEvidence] list of a secret, and its
    [minPressure], [None] when it gives none. *)
Definition requires_evidence (secret : value) : list value :=
  match (let? trigger := py_get secret "trigger" (VDict []) in
         let? requires := py_get trigger "requiresEvidence" (VList []) in
         py_iter requires) with
  | inr l => l
  | inl _ => []
  end.

Definition min_pressure (secret : value) : value :=
  match (let? trigger := py_get secret "trigger" (VDict []) in
         py_get trigger "minPressure" VNone) with
  | inr mp => mp
  | inl _ => VNone
  end.

(** ['.' in req] (line 357). *)
Definition dotted (req : value) : bool :=
  match py_in (VStr ".") req with
  | inr b => b
  | inl _ => false
  end.

(** What lines 355-360, 363-366, 369-370 and 373-375 append for one
    secret of the suspect [sid]. *)
Definition evidence_errors (valid_flat_ids : list value) (sid secret : value)
    : list diag :=
  flat_map (fun req =>
              if dotted req then [TriggerDotNotation sid (id_of secret) req]
              else if list_mem req valid_flat_ids then []
                   else [TriggerUndeclaredEvidence sid (id_of secret) req])
           (requires_evidence secret).

Definition unknown_secret_errors (all_secret_ids_flat : list value)
    (sid secret : value) : list diag :=
  flat_map (fun req =>
              if list_mem req all_secret_ids_flat then []
              else [TriggerUnknownSecret sid (id_of secret) req])
           (requires_secrets secret).

Definition pressure_errors (sid secret : value) : list diag :=
  if negb (is_none (min_pressure secret)) && negb (is_number (min_pressure secret))
  then [TriggerPressureType sid (id_of secret) (min_pressure secret)] else [].

Definition trigger_errors (valid_flat_ids all_secret_ids_flat : list value)
    (sid secret : value) : list diag :=
  evidence_errors valid_flat_ids sid secret
  ++ unknown_secret_errors all_secret_ids_flat sid secret
  ++ (if self_referencing secret then [TriggerSelfReference sid (id_of secret)] else [])
  ++ pressure_errors sid secret.

(** What lines 378-379 append for one secret. *)
Definition pressure_warnings (sid secret : value) : list diag :=
  if is_number (min_pressure secret) && gt_80 (min_pressure secret)
  then [TriggerPressureHigh sid (id_of secret) (min_pressure secret)] else [].

(** The flat evidence ids of line 340: the ids of the physical evidence,
    of the digital logs and of the footage, and the rooms. *)
Definition flat_evidence_ids (data : value) (rooms : list string) : list value :=
  map VStr (map fst (entries_of (evidence_of data) "physical_evidence")
            ++ map fst (entries_of (evidence_of data) "digital_logs")
            ++ map fst (entries_of (evidence_of data) "footage")
            ++ rooms).

(** The secret ids of line 344, over all suspects. *)
Definition all_secret_ids_of (data : value) : list value :=
  match collect_all_secret_ids data with
  | inr all_secret_ids => List.concat (map snd all_secret_ids)
  | inl _ => []
  end.

(** The dict of lines 384-387 for one suspect: secret id -> minPressure,
    0 for a secret that gives none, the last secret winning among secrets
    with one id. *)
Definition pressures_of (suspect : value) : list (value * value) :=
  match secret_pressures (secrets_of suspect) [] with
  | inr secret_pressure => secret_pressure
  | inl _ => []
  end.

(** [secret_pressure.get(sec_id, 0)] (line 391). *)
Definition own_pressure (suspect secret : value) : value :=
  match vdict_find (id_of secret) (pressures_of suspect) with
  | Some mp => mp
  | None => VInt 0
  end.

(** What lines 392-395 append for one secret of a suspect. *)
Definition order_warnings (suspect secret : value) : list diag :=
  flat_map (fun req =>
              match vdict_find req (pressures_of suspect) with
              | Some req_mp =>
                  if is_none req_mp then []
                  else match py_le (own_pressure suspect secret) req_mp with
                       | inr true =>
                           [TriggerPressureOrder (id_of suspect) (id_of secret)
                              (own_pressure suspect secret) req req_mp]
                       | _ => []
                       end
              | None => []
              end)
           (requires_secrets secret).

(** Two suspects: the secrets of the maid depend on each other and on a
    secret of the butler, and one requires evidence by a dotted name, a
    name nobody declares and a room. *)
Definition pressure_case : value :=
  VDict [("evidence", VDict [("footage", VDict [("cam1", VDict [])])]);
         ("suspects", VList [
     VDict [("id", VStr "maid");
            ("secrets", VList [
               VDict [("id", VStr "debt");
                      ("trigger", VDict [("minPressure", VInt 81);
                                         ("requiresEvidence",
                                          VList [VStr "butler.will"; VStr "letter";
                                                 VStr "hall"; VStr "cam1"])])];
               VDict [("id", VStr "affair");
                      ("trigger", VDict [("requiresSecrets",
                                          VList [VStr "debt"; VStr "will"; VStr "theft"]);
                                         ("minPressure", VInt 80)])];
               VDict [("id", VStr "theft");
                      ("trigger", VDict [("minPressure", VBool true)])]])];
     VDict [("id", VStr "butler");
            ("secrets", VList [VDict [("id", VStr "will");
                                      ("trigger", VDict [("minPressure", VInt 90)])]])]])].

(* ------------------------------------------------------------------ *)
(** ** Vocabulary for the asset and narrative checks *)

(** The file [check_asset] looks for: the asset path without its leading
    slashes, below the directory 'public' of the project root. *)
Definition public_file (project_root asset_path : string) : string :=
  (PyStr.path_join2 project_root "public" ++ "/"
   ++ PyStr.lstrip_chars (Ascii.eqb "/") asset_path)%string.

(** The victim of the document, an empty mapping when absent. *)
Definition victim_of (data : value) : value :=
  match py_get data "victim" (VDict []) with
  | inr victim => victim
  | inl _ => VDict []
  end.

(** The assets the document names, each with the place that names it:
    the avatar of the victim, the avatar of each suspect, the image of
    each room whose value is a mapping with an 'image' key. *)
Inductive asset_at (data : value) : asset_context -> value -> Prop :=
| victim_asset :
    asset_at data VictimAvatar (attribute (victim_of data) "avatar")
| suspect_asset (suspect : value) :
    In suspect (suspects_of data) ->
    asset_at data (SuspectAvatar (id_of suspect)) (attribute suspect "avatar")
| room_asset (room_id : string) (info : list (string * value)) (image : value) :
    In (room_id, VDict info) (entries_of data "map") ->
    dict_lookup "image" info = Some image ->
    asset_at data (RoomImage room_id) image.

(** What [check_asset] appends for one asset and one place. *)
Definition asset_errors (path_exists : string -> bool) (project_root : string)
    (context : asset_context) (asset_path : value) : list diag :=
  match asset_path with
  | VStr s =>
      if negb (PyStr.is_empty s) && negb (path_exists (public_file project_root s))
      then [ResourceNotFound context asset_path (public_file project_root s)]
      else []
  | _ => []
  end.

(** A document with three assets, and a filesystem that holds one file. *)
Definition gallery_case : value :=
  VDict [("victim", VDict [("avatar", VStr "/img/ann.png")]);
         ("suspects", VList [VDict [("id", VStr "butler"); ("avatar", VStr "img/butler.png")];
                             VDict [("id", VStr "maid")]]);
         ("map", VDict [("hall", VDict [("image", VStr "//img/hall.png")]);
                        ("attic", VList [])])].

Definition only_ann (path : string) : bool :=
  String.eqb path "/srv/case/public/img/ann.png".

(* ------------------------------------------------------------------ *)
(** ** Vocabulary for the errors of the evidence check *)

(** The interactables of a room descriptor, as the loop of line 281 runs
    through them. *)
Definition interactables_of (room_info : value) : list value :=
  match (let? interactables := py_get room_info "interactables" (VList []) in
         py_iter interactables) with
  | inr l => l
  | inl _ => []
  end.

(** The key evidence of the solution, as the loop of line 298 runs through
    it; nothing when the solution is no mapping (line 297). *)
Definition key_evidence_of (data : value) : list value :=
  match py_get data "solution" (VDict []) with
  | inr solution =>
      if is_dict solution
      then match (let? key_evidence := py_get solution "key_evidence" (VList []) in
                  py_iter key_evidence) with
           | inr l => l
           | inl _ => []
           end
      else []
  | inl _ => []
  end.

(** The entries of [all_locations], as the loop of line 303 runs through
    them. *)
Definition all_locations_of (data : value) : list value :=
  match (let? all_locations := py_get (evidence_of data) "all_locations" (VList []) in
         py_iter all_locations) with
  | inr l => l
  | inl _ => []
  end.

(** What lines 269-275 append for one room of the physical discovery. *)
Definition discovery_errors (rooms phys_ev_ids : list string)
    (entry : string * value) : list diag :=
  (if str_mem (fst entry) rooms then [] else [DiscoveryRoom (fst entry)])
  ++ match snd entry with
     | VList evs =>
         map (DiscoveryUndeclared (fst entry))
             (filter (fun ev_id => negb (among phys_ev_ids ev_id)) evs)
     | ev_list => [DiscoveryNotList (fst entry) (type_name ev_list)]
     end.

(** What lines 279-284 append for one room of the map. *)
Definition interactable_errors (phys_ev_ids : list string)
    (entry : string * value) : list diag :=
  if is_dict (snd entry)
  then map (fun item => InteractableEvidence (attribute item "name") (fst entry)
                          (attribute item "evidence_id"))
           (filter (fun item => truthy (attribute item "evidence_id")
                                && negb (among phys_ev_ids (attribute item "evidence_id")))
                   (interactables_of (snd entry)))
  else [].

(** The errors lines 314-317 append for one room of the DNA. *)
Definition dna_errors (rooms : list string) (entry : string * value) : list diag :=
  (if str_mem (fst entry) rooms then [] else [DnaRoom (fst entry)])
  ++ match snd entry with
     | VList _ => []
     | names => [DnaNotList (fst entry) (type_name names)]
     end.

(** A case whose evidence refers to rooms and to evidence that are not
    declared. *)
Definition loose_ends_case : value :=
  VDict [("victim", VDict [("name", VStr "Ann Lee")]);
         ("map", VDict [
            ("hall", VDict [("interactables", VList [
               VDict [("name", VStr "desk"); ("evidence_id", VStr "letter")];
               VDict [("name", VStr "rug"); ("evidence_id", VStr "knife")];
               VDict [("name", VStr "lamp")]])])]);
         ("solution", VDict [("key_evidence", VList [VStr "knife"; VStr "rope"])]);
         ("evidence", VDict [
            ("physical_evidence", VDict [("knife", VDict [])]);
            ("physical_discovery", VDict [("hall", VList [VStr "knife"; VStr "glove"]);
                                          ("cellar", VList [VStr "knife"]);
                                          ("_note", VStr "knife")]);
            ("all_locations", VList [VStr "hall"; VStr "attic"]);
            ("dna", VDict [("garden", VList []); ("_note", VStr "none")])])].

(* ------------------------------------------------------------------ *)
(** ** Vocabulary for the narrative checks *)

(** The solution as lines 420-421 read it: the 'solution' of the document
    when it is a mapping, an empty mapping otherwise; its killer; its key
    evidence as the loop of line 432 runs through it. *)
Definition narrative_solution (data : value) : value :=
  match py_get data "solution" VNone with
  | inr solution => if is_dict solution then solution else VDict []
  | inl _ => VDict []
  end.

Definition narrative_killer (data : value) : value :=
  attribute (narrative_solution data) "killer".

Definition narrative_key_evidence (data : value) : list value :=
  match (let? key_evidence := py_get (narrative_solution data) "key_evidence" (VList []) in
         py_iter key_evidence) with
  | inr l => l
  | inl _ => []
  end.

(** Every entry of a [requiresEvidence] list of a secret of a suspect
    (lines 427-430). *)
Definition required_anywhere (data : value) : list value :=
  flat_map (fun suspect => flat_map requires_evidence (secrets_of suspect))
           (suspects_of data).

(** The lower-cased text of a string; the text of a secret, empty when it
    has none. *)
Definition lowered (v : value) : string :=
  match py_lower v with
  | inr s => s
  | inl _ => EmptyString
  end.

Definition text_of (secret : value) : value :=
  match py_get secret "text" (VStr "") with
  | inr text => text
  | inl _ => VStr ""
  end.

(** The test of line 456: the id of the secret mentions a confession, or
    its text confesses, in any case of the letters. *)
Definition terminal (secret : value) : bool :=
  PyStr.contains "confession" (lowered (id_of secret))
  || PyStr.contains "confess" (lowered (text_of secret)).

(** The initial police statements, and the test [sid in statements] of
    line 463. *)
Definition statements_of (data : value) : value :=
  match py_get (evidence_of data) "initial_police_statements" (VDict []) with
  | inr statements => statements
  | inl _ => VDict []
  end.

Definition has_statement (statements sid : value) : bool :=
  match py_in sid statements with
  | inr known => known
  | inl _ => false
  end.

(** The butler is the killer: the only confession is a secret of the maid,
    the rope is key evidence no secret asks for, and the police have no
    statement of the butler. *)
Definition confession_case : value :=
  VDict [("solution", VDict [("killer", VStr "butler");
                             ("key_evidence", VList [VStr "knife"; VStr "rope"])]);
         ("suspects", VList [
            VDict [("id", VStr "maid");
                   ("secrets", VList [VDict [("id", VStr "Full_Confession")]])];
            VDict [("id", VStr "butler");
                   ("secrets", VList [
                      VDict [("id", VStr "debt"); ("text", VStr "He owed money");
                             ("trigger", VDict [("requiresEvidence",
                                                 VList [VStr "knife"])])]])]]);
         ("evidence", VDict [
            ("initial_police_statements", VDict [("maid", VStr "I was asleep")])])].

(* ------------------------------------------------------------------ *)
(** * Properties *)

(** ** The collector and the monad of checks *)

Lemma plus_empty_l (r : Result) : plus empty r = r.
Proof. destruct r; reflexivity. Qed.

Lemma plus_empty_r (r : Result) : plus r empty = r.
Proof. destruct r; unfold plus; simpl; now rewrite !app_nil_r. Qed.

Lemma plus_assoc (r s t : Result) : plus r (plus s t) = plus (plus r s) t.
Proof. unfold plus; simpl; now rewrite !app_assoc. Qed.

Lemma bind_inr {A B} (m : M A) (f : A -> M B) (a : A) :
  outcome m = inr a ->
  bind m f = (plus (emitted m) (emitted (f a)), outcome (f a)).
Proof.
  destruct m as [w o]; simpl; intros ->.
  unfold bind. now destruct (f a).
Qed.

Lemma bind_inl {A B} (m : M A) (f : A -> M B) (e : exn) :
  outcome m = inl e -> bind m f = (emitted m, inl e).
Proof. destruct m as [w o]; simpl; now intros ->. Qed.

Lemma bind_lift_inr {A B} (a : A) (f : A -> M B) : bind (lift (inr a)) f = f a.
Proof. unfold bind, lift. destruct (f a) as [w o]. now rewrite plus_empty_l. Qed.

Lemma bind_lift_inl {A B} (e : exn) (f : A -> M B) :
  bind (lift (inl e)) f = (empty, inl e).
Proof. reflexivity. Qed.

Lemma bind_ret {A B} (a : A) (f : A -> M B) : bind (ret a) f = f a.
Proof. apply bind_lift_inr. Qed.

Lemma errors_bind {A B} (m : M A) (f : A -> M B) :
  errors (emitted (bind m f)) =
  errors (emitted m) ++
  match outcome m with inr a => errors (emitted (f a)) | inl _ => [] end.
Proof.
  destruct m as [w [e|a]]; simpl.
  - now rewrite app_nil_r.
  - unfold bind. now destruct (f a).
Qed.

Lemma warnings_bind {A B} (m : M A) (f : A -> M B) :
  warnings (emitted (bind m f)) =
  warnings (emitted m) ++
  match outcome m with inr a => warnings (emitted (f a)) | inl _ => [] end.
Proof.
  destruct m as [w [e|a]]; simpl.
  - now rewrite app_nil_r.
  - unfold bind. now destruct (f a).
Qed.

Lemma outcome_bind {A B} (m : M A) (f : A -> M B) :
  outcome (bind m f) =
  match outcome m with inr a => outcome (f a) | inl e => inl e end.
Proof.
  destruct m as [w [e|a]]; simpl; [reflexivity|].
  unfold bind. now destruct (f a).
Qed.

Lemma outcome_bind_inr {A B} (m : M A) (f : A -> M B) (b : B) :
  outcome (bind m f) = inr b ->
  exists a, outcome m = inr a /\ outcome (f a) = inr b.
Proof.
  rewrite outcome_bind. destruct (outcome m) as [e|a]; [discriminate|].
  intros H. now exists a.
Qed.

Lemma when_true (m : M unit) : when true m = m.
Proof. reflexivity. Qed.

Lemma when_false (m : M unit) : when false m = ret tt.
Proof. reflexivity. Qed.

(** A loop that ran to its end ran every iteration to its end, and what
    it appended is what the iterations appended, in order. *)
Lemma for_each_inr {A} (l : list A) (body : A -> M unit) :
  outcome (for_each l body) = inr tt ->
  Forall (fun x => outcome (body x) = inr tt) l /\
  errors (emitted (for_each l body)) = flat_map (fun x => errors (emitted (body x))) l /\
  warnings (emitted (for_each l body)) = flat_map (fun x => warnings (emitted (body x))) l.
Proof.
  induction l as [|x l IH]; simpl.
  - intros _. repeat split; constructor.
  - intros H. apply outcome_bind_inr in H as [[] [Hx Hl]].
    destruct (IH Hl) as (Hall & He & Hw).
    rewrite errors_bind, warnings_bind, Hx, He, Hw.
    repeat split. now constructor.
Qed.

(** Whatever a loop appended, some iteration appended. *)
Lemma for_each_errors_In {A} (l : list A) (body : A -> M unit) (d : diag) :
  In d (errors (emitted (for_each l body))) ->
  exists x, In x l /\ In d (errors (emitted (body x))).
Proof.
  induction l as [|x l IH]; simpl; [intros []|].
  rewrite errors_bind. intros H. apply in_app_or in H as [H|H].
  - exists x. auto.
  - destruct (outcome (body x)); [destruct H|].
    destruct (IH H) as (y & Hy & Hd). exists y. auto.
Qed.

Lemma for_each_warnings_In {A} (l : list A) (body : A -> M unit) (d : diag) :
  In d (warnings (emitted (for_each l body))) ->
  exists x, In x l /\ In d (warnings (emitted (body x))).
Proof.
  induction l as [|x l IH]; simpl; [intros []|].
  rewrite warnings_bind. intros H. apply in_app_or in H as [H|H].
  - exists x. auto.
  - destruct (outcome (body x)); [destruct H|].
    destruct (IH H) as (y & Hy & Hd). exists y. auto.
Qed.

(** Membership of a string key, as the [in] operator sees it. *)
Lemma existsb_py_eq_keys {V} (k : string) (d : list (string * V)) :
  existsb (py_eq (VStr k)) (map (fun kv => VStr (fst kv)) d) =
  match dict_lookup k d with Some _ => true | None => false end.
Proof.
  induction d as [|[k' v] d IH]; simpl; [reflexivity|].
  destruct (String.eqb k k'); simpl; [reflexivity|exact IH].
Qed.

Lemma py_in_dict (k : string) (d : list (string * value)) :
  py_in (VStr k) (VDict d) =
  inr (match dict_lookup k d with Some _ => true | None => false end).
Proof. unfold py_in, set_mem; cbn [hashable]. now rewrite existsb_py_eq_keys. Qed.

(* ------------------------------------------------------------------ *)
(** ** The map checks *)

(** C9. A document whose map declares no room gets no unreachable-room
    warning from the map checks, and a document without a 'map' key gets
    the hard error of line 138. *)
Theorem check_map_zero_rooms (set_order : list string -> list string)
    (d : list (string * value)) :
  (dict_lookup "map" d = Some (VDict []) ->
   forall room_id start,
     ~ In (MapUnreachable room_id start)
          (warnings (emitted (check_map set_order (VDict d)))))
  /\
  (dict_lookup "map" d = None ->
   In MapNoMapKey (errors (emitted (check_map set_order (VDict d))))).
Proof.
  split; intros Hmap.
  - intros room_id start.
    unfold check_map. rewrite py_in_dict, Hmap, bind_lift_inr. cbn [negb].
    unfold py_getitem. rewrite Hmap, bind_lift_inr.
    cbn [py_items]. rewrite bind_lift_inr.
    cbn [map build_adj]. rewrite bind_ret.
    unfold check_one_way. cbn [for_each]. rewrite bind_ret.
    cbn [check_connectivity]. rewrite bind_ret.
    cbn [py_get]. rewrite bind_lift_inr.
    destruct (truthy _); cbn [when].
    + unfold in_rooms, find_room.
      destruct (hashable _); cbn [rbind].
      * rewrite bind_lift_inr.
        destruct (match _ with VStr _ => _ | _ => _ end); cbn; tauto.
      * cbn; tauto.
    + cbn; tauto.
  - unfold check_map. rewrite py_in_dict, Hmap, bind_lift_inr. cbn. auto.
Qed.

Lemma check_map_zero_rooms_witness :
  (dict_lookup "map" [("map", VDict []); ("murderLocation", VStr "hall")]
   = Some (VDict []) /\
   ~ In (MapUnreachable "hall" "hall")
        (warnings (emitted (check_map (fun l => l)
           (VDict [("map", VDict []); ("murderLocation", VStr "hall")])))))
  /\
  (dict_lookup "map" [("id", VStr "case")] = None /\
   In MapNoMapKey
      (errors (emitted (check_map (fun l => l) (VDict [("id", VStr "case")]))))).
Proof.
  split; split; try reflexivity.
  - exact (proj1 (check_map_zero_rooms (fun l => l)
                    [("map", VDict []); ("murderLocation", VStr "hall")])
             eq_refl "hall" "hall").
  - exact (proj2 (check_map_zero_rooms (fun l => l) [("id", VStr "case")])
             eq_refl).
Defined.

(* ------------------------------------------------------------------ *)
(** ** What a check can append *)

Section Appends.

Variable P : diag -> Prop.

Lemma warnings_all_bind {A B} (m : M A) (f : A -> M B) :
  warnings_all P m ->
  (forall a, outcome m = inr a -> warnings_all P (f a)) ->
  warnings_all P (bind m f).
Proof.
  unfold warnings_all. intros Hm Hf. rewrite warnings_bind.
  apply Forall_app. split; [exact Hm|].
  destruct (outcome m) as [e|a]; [constructor|now apply Hf].
Qed.

Lemma errors_all_bind {A B} (m : M A) (f : A -> M B) :
  errors_all P m ->
  (forall a, outcome m = inr a -> errors_all P (f a)) ->
  errors_all P (bind m f).
Proof.
  unfold errors_all. intros Hm Hf. rewrite errors_bind.
  apply Forall_app. split; [exact Hm|].
  destruct (outcome m) as [e|a]; [constructor|now apply Hf].
Qed.

Lemma warnings_all_lift {A} (x : res A) : warnings_all P (lift x).
Proof. constructor. Qed.

Lemma errors_all_lift {A} (x : res A) : errors_all P (lift x).
Proof. constructor. Qed.

Lemma warnings_all_ret {A} (a : A) : warnings_all P (ret a).
Proof. constructor. Qed.

Lemma errors_all_ret {A} (a : A) : errors_all P (ret a).
Proof. constructor. Qed.

Lemma warnings_all_err (d : diag) : warnings_all P (err d).
Proof. constructor. Qed.

Lemma errors_all_warn (d : diag) : errors_all P (warn d).
Proof. constructor. Qed.

Lemma warnings_all_warn (d : diag) : P d -> warnings_all P (warn d).
Proof. intros H. repeat constructor. exact H. Qed.

Lemma errors_all_err (d : diag) : P d -> errors_all P (err d).
Proof. intros H. repeat constructor. exact H. Qed.

Lemma warnings_all_when (c : bool) (m : M unit) :
  (c = true -> warnings_all P m) -> warnings_all P (when c m).
Proof. destruct c; intros H; [now apply H|constructor]. Qed.

Lemma errors_all_when (c : bool) (m : M unit) :
  (c = true -> errors_all P m) -> errors_all P (when c m).
Proof. destruct c; intros H; [now apply H|constructor]. Qed.

Lemma warnings_all_for_each {A} (l : list A) (body : A -> M unit) :
  (forall x, In x l -> warnings_all P (body x)) ->
  warnings_all P (for_each l body).
Proof.
  induction l as [|x l IH]; intros H; [constructor|].
  cbn [for_each]. apply warnings_all_bind; [apply H; now left|].
  intros _ _. apply IH. intros y Hy. apply H. now right.
Qed.

Lemma errors_all_for_each {A} (l : list A) (body : A -> M unit) :
  (forall x, In x l -> errors_all P (body x)) ->
  errors_all P (for_each l body).
Proof.
  induction l as [|x l IH]; intros H; [constructor|].
  cbn [for_each]. apply errors_all_bind; [apply H; now left|].
  intros _ _. apply IH. intros y Hy. apply H. now right.
Qed.

End Appends.

(** Goes through the structure of a check; what is left are the
    messages it can append. *)
Ltac appends :=
  repeat first
    [ apply warnings_all_lift | apply errors_all_lift
    | apply warnings_all_ret | apply errors_all_ret
    | apply warnings_all_err | apply errors_all_warn
    | apply warnings_all_bind; [|intros ? ?]
    | apply errors_all_bind; [|intros ? ?]
    | apply warnings_all_when; intros ?
    | apply errors_all_when; intros ?
    | apply warnings_all_for_each; intros ? ?
    | apply errors_all_for_each; intros ? ?
    | apply warnings_all_warn | apply errors_all_err
    | match goal with
      | |- warnings_all _ (match ?x with _ => _ end) => destruct x
      | |- errors_all _ (match ?x with _ => _ end) => destruct x
      | |- warnings_all _ (let (_, _) := ?x in _) => destruct x
      | |- errors_all _ (let (_, _) := ?x in _) => destruct x
      end ].

(* ------------------------------------------------------------------ *)
(** ** The narrative checks *)

Lemma contains_empty (s : string) : PyStr.contains "" s = true.
Proof. destruct s; reflexivity. Qed.

Lemma key_evidence_used_warnings (data solution : value) :
  warnings_all (fun d => is_win_conditions_warning d = false)
               (check_key_evidence_used data solution).
Proof. unfold check_key_evidence_used. appends. reflexivity. Qed.

Lemma murder_evidence_warnings (data evidence killer_id : value) suspects :
  warnings_all (fun d => is_win_conditions_warning d = false)
               (check_murder_evidence data evidence killer_id suspects).
Proof. unfold check_murder_evidence. appends. reflexivity. Qed.

Lemma confession_warnings (killer_id : value) suspects :
  warnings_all (fun d => is_win_conditions_warning d = false)
               (check_confession killer_id suspects).
Proof. unfold check_confession. appends. reflexivity. Qed.

Lemma statements_warnings (data evidence : value) :
  warnings_all (fun d => is_win_conditions_warning d = false)
               (check_statements data evidence).
Proof. unfold check_statements. appends. reflexivity. Qed.

(** With an empty killer name the test of line 470 cannot succeed. *)
Lemma win_conditions_silent json_dumps (data killer_id : value) suspects :
  (forall s, vdict_find killer_id suspects = Some s -> name_missing_or_empty s) ->
  warnings (emitted (check_win_conditions json_dumps data killer_id suspects)) = [].
Proof.
  intros Hname. unfold check_win_conditions.
  destruct (py_get data "win_conditions" (VDict [])) as [e|wc]; [reflexivity|].
  rewrite bind_lift_inr.
  destruct (truthy wc && truthy killer_id); [|reflexivity].
  unfold vdict_get. destruct (hashable killer_id); [|reflexivity].
  rewrite bind_lift_inr.
  assert (Hn : py_get (match vdict_find killer_id suspects with
                       | Some s => s | None => VDict [] end) "name" (VStr "")
               = inr (VStr "")).
  { destruct (vdict_find killer_id suspects) as [s|] eqn:E;
      [now apply Hname|reflexivity]. }
  rewrite Hn, bind_lift_inr. cbn [py_lower PyStr.lower]. rewrite bind_lift_inr.
  destruct (py_lower killer_id) as [e|low_id]; [reflexivity|].
  rewrite bind_lift_inr, contains_empty, andb_false_r. reflexivity.
Qed.

(** C10. When the killer id resolves to no declared suspect, or to one
    whose name is missing or empty, [check_narrative_consistency] never
    appends the win-conditions warning, whatever the win-conditions text
    says. *)
Theorem win_conditions_never_vague_without_name
    (json_dumps : value -> string) (data : value) :
  (resolved_killer data = None \/
   exists s, resolved_killer data = Some s /\ name_missing_or_empty s) ->
  forall killer_id,
    ~ In (WinConditionsVague killer_id)
         (warnings (emitted (check_narrative_consistency json_dumps data))).
Proof.
  intros Hres killer_id Hin.
  assert (Hall : warnings_all (fun d => is_win_conditions_warning d = false)
                   (check_narrative_consistency json_dumps data)).
  { unfold check_narrative_consistency.
    destruct (py_get data "solution" VNone) as [e|solution'] eqn:Esol;
      [constructor|]. rewrite bind_lift_inr.
    set (solution := if is_dict solution' then solution' else VDict []).
    destruct (py_get solution "killer" VNone) as [e|kid] eqn:Ekid;
      [constructor|]. rewrite bind_lift_inr.
    destruct (py_get data "suspects" (VList [])) as [e|suspects_] eqn:Esus;
      [constructor|]. rewrite bind_lift_inr.
    destruct (py_iter suspects_) as [e|suspect_list] eqn:Eit;
      [constructor|]. rewrite bind_lift_inr.
    destruct (suspects_by_id suspect_list []) as [e|suspects] eqn:Eby;
      [constructor|]. rewrite bind_lift_inr.
    assert (Hk : resolved_killer data = vdict_find kid suspects).
    { unfold resolved_killer. rewrite Esol. fold solution. rewrite Ekid, Esus.
      cbn [rbind]. rewrite Eit. cbn [rbind]. now rewrite Eby. }
    do 3 (apply warnings_all_bind; [apply warnings_all_lift|intros ? _]).
    apply warnings_all_bind; [apply key_evidence_used_warnings|intros _ _].
    apply warnings_all_bind; [apply murder_evidence_warnings|intros _ _].
    apply warnings_all_bind; [apply confession_warnings|intros _ _].
    apply warnings_all_bind; [apply statements_warnings|intros _ _].
    unfold warnings_all. rewrite win_conditions_silent; [constructor|].
    intros s Hs. rewrite <- Hk in Hs.
    destruct Hres as [Hnone|(s' & Hsome & Hname)]; congruence. }
  unfold warnings_all in Hall. rewrite Forall_forall in Hall.
  apply Hall in Hin. discriminate.
Qed.

Lemma win_conditions_never_vague_without_name_witness :
  (resolved_killer nameless_killer_case = None \/
   exists s, resolved_killer nameless_killer_case = Some s /\ name_missing_or_empty s)
  /\ ~ In (WinConditionsVague (VStr "butler"))
          (warnings (emitted (check_narrative_consistency dumps_culprit
                                nameless_killer_case))).
Proof.
  assert (H : resolved_killer nameless_killer_case = None \/
              exists s, resolved_killer nameless_killer_case = Some s /\
                        name_missing_or_empty s).
  { right. eexists. split; reflexivity. }
  split; [exact H|].
  exact (win_conditions_never_vague_without_name dumps_culprit
           nameless_killer_case H (VStr "butler")).
Defined.

(** With a name that the text does not mention, the warning is there. *)
Example win_conditions_vague_with_name :
  In (WinConditionsVague (VStr "butler"))
     (warnings (emitted (check_narrative_consistency dumps_culprit named_killer_case))).
Proof. vm_compute. tauto. Qed.

(* ------------------------------------------------------------------ *)
(** ** Suspects and solution *)

(** From a check that returned: the expression it started with had a
    value, and the rest returned. *)
Ltac returned_as H a :=
  match type of H with
  | outcome (bind (lift ?e) _) = inr _ =>
      let E := fresh "E" a in
      destruct e as [?|a] eqn:E; [discriminate H|];
      rewrite bind_lift_inr in H; try rewrite bind_lift_inr
  end.

Tactic Notation "returned" hyp(H) "as" ident(a) := returned_as H a.

Lemma check_role_id_errors (ro : role) (sentinel : bool) (id : value)
    (ids : list value) :
  outcome (check_role_id ro sentinel id ids) = inr tt ->
  emitted (check_role_id ro sentinel id ids) =
  mkResult (if negb (sentinel && py_eq id (VStr "none")) && negb (list_mem id ids)
            then [SolutionRoleNotFound ro id] else []) [].
Proof.
  unfold check_role_id.
  destruct (sentinel && py_eq id (VStr "none")); cbn [negb when andb];
    [reflexivity|].
  unfold set_mem. destruct (hashable id); [|discriminate].
  rewrite bind_lift_inr. intros _. unfold list_mem.
  destruct (existsb (py_eq id) ids); reflexivity.
Qed.

Lemma check_role_flag_emitted (ro : role) (d : list (string * value))
    (sid role_id : value) :
  check_role_flag ro (VDict d) sid role_id =
  (mkResult (role_flag_errors ro (VDict d) sid role_id) [], inr tt).
Proof.
  unfold check_role_flag, role_flag_errors, flag_set. cbn [py_get].
  destruct (py_eq sid role_id); rewrite bind_lift_inr;
    destruct (truthy _); reflexivity.
Qed.


Lemma errors_all_False {A} (m : M A) :
  errors_all (fun _ => False) m -> errors (emitted m) = [].
Proof.
  unfold errors_all. destruct (errors (emitted m)); [reflexivity|].
  intros H. inversion H. contradiction.
Qed.

Lemma warnings_all_False {A} (m : M A) :
  warnings_all (fun _ => False) m -> warnings (emitted m) = [].
Proof.
  unfold warnings_all. destruct (warnings (emitted m)); [reflexivity|].
  intros H. inversion H. contradiction.
Qed.

Lemma check_suspect_errors (rooms : list string)
    (killer_id accomplice_id silent_witness_id suspect : value) :
  outcome (check_suspect rooms killer_id accomplice_id silent_witness_id suspect)
  = inr tt ->
  exists sid loc,
    py_getitem suspect "id" = inr sid /\
    Forall (fun d => is_flag_error d = false) loc /\
    errors (emitted (check_suspect rooms killer_id accomplice_id
                       silent_witness_id suspect))
    = loc ++ role_flag_errors Killer suspect sid killer_id
          ++ role_flag_errors Accomplice suspect sid accomplice_id
          ++ role_flag_errors SilentWitness suspect sid silent_witness_id.
Proof.
  unfold check_suspect. intros H. returned H as sid.
  destruct suspect as [| | | | | |d]; try discriminate Esid.
  exists sid. cbn [py_get] in *. rewrite bind_lift_inr in *.
  rewrite !check_role_flag_emitted in *.
  rewrite errors_bind.
  apply outcome_bind_inr in H as ([] & Hloc & H). rewrite Hloc.
  eexists. split; [reflexivity|]. split.
  2:{ f_equal.
      do 2 (rewrite errors_bind; cbn [outcome snd emitted fst errors]; f_equal).
      rewrite errors_bind; cbn [outcome snd emitted fst errors].
      rewrite errors_all_False; [now rewrite app_nil_r|appends]. }
  destruct (truthy _); cbn [when]; [|constructor].
  appends. reflexivity.
Qed.

Lemma map_res_inr {A B} (f : A -> res B) (l : list A) (ys : list B) :
  map_res f l = inr ys -> Forall2 (fun x y => f x = inr y) l ys.
Proof.
  revert ys. induction l as [|x l IH]; cbn [map_res]; intros ys H.
  - injection H as <-. constructor.
  - destruct (f x) as [e|y] eqn:Ex; [discriminate|]. cbn [rbind] in H.
    destruct (map_res f l) as [e|ys'] eqn:El; [discriminate|]. cbn [rbind] in H.
    injection H as <-. constructor; auto.
Qed.

(** The set of line 191 holds the ids of the declared suspects. *)
Lemma id_set_declared (data suspects : value) (ids : list value) :
  py_get data "suspects" (VList []) = inr suspects ->
  id_set suspects = inr ids ->
  forall id, list_mem id ids = true <-> declared_suspect data id.
Proof.
  intros Hs Hids id. unfold declared_suspect, suspects_of. rewrite Hs.
  unfold id_set in Hids. cbn [rbind].
  destruct (py_iter suspects) as [e|l]; [discriminate|]. cbn [rbind] in Hids.
  apply map_res_inr in Hids. unfold list_mem. rewrite existsb_exists.
  induction Hids as [|s sid l ids Hsid Hrest IH].
  - split; [intros (x & [] & _)|intros (s & sid & [] & _)].
  - assert (Hg : py_getitem s "id" = inr sid).
    { destruct (py_getitem s "id") as [e|i]; [discriminate|]. cbn [rbind] in Hsid.
      destruct (hashable i); [assumption|discriminate]. }
    split.
    + intros (x & [<-|Hx] & Heq).
      * exists s, sid. cbn; auto.
      * destruct (proj1 IH) as (s' & sid' & Hin & Hg' & Heq').
        { exists x. auto. }
        exists s', sid'. cbn; auto.
    + intros (s' & sid' & [<-|Hin] & Hg' & Heq).
      * exists sid. split; [now left|]. congruence.
      * destruct (proj2 IH) as (x & Hx & Hxe).
        { exists s', sid'. auto. }
        exists x. split; [now right|assumption].
Qed.

(** The role ids of lines 194-196 are the ids the solution gives. *)
Lemma role_ids_of_solution (data solution : value) :
  py_get data "solution" (VDict []) = inr solution ->
  (if is_dict solution then py_get solution "killer" VNone else inr solution)
    = inr (solution_role data Killer) /\
  (if is_dict solution then py_get solution "accomplice" (VStr "none")
   else inr (VStr "none")) = inr (solution_role data Accomplice) /\
  (if is_dict solution then py_get solution "silent_witness" (VStr "none")
   else inr (VStr "none")) = inr (solution_role data SilentWitness).
Proof.
  intros H. unfold solution_role. rewrite H.
  destruct solution; cbn; repeat split; reflexivity.
Qed.

(** What [check_suspects_and_solution] appends when it returns. *)
Lemma check_suspects_and_solution_errors (data : value) (rooms : list string) v :
  outcome (check_suspects_and_solution data rooms) = inr v ->
  exists ids,
    (forall id, list_mem id ids = true <-> declared_suspect data id) /\
    Forall (fun s => outcome (check_suspect rooms (solution_role data Killer)
                                (solution_role data Accomplice)
                                (solution_role data SilentWitness) s) = inr tt)
           (suspects_of data) /\
    errors (emitted (check_suspects_and_solution data rooms)) =
    role_id_errors data ids Killer ++ role_id_errors data ids Accomplice
    ++ role_id_errors data ids SilentWitness
    ++ flat_map (fun s => errors (emitted
                   (check_suspect rooms (solution_role data Killer)
                      (solution_role data Accomplice)
                      (solution_role data SilentWitness) s)))
                (suspects_of data).
Proof.
  unfold check_suspects_and_solution. intros H.
  returned H as suspects. returned H as ids. returned H as solution.
  destruct (role_ids_of_solution data solution Esolution) as (Hk & Ha & Hw).
  rewrite Hk, Ha, Hw, !bind_lift_inr in *.
  exists ids. split; [now apply (id_set_declared data suspects)|].
  apply outcome_bind_inr in H as ([] & Hr1 & H).
  apply outcome_bind_inr in H as ([] & Hr2 & H).
  apply outcome_bind_inr in H as ([] & Hr3 & H).
  returned H as suspect_list.
  assert (Hsus : suspects_of data = suspect_list).
  { unfold suspects_of. rewrite Esuspects. cbn [rbind]. now rewrite Esuspect_list. }
  rewrite Hsus.
  apply outcome_bind_inr in H as ([] & Hloop & _).
  pose proof (for_each_inr _ _ Hloop) as (Hall & Herrs & _).
  split; [exact Hall|].
  rewrite errors_bind, Hr1, errors_bind, Hr2, errors_bind, Hr3.
  rewrite !check_role_id_errors by assumption. cbn [errors].
  unfold role_id_errors. cbn [has_sentinel andb].
  do 3 f_equal.
  rewrite errors_bind. cbn [outcome lift snd emitted fst errors empty app].
  rewrite Hloop, Herrs. cbn [ret emitted fst errors empty]. apply app_nil_r.
Qed.

Lemma check_suspect_no_role_id_error (rooms : list string)
    (killer_id accomplice_id silent_witness_id suspect : value) :
  errors_all (fun d => is_role_id_error d = false)
    (check_suspect rooms killer_id accomplice_id silent_witness_id suspect).
Proof.
  unfold check_suspect, check_role_flag. appends; reflexivity.
Qed.

(** C6. When [check_suspects_and_solution] returns, it has recorded an
    error naming a role and an id exactly when the id is the one the
    solution gives that role, it is not the id of a declared suspect, and,
    for the accomplice and the silent witness, it is not the value 'none'. *)
Theorem solution_role_ids_resolve (data : value) (rooms : list string) v :
  outcome (check_suspects_and_solution data rooms) = inr v ->
  forall ro id,
    In (SolutionRoleNotFound ro id)
       (errors (emitted (check_suspects_and_solution data rooms)))
    <->
    id = solution_role data ro /\ ~ declared_suspect data id /\
    (has_sentinel ro = true -> py_eq id (VStr "none") = false).
Proof.
  intros H ro id.
  destruct (check_suspects_and_solution_errors data rooms v H)
    as (ids & Hids & _ & ->).
  assert (Hloop : ~ In (SolutionRoleNotFound ro id)
            (flat_map (fun s => errors (emitted
               (check_suspect rooms (solution_role data Killer)
                  (solution_role data Accomplice)
                  (solution_role data SilentWitness) s))) (suspects_of data))).
  { intros Hin. apply in_flat_map in Hin as (s & _ & Hin).
    pose proof (check_suspect_no_role_id_error rooms (solution_role data Killer)
                  (solution_role data Accomplice)
                  (solution_role data SilentWitness) s) as Hall.
    unfold errors_all in Hall. rewrite Forall_forall in Hall.
    apply Hall in Hin. discriminate. }
  assert (Hrole : forall ro', In (SolutionRoleNotFound ro id) (role_id_errors data ids ro')
            <-> ro' = ro /\ id = solution_role data ro /\ ~ declared_suspect data id /\
                (has_sentinel ro = true -> py_eq id (VStr "none") = false)).
  { intros ro'. unfold role_id_errors.
    destruct (has_sentinel ro' && py_eq (solution_role data ro') (VStr "none")) eqn:Es;
      cbn [negb andb].
    - split; [intros []|]. intros (-> & -> & _ & Hn).
      apply andb_prop in Es as [Hs Hp]. rewrite (Hn Hs) in Hp. discriminate.
    - destruct (list_mem (solution_role data ro') ids) eqn:Em; cbn [negb].
      + split; [intros []|]. intros (-> & -> & Hd & _).
        apply Hids in Em. contradiction.
      + split.
        * intros [Heq|[]]. injection Heq as <- <-.
          repeat split; auto.
          -- intros Hd. apply Hids in Hd. congruence.
          -- intros Hs. rewrite Hs in Es. exact Es.
        * intros (-> & -> & _). now left. }
  rewrite !in_app_iff, !Hrole.
  split.
  - intros [H1|[H1|[H1|H1]]]; try tauto.
  - intros H1. destruct ro; tauto.
Qed.
Lemma In_role_flag_errors (d : diag) (ro : role) (s sid role_id : value) :
  In d (role_flag_errors ro s sid role_id) <->
  (d = SuspectRoleFlagUnset ro sid /\ py_eq sid role_id = true /\ flag_set s ro = false)
  \/ (d = SuspectFlagNotRole ro sid /\ py_eq sid role_id = false /\ flag_set s ro = true).
Proof.
  unfold role_flag_errors.
  destruct (py_eq sid role_id), (flag_set s ro); cbn [In];
    intuition (try discriminate; try congruence).
Qed.

Lemma role_id_errors_no_flag (data : value) (ids : list value) (ro : role) (d : diag) :
  In d (role_id_errors data ids ro) -> is_flag_error d = false.
Proof.
  unfold role_id_errors. destruct (_ && _); [|intros []].
  intros [<-|[]]. reflexivity.
Qed.

(** The flag errors of [check_suspects_and_solution] are those of its
    suspects. *)
Lemma flag_error_of_some_suspect (data : value) (rooms : list string) v (d : diag) :
  outcome (check_suspects_and_solution data rooms) = inr v ->
  is_flag_error d = true ->
  In d (errors (emitted (check_suspects_and_solution data rooms))) <->
  exists s sid ro,
    In s (suspects_of data) /\ py_getitem s "id" = inr sid /\
    In d (role_flag_errors ro s sid (solution_role data ro)).
Proof.
  intros H Hd.
  destruct (check_suspects_and_solution_errors data rooms v H)
    as (ids & _ & Hall & ->).
  rewrite Forall_forall in Hall.
  rewrite !in_app_iff, in_flat_map. split.
  - intros [Hin|[Hin|[Hin|(s & Hs & Hin)]]];
      try (apply role_id_errors_no_flag in Hin; congruence).
    destruct (check_suspect_errors _ _ _ _ _ (Hall s Hs))
      as (sid & loc & Hsid & Hloc & Herrs).
    rewrite Herrs, !in_app_iff in Hin.
    destruct Hin as [Hin|[Hin|[Hin|Hin]]].
    + rewrite Forall_forall in Hloc. apply Hloc in Hin. congruence.
    + exists s, sid, Killer. auto.
    + exists s, sid, Accomplice. auto.
    + exists s, sid, SilentWitness. auto.
  - intros (s & sid & ro & Hs & Hsid & Hin).
    right; right; right. exists s. split; [exact Hs|].
    destruct (check_suspect_errors _ _ _ _ _ (Hall s Hs))
      as (sid' & loc & Hsid' & _ & Herrs).
    rewrite Herrs, !in_app_iff.
    assert (sid' = sid) as -> by congruence.
    destruct ro; auto.
Qed.

(** C5. When [check_suspects_and_solution] returns, then for each of the
    three roles it has recorded the error "is the role holder but the flag
    is not true" for exactly the ids of the suspects that hold the role
    with the flag false or absent, and the error "the flag is true but is
    not the role holder" for exactly the ids of the suspects that do not
    hold the role and have the flag true. *)
Theorem suspect_flags_agree_with_roles (data : value) (rooms : list string) v :
  outcome (check_suspects_and_solution data rooms) = inr v ->
  forall ro sid,
    (In (SuspectRoleFlagUnset ro sid)
        (errors (emitted (check_suspects_and_solution data rooms)))
     <->
     exists s, In s (suspects_of data) /\ py_getitem s "id" = inr sid /\
               py_eq sid (solution_role data ro) = true /\ flag_set s ro = false)
    /\
    (In (SuspectFlagNotRole ro sid)
        (errors (emitted (check_suspects_and_solution data rooms)))
     <->
     exists s, In s (suspects_of data) /\ py_getitem s "id" = inr sid /\
               py_eq sid (solution_role data ro) = false /\ flag_set s ro = true).
Proof.
  intros H ro sid. split.
  - rewrite (flag_error_of_some_suspect data rooms v (SuspectRoleFlagUnset ro sid) H eq_refl). split.
    + intros (s & sid' & ro' & Hs & Hsid & Hin).
      apply In_role_flag_errors in Hin as [(Heq & Hp & Hf)|(Heq & _)];
        [|discriminate].
      injection Heq as <- <-. exists s. auto.
    + intros (s & Hs & Hsid & Hp & Hf). exists s, sid, ro.
      repeat split; auto. apply In_role_flag_errors. left. auto.
  - rewrite (flag_error_of_some_suspect data rooms v (SuspectFlagNotRole ro sid) H eq_refl). split.
    + intros (s & sid' & ro' & Hs & Hsid & Hin).
      apply In_role_flag_errors in Hin as [(Heq & _)|(Heq & Hp & Hf)];
        [discriminate|].
      injection Heq as <- <-. exists s. auto.
    + intros (s & Hs & Hsid & Hp & Hf). exists s, sid, ro.
      repeat split; auto. apply In_role_flag_errors. right. auto.
Qed.

Lemma solution_role_ids_resolve_witness :
  outcome (check_suspects_and_solution flags_case [])
  = inr ([VStr "butler"; VStr "maid"], VStr "butler", VStr "ghost", VStr "none")
  /\ (In (SolutionRoleNotFound Accomplice (VStr "ghost"))
         (errors (emitted (check_suspects_and_solution flags_case [])))
      <->
      VStr "ghost" = solution_role flags_case Accomplice /\
      ~ declared_suspect flags_case (VStr "ghost") /\
      (has_sentinel Accomplice = true -> py_eq (VStr "ghost") (VStr "none") = false)).
Proof.
  split; [reflexivity|].
  exact (solution_role_ids_resolve flags_case [] _ eq_refl Accomplice (VStr "ghost")).
Defined.

Lemma suspect_flags_agree_with_roles_witness :
  outcome (check_suspects_and_solution flags_case [])
  = inr ([VStr "butler"; VStr "maid"], VStr "butler", VStr "ghost", VStr "none")
  /\ (In (SuspectRoleFlagUnset Killer (VStr "butler"))
         (errors (emitted (check_suspects_and_solution flags_case [])))
      <->
      exists s, In s (suspects_of flags_case) /\ py_getitem s "id" = inr (VStr "butler") /\
                py_eq (VStr "butler") (solution_role flags_case Killer) = true /\
                flag_set s Killer = false)
  /\ (In (SuspectFlagNotRole Killer (VStr "butler"))
         (errors (emitted (check_suspects_and_solution flags_case [])))
      <->
      exists s, In s (suspects_of flags_case) /\ py_getitem s "id" = inr (VStr "butler") /\
                py_eq (VStr "butler") (solution_role flags_case Killer) = false /\
                flag_set s Killer = true).
Proof.
  split; [reflexivity|].
  exact (suspect_flags_agree_with_roles flags_case [] _ eq_refl Killer (VStr "butler")).
Defined.

(** The errors of [flags_case], in full. *)
Example flags_case_errors :
  errors (emitted (check_suspects_and_solution flags_case [])) =
  [SolutionRoleNotFound Accomplice (VStr "ghost");
   SuspectRoleFlagUnset Killer (VStr "butler");
   SuspectFlagNotRole Killer (VStr "maid")].
Proof. reflexivity. Qed.
(* ------------------------------------------------------------------ *)
(** ** Secret triggers *)

Lemma filter_none {A} (p : A -> bool) (l : list A) :
  Forall (fun x => p x = false) l -> filter p l = [].
Proof.
  induction 1 as [|x l Hx _ IH]; cbn [filter]; [reflexivity|].
  now rewrite Hx.
Qed.

Lemma errors_bind_inr {A B} (m : M A) (f : A -> M B) (a : A) :
  outcome m = inr a ->
  errors (emitted (bind m f)) = errors (emitted m) ++ errors (emitted (f a)).
Proof. intros H. now rewrite errors_bind, H. Qed.

(** The errors of one secret: those of its [requiresEvidence], those of
    its unresolved [requiresSecrets], the self-reference error if the
    secret lists itself, the error of a [minPressure] that is no number. *)
Lemma check_trigger_errors (valid flat : list value) (sid secret : value) :
  outcome (check_trigger valid flat sid secret) = inr tt ->
  let block := errors (emitted (check_trigger valid flat sid secret)) in
  List.length (filter is_self_reference block)
    = (if self_referencing secret then 1 else 0) /\
  (self_referencing secret = true ->
   In (TriggerSelfReference sid (id_of secret)) block) /\
  (forall req, In req (requires_secrets secret) -> list_mem req flat = false ->
               In (TriggerUnknownSecret sid (id_of secret) req) block).
Proof.
  unfold check_trigger. intros H.
  returned H as sec_id. returned H as trigger.
  returned H as requires_evidence. returned H as reqs.
  apply outcome_bind_inr in H as ([] & Hev & H).
  returned H as rsecs. returned H as sreqs.
  apply outcome_bind_inr in H as ([] & Hsec & H).
  rewrite ?bind_lift_inr in *.
  returned H as self.
  apply outcome_bind_inr in H as ([] & _ & H).
  returned H as mp.
  assert (Hid : id_of secret = sec_id) by (unfold id_of; now rewrite Esec_id).
  assert (Hself : self_referencing secret = self).
  { unfold self_referencing. rewrite Etrigger. cbn [rbind].
    rewrite Ersecs. cbn [rbind]. now rewrite Hid, Eself. }
  assert (Hreqs : requires_secrets secret = sreqs).
  { unfold requires_secrets. rewrite Etrigger. cbn [rbind].
    rewrite Ersecs. cbn [rbind]. now rewrite Esreqs. }
  rewrite Hid, Hself, Hreqs. clear Hid Hself Hreqs.
  cbv zeta.
  rewrite (errors_bind_inr _ _ tt Hev), (errors_bind_inr _ _ tt Hsec).
  pose proof (for_each_inr _ _ Hsec) as (Hall & Hsecerrs & _).
  set (Eev := errors (emitted (for_each reqs _))).
  set (Esec := errors (emitted (for_each sreqs _))) in *.
  assert (Hev0 : Forall (fun d => is_self_reference d = false) Eev).
  { subst Eev. apply errors_all_for_each. intros req _. appends; reflexivity. }
  assert (Hsec0 : Forall (fun d => is_self_reference d = false) Esec).
  { subst Esec. apply errors_all_for_each. intros req _. appends; reflexivity. }
  assert (Hrest : errors (emitted
            (when self (err (TriggerSelfReference sid sec_id));;
             when (negb (is_none mp) && negb (is_number mp))
                  (err (TriggerPressureType sid sec_id mp));;
             when (is_number mp && gt_80 mp)
                  (warn (TriggerPressureHigh sid sec_id mp))))
          = (if self then [TriggerSelfReference sid sec_id] else [])
            ++ (if negb (is_none mp) && negb (is_number mp)
                then [TriggerPressureType sid sec_id mp] else [])).
  { destruct self, (negb (is_none mp) && negb (is_number mp)),
      (is_number mp && gt_80 mp); reflexivity. }
  rewrite Hrest. repeat split.
  - rewrite !filter_app, (filter_none _ _ Hev0), (filter_none _ _ Hsec0).
    destruct self, (negb (is_none mp) && negb (is_number mp)); reflexivity.
  - intros ->. rewrite !in_app_iff. right; right; left. now left.
  - intros req Hin Hnot. rewrite !in_app_iff. right; left.
    subst Esec. rewrite Hsecerrs. apply in_flat_map. exists req.
    split; [exact Hin|].
    rewrite Forall_forall in Hall. specialize (Hall req Hin).
    unfold set_mem in *. destruct (hashable req); [|discriminate Hall].
    rewrite bind_lift_inr. unfold list_mem in Hnot. rewrite Hnot.
    cbn. now left.
Qed.

Lemma check_suspect_triggers_errors (valid flat : list value)
    (all : list (value * list value)) (suspect : value) :
  outcome (check_suspect_triggers valid flat all suspect) = inr tt ->
  Forall (fun secret => outcome (check_trigger valid flat (id_of suspect) secret) = inr tt)
         (secrets_of suspect) /\
  errors (emitted (check_suspect_triggers valid flat all suspect)) =
  flat_map (fun secret => errors (emitted (check_trigger valid flat (id_of suspect) secret)))
           (secrets_of suspect).
Proof.
  unfold check_suspect_triggers. intros H.
  returned H as sid. returned H as own. returned H as secrets.
  returned H as secret_list.
  assert (Hid : id_of suspect = sid) by (unfold id_of; now rewrite Esid).
  assert (Hsec : secrets_of suspect = secret_list).
  { unfold secrets_of. rewrite Esecrets. cbn [rbind]. now rewrite Esecret_list. }
  rewrite Hid, Hsec.
  pose proof (for_each_inr _ _ H) as (Hall & Herrs & _). auto.
Qed.

Lemma Forall2_map_r {A B} (P : A -> B -> Prop) (f : A -> B) (l : list A) :
  Forall (fun x => P x (f x)) l -> Forall2 P l (map f l).
Proof. induction 1; cbn [map]; constructor; auto. Qed.

Lemma concat_map_flat_map {A B C} (f : B -> list C) (g : A -> list B) (l : list A) :
  List.concat (map f (flat_map g l)) = flat_map (fun x => List.concat (map f (g x))) l.
Proof.
  induction l as [|x l IH]; cbn [flat_map map List.concat]; [reflexivity|].
  now rewrite map_app, concat_app, IH.
Qed.

Lemma concat_map_map {A B C} (f : B -> list C) (g : A -> B) (l : list A) :
  List.concat (map f (map g l)) = flat_map (fun x => f (g x)) l.
Proof.
  induction l as [|x l IH]; cbn [flat_map map List.concat]; [reflexivity|].
  now rewrite IH.
Qed.

Lemma flat_map_ext_in {A B} (f g : A -> list B) (l : list A) :
  (forall x, In x l -> f x = g x) -> flat_map f l = flat_map g l.
Proof.
  induction l as [|x l IH]; intros H; cbn [flat_map]; [reflexivity|].
  rewrite (H x) by now left. rewrite IH; [reflexivity|].
  intros y Hy. apply H. now right.
Qed.

(** C7. When [check_secret_triggers] returns, the errors it recorded are,
    in document order, one block per declared secret, and the block of a
    secret holds exactly one self-reference error, naming the suspect and
    the secret, when the [requiresSecrets] of the secret contains its own
    id, however often and whether or not that id resolves, and none
    otherwise; the block also holds the unknown-secret error of every
    entry of [requiresSecrets] that does not resolve. *)
Theorem self_reference_reported_once (data : value) (rooms : list string) :
  outcome (check_secret_triggers data rooms) = inr tt ->
  exists blocks : list (list diag),
    errors (emitted (check_secret_triggers data rooms)) = List.concat blocks /\
    Forall2 (fun entry block =>
               List.length (filter is_self_reference block)
                 = (if self_referencing (snd entry) then 1 else 0) /\
               (self_referencing (snd entry) = true ->
                In (TriggerSelfReference (fst entry) (id_of (snd entry))) block) /\
               (forall req, In req (requires_secrets (snd entry)) ->
                            resolves data req = false ->
                            In (TriggerUnknownSecret (fst entry) (id_of (snd entry)) req)
                               block))
            (declared_secrets data) blocks.
Proof.
  unfold check_secret_triggers. intros H.
  returned H as evidence. returned H as phys_ev. returned H as phys_ev_ids.
  returned H as digital_logs. returned H as digital_log_ids.
  returned H as footage. returned H as footage_ids.
  returned H as all_secret_ids. returned H as suspects.
  returned H as suspect_list.
  rewrite ?bind_lift_inr in *.
  set (valid := map VStr (phys_ev_ids ++ digital_log_ids ++ footage_ids ++ rooms)) in *.
  set (flat := List.concat (map snd all_secret_ids)) in *.
  apply outcome_bind_inr in H as ([] & Hloop & H).
  rewrite (errors_bind_inr _ _ tt Hloop).
  pose proof (for_each_inr _ _ Hloop) as (Hall & Herrs & _).
  rewrite Herrs. cbv beta. rewrite ?bind_lift_inr, Esuspect_list, bind_lift_inr.
  rewrite (errors_all_False (for_each suspect_list check_suspect_pressures)),
    app_nil_r.
  2:{ apply errors_all_for_each. intros s _.
      unfold check_suspect_pressures, check_pressure_order. appends. }
  assert (Hsus : suspects_of data = suspect_list).
  { unfold suspects_of. rewrite Esuspects. cbn [rbind]. now rewrite Esuspect_list. }
  assert (Hres : forall req, resolves data req = list_mem req flat).
  { intros req. unfold resolves. now rewrite Eall_secret_ids. }
  rewrite Forall_forall in Hall.
  exists (map (fun entry => errors (emitted (check_trigger valid flat (fst entry) (snd entry))))
              (declared_secrets data)).
  split.
  - unfold declared_secrets. rewrite Hsus, concat_map_flat_map.
    apply flat_map_ext_in. intros s Hs.
    rewrite concat_map_map. cbn [fst snd].
    now destruct (check_suspect_triggers_errors valid flat all_secret_ids s (Hall s Hs)).
  - apply Forall2_map_r. apply Forall_forall. intros [sid secret] Hin.
    unfold declared_secrets in Hin. rewrite Hsus in Hin.
    apply in_flat_map in Hin as (s & Hs & Hin).
    apply in_map_iff in Hin as (secret' & Heq & Hsec). injection Heq as <- <-.
    destruct (check_suspect_triggers_errors valid flat all_secret_ids s (Hall s Hs))
      as (Hok & _).
    rewrite Forall_forall in Hok. cbn [fst snd].
    destruct (check_trigger_errors valid flat (id_of s) secret' (Hok _ Hsec))
      as (Hcount & Hself & Hunk).
    repeat split; auto.
    intros req Hreq Hr. apply Hunk; [exact Hreq|]. now rewrite <- Hres.
Qed.

Lemma self_reference_reported_once_witness :
  outcome (check_secret_triggers self_reference_case []) = inr tt /\
  exists blocks : list (list diag),
    errors (emitted (check_secret_triggers self_reference_case [])) = List.concat blocks /\
    Forall2 (fun entry block =>
               List.length (filter is_self_reference block)
                 = (if self_referencing (snd entry) then 1 else 0) /\
               (self_referencing (snd entry) = true ->
                In (TriggerSelfReference (fst entry) (id_of (snd entry))) block) /\
               (forall req, In req (requires_secrets (snd entry)) ->
                            resolves self_reference_case req = false ->
                            In (TriggerUnknownSecret (fst entry) (id_of (snd entry)) req)
                               block))
            (declared_secrets self_reference_case) blocks.
Proof.
  split; [reflexivity|].
  exact (self_reference_reported_once self_reference_case [] eq_refl).
Defined.

(** One self-reference error for the secret that lists itself twice. *)
Example self_reference_case_errors :
  errors (emitted (check_secret_triggers self_reference_case [])) =
  [TriggerUnknownSecret (VStr "maid") (VStr "affair") (VStr "debt");
   TriggerSelfReference (VStr "maid") (VStr "affair")].
Proof. reflexivity. Qed.

(** The self-reference error comes on top of the unknown-secret error. *)
Example shadowed_secret_case_errors :
  errors (emitted (check_secret_triggers shadowed_secret_case [])) =
  [TriggerUnknownSecret (VStr "maid") (VStr "affair") (VStr "affair");
   TriggerSelfReference (VStr "maid") (VStr "affair")].
Proof. reflexivity. Qed.
(* ------------------------------------------------------------------ *)
(** ** One-way connections *)

Lemma py_eq_str_l (b : string) (x : value) :
  py_eq (VStr b) x = match x with VStr t => String.eqb b t | _ => false end.
Proof. destruct x; reflexivity. Qed.

Lemma str_mem_In (x : string) (l : list string) : str_mem x l = true <-> In x l.
Proof.
  unfold str_mem. rewrite existsb_exists. split.
  - intros (y & Hy & Heq). apply String.eqb_eq in Heq. now subst.
  - intros H. exists x. split; [exact H|apply String.eqb_refl].
Qed.

Lemma count_str_pos (x : string) (l : list string) :
  str_mem x l = negb (Nat.eqb (count_str x l) 0).
Proof.
  unfold str_mem, count_str. induction l as [|y l IH]; cbn [existsb filter]; [reflexivity|].
  destruct (String.eqb x y); cbn [orb List.length]; [reflexivity|exact IH].
Qed.

Lemma list_mem_count (x : value) (l : list value) :
  list_mem x l = negb (Nat.eqb (List.length (filter (py_eq x) l)) 0).
Proof.
  unfold list_mem. induction l as [|y l IH]; cbn [existsb filter]; [reflexivity|].
  destruct (py_eq x y); cbn [orb List.length]; [reflexivity|exact IH].
Qed.

(** [adj[room_id]] keeps the targets that are rooms, as often as listed. *)
Lemma valid_targets_count (rooms : list string) (room_id : string)
    (targets : list value) (neighbors : list string) :
  outcome (valid_targets rooms room_id targets) = inr neighbors ->
  warnings (emitted (valid_targets rooms room_id targets)) = [] /\
  forall b, count_str b neighbors =
            if str_mem b rooms then List.length (filter (py_eq (VStr b)) targets) else 0.
Proof.
  revert neighbors. induction targets as [|target targets IH]; intros neighbors H.
  - cbn in H. injection H as <-. split; [reflexivity|].
    intros b. now destruct (str_mem b rooms).
  - cbn [valid_targets] in *. returned H as found.
    unfold find_room in Efound.
    destruct (hashable target); [|discriminate]. injection Efound as <-.
    assert (Hcase : forall b,
              (if py_eq (VStr b) target then 1 else 0) * (if str_mem b rooms then 1 else 0)
              = match match target with
                      | VStr t => if str_mem t rooms then Some t else None
                      | _ => None
                      end with
                | Some t => if String.eqb b t then 1 else 0
                | None => 0
                end).
    { intros b. rewrite py_eq_str_l. destruct target; try reflexivity.
      destruct (String.eqb b s) eqn:Ebs.
      - apply String.eqb_eq in Ebs as ->.
        destruct (str_mem s rooms); rewrite ?String.eqb_refl; reflexivity.
      - destruct (str_mem s rooms); rewrite ?Ebs; reflexivity. }
    destruct (match target with VStr t => _ | _ => None end) as [t|] eqn:Et.
    + apply outcome_bind_inr in H as (ns & Hns & H). cbn in H. injection H as <-.
      destruct (IH ns Hns) as (Hw & Hc).
      split.
      * rewrite warnings_bind, Hw, Hns. reflexivity.
      * intros b. specialize (Hcase b). specialize (Hc b).
        unfold count_str in *. cbn [filter].
        destruct (String.eqb b t), (py_eq (VStr b) target), (str_mem b rooms);
          cbn [List.length] in *; lia.
    + apply outcome_bind_inr in H as ([] & _ & H).
      destruct (IH neighbors H) as (Hw & Hc).
      split.
      * rewrite warnings_bind. cbn. exact Hw.
      * intros b. specialize (Hcase b). specialize (Hc b). cbn [filter].
        destruct (py_eq (VStr b) target), (str_mem b rooms);
          cbn [List.length] in *; lia.
Qed.

Lemma room_connects_listed (room_info connects : value) :
  outcome (room_connects room_info) = inr connects ->
  warnings (emitted (room_connects room_info)) = [] /\
  forall l, py_iter connects = inr l -> listed_connections room_info = l.
Proof.
  unfold room_connects. intros H. split.
  - apply warnings_all_False. appends.
  - intros l Hl. destruct room_info; cbn [is_dict is_list] in H;
      try (cbn in H; injection H as <-; cbn in Hl; now injection Hl as <-).
    + cbn [py_get] in H. rewrite bind_lift_inr in H.
      returned H as interactables. returned H as items.
      apply outcome_bind_inr in H as ([] & _ & H). cbn in H. injection H as <-.
      cbn [listed_connections]. now rewrite Hl.
Qed.

Lemma build_adj_entries (rooms : list string) (items : list (string * value))
    (adj : list (string * list string)) :
  outcome (build_adj rooms items) = inr adj ->
  warnings (emitted (build_adj rooms items)) = [] /\
  Forall2 (adj_entry_ok rooms) items adj.
Proof.
  revert adj. induction items as [|[room_id room_info] items IH]; intros adj H.
  - cbn in H. injection H as <-. split; [reflexivity|constructor].
  - cbn [build_adj] in *.
    apply outcome_bind_inr in H as (connects & Hc & H).
    destruct (room_connects_listed _ _ Hc) as (Hcw & Hlisted).
    returned H as targets.
    apply outcome_bind_inr in H as (neighbors & Hn & H).
    destruct (valid_targets_count _ _ _ _ Hn) as (Hnw & Hcount).
    apply outcome_bind_inr in H as (adj' & Ha & H).
    destruct (IH adj' Ha) as (Haw & Hall).
    cbn in H. injection H as <-. split.
    + rewrite warnings_bind, Hcw, Hc. cbn [app].
      rewrite Etargets, bind_lift_inr.
      rewrite warnings_bind, Hnw, Hn. cbn [app].
      rewrite warnings_bind, Haw, Ha. reflexivity.
    + constructor; [|exact Hall]. split; [reflexivity|].
      cbn [snd]. rewrite (Hlisted targets eq_refl). exact Hcount.
Qed.

Lemma for_each_total {A} (l : list A) (body : A -> M unit) :
  (forall x, outcome (body x) = inr tt) -> outcome (for_each l body) = inr tt.
Proof.
  intros H. induction l as [|x l IH]; [reflexivity|].
  cbn [for_each]. now rewrite outcome_bind, H.
Qed.

(** The bidirectional check always runs to its end. *)
Lemma check_one_way_emitted (adj : list (string * list string)) :
  outcome (check_one_way adj) = inr tt /\
  warnings (emitted (check_one_way adj)) = flat_map (one_way_of adj) adj.
Proof.
  assert (Hin : forall entry : string * list string,
            outcome (for_each (snd entry) (fun target =>
               when (negb (str_mem (fst entry) (adj_get target adj)))
                    (warn (MapOneWay (fst entry) target)))) = inr tt).
  { intros entry. apply for_each_total. intros t.
    now destruct (str_mem (fst entry) (adj_get t adj)). }
  assert (Hout : outcome (check_one_way adj) = inr tt).
  { unfold check_one_way. apply for_each_total. exact Hin. }
  split; [exact Hout|].
  unfold check_one_way in *.
  destruct (for_each_inr _ _ Hout) as (_ & _ & ->).
  apply flat_map_ext_in. intros entry _.
  destruct (for_each_inr _ _ (Hin entry)) as (_ & _ & ->).
  unfold one_way_of. apply flat_map_ext_in. intros t _.
  now destruct (str_mem (fst entry) (adj_get t adj)).
Qed.

Lemma one_way_warnings_app (a b : string) (l m : list diag) :
  one_way_warnings a b (l ++ m) = one_way_warnings a b l + one_way_warnings a b m.
Proof. unfold one_way_warnings. now rewrite filter_app, length_app. Qed.

Lemma one_way_of_count (adj : list (string * list string)) (a b k : string)
    (ns : list string) :
  one_way_warnings a b (one_way_of adj (k, ns)) =
  if String.eqb k a && negb (str_mem k (adj_get b adj)) then count_str b ns else 0.
Proof.
  unfold one_way_of. cbn [fst snd].
  induction ns as [|t ns IH]; cbn [flat_map].
  - now destruct (_ && _).
  - rewrite one_way_warnings_app, IH. unfold count_str. cbn [filter].
    destruct (String.eqb k a) eqn:Eka; cbn [andb].
    + destruct (String.eqb b t) eqn:Ebt.
      * apply String.eqb_eq in Ebt as <-.
        destruct (str_mem k (adj_get b adj)); cbn [negb one_way_warnings filter List.length];
          [reflexivity|].
        unfold one_way_warnings. cbn [filter is_one_way].
        rewrite Eka, String.eqb_refl. reflexivity.
      * destruct (str_mem k (adj_get t adj)); cbn [negb];
          unfold one_way_warnings; cbn [filter is_one_way List.length].
        -- reflexivity.
        -- rewrite String.eqb_sym in Ebt. rewrite Eka, Ebt. reflexivity.
    + destruct (str_mem k (adj_get t adj)); unfold one_way_warnings;
        cbn [filter is_one_way List.length]; rewrite ?Eka; reflexivity.
Qed.

Lemma adj_get_not_key (a : string) (l : list (string * list string)) :
  ~ In a (map fst l) -> adj_get a l = [].
Proof.
  unfold adj_get. induction l as [|[k ns] l IH]; cbn [map fst dict_lookup In];
    [reflexivity|].
  intros H. destruct (String.eqb a k) eqn:E.
  - apply String.eqb_eq in E. subst. tauto.
  - apply IH. tauto.
Qed.

Lemma adj_get_cons (a k : string) (ns : list string) (l : list (string * list string)) :
  adj_get a ((k, ns) :: l) = if String.eqb a k then ns else adj_get a l.
Proof. unfold adj_get. cbn [dict_lookup]. now destruct (String.eqb a k). Qed.

Lemma one_way_count_entries (adj l : list (string * list string)) (a b : string) :
  NoDup (map fst l) ->
  one_way_warnings a b (flat_map (one_way_of adj) l) =
  if str_mem a (adj_get b adj) then 0 else count_str b (adj_get a l).
Proof.
  induction l as [|[k ns] l IH]; intros Hnd.
  - cbn. now destruct (str_mem a (adj_get b adj)).
  - cbn [flat_map]. rewrite one_way_warnings_app, one_way_of_count.
    cbn [map fst] in Hnd. inversion Hnd as [|? ? Hk Hnd']; subst.
    rewrite (IH Hnd'), adj_get_cons, (String.eqb_sym a k).
    destruct (String.eqb k a) eqn:Eka; cbn [andb].
    + apply String.eqb_eq in Eka as ->.
      rewrite (adj_get_not_key a l Hk).
      destruct (str_mem a (adj_get b adj)); cbn; lia.
    + reflexivity.
Qed.

Lemma adj_entries_lookup (rooms : list string) (items : list (string * value))
    (adj : list (string * list string)) :
  Forall2 (adj_entry_ok rooms) items adj ->
  map fst adj = map fst items /\
  forall k b,
    count_str b (adj_get k adj) =
    if str_mem b rooms
    then List.length (filter (py_eq (VStr b))
                        (match dict_lookup k items with
                         | Some room_info => listed_connections room_info
                         | None => []
                         end))
    else 0.
Proof.
  induction 1 as [|[k0 info] [k0' ns] items adj [Hk Hc] _ [IHk IH]].
  - split; [reflexivity|]. intros k b. cbn. now destruct (str_mem b rooms).
  - cbn [fst snd] in *. subst k0'. split; [cbn [map fst]; now rewrite IHk|].
    intros k b. rewrite adj_get_cons. cbn [dict_lookup].
    destruct (String.eqb k k0); [apply Hc|apply IH].
Qed.

Lemma no_map_no_entries (data : value) :
  py_in (VStr "map") data = inr false -> room_entries data = [].
Proof.
  unfold room_entries. destruct data; try reflexivity.
  rewrite py_in_dict. cbn [py_getitem].
  destruct (dict_lookup "map" d); [discriminate|reflexivity].
Qed.

Lemma after_one_way_warnings set_order (data : value) (rooms : list string)
    (adj : list (string * list string)) (a b : string) :
  warnings_all (fun d => is_one_way a b d = false)
    (check_connectivity set_order rooms adj ;;
     murder_loc <~ py_get data "murderLocation" VNone ;;
     when (truthy murder_loc)
       (known <~ in_rooms murder_loc rooms ;;
        when (negb known) (err (MapMurderLocation murder_loc))) ;;
     ret (rooms, adj)).
Proof. unfold check_connectivity. appends. reflexivity. Qed.

(** C8, as amended. When [check_map] returns on a map whose room ids are
    pairwise distinct, the number of one-way warnings that name a pair of
    declared rooms (A, B) is the number of times A lists B if B does not
    list A, and zero if B lists A: one warning for (A, B) when A lists B
    once, and none for (B, A) when B does not list A. *)
Theorem one_way_warnings_per_listing (set_order : list string -> list string)
    (data : value) v (a b : string) :
  outcome (check_map set_order data) = inr v ->
  NoDup (map fst (room_entries data)) ->
  declared_room data a = true ->
  declared_room data b = true ->
  one_way_warnings a b (warnings (emitted (check_map set_order data))) =
  if lists data b a then 0 else times_listed data a b.
Proof.
  unfold check_map. intros H Hnd Ha Hb.
  returned H as has_map. destruct has_map; cbn [negb] in *.
  2:{ unfold declared_room in Ha. now rewrite (no_map_no_entries data Ehas_map) in Ha. }
  returned H as map_. returned H as items.
  assert (Hent : room_entries data = items).
  { unfold room_entries. rewrite Emap_. cbn [rbind]. now rewrite Eitems. }
  unfold declared_room, lists, times_listed, connections_of in *.
  rewrite Hent in *. clear Hent.
  set (rooms := map fst items) in *.
  apply outcome_bind_inr in H as (adj & Hadj & H).
  destruct (build_adj_entries rooms items adj Hadj) as (Hbw & Hall).
  destruct (adj_entries_lookup rooms items adj Hall) as (Hkeys & Hlook).
  destruct (check_one_way_emitted adj) as (Hone & Hww).
  rewrite warnings_bind, Hbw, Hadj. cbn [app].
  rewrite warnings_bind, Hww, Hone, one_way_warnings_app.
  pose proof (after_one_way_warnings set_order data rooms adj a b) as Hrest.
  unfold warnings_all in Hrest. unfold one_way_warnings at 2.
  rewrite (filter_none _ _ Hrest). cbn [List.length]. rewrite Nat.add_0_r.
  rewrite one_way_count_entries by now rewrite Hkeys.
  rewrite count_str_pos, list_mem_count, !Hlook, Ha, Hb. reflexivity.
Qed.

Lemma one_way_warnings_per_listing_witness :
  outcome (check_map (fun l => l) once_listed_case)
  = inr (["hall"; "study"], [("hall", ["study"]); ("study", [])])
  /\ NoDup (map fst (room_entries once_listed_case))
  /\ declared_room once_listed_case "hall" = true
  /\ declared_room once_listed_case "study" = true
  /\ one_way_warnings "hall" "study"
       (warnings (emitted (check_map (fun l => l) once_listed_case)))
     = if lists once_listed_case "study" "hall" then 0
       else times_listed once_listed_case "hall" "study".
Proof.
  assert (Hnd : NoDup (map fst (room_entries once_listed_case))).
  { cbn. repeat constructor; cbn; intuition discriminate. }
  split; [reflexivity|]. split; [exact Hnd|].
  split; [reflexivity|]. split; [reflexivity|].
  exact (one_way_warnings_per_listing (fun l => l) once_listed_case _
           "hall" "study" eq_refl Hnd eq_refl eq_refl).
Defined.

(** C8 as stated fails: the hall lists the study twice, the study does
    not list the hall, and two one-way warnings name (hall, study). *)
Lemma one_way_warned_twice :
  declared_room twice_listed_case "hall" = true /\
  declared_room twice_listed_case "study" = true /\
  lists twice_listed_case "hall" "study" = true /\
  lists twice_listed_case "study" "hall" = false /\
  warnings (emitted (check_map (fun l => l) twice_listed_case))
  = [MapOneWay "hall" "study"; MapOneWay "hall" "study"] /\
  one_way_warnings "hall" "study"
    (warnings (emitted (check_map (fun l => l) twice_listed_case))) <> 1.
Proof. repeat split. vm_compute. discriminate. Qed.

(** Listed once, warned once, and nothing on the side of the study. *)
Example once_listed_case_warnings :
  warnings (emitted (check_map (fun l => l) once_listed_case))
  = [MapOneWay "hall" "study"].
Proof. reflexivity. Qed.
(* ------------------------------------------------------------------ *)
(** ** Well-formed documents *)

Lemma wf_value_lookup (d : list (string * value)) (k : string) (v : value) :
  wf_value (VDict d) -> dict_lookup k d = Some v -> wf_value v.
Proof.
  cbn [wf_value]. intros [_ Hall]. induction d as [|[k' v'] d IH]; [discriminate|].
  cbn [dict_lookup]. destruct Hall as [Hv' Hall].
  destruct (String.eqb k k'); [intros E; now injection E as <-|now apply IH].
Qed.

(** In a well-formed document the room ids are pairwise distinct. *)
Lemma wf_room_entries (data : value) :
  wf_value data -> NoDup (map fst (room_entries data)).
Proof.
  intros Hwf. unfold room_entries.
  destruct data as [| | | | | |d]; try constructor.
  cbn [py_getitem]. destruct (dict_lookup "map" d) as [m|] eqn:Em; [|constructor].
  cbn [rbind]. pose proof (wf_value_lookup d "map" m Hwf Em) as Hm.
  destruct m; try constructor. cbn [py_items]. apply Hm.
Qed.

(* ------------------------------------------------------------------ *)
(** ** Two runs on one document *)

Lemma same_refl {A} (m : M A) : same_up_to_warning_order m m.
Proof. repeat split. apply Permutation_refl. Qed.

Lemma same_bind {A B} (m1 m2 : M A) (f1 f2 : A -> M B) :
  same_up_to_warning_order m1 m2 ->
  (forall a, outcome m1 = inr a -> same_up_to_warning_order (f1 a) (f2 a)) ->
  same_up_to_warning_order (bind m1 f1) (bind m2 f2).
Proof.
  intros (He & Hw & Ho) Hf. unfold same_up_to_warning_order.
  rewrite !errors_bind, !warnings_bind, !outcome_bind, <- Ho, He.
  destruct (outcome m1) as [e|a].
  - rewrite !app_nil_r. auto.
  - destruct (Hf a eq_refl) as (He' & Hw' & Ho').
    rewrite He'. repeat split; [|exact Ho'].
    now apply Permutation_app.
Qed.

Lemma flat_map_nil {A B} (f : A -> list B) (l : list A) :
  (forall x, f x = []) -> flat_map f l = [].
Proof. intros H. induction l as [|x l IH]; cbn; [reflexivity|now rewrite H]. Qed.

(** A loop over a set whose body only warns and always returns: the
    arrangement shows in the order of the warnings and nowhere else. *)
Lemma same_for_each (l1 l2 : list string) (body : string -> M unit) :
  (forall x, outcome (body x) = inr tt /\ errors (emitted (body x)) = []) ->
  Permutation l1 l2 ->
  same_up_to_warning_order (for_each l1 body) (for_each l2 body).
Proof.
  intros Hbody Hperm.
  assert (H1 : outcome (for_each l1 body) = inr tt)
    by (apply for_each_total; intros x; apply Hbody).
  assert (H2 : outcome (for_each l2 body) = inr tt)
    by (apply for_each_total; intros x; apply Hbody).
  destruct (for_each_inr _ _ H1) as (_ & He1 & Hw1).
  destruct (for_each_inr _ _ H2) as (_ & He2 & Hw2).
  unfold same_up_to_warning_order. rewrite He1, He2, Hw1, Hw2, H1, H2.
  rewrite !flat_map_nil by (intros x; apply Hbody).
  repeat split. now apply Permutation_flat_map.
Qed.

Lemma arrangements_agree (o1 o2 : list string -> list string) (l : list string) :
  arrangement o1 -> arrangement o2 -> Permutation (o1 l) (o2 l).
Proof.
  intros H1 H2. transitivity l; [apply H1|symmetry; apply H2].
Qed.

(** Goes through two runs of one check side by side. *)
Ltac side_by_side :=
  repeat first
    [ apply same_refl
    | apply same_bind; [|intros ? _]
    | match goal with
      | |- same_up_to_warning_order (when ?c _) (when ?c _) =>
          destruct c; cbn [when]
      | |- same_up_to_warning_order (if ?c then _ else _) (if ?c then _ else _) =>
          destruct c
      | |- same_up_to_warning_order (match ?x with _ => _ end)
                                    (match ?x with _ => _ end) =>
          destruct x
      end ].

Lemma same_check_map (o1 o2 : list string -> list string) (data : value) :
  arrangement o1 -> arrangement o2 ->
  same_up_to_warning_order (check_map o1 data) (check_map o2 data).
Proof.
  intros H1 H2. unfold check_map. side_by_side.
  unfold check_connectivity. destruct (map fst a1) as [|start rooms]; [apply same_refl|].
  apply same_for_each; [intros x; split; reflexivity|].
  now apply arrangements_agree.
Qed.

Lemma same_check_evidence_ids (o1 o2 : list string -> list string) (data : value)
    (rooms : list string) (suspect_ids : list value) (killer_id : value) :
  arrangement o1 -> arrangement o2 ->
  same_up_to_warning_order
    (check_evidence_ids o1 data rooms suspect_ids killer_id)
    (check_evidence_ids o2 data rooms suspect_ids killer_id).
Proof.
  intros H1 H2. unfold check_evidence_ids.
  repeat (apply same_bind; [apply same_refl|intros ? _]).
  apply same_bind; [|intros ? _; apply same_refl].
  apply same_for_each; [|now apply arrangements_agree].
  intros x. now destruct (negb _).
Qed.

Lemma same_run_checks (o1 o2 : list string -> list string)
    (path_exists : string -> bool) (json_dumps : value -> string) (data : value) :
  arrangement o1 -> arrangement o2 ->
  same_up_to_warning_order (run_checks o1 path_exists json_dumps data)
                           (run_checks o2 path_exists json_dumps data).
Proof.
  intros H1 H2. unfold run_checks.
  apply same_bind; [apply same_refl|intros _ _].
  apply same_bind; [now apply same_check_map|intros [rooms adj] _].
  apply same_bind; [apply same_refl|intros [[[ids k] a] w] _].
  apply same_bind; [now apply same_check_evidence_ids|intros _ _].
  apply same_refl.
Qed.

Lemma arrangement_id : arrangement (fun l => l).
Proof. intros l. apply Permutation_refl. Qed.

Lemma arrangement_rev : arrangement (@rev string).
Proof. intros l. symmetry. apply Permutation_rev. Qed.

(** *** Where the two runs may differ *)

Lemma block_same (kind : diag -> bool) {A} (m : M A) : differ_in_block kind m m.
Proof.
  split; [reflexivity|]. split; [reflexivity|].
  exists (warnings (emitted m)), [], [], [].
  rewrite !app_nil_r. repeat split; constructor.
Qed.

(** The same step first, then two continuations that differ in a block. *)
Lemma block_bind_same_l (kind : diag -> bool) {A B} (m : M A) (f1 f2 : A -> M B) :
  (forall a, outcome m = inr a -> differ_in_block kind (f1 a) (f2 a)) ->
  differ_in_block kind (bind m f1) (bind m f2).
Proof.
  intros Hf. unfold differ_in_block.
  rewrite !errors_bind, !warnings_bind, !outcome_bind.
  destruct (outcome m) as [e|a].
  - split; [reflexivity|]. split; [reflexivity|].
    exists (warnings (emitted m) ++ []), [], [], [].
    rewrite !app_nil_r. repeat split; constructor.
  - destruct (Hf a eq_refl) as (He & Ho & before & b1 & b2 & after & -> & -> & Hp & Hk).
    rewrite He. split; [reflexivity|]. split; [exact Ho|].
    exists (warnings (emitted m) ++ before), b1, b2, after.
    rewrite <- !app_assoc. now repeat split.
Qed.

(** Two steps that differ in a block, then the same continuation. *)
Lemma block_bind_same_r (kind : diag -> bool) {A B} (m1 m2 : M A) (f : A -> M B) :
  differ_in_block kind m1 m2 ->
  differ_in_block kind (bind m1 f) (bind m2 f).
Proof.
  intros (He & Ho & before & b1 & b2 & after & Hw1 & Hw2 & Hp & Hk).
  unfold differ_in_block.
  rewrite !errors_bind, !warnings_bind, !outcome_bind, <- Ho, He, Hw1, Hw2.
  split; [reflexivity|]. split; [reflexivity|].
  exists before, b1, b2,
    (after ++ match outcome m1 with
              | inl _ => []
              | inr a => warnings (emitted (f a))
              end).
  rewrite <- !app_assoc. now repeat split.
Qed.

(** A loop over a set whose body always returns, records no error and
    warns with warnings of one kind only: the block. *)
Lemma block_for_each (kind : diag -> bool) (l1 l2 : list string)
    (body : string -> M unit) :
  (forall x, outcome (body x) = inr tt /\ errors (emitted (body x)) = [] /\
             Forall (fun d => kind d = true) (warnings (emitted (body x)))) ->
  Permutation l1 l2 ->
  differ_in_block kind (for_each l1 body) (for_each l2 body).
Proof.
  intros Hbody Hperm.
  assert (H1 : outcome (for_each l1 body) = inr tt)
    by (apply for_each_total; intros x; apply Hbody).
  assert (H2 : outcome (for_each l2 body) = inr tt)
    by (apply for_each_total; intros x; apply Hbody).
  destruct (for_each_inr _ _ H1) as (_ & He1 & Hw1).
  destruct (for_each_inr _ _ H2) as (_ & He2 & Hw2).
  unfold differ_in_block. rewrite He1, He2, Hw1, Hw2, H1, H2.
  rewrite !flat_map_nil by (intros x; apply Hbody).
  split; [reflexivity|]. split; [reflexivity|].
  exists [], (flat_map (fun x => warnings (emitted (body x))) l1),
    (flat_map (fun x => warnings (emitted (body x))) l2), [].
  rewrite !app_nil_r. cbn [app]. repeat split.
  - now apply Permutation_flat_map.
  - apply Forall_flat_map. apply Forall_forall. intros x _. apply Hbody.
Qed.

(** The same step first, then two continuations that differ in the two
    blocks. *)
Lemma loops_bind_same_l {A B} (m : M A) (f1 f2 : A -> M B) :
  (forall a, outcome m = inr a -> same_up_to_set_loops (f1 a) (f2 a)) ->
  same_up_to_set_loops (bind m f1) (bind m f2).
Proof.
  intros Hf. unfold same_up_to_set_loops.
  rewrite !errors_bind, !warnings_bind, !outcome_bind.
  destruct (outcome m) as [e|a].
  - split; [reflexivity|]. split; [reflexivity|].
    exists (warnings (emitted m) ++ []), [], [], [], [], [], [].
    rewrite !app_nil_r. repeat split; constructor.
  - destruct (Hf a eq_refl)
      as (He & Ho & before & u1 & u2 & between & d1 & d2 & after
          & -> & -> & Hpu & Hku & Hpd & Hkd).
    rewrite He. split; [reflexivity|]. split; [exact Ho|].
    exists (warnings (emitted m) ++ before), u1, u2, between, d1, d2, after.
    rewrite <- !app_assoc. now repeat split.
Qed.

(** Two steps that differ in the block of the unreachable rooms, then
    two continuations that differ in the block of the evidence. *)
Lemma loops_bind {A B} (m1 m2 : M A) (f1 f2 : A -> M B) :
  differ_in_block is_unreachable_warning m1 m2 ->
  (forall a, outcome m1 = inr a ->
             differ_in_block is_undiscoverable_warning (f1 a) (f2 a)) ->
  same_up_to_set_loops (bind m1 f1) (bind m2 f2).
Proof.
  intros (He & Ho & before & u1 & u2 & after & Hw1 & Hw2 & Hpu & Hku) Hf.
  unfold same_up_to_set_loops.
  rewrite !errors_bind, !warnings_bind, !outcome_bind, <- Ho, He, Hw1, Hw2.
  destruct (outcome m1) as [e|a].
  - split; [reflexivity|]. split; [reflexivity|].
    exists before, u1, u2, after, [], [], [].
    rewrite !app_nil_r, <- ?app_assoc. repeat split; auto.
  - destruct (Hf a eq_refl)
      as (He' & Ho' & before' & d1 & d2 & after' & -> & -> & Hpd & Hkd).
    rewrite He'. split; [reflexivity|]. split; [exact Ho'|].
    exists before, u1, u2, (after ++ before'), d1, d2, after'.
    rewrite <- !app_assoc. now repeat split.
Qed.

Lemma check_map_differs_in_block (o1 o2 : list string -> list string) (data : value) :
  arrangement o1 -> arrangement o2 ->
  differ_in_block is_unreachable_warning (check_map o1 data) (check_map o2 data).
Proof.
  intros H1 H2. unfold check_map.
  apply block_bind_same_l. intros has_map _.
  destruct (negb has_map); [apply block_same|].
  apply block_bind_same_l. intros map_ _.
  apply block_bind_same_l. intros items _. cbv zeta.
  apply block_bind_same_l. intros adj _.
  apply block_bind_same_l. intros _ _.
  apply block_bind_same_r.
  unfold check_connectivity. destruct (map fst items) as [|start rooms]; [apply block_same|].
  apply block_for_each; [|now apply arrangements_agree].
  intros x. repeat split. now repeat constructor.
Qed.

Lemma check_evidence_ids_differs_in_block (o1 o2 : list string -> list string)
    (data : value) (rooms : list string) (suspect_ids : list value) (killer_id : value) :
  arrangement o1 -> arrangement o2 ->
  differ_in_block is_undiscoverable_warning
    (check_evidence_ids o1 data rooms suspect_ids killer_id)
    (check_evidence_ids o2 data rooms suspect_ids killer_id).
Proof.
  intros H1 H2. unfold check_evidence_ids.
  repeat (apply block_bind_same_l; intros ? _).
  apply block_bind_same_r.
  apply block_for_each; [|now apply arrangements_agree].
  intros x. destruct (negb _); cbn [when]; repeat split; now repeat constructor.
Qed.

(** C3, as amended. Two runs of the verifier on one text, one parsed
    document and one filesystem, each running through its sets in an
    arrangement of its own, end the same way (both return or both raise
    the same exception) with the same errors in the same order, and their
    warnings are one sequence but for two places: the run of the
    unreachable-room warnings and the run of the never-discoverable
    warnings each hold the same warnings in both runs, possibly in
    another order; every warning before, between and after these two runs
    is the same, at the same place, in both. *)
Theorem runs_differ_only_inside_set_loops (o1 o2 : list string -> list string)
    (path_exists : string -> bool) (json_dumps : value -> string)
    (raw_text : string) (data : value) :
  arrangement o1 -> arrangement o2 ->
  same_up_to_set_loops
    (verifier_run o1 path_exists json_dumps raw_text data)
    (verifier_run o2 path_exists json_dumps raw_text data).
Proof.
  intros H1 H2. unfold verifier_run, run_checks.
  apply loops_bind_same_l. intros _ _.
  apply loops_bind_same_l. intros _ _.
  apply loops_bind; [now apply check_map_differs_in_block|].
  intros [rooms adj] _. cbv zeta.
  apply block_bind_same_l. intros [[[ids k] a] w] _.
  apply block_bind_same_r.
  now apply check_evidence_ids_differs_in_block.
Qed.

Lemma runs_differ_only_inside_set_loops_witness :
  arrangement (fun l => l) /\ arrangement (@rev string) /\
  same_up_to_set_loops
    (verifier_run (fun l => l) (fun _ => true) (fun _ => "{}") "" two_sets_case)
    (verifier_run (@rev string) (fun _ => true) (fun _ => "{}") "" two_sets_case).
Proof.
  split; [exact arrangement_id|]. split; [exact arrangement_rev|].
  exact (runs_differ_only_inside_set_loops (fun l => l) (@rev string)
           (fun _ => true) (fun _ => "{}") "" two_sets_case
           arrangement_id arrangement_rev).
Defined.

(** The two runs on [two_sets_case]: the unreachable rooms and the
    evidence that cannot be discovered change places among themselves,
    the warnings of the schema check stay where they are. *)
Example two_sets_case_warnings :
  warnings (emitted (verifier_run (fun l => l) (fun _ => true) (fun _ => "{}")
                       "" two_sets_case))
  = [SchemaVictimMissing "id"; SchemaVictimMissing "avatar";
     MapUnreachable "attic" "hall"; MapUnreachable "cellar" "hall";
     EvidenceNotDiscoverable "knife"; EvidenceNotDiscoverable "rope"] /\
  warnings (emitted (verifier_run (@rev string) (fun _ => true) (fun _ => "{}")
                       "" two_sets_case))
  = [SchemaVictimMissing "id"; SchemaVictimMissing "avatar";
     MapUnreachable "cellar" "hall"; MapUnreachable "attic" "hall";
     EvidenceNotDiscoverable "rope"; EvidenceNotDiscoverable "knife"].
Proof. split; reflexivity. Qed.

(** C3 as stated fails: on one document and one filesystem, a run that
    goes through its sets in one arrangement and a run that goes through
    them in another give the unreachable-room warnings in different
    orders. *)
Lemma warning_order_follows_set_order :
  arrangement (fun l => l) /\ arrangement (@rev string) /\
  warnings (emitted (verifier_run (fun l => l) (fun _ => true) (fun _ => "{}")
                       "" stranded_rooms_case))
  <> warnings (emitted (verifier_run (@rev string) (fun _ => true) (fun _ => "{}")
                          "" stranded_rooms_case)).
Proof.
  split; [exact arrangement_id|]. split; [exact arrangement_rev|].
  vm_compute. discriminate.
Qed.

(* ------------------------------------------------------------------ *)
(** ** Running to completion *)

Lemma record_key_returns (lineno : nat) (key : string) (indent : Z) (opens : bool)
    (scope_stack : list scope) :
  exists st, outcome (record_key lineno key indent opens scope_stack) = inr st.
Proof.
  unfold record_key. cbv zeta.
  destruct (pop_scopes indent scope_stack) as [|[[ind li] seen] rest].
  - rewrite bind_ret. destruct opens; now eexists.
  - destruct (dict_lookup _ seen).
    + rewrite outcome_bind. cbn [outcome snd bind err ret].
      destruct opens; now eexists.
    + rewrite bind_ret. destruct opens; now eexists.
Qed.

Lemma scan_key_returns (lineno : nat) (stripped : string) (indent : Z)
    (scope_stack : list scope) :
  exists st, outcome (scan_key lineno stripped indent scope_stack) = inr st.
Proof.
  unfold scan_key.
  destruct (negb _); [now eexists|].
  destruct (_ || _); [now eexists|].
  apply record_key_returns.
Qed.

Lemma scan_line_returns (lineno : nat) (raw_line : string) (scope_stack : list scope) :
  exists st, outcome (scan_line lineno raw_line scope_stack) = inr st.
Proof.
  unfold scan_line. cbv zeta.
  destruct (_ || _); [now eexists|].
  destruct (PyStr.startswith "- " _); [|apply scan_key_returns].
  destruct (_ || _); [now eexists|apply scan_key_returns].
Qed.

Lemma scan_lines_returns (lines : list string) (lineno : nat) (scope_stack : list scope) :
  exists st, outcome (scan_lines lineno lines scope_stack) = inr st.
Proof.
  revert lineno scope_stack. induction lines as [|l lines IH]; intros lineno st.
  - now eexists.
  - cbn [scan_lines]. destruct (scan_line_returns lineno l st) as (st' & Hst).
    rewrite outcome_bind, Hst. apply IH.
Qed.

(** The scan of the raw text never raises. *)
Lemma check_duplicate_keys_raw_returns (text : string) :
  outcome (check_duplicate_keys_raw text) = inr tt.
Proof.
  unfold check_duplicate_keys_raw.
  destruct (scan_lines_returns (PyStr.splitlines text) 1 initial_stack) as (st & Hst).
  now rewrite outcome_bind, Hst.
Qed.

(** C1 fails on the code. A complete case whose victim lacks the
    recommended field 'name' is parsed, [check_schema] records the warning
    for the missing field, and [check_evidence_ids] raises [IndexError] at
    line 310: the later passes do not run and no report is produced,
    whatever the text, the filesystem and the order of the sets. *)
Theorem unnamed_victim_stops_the_checks (set_order : list string -> list string)
    (path_exists : string -> bool) (json_dumps : value -> string)
    (raw_text : string) :
  arrangement set_order ->
  outcome (run_checks set_order path_exists json_dumps (hall_case unnamed_victim))
  = inl IndexError /\
  In (SchemaVictimMissing "name")
     (warnings (emitted (run_checks set_order path_exists json_dumps
                           (hall_case unnamed_victim)))) /\
  validate_case set_order path_exists json_dumps raw_text (hall_case unnamed_victim)
  = None.
Proof.
  intros Harr.
  destruct (same_run_checks set_order (fun l => l) path_exists json_dumps
              (hall_case unnamed_victim) Harr arrangement_id) as (_ & Hw & Ho).
  assert (Hout : outcome (run_checks set_order path_exists json_dumps
                            (hall_case unnamed_victim)) = inl IndexError).
  { rewrite Ho. vm_compute. reflexivity. }
  split; [exact Hout|]. split.
  - apply (Permutation_in _ (Permutation_sym Hw)). vm_compute. now left.
  - unfold validate_case, verifier_run.
    now rewrite outcome_bind, check_duplicate_keys_raw_returns, Hout.
Qed.

Lemma unnamed_victim_stops_the_checks_witness :
  arrangement (fun l => l) /\
  outcome (run_checks (fun l => l) (fun _ => true) (fun _ => "{}")
             (hall_case unnamed_victim)) = inl IndexError /\
  In (SchemaVictimMissing "name")
     (warnings (emitted (run_checks (fun l => l) (fun _ => true) (fun _ => "{}")
                           (hall_case unnamed_victim)))) /\
  validate_case (fun l => l) (fun _ => true) (fun _ => "{}") ""
                (hall_case unnamed_victim) = None.
Proof.
  split; [exact arrangement_id|].
  exact (unnamed_victim_stops_the_checks (fun l => l) (fun _ => true)
           (fun _ => "{}") "" arrangement_id).
Defined.

(** The same case with a name for the victim goes through every check
    without a message. *)
Example named_victim_passes :
  verifier_run (fun l => l) (fun _ => true) (fun _ => "{}") ""
               (hall_case named_victim)
  = (empty, inr tt).
Proof. vm_compute. reflexivity. Qed.

(** A minPressure that is no number is recorded as an error at line 375,
    and the comparison of line 394 then raises [TypeError]: the defect of
    one secret ends the pass. *)
Example worded_pressure_stops_the_checks :
  check_secret_triggers worded_pressure_case []
  = (mkResult [TriggerPressureType (VStr "maid") (VStr "debt") (VStr "high")] [],
     inl TypeError).
Proof. vm_compute. reflexivity. Qed.

(** A suspect without an id stops the checks as well, at line 191. *)
Example suspect_without_id_stops_the_checks :
  outcome (run_checks (fun l => l) (fun _ => true) (fun _ => "{}")
             (VDict [("map", VDict []); ("suspects", VList [VDict [("name", VStr "Eve")]])]))
  = inl KeyError.
Proof. vm_compute. reflexivity. Qed.
(* ------------------------------------------------------------------ *)
(** ** Strings *)

Local Open Scope string_scope.

Lemma append_nil_r (s : string) : s ++ "" = s.
Proof. induction s as [|c s IH]; cbn; [reflexivity|now rewrite IH]. Qed.

Lemma append_assoc (s t u : string) : (s ++ t) ++ u = s ++ (t ++ u).
Proof. induction s as [|c s IH]; cbn; [reflexivity|now rewrite IH]. Qed.

Lemma length_append (s t : string) :
  String.length (s ++ t) = String.length s + String.length t.
Proof. induction s as [|c s IH]; cbn; [reflexivity|now rewrite IH]. Qed.

Lemma prefix_empty (s : string) : prefix "" s = true.
Proof. now destruct s. Qed.

Lemma length_pad (n : nat) : String.length (pad n) = n.
Proof. induction n as [|n IH]; cbn; [reflexivity|now rewrite IH]. Qed.

Lemma lstrip_pad (n : nat) (s : string) : PyStr.lstrip (pad n ++ s) = PyStr.lstrip s.
Proof. induction n as [|n IH]; cbn; [reflexivity|exact IH]. Qed.

Lemma lstrip_nonspace (c : ascii) (s : string) :
  PyStr.is_space c = false -> PyStr.lstrip (String c s) = String c s.
Proof. intros H. cbn. now rewrite H. Qed.

(** What a plain key is made of. *)
Lemma plain_key_inv (k : string) :
  plain_key k = true ->
  exists c k', k = String c k' /\
    PyStr.is_space c = false /\ Ascii.eqb c ":" = false /\
    PyStr.is_quote c = false /\ Ascii.eqb c "#" = false /\
    Ascii.eqb c "{" = false /\ all_chars key_char k = true.
Proof.
  destruct k as [|c k']; [discriminate|]. cbn [plain_key].
  intros H. apply andb_prop in H as [H Hall]. apply andb_prop in H as [Hh Hb].
  exists c, k'. pose proof Hall as Hall'. cbn [all_chars] in Hall.
  apply andb_prop in Hall as [Hc _]. unfold key_char in Hc.
  apply andb_prop in Hc as [Hc Hq]. apply andb_prop in Hc as [Hs Hcol].
  repeat split; try (now apply negb_true_iff); assumption.
Qed.

Lemma split_head_key (k rest : string) :
  all_chars key_char k = true ->
  PyStr.split_head ":" (k ++ ":" ++ rest) = k.
Proof.
  induction k as [|c k IH]; cbn [all_chars append PyStr.split_head]; intros H.
  - reflexivity.
  - apply andb_prop in H as [Hc Hk]. unfold key_char in Hc.
    apply andb_prop in Hc as [Hc _]. apply andb_prop in Hc as [_ Hcol].
    apply negb_true_iff in Hcol. rewrite Hcol. f_equal. exact (IH Hk).
Qed.

Lemma rstrip_key (k : string) :
  all_chars key_char k = true -> PyStr.rstrip k = k.
Proof.
  induction k as [|c k IH]; cbn [all_chars PyStr.rstrip]; intros H; [reflexivity|].
  apply andb_prop in H as [Hc Hk]. rewrite (IH Hk).
  unfold key_char in Hc. apply andb_prop in Hc as [Hc _].
  apply andb_prop in Hc as [Hs _]. apply negb_true_iff in Hs. rewrite Hs.
  now destruct k.
Qed.

Lemma rstrip_quotes_key (k : string) :
  all_chars key_char k = true -> PyStr.rstrip_chars PyStr.is_quote k = k.
Proof.
  induction k as [|c k IH]; cbn [all_chars PyStr.rstrip_chars]; intros H; [reflexivity|].
  apply andb_prop in H as [Hc Hk]. rewrite (IH Hk).
  unfold key_char in Hc. apply andb_prop in Hc as [_ Hq].
  apply negb_true_iff in Hq. rewrite Hq.
  now destruct k.
Qed.

Lemma contains_colon (k rest : string) : PyStr.contains ":" (k ++ ":" ++ rest) = true.
Proof.
  induction k as [|c k IH]; cbn [append PyStr.contains].
  - cbn. now destruct rest.
  - change (k ++ String ":" rest) with (k ++ ":" ++ rest).
    rewrite IH. apply orb_true_r.
Qed.

Lemma match_quoted_unquoted (c : ascii) (k' t : string) :
  PyStr.is_quote c = false -> match_quoted (String c k' ++ t) = None.
Proof. intros H. unfold match_quoted. cbn [append]. now rewrite H. Qed.

(** The key that lines 103-109 read off a line that starts with a plain
    key and a colon. *)
Lemma extract_key_plain (k rest : string) :
  plain_key k = true -> extract_key (k ++ ":" ++ rest) = k.
Proof.
  intros H. destruct (plain_key_inv k H) as (c & k' & -> & Hs & Hcol & Hq & _ & _ & Hall).
  unfold extract_key. rewrite match_quoted_unquoted by exact Hq.
  rewrite split_head_key by exact Hall.
  unfold PyStr.strip, PyStr.strip_chars.
  rewrite lstrip_nonspace by exact Hs.
  rewrite rstrip_key by exact Hall.
  cbn [PyStr.lstrip_chars]. rewrite Hq.
  now apply rstrip_quotes_key.
Qed.

(** Facts about a line content [k:rest] with a plain key [k]. *)
Lemma keyed_content (k rest : string) :
  plain_key k = true ->
  PyStr.lstrip (k ++ ":" ++ rest) = k ++ ":" ++ rest /\
  PyStr.is_empty (k ++ ":" ++ rest) = false /\
  PyStr.startswith "#" (k ++ ":" ++ rest) = false /\
  PyStr.startswith "- " (k ++ ":" ++ rest) = false /\
  PyStr.is_empty k = false /\
  PyStr.startswith "{" k = false.
Proof.
  intros H.
  destruct (plain_key_inv k H) as (c & k' & -> & Hs & Hcol & Hq & Hh & Hb & Hall).
  cbn [append]. repeat split.
  - now apply lstrip_nonspace.
  - unfold PyStr.startswith. cbn [prefix].
    destruct (ascii_dec "#" c) as [<-|Hne]; [discriminate Hh|reflexivity].
  - unfold PyStr.startswith. cbn [prefix].
    destruct (ascii_dec "-" c) as [<-|Hne]; [|reflexivity].
    cbn [all_chars] in Hall. apply andb_prop in Hall as [_ Hk].
    destruct k' as [|c' k'']; cbn [append prefix]; [reflexivity|].
    cbn [all_chars] in Hk. apply andb_prop in Hk as [Hc' _].
    unfold key_char in Hc'. apply andb_prop in Hc' as [Hc' _].
    apply andb_prop in Hc' as [Hs' _]. apply negb_true_iff in Hs'.
    destruct (ascii_dec " " c') as [<-|Hne']; [discriminate Hs'|reflexivity].
  - unfold PyStr.startswith. cbn [prefix].
    destruct (ascii_dec "{" c) as [<-|Hne]; [discriminate Hb|reflexivity].
Qed.

(** A content with a plain key is handed to [record_key] with that key. *)
Lemma scan_key_plain (lineno : nat) (k rest : string) (indent : Z) (st : list scope) :
  plain_key k = true ->
  scan_key lineno (k ++ ":" ++ rest) indent st =
  record_key lineno k indent (opens_block (k ++ ":" ++ rest)) st.
Proof.
  intros H. destruct (keyed_content k rest H) as (_ & _ & _ & _ & He & Hb).
  unfold scan_key. rewrite contains_colon, (extract_key_plain k rest H), He, Hb.
  reflexivity.
Qed.

(** A line made of [n] spaces and a content that starts with no white
    space has indentation [n]. *)
Lemma scan_line_pad (lineno n : nat) (s : string) (st : list scope) :
  PyStr.lstrip s = s -> PyStr.is_empty s = false ->
  scan_line lineno (pad n ++ s) st =
  if PyStr.startswith "#" s then ret st
  else if PyStr.startswith "- " s then
    let st' := (Z.of_nat n, true, []) :: pop_scopes (Z.of_nat n) st in
    let s' := PyStr.lstrip (PyStr.drop 2 s) in
    if PyStr.is_empty s' || negb (PyStr.contains ":" s') then ret st'
    else scan_key lineno s' (Z.of_nat n + 2)%Z st'
  else scan_key lineno s (Z.of_nat n) st.
Proof.
  intros Hl He. unfold scan_line. cbv zeta.
  rewrite lstrip_pad, Hl, He, length_append, length_pad. cbn [orb].
  replace (Z.of_nat (n + String.length s) - Z.of_nat (String.length s))%Z
    with (Z.of_nat n) by lia.
  reflexivity.
Qed.

(** A line that holds a plain key at indentation [n] is handed to
    [record_key] with that key and that indentation. *)
Lemma scan_line_key_line (lineno n : nat) (k rest : string) (st : list scope) :
  plain_key k = true ->
  scan_line lineno (key_line n k rest) st =
  record_key lineno k (Z.of_nat n) (opens_block (k ++ ":" ++ rest)) st.
Proof.
  intros H. destruct (keyed_content k rest H) as (Hl & He & Hh & Hd & _ & _).
  unfold key_line. rewrite scan_line_pad by assumption.
  rewrite Hh, Hd. now apply scan_key_plain.
Qed.


Local Open Scope list_scope.
(* ------------------------------------------------------------------ *)
(** ** The scope stack *)

Lemma pop_scopes_nonempty (m : Z) (st : list scope) :
  st <> [] -> pop_scopes m st <> [].
Proof.
  induction st as [|x st IH]; [tauto|]. intros _. cbn [pop_scopes].
  destruct st as [|y r]; [discriminate|].
  destruct (scope_indent x >=? m)%Z; [apply IH|]; discriminate.
Qed.

Lemma pop_scopes_push (m : Z) (x : scope) (st : list scope) :
  st <> [] -> (m <= scope_indent x)%Z -> pop_scopes m (x :: st) = pop_scopes m st.
Proof.
  intros Hst Hx. cbn [pop_scopes]. destruct st as [|y r]; [tauto|].
  destruct (Z.geb_spec (scope_indent x) m); [reflexivity|lia].
Qed.

Lemma pop_scopes_keep (m : Z) (x : scope) (rest : list scope) :
  rest = [] \/ (scope_indent x < m)%Z -> pop_scopes m (x :: rest) = x :: rest.
Proof.
  intros H. cbn [pop_scopes]. destruct rest as [|y r]; [reflexivity|].
  destruct H as [H|H]; [discriminate|].
  destruct (Z.geb_spec (scope_indent x) m); [lia|reflexivity].
Qed.

Lemma pop_scopes_top (m : Z) (st : list scope) (x : scope) (rest : list scope) :
  pop_scopes m st = x :: rest -> rest = [] \/ (scope_indent x < m)%Z.
Proof.
  induction st as [|y st IH]; [discriminate|]. cbn [pop_scopes].
  destruct st as [|z r].
  - intros E. injection E as <- <-. now left.
  - destruct (Z.geb_spec (scope_indent y) m).
    + apply IH.
    + intros E. injection E as <- <-. right. lia.
Qed.


Lemma dict_lookup_app_some {V} (k : string) (d e : list (string * V)) (v : V) :
  dict_lookup k d = Some v -> dict_lookup k (d ++ e) = Some v.
Proof.
  induction d as [|[k' v'] d IH]; cbn [dict_lookup app]; [discriminate|].
  destruct (String.eqb k k'); [auto|exact IH].
Qed.

Lemma dict_lookup_app_none {V} (k : string) (d : list (string * V)) (v : V) :
  dict_lookup k d = None -> dict_lookup k (d ++ [(k, v)]) = Some v.
Proof.
  induction d as [|[k' v'] d IH]; cbn [dict_lookup app].
  - now rewrite String.eqb_refl.
  - destruct (String.eqb k k'); [discriminate|exact IH].
Qed.

Lemma owner_push (n : nat) (x : scope) (st : list scope) :
  st <> [] -> (Z.of_nat n <= scope_indent x)%Z -> owner n (x :: st) = owner n st.
Proof. intros H1 H2. unfold owner. now rewrite pop_scopes_push. Qed.


Lemma holds_push (n : nat) (a : string) (l1 : nat) (x : scope) (st : list scope) :
  (Z.of_nat n <= scope_indent x)%Z -> holds n a l1 st -> holds n a l1 (x :: st).
Proof.
  intros Hx [Hne Hl]. split; [discriminate|]. now rewrite owner_push.
Qed.



(** What [record_key] does, spelled out. *)
Lemma record_key_unfold (lineno : nat) (key : string) (indent : Z) (opens : bool)
    (st : list scope) :
  record_key lineno key indent opens st =
  match pop_scopes indent st with
  | (ind, li, seen) :: rest =>
      match dict_lookup key seen with
      | Some first =>
          (mkResult [DuplicateKey lineno key first] [],
           inr (if opens then (indent + 1, false, [])%Z :: (ind, li, seen) :: rest
                else (ind, li, seen) :: rest))
      | None =>
          (empty,
           inr (if opens
                then (indent + 1, false, [])%Z :: (ind, li, seen ++ [(key, lineno)]) :: rest
                else (ind, li, seen ++ [(key, lineno)]) :: rest))
      end
  | [] => (empty, inr (if opens then [(indent + 1, false, [])%Z] else []))
  end.
Proof.
  unfold record_key. cbv zeta.
  destruct (pop_scopes indent st) as [|[[ind li] seen] rest].
  - rewrite bind_ret. now destruct opens.
  - destruct (dict_lookup key seen); destruct opens; reflexivity.
Qed.


Lemma record_key_nonempty (lineno : nat) (key : string) (indent : Z) (opens : bool)
    (st st' : list scope) :
  st <> [] -> outcome (record_key lineno key indent opens st) = inr st' -> st' <> [].
Proof.
  intros Hne. rewrite record_key_unfold.
  pose proof (pop_scopes_nonempty indent st Hne) as Hp.
  destruct (pop_scopes indent st) as [|[[ind li] seen] rest]; [tauto|].
  destruct (dict_lookup key seen); cbn; intros H; injection H as <-;
    destruct opens; discriminate.
Qed.

Lemma record_key_reports (lineno : nat) (key : string) (indent : Z) (opens : bool)
    (st : list scope) :
  Forall (fun d => reported_at lineno d = true)
         (errors (emitted (record_key lineno key indent opens st))).
Proof.
  rewrite record_key_unfold.
  destruct (pop_scopes indent st) as [|[[ind li] seen] rest]; [constructor|].
  destruct (dict_lookup key seen); cbn; repeat constructor.
  apply Nat.eqb_refl.
Qed.

(** The first time a key is seen by the owner of its indentation, nothing
    is reported and the key is recorded with its line. *)
Lemma record_key_first (n : nat) (a : string) (l1 : nat) (opens : bool)
    (st : list scope) :
  st <> [] -> dict_lookup a (owner n st) = None ->
  errors (emitted (record_key l1 a (Z.of_nat n) opens st)) = [] /\
  exists st', outcome (record_key l1 a (Z.of_nat n) opens st) = inr st' /\
              holds n a l1 st'.
Proof.
  intros Hne Hl. rewrite record_key_unfold. unfold owner in Hl.
  pose proof (pop_scopes_nonempty (Z.of_nat n) st Hne) as Hp.
  destruct (pop_scopes (Z.of_nat n) st) as [|[[ind li] seen] rest] eqn:Epop; [tauto|].
  cbn [scope_seen snd] in Hl. rewrite Hl. split; [reflexivity|].
  eexists. split; [reflexivity|].
  assert (Hh : holds n a l1 ((ind, li, seen ++ [(a, l1)]) :: rest)).
  { split; [discriminate|]. unfold owner.
    rewrite pop_scopes_keep by (apply (pop_scopes_top _ _ _ _ Epop)).
    cbn [scope_seen snd]. now apply dict_lookup_app_none. }
  destruct opens; [apply holds_push; [cbn; lia|]|]; exact Hh.
Qed.

(** The next time, exactly the error that names both lines is reported. *)
Lemma record_key_again (n : nat) (a : string) (l1 l3 : nat) (opens : bool)
    (st : list scope) :
  holds n a l1 st ->
  errors (emitted (record_key l3 a (Z.of_nat n) opens st)) = [DuplicateKey l3 a l1].
Proof.
  intros [Hne Hl]. rewrite record_key_unfold. unfold owner in Hl.
  destruct (pop_scopes (Z.of_nat n) st) as [|[[ind li] seen] rest]; [discriminate|].
  cbn [scope_seen snd] in Hl. now rewrite Hl.
Qed.

(* ------------------------------------------------------------------ *)
(** ** The scanner, line by line *)




Lemma scan_key_nonempty (lineno : nat) (stripped : string) (indent : Z)
    (st st' : list scope) :
  st <> [] -> outcome (scan_key lineno stripped indent st) = inr st' -> st' <> [].
Proof.
  intros Hne. unfold scan_key.
  destruct (negb _); [cbn; congruence|].
  destruct (_ || _); [cbn; congruence|].
  now apply record_key_nonempty.
Qed.

Lemma scan_key_reports (lineno : nat) (stripped : string) (indent : Z)
    (st : list scope) :
  Forall (fun d => reported_at lineno d = true)
         (errors (emitted (scan_key lineno stripped indent st))).
Proof.
  unfold scan_key.
  destruct (negb _); [constructor|].
  destruct (_ || _); [constructor|].
  apply record_key_reports.
Qed.


Lemma scan_line_nonempty (lineno : nat) (raw_line : string) (st st' : list scope) :
  st <> [] -> outcome (scan_line lineno raw_line st) = inr st' -> st' <> [].
Proof.
  intros Hne. unfold scan_line. cbv zeta.
  destruct (_ || _); [cbn; congruence|].
  destruct (PyStr.startswith "- " _).
  - destruct (_ || _); [cbn; intros H; injection H as <-; discriminate|].
    apply scan_key_nonempty. discriminate.
  - now apply scan_key_nonempty.
Qed.

Lemma scan_line_reports (lineno : nat) (raw_line : string) (st : list scope) :
  Forall (fun d => reported_at lineno d = true)
         (errors (emitted (scan_line lineno raw_line st))).
Proof.
  unfold scan_line. cbv zeta.
  destruct (_ || _); [constructor|].
  destruct (PyStr.startswith "- " _).
  - destruct (_ || _); [constructor|]. apply scan_key_reports.
  - apply scan_key_reports.
Qed.

(** ** The scanner over several lines *)

Lemma stack_after_cons (lineno : nat) (l : string) (lines : list string)
    (st st' : list scope) :
  outcome (scan_line lineno l st) = inr st' ->
  stack_after lineno (l :: lines) st = stack_after (S lineno) lines st' /\
  errors (emitted (scan_lines lineno (l :: lines) st)) =
  errors (emitted (scan_line lineno l st))
  ++ errors (emitted (scan_lines (S lineno) lines st')).
Proof.
  intros H. unfold stack_after. cbn [scan_lines].
  split; [|now rewrite errors_bind, H].
  rewrite outcome_bind, H.
  now destruct (scan_lines_returns lines (S lineno) st') as (s2 & ->).
Qed.

Lemma scan_lines_app (l1 l2 : list string) (lineno : nat) (st : list scope) :
  stack_after lineno (l1 ++ l2) st
  = stack_after (lineno + List.length l1) l2 (stack_after lineno l1 st) /\
  errors (emitted (scan_lines lineno (l1 ++ l2) st)) =
  errors (emitted (scan_lines lineno l1 st))
  ++ errors (emitted (scan_lines (lineno + List.length l1) l2
                        (stack_after lineno l1 st))).
Proof.
  revert lineno st. induction l1 as [|l l1 IH]; intros lineno st.
  - cbn [app List.length]. rewrite Nat.add_0_r. unfold stack_after at 2. cbn. auto.
  - cbn [app List.length].
    destruct (scan_line_returns lineno l st) as (st' & Hst').
    destruct (stack_after_cons lineno l (l1 ++ l2) st st' Hst') as (-> & ->).
    destruct (stack_after_cons lineno l l1 st st' Hst') as (-> & ->).
    destruct (IH (S lineno) st') as (-> & ->).
    rewrite <- app_assoc. replace (lineno + S (List.length l1)) with (S lineno + List.length l1) by lia.
    auto.
Qed.

Lemma stack_after_nonempty (lines : list string) (lineno : nat) (st : list scope) :
  st <> [] -> stack_after lineno lines st <> [].
Proof.
  revert lineno st. induction lines as [|l lines IH]; intros lineno st Hne.
  - exact Hne.
  - destruct (scan_line_returns lineno l st) as (st' & Hst').
    destruct (stack_after_cons lineno l lines st st' Hst') as (-> & _).
    apply IH. now apply (scan_line_nonempty lineno l st).
Qed.


(** The errors of a run of lines are reported for those lines. *)
Lemma scan_lines_reports (lines : list string) (lineno : nat) (st : list scope) :
  Forall (fun d => reported_in lineno (List.length lines) d = true)
         (errors (emitted (scan_lines lineno lines st))).
Proof.
  revert lineno st. induction lines as [|l lines IH]; intros lineno st.
  - constructor.
  - destruct (scan_line_returns lineno l st) as (st' & Hst').
    destruct (stack_after_cons lineno l lines st st' Hst') as (_ & ->).
    apply Forall_app. split.
    + eapply Forall_impl; [|apply scan_line_reports].
      intros [] Hd; try discriminate. cbn [reported_in reported_at List.length] in *.
      apply Nat.eqb_eq in Hd. subst.
      apply andb_true_intro. split; [apply Nat.leb_le|apply Nat.ltb_lt]; lia.
    + eapply Forall_impl; [|apply IH].
      intros [] Hd; try discriminate. cbn [reported_in reported_at List.length] in *.
      apply andb_prop in Hd as [H1 H2]. apply Nat.leb_le in H1. apply Nat.ltb_lt in H2.
      apply andb_true_intro. split; [apply Nat.leb_le|apply Nat.ltb_lt]; lia.
Qed.
(* ------------------------------------------------------------------ *)
(** ** The scanner on a text *)

Lemma splitlines_aux_line (l cur t : string) :
  no_linebreak l = true ->
  PyStr.splitlines_aux cur (l ++ String "010" t)%string
  = (cur ++ l)%string :: PyStr.splitlines_aux "" t.
Proof.
  revert cur. induction l as [|c l IH]; intros cur Hl.
  - cbn [append PyStr.splitlines_aux]. rewrite append_nil_r.
    change (PyStr.is_linebreak "010") with true. cbv iota.
    destruct t as [|c' t']; reflexivity.
  - cbn [no_linebreak all_chars] in Hl. apply andb_prop in Hl as [Hc Hl].
    apply negb_true_iff in Hc.
    cbn [append PyStr.splitlines_aux]. rewrite Hc.
    rewrite (IH _ Hl), append_assoc. reflexivity.
Qed.

Lemma splitlines_unlines (lines : list string) :
  Forall (fun l => no_linebreak l = true) lines ->
  PyStr.splitlines (unlines lines) = lines.
Proof.
  unfold PyStr.splitlines. induction 1 as [|l lines Hl _ IH]; [reflexivity|].
  cbn [unlines]. rewrite splitlines_aux_line by exact Hl. now rewrite IH.
Qed.

(** The errors of the scan of a text are those of the scan of its lines. *)
Lemma check_duplicate_keys_raw_lines (lines : list string) :
  Forall (fun l => no_linebreak l = true) lines ->
  errors (emitted (check_duplicate_keys_raw (unlines lines)))
  = errors (emitted (scan_lines 1 lines initial_stack)).
Proof.
  intros H. unfold check_duplicate_keys_raw. rewrite (splitlines_unlines lines H).
  rewrite errors_bind.
  destruct (outcome (scan_lines 1 lines initial_stack)); cbn; apply app_nil_r.
Qed.

Lemma filter_reported_at_outside (l from len : nat) (E : list diag) :
  Forall (fun d => reported_in from len d = true) E ->
  l < from \/ from + len <= l ->
  filter (reported_at l) E = [].
Proof.
  intros HE Hl. apply filter_none. eapply Forall_impl; [|exact HE].
  intros [] Hd; try reflexivity. cbn [reported_in reported_at] in *.
  apply andb_prop in Hd as [H1 H2]. apply Nat.leb_le in H1. apply Nat.ltb_lt in H2.
  apply Nat.eqb_neq. lia.
Qed.


(* ------------------------------------------------------------------ *)
(** ** List items *)


Lemma in_item_nonempty (n : nat) (keys : list string) (st : list scope) :
  in_item n keys st -> st <> [].
Proof. intros (seen & rest & opened & -> & _). now destruct opened. Qed.







Lemma initial_stack_nonempty : initial_stack <> [].
Proof. discriminate. Qed.

Lemma dict_lookup_app_other {V} (k k' : string) (d : list (string * V)) (v : V) :
  dict_lookup k d = None -> k <> k' -> dict_lookup k (d ++ [(k', v)]) = None.
Proof.
  intros Hd Hne. induction d as [|[k0 v0] d IH]; cbn [dict_lookup app] in *.
  - now apply String.eqb_neq in Hne as ->.
  - destruct (String.eqb k k0); [discriminate|now apply IH].
Qed.

(** *** A key that is new to a block *)











Lemma nested_at_nonempty (n : nat) (m : Z) (a : string) (st : list scope) :
  nested_at n m a st -> st <> [].
Proof. intros (upper & base & lower & -> & _). now destruct upper. Qed.




















(** The block [a, b, a] as a whole text: one error and no other. *)
Example sibling_lines_errors :
  check_duplicate_keys_raw (unlines sibling_lines)
  = (mkResult [DuplicateKey 3 "a" 1] [], inr tt).
Proof. reflexivity. Qed.


(** Two suspects with the same fields: nothing is reported. *)
Example id_items_errors :
  check_duplicate_keys_raw (unlines ("suspects:" :: flat_map (item_lines 2) id_items))
  = (empty, inr tt).
Proof. reflexivity. Qed.

(** The block under a parent whose line ends with its colon: the second
    [a] of the block is reported against the first, and the [a] of the
    top level plays no part. *)
Example plain_parent_lines_errors :
  check_duplicate_keys_raw (unlines plain_parent_lines)
  = (mkResult [DuplicateKey 5 "a" 3] [], inr tt).
Proof. reflexivity. Qed.

(** The same block under a parent whose line ends with a comment: line
    128 opens no scope, both [a] of the block are filed with the siblings
    of the parent and reported against the [a] of the top level. *)
Example commented_parent_lines_errors :
  check_duplicate_keys_raw (unlines commented_parent_lines)
  = (mkResult [DuplicateKey 3 "a" 1; DuplicateKey 5 "a" 1] [], inr tt).
Proof. reflexivity. Qed.

(** A suspect that gives its 'id' twice. *)
Example twice_id_lines_errors :
  check_duplicate_keys_raw (unlines twice_id_lines)
  = (mkResult [DuplicateKey 4 "id" 2] [], inr tt).
Proof. reflexivity. Qed.

(** An [a] in the nested block of the first sibling is no [a] of the
    block: only the second [a] of the block is reported, against the
    first. *)
Example nested_key_lines_errors :
  check_duplicate_keys_raw (unlines nested_key_lines)
  = (mkResult [DuplicateKey 7 "a" 5] [], inr tt).
Proof. reflexivity. Qed.

(** Under a sibling that opens no scope (a block scalar) the same line is
    filed with the keys of the block: both [a] of the block are reported
    against it. *)
Example block_scalar_lines_errors :
  check_duplicate_keys_raw (unlines block_scalar_lines)
  = (mkResult [DuplicateKey 5 "a" 4; DuplicateKey 7 "a" 4] [], inr tt).
Proof. reflexivity. Qed.

(* ------------------------------------------------------------------ *)
(** ** Flow mappings *)

Lemma startswith_brace (s : string) :
  PyStr.startswith "{" s = true -> exists t, s = String "{" t.
Proof.
  unfold PyStr.startswith. destruct s as [|c t]; [discriminate|]. cbn [prefix].
  destruct (ascii_dec "{" c) as [<-|]; [|discriminate]. now exists t.
Qed.

Lemma rstrip_cons (c : ascii) (s : string) :
  PyStr.is_space c = false -> exists t, PyStr.rstrip (String c s) = String c t.
Proof.
  intros H. cbn [PyStr.rstrip]. destruct (PyStr.rstrip s); [|now eexists].
  rewrite H. now eexists.
Qed.

Lemma rstrip_chars_cons (p : ascii -> bool) (c : ascii) (s : string) :
  p c = false -> exists t, PyStr.rstrip_chars p (String c s) = String c t.
Proof.
  intros H. cbn [PyStr.rstrip_chars]. destruct (PyStr.rstrip_chars p s); [|now eexists].
  rewrite H. now eexists.
Qed.

(** The key that is read off a content that begins with a brace begins
    with that brace. *)
Lemma extract_key_brace (t : string) :
  exists key, extract_key (String "{" t) = String "{" key.
Proof.
  unfold extract_key, match_quoted.
  change (PyStr.is_quote "{") with false. cbv iota.
  cbn [PyStr.split_head]. change (Ascii.eqb "{" ":") with false. cbv iota.
  unfold PyStr.strip, PyStr.strip_chars.
  rewrite lstrip_nonspace by reflexivity.
  destruct (rstrip_cons "{" (PyStr.split_head ":" t) eq_refl) as (u & ->).
  cbn [PyStr.lstrip_chars]. change (PyStr.is_quote "{") with false. cbv iota.
  apply rstrip_chars_cons. reflexivity.
Qed.

(** C4, as amended. A line whose content begins with '{' (a flow mapping
    that starts the line) is ignored by the scanner: nothing is reported
    and the scope stack is left as it was.  A plain key whose value begins
    with '{' is tracked like any other: when the scope owning its
    indentation has not seen it, it is recorded there with its line, and
    the same key on the next line is reported as a duplicate. *)
Theorem flow_mapping_lines_ignored_values_tracked :
  (forall (lineno : nat) (raw_line : string) (st : list scope),
     PyStr.startswith "{" (PyStr.lstrip raw_line) = true ->
     scan_line lineno raw_line st = ret st)
  /\
  (forall (lineno n : nat) (k v1 v2 : string) (st : list scope),
     plain_key k = true -> st <> [] ->
     dict_lookup k (owner n st) = None ->
     dict_lookup k (owner n (stack_after lineno [key_line n k (" {" ++ v1)] st))
     = Some lineno /\
     errors (emitted (scan_lines lineno
        [key_line n k (" {" ++ v1); key_line n k (" {" ++ v2)] st))
     = [DuplicateKey (S lineno) k lineno]).
Proof.
  split.
  - intros lineno raw_line st H.
    destruct (startswith_brace _ H) as (t & Ht).
    unfold scan_line. cbv zeta. rewrite Ht.
    replace (PyStr.startswith "#" (String "{" t)) with false by reflexivity.
    replace (PyStr.startswith "- " (String "{" t)) with false by reflexivity.
    cbn [PyStr.is_empty orb].
    unfold scan_key.
    destruct (negb (PyStr.contains ":" (String "{" t))); [reflexivity|].
    destruct (extract_key_brace t) as (key & ->).
    assert (Hb : PyStr.startswith "{" (String "{" key) = true)
      by (unfold PyStr.startswith; cbn; apply prefix_empty).
    now rewrite Hb.
  - intros lineno n k v1 v2 st Hk Hne Hown.
    destruct (record_key_first n k lineno (opens_block (k ++ ":" ++ " {" ++ v1)) st Hne Hown)
      as (He & st' & Hst' & Hh).
    rewrite <- (scan_line_key_line lineno n k (" {" ++ v1) st Hk) in He, Hst'.
    split.
    + destruct (stack_after_cons lineno _ [] st st' Hst') as (-> & _).
      unfold stack_after. cbn. apply Hh.
    + destruct (stack_after_cons lineno _ [key_line n k (" {" ++ v2)] st st' Hst')
        as (_ & ->).
      rewrite He. cbn [app scan_lines]. rewrite errors_bind.
      rewrite (scan_line_key_line (S lineno) n k (" {" ++ v2) st' Hk).
      rewrite (record_key_again n k lineno (S lineno) _ st' Hh).
      now destruct (outcome (record_key _ _ _ _ _)).
Qed.

Lemma flow_mapping_lines_ignored_values_tracked_witness :
  (PyStr.startswith "{" (PyStr.lstrip "  {a: 1}") = true /\
   scan_line 1 "  {a: 1}" initial_stack = ret initial_stack)
  /\
  (plain_key "k" = true /\ initial_stack <> [] /\
   dict_lookup "k" (owner 0 initial_stack) = None /\
   dict_lookup "k" (owner 0 (stack_after 1 [key_line 0 "k" (" {" ++ "a: 1}")]
                               initial_stack)) = Some 1 /\
   errors (emitted (scan_lines 1
      [key_line 0 "k" (" {" ++ "a: 1}"); key_line 0 "k" (" {" ++ "a: 2}")]
      initial_stack))
   = [DuplicateKey 2 "k" 1]).
Proof.
  split.
  - split; [reflexivity|].
    exact (proj1 flow_mapping_lines_ignored_values_tracked 1 "  {a: 1}"
             initial_stack eq_refl).
  - split; [reflexivity|]. split; [exact initial_stack_nonempty|].
    split; [reflexivity|].
    exact (proj2 flow_mapping_lines_ignored_values_tracked 1 0 "k" "a: 1}" "a: 2}"
             initial_stack eq_refl initial_stack_nonempty eq_refl).
Defined.

(** C4 as stated fails: a key whose value begins with '{' is recorded in
    the seen-keys map of its scope, and its repetition among the siblings
    is reported. *)
Lemma flow_value_key_is_tracked :
  dict_lookup "k" (owner 0 (stack_after 1 ["k: {a: 1}"] initial_stack)) = Some 1 /\
  errors (emitted (check_duplicate_keys_raw (unlines ["k: {a: 1}"; "k: {a: 2}"])))
  = [DuplicateKey 2 "k" 1].
Proof. split; reflexivity. Qed.
(* ------------------------------------------------------------------ *)
(** ** The traversal terminates *)

Lemma str_mem_app (x : string) (l m : list string) :
  str_mem x (l ++ m) = str_mem x l || str_mem x m.
Proof. unfold str_mem. apply existsb_app. Qed.

Lemma unvisited_edges_cons (k : string) (ns : list string)
    (g : list (string * list string)) (visited : list string) :
  unvisited_edges ((k, ns) :: g) visited
  = (if str_mem k visited then 0 else List.length ns) + unvisited_edges g visited.
Proof. reflexivity. Qed.

Lemma unvisited_edges_visit (graph : list (string * list string))
    (visited : list string) (node : string) :
  unvisited_edges graph (visited ++ [node]) <= unvisited_edges graph visited.
Proof.
  induction graph as [|[k ns] g IH]; [reflexivity|].
  rewrite !unvisited_edges_cons, str_mem_app.
  destruct (str_mem k visited); cbn [orb]; [lia|].
  destruct (str_mem k [node]); lia.
Qed.

Lemma unvisited_edges_pay (graph : list (string * list string))
    (visited : list string) (node : string) :
  str_mem node visited = false ->
  List.length (adj_get node graph) + unvisited_edges graph (visited ++ [node])
  <= unvisited_edges graph visited.
Proof.
  intros Hnode.
  induction graph as [|[k ns] g IH]; [cbn; lia|].
  rewrite !unvisited_edges_cons, adj_get_cons, str_mem_app.
  destruct (String.eqb_spec node k) as [->|Hne].
  - rewrite Hnode. cbn [orb].
    assert (Hk : str_mem k [k] = true)
      by (unfold str_mem; cbn [existsb]; now rewrite String.eqb_refl).
    rewrite Hk. pose proof (unvisited_edges_visit g visited k). lia.
  - assert (Hk : str_mem k [node] = false).
    { unfold str_mem. cbn [existsb]. rewrite orb_false_r.
      apply String.eqb_neq. congruence. }
    rewrite Hk, orb_false_r. destruct (str_mem k visited); lia.
Qed.

Lemma dfs_loop_total (graph : list (string * list string)) (fuel : nat)
    (visited stack : list string) :
  List.length stack + unvisited_edges graph visited < fuel ->
  exists reachable, dfs_loop fuel graph visited stack = Some reachable.
Proof.
  revert visited stack. induction fuel as [|fuel IH]; intros visited stack Hfuel; [lia|].
  destruct stack as [|node stack]; [now eexists|].
  cbn [dfs_loop]. cbn [List.length] in Hfuel.
  destruct (str_mem node visited) eqn:Hnode.
  - apply IH. lia.
  - apply IH. rewrite length_app, length_rev.
    pose proof (unvisited_edges_pay graph visited node Hnode). lia.
Qed.

(** The fuel of [_dfs_reachable] is enough: the traversal ends with the
    set of the visited nodes. *)
Lemma dfs_reachable_total (start : string) (graph : list (string * list string)) :
  exists reachable,
    dfs_loop (dfs_fuel graph) graph [] [start] = Some reachable /\
    _dfs_reachable start graph = reachable.
Proof.
  destruct (dfs_loop_total graph (dfs_fuel graph) [] [start]) as (r & Hr).
  - unfold dfs_fuel, unvisited_edges, str_mem. cbn [List.length existsb]. lia.
  - exists r. split; [exact Hr|]. unfold _dfs_reachable. now rewrite Hr.
Qed.

(* ------------------------------------------------------------------ *)
(** * Further properties *)

(** ** The traversal visits what can be reached *)

(** The loop keeps the visited nodes, adds to them, and ends with a set
    that is closed under the edges once every edge that leaves a visited
    node leads to a visited node or to a node that waits on the stack. *)
Lemma dfs_loop_closed (graph : list (string * list string)) (fuel : nat)
    (visited stack r : list string) :
  dfs_loop fuel graph visited stack = Some r ->
  (forall v w, In v visited -> In w (adj_get v graph) -> In w visited \/ In w stack) ->
  incl visited r /\ incl stack r /\
  (forall v w, In v r -> In w (adj_get v graph) -> In w r).
Proof.
  revert visited stack. induction fuel as [|fuel IH]; intros visited stack H Hinv.
  - destruct stack as [|node stack]; [|discriminate].
    cbn in H. injection H as <-. repeat split.
    + apply incl_refl.
    + intros x [].
    + intros v w Hv Hw. destruct (Hinv v w Hv Hw) as [Hin|[]]. exact Hin.
  - destruct stack as [|node stack].
    + cbn in H. injection H as <-. repeat split.
      * apply incl_refl.
      * intros x [].
      * intros v w Hv Hw. destruct (Hinv v w Hv Hw) as [Hin|[]]. exact Hin.
    + cbn [dfs_loop] in H. destruct (str_mem node visited) eqn:Hnode.
      * apply str_mem_In in Hnode.
        destruct (IH visited stack H) as (Hv & Hs & Hc).
        { intros v w Hv Hw. destruct (Hinv v w Hv Hw) as [Hin|[<-|Hin]]; auto. }
        repeat split; auto.
        intros x [<-|Hx]; auto.
      * destruct (IH _ _ H) as (Hv & Hs & Hc).
        { intros v w Hv Hw. rewrite !in_app_iff, <- in_rev.
          apply in_app_or in Hv as [Hv|[<-|[]]].
          - destruct (Hinv v w Hv Hw) as [Hin|[<-|Hin]]; cbn; auto.
          - auto. }
        repeat split; auto.
        -- intros x Hx. apply Hv, in_or_app. now left.
        -- intros x [<-|Hx].
           ++ apply Hv, in_or_app. right. now left.
           ++ apply Hs, in_or_app. now right.
Qed.

(** What the loop ends with satisfies every property that the visited
    nodes and the stack satisfy and that the edges carry along. *)
Lemma dfs_loop_within (graph : list (string * list string)) (P : string -> Prop)
    (fuel : nat) (visited stack r : list string) :
  (forall x y, P x -> In y (adj_get x graph) -> P y) ->
  dfs_loop fuel graph visited stack = Some r ->
  Forall P visited -> Forall P stack -> Forall P r.
Proof.
  intros Hstep. revert visited stack.
  induction fuel as [|fuel IH]; intros visited stack H Hv Hs.
  - destruct stack; [|discriminate]. cbn in H. now injection H as <-.
  - destruct stack as [|node stack]; [cbn in H; now injection H as <-|].
    cbn [dfs_loop] in H. inversion Hs as [|? ? Hnode Hs']; subst.
    destruct (str_mem node visited).
    + now apply (IH visited stack).
    + apply (IH _ _ H).
      * apply Forall_app. split; [exact Hv|]. now constructor.
      * apply Forall_app. split; [|exact Hs'].
        apply Forall_forall. intros y Hy. apply in_rev in Hy.
        now apply (Hstep node).
Qed.

(** No node is visited twice, and the nodes come in the order of their
    first visit. *)
Lemma dfs_loop_nodup (graph : list (string * list string)) (fuel : nat)
    (visited stack r : list string) :
  dfs_loop fuel graph visited stack = Some r ->
  NoDup visited -> NoDup r /\ exists more, r = visited ++ more.
Proof.
  revert visited stack. induction fuel as [|fuel IH]; intros visited stack H Hnd.
  - destruct stack; [|discriminate]. cbn in H. injection H as <-.
    split; [exact Hnd|]. exists []. now rewrite app_nil_r.
  - destruct stack as [|node stack].
    + cbn in H. injection H as <-. split; [exact Hnd|]. exists []. now rewrite app_nil_r.
    + cbn [dfs_loop] in H. destruct (str_mem node visited) eqn:Hnode.
      * now apply (IH visited stack).
      * destruct (IH _ _ H) as (Hr & more & ->).
        { apply NoDup_app; [exact Hnd|repeat constructor; intros []|].
          intros x Hx [<-|[]]. apply str_mem_In in Hx. congruence. }
        split; [exact Hr|]. exists (node :: more). now rewrite <- app_assoc.
Qed.

(** X1. [_dfs_reachable start graph] is the set of the nodes that can be
    reached from [start] along the edges of [graph], [start] itself
    included: it begins with [start], holds no node twice, and a node is
    in it exactly when a path of edges leads from [start] to it. *)
Theorem dfs_reachable_is_reachability (start : string)
    (graph : list (string * list string)) :
  (exists more, _dfs_reachable start graph = start :: more) /\
  NoDup (_dfs_reachable start graph) /\
  forall x, In x (_dfs_reachable start graph) <-> reaches (graph_edge graph) start x.
Proof.
  destruct (dfs_reachable_total start graph) as (r & Hr & ->).
  assert (Hfirst : exists more, r = start :: more /\ NoDup r).
  { unfold dfs_fuel in Hr.
    remember (S (list_sum (map (fun e => List.length (snd e)) graph))) as fuel.
    cbn [dfs_loop str_mem existsb app] in Hr.
    destruct (dfs_loop_nodup graph _ [start] _ r Hr) as (Hnd & more & ->).
    - repeat constructor. intros [].
    - exists more. auto. }
  destruct Hfirst as (more & Hmore & Hnd).
  split; [now exists more|]. split; [exact Hnd|].
  intros x. split.
  - intros Hx.
    assert (Hall : Forall (reaches (graph_edge graph) start) r).
    { apply (dfs_loop_within graph _ (dfs_fuel graph) [] [start] r); auto.
      - intros a b Ha Hb. now apply (reaches_step _ _ a b).
      - repeat constructor. }
    rewrite Forall_forall in Hall. now apply Hall.
  - destruct (dfs_loop_closed graph _ [] [start] r Hr) as (_ & Hs & Hc).
    { intros v w []. }
    induction 1 as [|a b _ IH Hedge].
    + apply Hs. now left.
    + now apply (Hc a b).
Qed.

(* ------------------------------------------------------------------ *)
(** ** The map checks, part by part *)

Lemma reaches_ext {A} (R S : A -> A -> Prop) (a b : A) :
  (forall x y, R x y <-> S x y) -> reaches R a b <-> reaches S a b.
Proof.
  intros H. split; induction 1 as [|x y _ IH Hxy];
    try apply reaches_here; apply (reaches_step _ _ x y); auto; now apply H.
Qed.

(** A loop that only warns. *)
Lemma for_each_warn {A} (l : list A) (f : A -> diag) :
  for_each l (fun x => warn (f x)) = (mkResult [] (map f l), inr tt).
Proof.
  induction l as [|x l IH]; [reflexivity|].
  cbn [for_each map]. rewrite IH. reflexivity.
Qed.

Lemma check_connectivity_emitted (set_order : list string -> list string)
    (rooms : list string) (adj : list (string * list string)) :
  check_connectivity set_order rooms adj =
  (mkResult []
     match rooms with
     | [] => []
     | start :: _ =>
         map (fun room_id => MapUnreachable room_id start)
             (set_order (filter (fun room_id =>
                                   negb (str_mem room_id (_dfs_reachable start adj)))
                                rooms))
     end, inr tt).
Proof.
  unfold check_connectivity. destruct rooms as [|start rooms]; [reflexivity|].
  cbv zeta. apply for_each_warn.
Qed.

(** [x not in rooms], when it has a value. *)
Lemma in_rooms_inr (x : value) (rooms : list string) (b : bool) :
  in_rooms x rooms = inr b ->
  hashable x = true /\
  b = match x with VStr t => str_mem t rooms | _ => false end.
Proof.
  unfold in_rooms, find_room. destruct (hashable x); [|discriminate].
  cbn [rbind]. intros H. injection H as <-. split; [reflexivity|].
  destruct x; try reflexivity. now destruct (str_mem s rooms).
Qed.

(** What lines 180-183 append. *)
Lemma murder_location_emitted (data : value) (murder_loc : value) :
  outcome (when (truthy murder_loc)
             (known <~ in_rooms murder_loc (map fst (room_entries data)) ;;
              when (negb known) (err (MapMurderLocation murder_loc)))) = inr tt ->
  (truthy murder_loc = true -> hashable murder_loc = true) /\
  emitted (when (truthy murder_loc)
             (known <~ in_rooms murder_loc (map fst (room_entries data)) ;;
              when (negb known) (err (MapMurderLocation murder_loc))))
  = mkResult (if truthy murder_loc && negb (names_room data murder_loc)
              then [MapMurderLocation murder_loc] else []) [].
Proof.
  destruct (truthy murder_loc); cbn [when andb]; [|intros _; split; [discriminate|reflexivity]].
  intros H. returned H as known.
  destruct (in_rooms_inr _ _ _ Eknown) as (Hh & ->).
  split; [auto|].
  unfold names_room, declared_room.
  destruct murder_loc; try reflexivity.
  now destruct (str_mem s _).
Qed.

(** A run of [check_map] that returned, taken apart. *)
Lemma check_map_parts (set_order : list string -> list string) (data : value)
    (v : list string * list (string * list string)) :
  outcome (check_map set_order data) = inr v ->
  (has_map data = false /\ v = ([], []) /\ room_entries data = [] /\
   emitted (check_map set_order data) = mkResult [MapNoMapKey] [])
  \/
  (has_map data = true /\
   exists adj,
     v = (map fst (room_entries data), adj) /\
     outcome (build_adj (map fst (room_entries data)) (room_entries data)) = inr adj /\
     (truthy (murder_location data) = true -> hashable (murder_location data) = true) /\
     errors (emitted (check_map set_order data)) =
       errors (emitted (build_adj (map fst (room_entries data)) (room_entries data)))
       ++ (if truthy (murder_location data) && negb (names_room data (murder_location data))
           then [MapMurderLocation (murder_location data)] else []) /\
     warnings (emitted (check_map set_order data)) =
       flat_map (one_way_of adj) adj
       ++ warnings (emitted (check_connectivity set_order
                               (map fst (room_entries data)) adj))).
Proof.
  unfold check_map, has_map, murder_location. intros H.
  returned H as has_map. destruct has_map; cbn [negb] in *.
  2:{ left. split; [reflexivity|]. cbn in H. injection H as <-.
      split; [reflexivity|]. split; [now apply no_map_no_entries|reflexivity]. }
  right. split; [reflexivity|].
  returned H as map_. returned H as items.
  assert (Hent : room_entries data = items).
  { unfold room_entries. rewrite Emap_. cbn [rbind]. now rewrite Eitems. }
  rewrite Hent. clear Emap_ Eitems.
  apply outcome_bind_inr in H as (adj & Hadj & H).
  exists adj. rewrite (bind_inr _ _ adj Hadj). cbn [emitted fst].
  destruct (build_adj_entries _ _ _ Hadj) as (Hbw & _).
  destruct (check_one_way_emitted adj) as (Hone & Hww).
  assert (Hoe : errors (emitted (check_one_way adj)) = []).
  { apply errors_all_False. unfold check_one_way. appends. }
  apply outcome_bind_inr in H as ([] & _ & H).
  rewrite (bind_inr _ _ tt Hone). cbn [emitted fst outcome snd].
  rewrite check_connectivity_emitted in *.
  set (conn := mkResult [] _) in *.
  rewrite bind_inr with (a := tt) in H by reflexivity. cbn [outcome snd] in H.
  rewrite bind_inr with (a := tt) by reflexivity. cbn [emitted fst outcome snd].
  returned H as murder_loc.
  apply outcome_bind_inr in H as ([] & Hm & H).
  pose proof Hm as Hm'. rewrite <- Hent in Hm'.
  destruct (murder_location_emitted data murder_loc Hm') as (Hh & Hme).
  rewrite Hent in Hme.
  rewrite (bind_inr _ _ tt Hm), Hme. cbn in H. injection H as <-.
  split; [reflexivity|]. split; [exact Hadj|]. split; [exact Hh|].
  split.
  - cbn [plus errors emitted fst ret empty]. rewrite Hoe. subst conn.
    cbn [errors app]. now rewrite app_nil_r.
  - cbn [plus warnings emitted fst ret empty]. rewrite Hbw, Hww.
    cbn [app]. now rewrite !app_nil_r.
Qed.

(** [adj], as [check_map] builds it, holds the links of the document. *)
Lemma adj_links (data : value) (adj : list (string * list string)) :
  outcome (build_adj (map fst (room_entries data)) (room_entries data)) = inr adj ->
  map fst adj = map fst (room_entries data) /\
  forall a b, In b (adj_get a adj) <-> links data a b.
Proof.
  intros Hadj.
  destruct (build_adj_entries _ _ _ Hadj) as (_ & Hall).
  destruct (adj_entries_lookup _ _ _ Hall) as (Hkeys & Hlook).
  split; [exact Hkeys|]. intros a b.
  rewrite <- str_mem_In, count_str_pos, Hlook.
  unfold links, declared_room, lists, connections_of.
  rewrite list_mem_count.
  destruct (str_mem b (map fst (room_entries data))); cbn [Nat.eqb negb].
  - tauto.
  - split; [discriminate|]. intros [Hf _]. discriminate.
Qed.

(** X2. When [check_map] returns, it returns the set of the room ids of
    the map (kept here as the list of the ids in document order) and,
    under the same ids in the same order, the adjacency of the declared
    rooms: [b] is among the neighbours of [a] exactly when the room [a]
    lists [b] and [b] is itself a declared room; connections to rooms that
    are not declared are left out. *)
Theorem check_map_returns_rooms_and_links (set_order : list string -> list string)
    (data : value) (rooms : list string) (adj : list (string * list string)) :
  outcome (check_map set_order data) = inr (rooms, adj) ->
  rooms = map fst (room_entries data) /\
  map fst adj = rooms /\
  forall a b, In b (adj_get a adj) <-> links data a b.
Proof.
  intros H.
  destruct (check_map_parts set_order data _ H)
    as [(_ & Hv & Hent & _)|(_ & adj' & Hv & Hadj & _)].
  - injection Hv as -> ->. rewrite Hent.
    split; [reflexivity|]. split; [reflexivity|].
    intros a b. split; [intros []|].
    intros [_ Hl]. unfold lists, connections_of in Hl. rewrite Hent in Hl.
    discriminate.
  - injection Hv as -> <-.
    destruct (adj_links data adj Hadj) as (Hkeys & Hlinks). auto.
Qed.

Lemma check_map_returns_rooms_and_links_witness :
  outcome (check_map (fun l => l) attic_case)
  = inr (["hall"; "study"; "attic"],
         [("hall", ["study"]); ("study", ["hall"]); ("attic", ["hall"])]) /\
  ["hall"; "study"; "attic"] = map fst (room_entries attic_case) /\
  map fst [("hall", ["study"]); ("study", ["hall"]); ("attic", ["hall"])]
  = ["hall"; "study"; "attic"] /\
  forall a b,
    In b (adj_get a [("hall", ["study"]); ("study", ["hall"]); ("attic", ["hall"])])
    <-> links attic_case a b.
Proof.
  split; [reflexivity|].
  exact (check_map_returns_rooms_and_links (fun l => l) attic_case _ _ eq_refl).
Defined.

Lemma one_way_of_kind (adj : list (string * list string))
    (entry : string * list string) (d : diag) :
  In d (one_way_of adj entry) -> exists a b, d = MapOneWay a b.
Proof.
  unfold one_way_of. intros H. apply in_flat_map in H as (t & _ & H).
  destruct (str_mem _ _); [destruct H|]. destruct H as [<-|[]]. now eexists _, _.
Qed.

(** X3. When [check_map] returns, the warning that room [r] is
    unreachable from [s] is there exactly when [s] is the first room of
    the map, [r] is a declared room, and no chain of links between
    declared rooms leads from [s] to [r]; the direction of the links
    counts, and a map without rooms gets no such warning. *)
Theorem unreachable_rooms_warned (set_order : list string -> list string)
    (data : value) (v : list string * list (string * list string)) :
  arrangement set_order ->
  outcome (check_map set_order data) = inr v ->
  forall r s,
    In (MapUnreachable r s) (warnings (emitted (check_map set_order data)))
    <->
    (exists rest, map fst (room_entries data) = s :: rest) /\
    declared_room data r = true /\
    ~ reaches (links data) s r.
Proof.
  intros Harr H r s.
  destruct (check_map_parts set_order data _ H)
    as [(_ & _ & Hent & ->)|(_ & adj & _ & Hadj & _ & _ & ->)].
  - rewrite Hent. cbn. split; [intros []|]. intros ((rest & Hr) & _). discriminate.
  - destruct (adj_links data adj Hadj) as (_ & Hlinks).
    rewrite check_connectivity_emitted. cbn [warnings emitted fst].
    rewrite in_app_iff. unfold declared_room.
    destruct (map fst (room_entries data)) as [|start rooms] eqn:Erooms.
    + split.
      * intros [Hin|[]]. apply in_flat_map in Hin as (e & _ & Hin).
        apply one_way_of_kind in Hin as (a & b & Hd). discriminate.
      * intros ((rest & Hr) & _). discriminate.
    + rewrite in_map_iff. split.
      * intros [Hin|(x & Hx & Hin)].
        { apply in_flat_map in Hin as (e & _ & Hin).
          apply one_way_of_kind in Hin as (a & b & Hd). discriminate. }
        injection Hx as -> ->.
        apply (Permutation_in _ (Harr _)) in Hin.
        apply filter_In in Hin as (Hin & Hnot).
        split; [now exists rooms|]. split; [now apply str_mem_In|].
        intros Hreach. apply negb_true_iff in Hnot.
        destruct (dfs_reachable_total s adj) as (reach & _ & Hreach').
        assert (Hin' : In r (_dfs_reachable s adj)).
        { destruct (dfs_loop_closed adj (dfs_fuel adj) [] [s] reach) as (_ & Hs & Hc).
          - destruct (dfs_reachable_total s adj) as (r' & Hr' & Heq). congruence.
          - intros ? ? [].
          - rewrite Hreach'. clear Hnot Hin. induction Hreach as [|a b _ IH Hedge].
            + apply Hs. now left.
            + apply (Hc a b); [exact IH|]. now apply Hlinks. }
        apply str_mem_In in Hin'. congruence.
      * intros ((rest & Hr) & Hdecl & Hnot). injection Hr as <- <-.
        right. exists r. split; [reflexivity|].
        apply (Permutation_in _ (Permutation_sym (Harr _))).
        apply filter_In. split; [now apply str_mem_In|].
        apply negb_true_iff. destruct (str_mem r (_dfs_reachable start adj)) eqn:Hin;
          [|reflexivity].
        exfalso. apply Hnot. apply str_mem_In in Hin.
        destruct (dfs_reachable_total start adj) as (reach & Hloop & Heq).
        rewrite Heq in Hin.
        assert (Hall : Forall (reaches (links data) start) reach).
        { apply (dfs_loop_within adj _ (dfs_fuel adj) [] [start] reach); auto.
          - intros a b Ha Hb. apply (reaches_step _ _ a b); [exact Ha|].
            now apply Hlinks.
          - repeat constructor. }
        rewrite Forall_forall in Hall. now apply Hall.
Qed.

Lemma unreachable_rooms_warned_witness :
  arrangement (fun l => l) /\
  outcome (check_map (fun l => l) attic_case)
  = inr (["hall"; "study"; "attic"],
         [("hall", ["study"]); ("study", ["hall"]); ("attic", ["hall"])]) /\
  (In (MapUnreachable "attic" "hall")
      (warnings (emitted (check_map (fun l => l) attic_case)))
   <->
   (exists rest, map fst (room_entries attic_case) = "hall" :: rest) /\
   declared_room attic_case "attic" = true /\
   ~ reaches (links attic_case) "hall" "attic").
Proof.
  split; [exact arrangement_id|]. split; [reflexivity|].
  exact (unreachable_rooms_warned (fun l => l) attic_case _ arrangement_id eq_refl
           "attic" "hall").
Defined.

(** The warnings of the attic case: the one-way link from the attic and
    the attic that nothing leads to. *)
Example attic_case_warnings :
  warnings (emitted (check_map (fun l => l) attic_case))
  = [MapOneWay "attic" "hall"; MapUnreachable "attic" "hall"].
Proof. reflexivity. Qed.

Lemma valid_targets_errors (rooms : list string) (room_id : string)
    (targets : list value) (neighbors : list string) :
  outcome (valid_targets rooms room_id targets) = inr neighbors ->
  errors (emitted (valid_targets rooms room_id targets)) =
  map (MapBadConnection room_id)
      (filter (fun target => negb (among rooms target)) targets).
Proof.
  revert neighbors. induction targets as [|target targets IH]; intros neighbors H.
  - reflexivity.
  - cbn [valid_targets filter] in *. returned H as found.
    unfold find_room in Efound.
    destruct (hashable target); [|discriminate]. injection Efound as <-.
    assert (Hr : among rooms target =
                 match (match target with
                        | VStr t => if str_mem t rooms then Some t else None
                        | _ => None
                        end) with Some _ => true | None => false end).
    { destruct target; try reflexivity. cbn. now destruct (str_mem s rooms). }
    rewrite Hr.
    destruct (match target with VStr t => _ | _ => None end) as [t|].
    + apply outcome_bind_inr in H as (ns & Hns & _).
      rewrite errors_bind, Hns, (IH ns Hns). cbn [negb]. cbn. apply app_nil_r.
    + apply outcome_bind_inr in H as ([] & _ & H).
      rewrite errors_bind. cbn [negb map]. cbn [err outcome snd emitted fst errors app].
      now rewrite (IH neighbors H).
Qed.

Lemma build_adj_errors (rooms : list string) (items : list (string * value))
    (adj : list (string * list string)) :
  outcome (build_adj rooms items) = inr adj ->
  errors (emitted (build_adj rooms items)) = flat_map (bad_connections rooms) items.
Proof.
  revert adj. induction items as [|[room_id room_info] items IH]; intros adj H.
  - reflexivity.
  - cbn [build_adj flat_map] in *.
    apply outcome_bind_inr in H as (connects & Hc & H).
    destruct (room_connects_listed _ _ Hc) as (_ & Hlisted).
    assert (Hce : errors (emitted (room_connects room_info)) = []).
    { apply errors_all_False. unfold room_connects. appends. }
    rewrite (errors_bind_inr _ _ connects Hc), Hce. cbn [app].
    returned H as targets.
    apply outcome_bind_inr in H as (neighbors & Hn & H).
    apply outcome_bind_inr in H as (adj' & Ha & _).
    rewrite (errors_bind_inr _ _ neighbors Hn), (errors_bind_inr _ _ adj' Ha).
    rewrite (valid_targets_errors _ _ _ _ Hn), (IH adj' Ha).
    assert (Hhere : bad_connections rooms (room_id, room_info) =
                    map (MapBadConnection room_id)
                        (filter (fun target => negb (among rooms target)) targets)).
    { unfold bad_connections. cbn [fst snd]. now rewrite (Hlisted targets eq_refl). }
    rewrite Hhere. cbn [ret emitted fst errors empty]. now rewrite app_nil_r.
Qed.

Lemma dict_lookup_In {V} (k : string) (v : V) (d : list (string * V)) :
  NoDup (map fst d) -> In (k, v) d -> dict_lookup k d = Some v.
Proof.
  induction d as [|[k' v'] d IH]; [intros _ []|].
  cbn [map fst dict_lookup]. intros Hnd [Heq|Hin].
  - injection Heq as -> ->. now rewrite String.eqb_refl.
  - inversion Hnd as [|? ? Hk Hnd']; subst.
    destruct (String.eqb_spec k k') as [->|Hne].
    + exfalso. apply Hk. apply in_map_iff. now exists (k', v).
    + now apply IH.
Qed.

Lemma dict_lookup_Some_In {V} (k : string) (v : V) (d : list (string * V)) :
  dict_lookup k d = Some v -> In (k, v) d.
Proof.
  induction d as [|[k' v'] d IH]; [discriminate|]. cbn [dict_lookup].
  destruct (String.eqb_spec k k') as [->|Hne].
  - intros E. injection E as ->. now left.
  - intros E. right. now apply IH.
Qed.

(** X4. When [check_map] returns on a map whose room ids are pairwise
    distinct, the error that room [a] connects to the non-existent room
    [t] is there exactly when the descriptor of [a] lists [t] (in its
    'connects_to', or as an element when the descriptor is a bare list) and
    [t] is not the id of a declared room. *)
Theorem bad_connections_reported (set_order : list string -> list string)
    (data : value) (v : list string * list (string * list string)) :
  outcome (check_map set_order data) = inr v ->
  NoDup (map fst (room_entries data)) ->
  forall a t,
    In (MapBadConnection a t) (errors (emitted (check_map set_order data)))
    <->
    In t (connections_of data a) /\ names_room data t = false.
Proof.
  intros H Hnd a t.
  destruct (check_map_parts set_order data _ H)
    as [(_ & _ & Hent & ->)|(_ & adj & _ & Hadj & _ & -> & _)].
  - unfold connections_of. rewrite Hent. cbn. split; [|tauto].
    intros [Hd|[]]. discriminate.
  - rewrite (build_adj_errors _ _ _ Hadj), in_app_iff, in_flat_map.
    unfold connections_of. split.
    + intros [((k, info) & Hitem & Hin)|Hin].
      * unfold bad_connections in Hin. cbn [fst snd] in Hin.
        apply in_map_iff in Hin as (t' & Heq & Hin). injection Heq as -> ->.
        apply filter_In in Hin as (Hin & Hnot).
        rewrite (dict_lookup_In _ _ _ Hnd Hitem). split; [exact Hin|].
        apply negb_true_iff in Hnot. exact Hnot.
      * destruct (_ && _); [|destruct Hin]. destruct Hin as [Hd|[]]. discriminate.
    + intros (Hin & Hnot). left.
      destruct (dict_lookup a (room_entries data)) as [info|] eqn:Elook; [|destruct Hin].
      exists (a, info). split; [now apply dict_lookup_Some_In|].
      unfold bad_connections. cbn [fst snd]. apply in_map.
      apply filter_In. split; [exact Hin|]. apply negb_true_iff. exact Hnot.
Qed.

Lemma bad_connections_reported_witness :
  outcome (check_map (fun l => l) attic_case)
  = inr (["hall"; "study"; "attic"],
         [("hall", ["study"]); ("study", ["hall"]); ("attic", ["hall"])]) /\
  NoDup (map fst (room_entries attic_case)) /\
  (In (MapBadConnection "attic" (VStr "roof"))
      (errors (emitted (check_map (fun l => l) attic_case)))
   <->
   In (VStr "roof") (connections_of attic_case "attic") /\
   names_room attic_case (VStr "roof") = false).
Proof.
  assert (Hnd : NoDup (map fst (room_entries attic_case))).
  { cbn. repeat constructor; cbn; intuition discriminate. }
  split; [reflexivity|]. split; [exact Hnd|].
  exact (bad_connections_reported (fun l => l) attic_case _ eq_refl Hnd
           "attic" (VStr "roof")).
Defined.

(** X5. When [check_map] returns, the error that the murder location is
    not found in the map rooms is there exactly when the document has a
    map, its 'murderLocation' is a truthy value, and that value is not the
    id of a declared room; without a 'map' key the murder location is not
    looked at, and an absent, null or empty one is never reported. *)
Theorem murder_location_checked_against_map (set_order : list string -> list string)
    (data : value) (v : list string * list (string * list string)) :
  outcome (check_map set_order data) = inr v ->
  forall m,
    In (MapMurderLocation m) (errors (emitted (check_map set_order data)))
    <->
    has_map data = true /\ m = murder_location data /\
    truthy m = true /\ names_room data m = false.
Proof.
  intros H m.
  destruct (check_map_parts set_order data _ H)
    as [(Hno & _ & _ & ->)|(Hmap & adj & _ & Hadj & _ & -> & _)].
  - rewrite Hno. cbn. split; [|intros (Hf & _); discriminate].
    intros [Hd|[]]. discriminate.
  - rewrite (build_adj_errors _ _ _ Hadj), in_app_iff, in_flat_map. split.
    + intros [((k, info) & _ & Hin)|Hin].
      * unfold bad_connections in Hin. apply in_map_iff in Hin as (t & Hd & _).
        discriminate.
      * destruct (truthy (murder_location data)) eqn:Et; [|destruct Hin].
        destruct (names_room data (murder_location data)) eqn:En; [destruct Hin|].
        destruct Hin as [Heq|[]]. injection Heq as <-. auto.
    + intros (_ & -> & Ht & Hn). right. rewrite Ht, Hn. now left.
Qed.

Lemma murder_location_checked_against_map_witness :
  outcome (check_map (fun l => l) attic_case)
  = inr (["hall"; "study"; "attic"],
         [("hall", ["study"]); ("study", ["hall"]); ("attic", ["hall"])]) /\
  (In (MapMurderLocation (VStr "cellar"))
      (errors (emitted (check_map (fun l => l) attic_case)))
   <->
   has_map attic_case = true /\ VStr "cellar" = murder_location attic_case /\
   truthy (VStr "cellar") = true /\ names_room attic_case (VStr "cellar") = false).
Proof.
  split; [reflexivity|].
  exact (murder_location_checked_against_map (fun l => l) attic_case _ eq_refl
           (VStr "cellar")).
Defined.

(** The errors of the attic case: the room that is not declared and the
    murder location that is no room. *)
Example attic_case_errors :
  errors (emitted (check_map (fun l => l) attic_case))
  = [MapBadConnection "attic" (VStr "roof"); MapMurderLocation (VStr "cellar")].
Proof. reflexivity. Qed.

(* ------------------------------------------------------------------ *)
(** ** When the map checks return *)

Lemma outcome_bind_eq {A B} (m : M A) (f : A -> M B) (a : A) :
  outcome m = inr a -> outcome (bind m f) = outcome (f a).
Proof. intros H. now rewrite outcome_bind, H. Qed.

Lemma outcome_bind_raises {A B} (m : M A) (f : A -> M B) (e : exn) :
  outcome m = inl e -> outcome (bind m f) = inl e.
Proof. intros H. now rewrite outcome_bind, H. Qed.

(** A loop runs to its end exactly when every iteration does. *)
Lemma for_each_returns {A} (l : list A) (body : A -> M unit) :
  outcome (for_each l body) = inr tt <->
  Forall (fun x => outcome (body x) = inr tt) l.
Proof.
  split; [intros H; now apply for_each_inr|].
  induction 1 as [|x l Hx _ IH]; [reflexivity|].
  cbn [for_each]. now rewrite (outcome_bind_eq _ _ tt Hx).
Qed.

Lemma returns_unit (m : M unit) :
  (exists v, outcome m = inr v) <-> outcome m = inr tt.
Proof. split; [intros ([] & H); exact H|intros H; now exists tt]. Qed.

Lemma valid_targets_returns (rooms : list string) (room_id : string)
    (targets : list value) :
  (exists neighbors, outcome (valid_targets rooms room_id targets) = inr neighbors)
  <-> forallb hashable targets = true.
Proof.
  induction targets as [|target targets IH]; cbn [valid_targets forallb].
  - split; [reflexivity|]. intros _. now eexists.
  - unfold find_room. destruct (hashable target); cbn [andb].
    2:{ split; [intros (ns & H); discriminate|discriminate]. }
    rewrite bind_lift_inr, <- IH.
    destruct (match target with VStr t => _ | _ => None end) as [t|].
    + split.
      * intros (ns & H). apply outcome_bind_inr in H as (ns' & H & _). now exists ns'.
      * intros (ns & H). rewrite (outcome_bind_eq _ _ ns H). now eexists.
    + split.
      * intros (ns & H). apply outcome_bind_inr in H as ([] & _ & H). now exists ns.
      * intros (ns & H). exists ns.
        now rewrite outcome_bind_eq with (a := tt).
Qed.

(** The loop of lines 150-154 over the interactables of a room. *)
Lemma interactables_loop_returns (items : list value) :
  outcome (for_each items (fun item =>
             eid <~ py_get item "evidence_id" VNone ;; ret tt)) = inr tt
  <-> forallb is_dict items = true.
Proof.
  rewrite for_each_returns, forallb_forall, Forall_forall.
  split; intros H x Hx; specialize (H x Hx); destruct x; try discriminate;
    reflexivity.
Qed.

(** The connections [room_connects] hands on, when it returns. *)
Lemma room_connects_returns (room_info connects : value) :
  outcome (room_connects room_info) = inr connects <->
  match room_info with
  | VDict info =>
      iter_all is_dict (field info "interactables" (VList [])) = true /\
      connects = field info "connects_to" (VList [])
  | VList _ => connects = room_info
  | _ => connects = VList []
  end.
Proof.
  unfold room_connects.
  destruct room_info as [| | | | |l|info]; cbn [is_dict is_list];
    try (cbn; split; [intros H; now injection H as <-|now intros ->]).
  cbn [py_get]. rewrite !bind_lift_inr.
  fold (field info "connects_to" (VList [])).
  fold (field info "interactables" (VList [])).
  unfold iter_all.
  destruct (py_iter (field info "interactables" (VList []))) as [e|items].
  { cbn. split; [discriminate|intros [H _]; discriminate]. }
  rewrite bind_lift_inr, outcome_bind.
  pose proof (interactables_loop_returns items) as Hloop.
  destruct (outcome (for_each items _)) as [e|[]].
  - split; [discriminate|]. intros [H _]. apply Hloop in H. discriminate.
  - cbn. split.
    + intros H. injection H as <-. split; [now apply Hloop|reflexivity].
    + now intros [_ ->].
Qed.

Lemma build_adj_returns (rooms : list string) (items : list (string * value)) :
  (exists adj, outcome (build_adj rooms items) = inr adj)
  <-> forallb (fun entry => room_shape (snd entry)) items = true.
Proof.
  induction items as [|[room_id room_info] items IH]; cbn [build_adj forallb snd].
  - split; [reflexivity|]. intros _. now eexists.
  - rewrite andb_true_iff, <- IH. clear IH. split.
    + intros (adj & H).
      apply outcome_bind_inr in H as (connects & Hc & H).
      returned H as targets.
      apply outcome_bind_inr in H as (neighbors & Hn & H).
      apply outcome_bind_inr in H as (adj' & Ha & _).
      split; [|now exists adj'].
      assert (Hh : forallb hashable targets = true)
        by (apply (valid_targets_returns rooms room_id); now exists neighbors).
      apply room_connects_returns in Hc.
      unfold room_shape, iter_all.
      destruct room_info; try reflexivity.
      * subst connects. cbn in Etargets. now injection Etargets as <-.
      * destruct Hc as (Hi & ->). unfold iter_all in Hi.
        now rewrite Hi, Etargets.
    + intros (Hshape & adj' & Ha).
      assert (Hc : exists connects targets,
                 outcome (room_connects room_info) = inr connects /\
                 py_iter connects = inr targets /\ forallb hashable targets = true).
      { unfold room_shape, iter_all in Hshape.
        destruct room_info as [| | | | |l|info];
          try (exists (VList []), []; split; [now apply room_connects_returns|];
               split; reflexivity).
        - exists (VList l), l. split; [now apply room_connects_returns|].
          split; [reflexivity|exact Hshape].
        - apply andb_prop in Hshape as [Hi Ht].
          destruct (py_iter (field info "connects_to" (VList []))) as [e|targets] eqn:Et;
            [discriminate|].
          exists (field info "connects_to" (VList [])), targets.
          split; [apply room_connects_returns; now split|]. auto. }
      destruct Hc as (connects & targets & Hc & Ht & Hh).
      apply (valid_targets_returns rooms room_id) in Hh as (neighbors & Hn).
      eexists.
      rewrite (outcome_bind_eq _ _ connects Hc), Ht, bind_lift_inr.
      rewrite (outcome_bind_eq _ _ neighbors Hn), (outcome_bind_eq _ _ adj' Ha).
      reflexivity.
Qed.

(** X6. On a document that is a mapping, [check_map] returns (instead of
    raising) exactly when there is no 'map' key, or the map is a mapping,
    every room value that is a mapping has interactables that are
    mappings and a 'connects_to' made of values that can be hashed, every
    room value that is a list is made of values that can be hashed, and
    the murder location is falsy or can be hashed.  A map that is a list
    or null, a 'connects_to' that is a number or null, a connection that is
    itself a list or a mapping: each raises and ends the run. *)
Theorem check_map_returns_on_shaped_maps (set_order : list string -> list string)
    (d : list (string * value)) :
  (exists v, outcome (check_map set_order (VDict d)) = inr v)
  <-> map_shape d = true.
Proof.
  unfold check_map, map_shape.
  rewrite py_in_dict, bind_lift_inr. unfold py_getitem.
  destruct (dict_lookup "map" d) as [map_|]; cbn [negb].
  2:{ split; [reflexivity|]. intros _. now eexists. }
  rewrite bind_lift_inr.
  destruct map_ as [| | | | | |rooms];
    try (cbn; split; [intros (v & H); discriminate|discriminate]).
  cbn [py_items py_get]. rewrite !bind_lift_inr.
  fold (field d "murderLocation" VNone).
  set (m := field d "murderLocation" VNone).
  rewrite andb_true_iff, <- (build_adj_returns (map fst rooms) rooms).
  assert (Hm : outcome (when (truthy m)
                          (known <~ in_rooms m (map fst rooms) ;;
                           when (negb known) (err (MapMurderLocation m)))) = inr tt
               <-> negb (truthy m) || hashable m = true).
  { destruct (truthy m); cbn [when negb orb]; [|tauto].
    unfold in_rooms, find_room. destruct (hashable m); cbn [rbind].
    - rewrite bind_lift_inr. split; [reflexivity|]. intros _.
      now destruct (match m with VStr _ => _ | _ => _ end).
    - split; discriminate. }
  rewrite <- Hm. clear Hm. split.
  - intros (v & H).
    apply outcome_bind_inr in H as (adj & Hadj & H).
    apply outcome_bind_inr in H as ([] & _ & H).
    apply outcome_bind_inr in H as ([] & _ & H).
    rewrite bind_lift_inr in H.
    apply outcome_bind_inr in H as ([] & H & _).
    split; [now exists adj|exact H].
  - intros ((adj & Hadj) & Hm). eexists.
    rewrite (outcome_bind_eq _ _ adj Hadj).
    rewrite (outcome_bind_eq _ _ tt (proj1 (check_one_way_emitted adj))).
    rewrite check_connectivity_emitted.
    rewrite outcome_bind_eq with (a := tt) by reflexivity.
    rewrite bind_lift_inr.
    rewrite (outcome_bind_eq _ _ tt Hm). reflexivity.
Qed.

(* ------------------------------------------------------------------ *)
(** ** The scanner reports backwards *)

Lemma pop_scopes_suffix (m : Z) (st : list scope) :
  exists popped, st = popped ++ pop_scopes m st.
Proof.
  induction st as [|x st IH]; [now exists []|].
  cbn [pop_scopes]. destruct st as [|y r]; [now exists []|].
  destruct (scope_indent x >=? m)%Z; [|now exists []].
  destruct IH as (popped & IH). exists (x :: popped). cbn [app]. now rewrite <- IH.
Qed.

Lemma stack_below_pop (n : nat) (m : Z) (st : list scope) :
  stack_below n st -> stack_below n (pop_scopes m st).
Proof.
  unfold stack_below. intros H.
  destruct (pop_scopes_suffix m st) as (popped & Heq).
  rewrite Heq in H. now apply Forall_app in H.
Qed.

Lemma stack_below_le (n m : nat) (st : list scope) :
  n <= m -> stack_below n st -> stack_below m st.
Proof.
  unfold stack_below. intros Hnm H.
  eapply Forall_impl; [|exact H]. intros sc Hsc.
  eapply Forall_impl; [|exact Hsc]. intros kv Hkv. cbv beta in *. lia.
Qed.

(** A key is handed to [record_key]: at most one error, for the line at
    hand, naming an earlier line; and the stack remembers no later line. *)
Lemma record_key_below (lineno : nat) (key : string) (indent : Z) (opens : bool)
    (st : list scope) :
  1 <= lineno -> stack_below lineno st ->
  (errors (emitted (record_key lineno key indent opens st)) = [] \/
   exists first, 1 <= first < lineno /\
     errors (emitted (record_key lineno key indent opens st))
     = [DuplicateKey lineno key first]) /\
  warnings (emitted (record_key lineno key indent opens st)) = [] /\
  forall st', outcome (record_key lineno key indent opens st) = inr st' ->
              stack_below (S lineno) st'.
Proof.
  intros Hl Hst. rewrite record_key_unfold.
  pose proof (stack_below_pop lineno indent st Hst) as Hp.
  destruct (pop_scopes indent st) as [|[[ind li] seen] rest].
  - split; [now left|]. split; [reflexivity|].
    cbn. intros st' H. injection H as <-. destruct opens; repeat constructor.
  - inversion Hp as [|? ? Hseen Hrest]; subst. cbn [scope_seen snd] in Hseen.
    assert (Hrest' : stack_below (S lineno) rest)
      by (apply (stack_below_le lineno); [lia|exact Hrest]).
    assert (Hseen' : Forall (fun kv : string * nat => 1 <= snd kv < S lineno) seen).
    { eapply Forall_impl; [|exact Hseen]. intros kv Hkv. cbv beta in *. lia. }
    destruct (dict_lookup key seen) as [first|] eqn:Elook.
    + apply dict_lookup_Some_In in Elook. rewrite Forall_forall in Hseen.
      specialize (Hseen _ Elook). cbn [snd] in Hseen.
      split; [right; now exists first|]. split; [reflexivity|].
      cbn. intros st' H. injection H as <-.
      destruct opens; repeat constructor; assumption.
    + split; [now left|]. split; [reflexivity|].
      cbn. intros st' H. injection H as <-.
      assert (Hnew : Forall (fun kv : string * nat => 1 <= snd kv < S lineno)
                       (seen ++ [(key, lineno)])).
      { apply Forall_app. split; [exact Hseen'|]. repeat constructor; cbn; lia. }
      destruct opens; repeat constructor; assumption.
Qed.

Lemma scan_line_below (lineno : nat) (raw_line : string) (st : list scope) :
  1 <= lineno -> stack_below lineno st ->
  (errors (emitted (scan_line lineno raw_line st)) = [] \/
   exists key first, 1 <= first < lineno /\
     errors (emitted (scan_line lineno raw_line st))
     = [DuplicateKey lineno key first]) /\
  warnings (emitted (scan_line lineno raw_line st)) = [] /\
  forall st', outcome (scan_line lineno raw_line st) = inr st' ->
              stack_below (S lineno) st'.
Proof.
  intros Hl Hst.
  assert (Hskip : forall st0, stack_below lineno st0 ->
            (errors (emitted (@ret (list scope) st0)) = [] \/
             exists key first, 1 <= first < lineno /\
               errors (emitted (@ret (list scope) st0)) = [DuplicateKey lineno key first]) /\
            warnings (emitted (@ret (list scope) st0)) = [] /\
            forall st', outcome (@ret (list scope) st0) = inr st' ->
                        stack_below (S lineno) st').
  { intros st0 H0. split; [now left|]. split; [reflexivity|].
    cbn. intros st' H. injection H as <-.
    apply (stack_below_le lineno); [lia|exact H0]. }
  assert (Hkey : forall stripped indent st0, stack_below lineno st0 ->
            (errors (emitted (scan_key lineno stripped indent st0)) = [] \/
             exists key first, 1 <= first < lineno /\
               errors (emitted (scan_key lineno stripped indent st0))
               = [DuplicateKey lineno key first]) /\
            warnings (emitted (scan_key lineno stripped indent st0)) = [] /\
            forall st', outcome (scan_key lineno stripped indent st0) = inr st' ->
                        stack_below (S lineno) st').
  { intros stripped indent st0 H0. unfold scan_key.
    destruct (negb _); [now apply Hskip|].
    destruct (_ || _); [now apply Hskip|].
    destruct (record_key_below lineno (extract_key stripped) indent
                (opens_block stripped) st0 Hl H0) as ([He|(first & Hf & He)] & Hw & Hs).
    - split; [now left|]. auto.
    - split; [right; now exists (extract_key stripped), first|]. auto. }
  unfold scan_line. cbv zeta.
  destruct (_ || _); [now apply Hskip|].
  assert (Hpush : forall indent, stack_below lineno ((indent, true, []) :: pop_scopes indent st)).
  { intros indent. constructor; [constructor|]. now apply stack_below_pop. }
  destruct (PyStr.startswith "- " _).
  - destruct (_ || _); [apply Hskip|apply Hkey]; apply Hpush.
  - now apply Hkey.
Qed.

Lemma scan_lines_below (lines : list string) (lineno : nat) (st : list scope) :
  1 <= lineno -> stack_below lineno st ->
  Forall (fun d => exists l key first,
            d = DuplicateKey l key first /\ 1 <= first < l /\
            lineno <= l < lineno + List.length lines)
         (errors (emitted (scan_lines lineno lines st))) /\
  StronglySorted lt (map reported_line (errors (emitted (scan_lines lineno lines st)))) /\
  warnings (emitted (scan_lines lineno lines st)) = [] /\
  stack_below (lineno + List.length lines) (stack_after lineno lines st).
Proof.
  revert lineno st. induction lines as [|line lines IH]; intros lineno st Hl Hst.
  - cbn. repeat split; try constructor.
    unfold stack_after. cbn. rewrite Nat.add_0_r. exact Hst.
  - destruct (scan_line_returns lineno line st) as (st' & Hst').
    destruct (stack_after_cons lineno line lines st st' Hst') as (-> & ->).
    destruct (scan_line_below lineno line st Hl Hst) as (Herr & Hw & Hbelow).
    specialize (Hbelow st' Hst').
    destruct (IH (S lineno) st' ltac:(lia) Hbelow) as (Hall & Hsorted & Hws & Hafter).
    cbn [List.length]. replace (lineno + S (List.length lines))
      with (S lineno + List.length lines) by lia.
    assert (Hall' : Forall (fun d => exists l key first,
                      d = DuplicateKey l key first /\ 1 <= first < l /\
                      lineno <= l < S lineno + List.length lines)
                    (errors (emitted (scan_lines (S lineno) lines st')))).
    { eapply Forall_impl; [|exact Hall].
      intros d (l & key & first & -> & Hf & Hr). exists l, key, first.
      repeat split; try tauto; lia. }
    split; [|split; [|split; [|exact Hafter]]].
    + destruct Herr as [->|(key & first & Hf & ->)]; [exact Hall'|].
      constructor; [|exact Hall']. exists lineno, key, first.
      repeat split; try tauto; lia.
    + destruct Herr as [->|(key & first & Hf & ->)]; [exact Hsorted|].
      cbn [app map reported_line]. constructor; [exact Hsorted|].
      apply Forall_map. eapply Forall_impl; [|exact Hall].
      intros d (l & key' & first' & -> & _ & Hr). cbn. lia.
    + cbn [scan_lines]. now rewrite warnings_bind, Hw, Hst', Hws.
Qed.

Lemma stack_below_initial : stack_below 1 initial_stack.
Proof. repeat constructor. Qed.

(** X7. On every text the raw scan runs to its end without raising, and
    it records errors only, never a warning.  Every error is a
    duplicate-key error for a line of the text that names a strictly
    earlier line as the place of the first occurrence, and the errors come
    in strictly increasing order of their lines: at most one per line. *)
Theorem duplicate_scan_reports_backwards (text : string) :
  outcome (check_duplicate_keys_raw text) = inr tt /\
  warnings (emitted (check_duplicate_keys_raw text)) = [] /\
  Forall (fun d => exists lineno key first,
            d = DuplicateKey lineno key first /\
            1 <= first < lineno /\
            lineno <= List.length (PyStr.splitlines text))
         (errors (emitted (check_duplicate_keys_raw text))) /\
  StronglySorted lt
    (map reported_line (errors (emitted (check_duplicate_keys_raw text)))).
Proof.
  split; [apply check_duplicate_keys_raw_returns|].
  unfold check_duplicate_keys_raw.
  destruct (scan_lines_below (PyStr.splitlines text) 1 initial_stack
              (le_n 1) stack_below_initial) as (Hall & Hsorted & Hw & _).
  destruct (scan_lines_returns (PyStr.splitlines text) 1 initial_stack) as (st & Hst).
  rewrite warnings_bind, errors_bind, Hst, Hw.
  cbn [ret emitted fst errors warnings empty app]. rewrite app_nil_r.
  split; [reflexivity|]. split; [|exact Hsorted].
  eapply Forall_impl; [|exact Hall].
  intros d (l & key & first & -> & Hf & Hr). exists l, key, first.
  repeat split; try tauto; lia.
Qed.

(* ------------------------------------------------------------------ *)
(** ** Blocks, indentation and quoted keys *)

(** The errors of a text for one of its lines, from the three parts of
    the text: the lines before, the line, the lines after. *)
Lemma errors_at_line (before after : list string) (line : string) :
  Forall (fun l => no_linebreak l = true) (before ++ line :: after) ->
  filter (reported_at (S (List.length before)))
    (errors (emitted (check_duplicate_keys_raw (unlines (before ++ line :: after)))))
  = errors (emitted (scan_line (S (List.length before)) line
                       (stack_after 1 before initial_stack))).
Proof.
  intros Hnl. rewrite check_duplicate_keys_raw_lines by exact Hnl.
  destruct (scan_lines_app before (line :: after) 1 initial_stack) as (_ & ->).
  rewrite filter_app.
  rewrite (filter_reported_at_outside _ 1 (List.length before)
             (errors (emitted (scan_lines 1 before initial_stack))))
    by (try apply scan_lines_reports; right; lia).
  cbn [app]. change (1 + List.length before) with (S (List.length before)).
  set (st := stack_after 1 before initial_stack).
  destruct (scan_line_returns (S (List.length before)) line st) as (st' & Hst').
  destruct (stack_after_cons _ line after st st' Hst') as (_ & ->).
  rewrite filter_app.
  rewrite (filter_reported_at_outside _ (S (S (List.length before))) (List.length after)
             (errors (emitted (scan_lines (S (S (List.length before))) after st'))))
    by (try apply scan_lines_reports; left; lia).
  rewrite app_nil_r.
  pose proof (scan_line_reports (S (List.length before)) line st) as Hrep.
  induction Hrep as [|d E Hd _ IH]; [reflexivity|].
  cbn [filter]. now rewrite Hd, IH.
Qed.

Lemma stack_after_snoc (before : list string) (line : string) (lineno : nat)
    (st : list scope) :
  outcome (scan_line (lineno + List.length before) line (stack_after lineno before st))
  = inr (stack_after lineno (before ++ [line]) st).
Proof.
  destruct (scan_lines_app before [line] lineno st) as (-> & _).
  destruct (scan_line_returns (lineno + List.length before) line
              (stack_after lineno before st)) as (st' & Hst').
  destruct (stack_after_cons _ line [] _ st' Hst') as (-> & _).
  now rewrite Hst'.
Qed.

(** The stack after a plain key that opens a block: the fresh scope of
    the block on top of a stack that is not empty. *)
Lemma record_key_opens (lineno : nat) (key : string) (indent : Z) (st : list scope) :
  st <> [] ->
  exists under,
    under <> [] /\
    outcome (record_key lineno key indent true st)
    = inr ((indent + 1, false, [])%Z :: under).
Proof.
  intros Hne. rewrite record_key_unfold.
  pose proof (pop_scopes_nonempty indent st Hne) as Hp.
  destruct (pop_scopes indent st) as [|[[ind li] seen] rest]; [tauto|].
  destruct (dict_lookup key seen); eexists; (split; [|reflexivity]); discriminate.
Qed.

Lemma app_cons_assoc {A} (l : list A) (x : A) (m : list A) :
  l ++ x :: m = (l ++ [x]) ++ m.
Proof. now rewrite <- app_assoc. Qed.

(** X8. The first key of a block is never reported.  In any text, after
    a line with a plain key that opens a block (nothing but white space
    after its colon, or a text that ends with a colon), a line with a
    plain key that is indented at least two columns deeper gets no error,
    whatever the key is and whatever the lines before have shown: it is
    looked up in the fresh scope of the block, also when it repeats the
    name of its parent or of a key of an earlier block. *)
Theorem first_key_of_a_block_is_fresh :
  forall (n m : nat) (k a rest1 rest2 : string) (before after : list string),
    plain_key k = true -> plain_key a = true ->
    opens_block (k ++ ":" ++ rest1) = true ->
    n + 2 <= m ->
    Forall (fun l => no_linebreak l = true)
           (before ++ key_line n k rest1 :: key_line m a rest2 :: after) ->
    filter (reported_at (S (S (List.length before))))
      (errors (emitted (check_duplicate_keys_raw
         (unlines (before ++ key_line n k rest1 :: key_line m a rest2 :: after)))))
    = [].
Proof.
  intros n m k a rest1 rest2 before after Hk Ha Hopen Hm Hnl.
  rewrite app_cons_assoc in *.
  replace (S (S (List.length before))) with (S (List.length (before ++ [key_line n k rest1])))
    by (rewrite length_app; cbn; lia).
  rewrite errors_at_line by exact Hnl.
  pose proof (stack_after_snoc before (key_line n k rest1) 1 initial_stack) as Hst.
  rewrite (scan_line_key_line _ n k rest1 _ Hk), Hopen in Hst.
  destruct (record_key_opens (1 + List.length before) k (Z.of_nat n)
              (stack_after 1 before initial_stack)) as (under & Hunder & Hst').
  { apply stack_after_nonempty, initial_stack_nonempty. }
  rewrite Hst' in Hst. injection Hst as <-.
  rewrite (scan_line_key_line _ m a rest2 _ Ha), record_key_unfold.
  rewrite pop_scopes_keep by (right; cbn; lia).
  reflexivity.
Qed.

Lemma first_key_of_a_block_is_fresh_witness :
  plain_key "hall" = true /\ plain_key "name" = true /\
  opens_block ("hall" ++ ":" ++ "") = true /\ 0 + 2 <= 2 /\
  Forall (fun l => no_linebreak l = true)
         (["name: The Hall"] ++ key_line 0 "hall" "" :: key_line 2 "name" " Hall" :: []) /\
  filter (reported_at 3)
    (errors (emitted (check_duplicate_keys_raw
       (unlines (["name: The Hall"] ++ key_line 0 "hall" ""
                 :: key_line 2 "name" " Hall" :: [])))))
  = [].
Proof.
  assert (Hnl : Forall (fun l => no_linebreak l = true)
                  (["name: The Hall"] ++ key_line 0 "hall" ""
                   :: key_line 2 "name" " Hall" :: []))
    by (repeat constructor).
  split; [reflexivity|]. split; [reflexivity|]. split; [reflexivity|].
  split; [lia|]. split; [exact Hnl|].
  exact (first_key_of_a_block_is_fresh 0 2 "hall" "name" "" " Hall"
           ["name: The Hall"] [] eq_refl eq_refl eq_refl (le_n 2) Hnl).
Defined.

(** X9. A key that is indented by exactly one column under a key that
    opens a block is not looked up in the scope of that block but in the
    scope of the opening key itself: the scope of the block sits at the
    indentation of its opener plus one, and line 114 pops every scope
    whose indentation is greater than or equal to that of the line.  So
    the name of the parent, repeated one column deeper on the next line,
    is reported as a duplicate of the parent. *)
Theorem key_one_column_deeper_joins_its_parent :
  forall (n : nat) (k rest1 rest2 : string) (before after : list string),
    plain_key k = true ->
    opens_block (k ++ ":" ++ rest1) = true ->
    Forall (fun l => no_linebreak l = true)
           (before ++ key_line n k rest1 :: key_line (S n) k rest2 :: after) ->
    dict_lookup k (owner n (stack_after 1 before initial_stack)) = None ->
    filter (reported_at (S (S (List.length before))))
      (errors (emitted (check_duplicate_keys_raw
         (unlines (before ++ key_line n k rest1 :: key_line (S n) k rest2 :: after)))))
    = [DuplicateKey (S (S (List.length before))) k (S (List.length before))].
Proof.
  intros n k rest1 rest2 before after Hk Hopen Hnl Hown.
  rewrite app_cons_assoc in *.
  replace (S (S (List.length before))) with (S (List.length (before ++ [key_line n k rest1])))
    by (rewrite length_app; cbn; lia).
  rewrite errors_at_line by exact Hnl.
  pose proof (stack_after_snoc before (key_line n k rest1) 1 initial_stack) as Hst.
  rewrite (scan_line_key_line _ n k rest1 _ Hk), Hopen, record_key_unfold in Hst.
  unfold owner in Hown.
  pose proof (pop_scopes_nonempty (Z.of_nat n) _
                (stack_after_nonempty before 1 _ initial_stack_nonempty)) as Hne.
  destruct (pop_scopes (Z.of_nat n) (stack_after 1 before initial_stack))
    as [|[[ind li] seen] rest] eqn:Epop; [tauto|].
  cbn [scope_seen snd] in Hown. rewrite Hown in Hst. cbn in Hst. injection Hst as <-.
  rewrite (scan_line_key_line _ (S n) k rest2 _ Hk), record_key_unfold.
  rewrite pop_scopes_push by (try discriminate; cbn; lia).
  rewrite pop_scopes_keep.
  2:{ destruct (pop_scopes_top _ _ _ _ Epop) as [->|Hlt]; [now left|right; cbn in *; lia]. }
  rewrite (dict_lookup_app_none k seen _ Hown). cbn [emitted fst errors].
  rewrite length_app. cbn [List.length]. now rewrite Nat.add_comm.
Qed.

Lemma key_one_column_deeper_joins_its_parent_witness :
  plain_key "hall" = true /\
  opens_block ("hall" ++ ":" ++ "") = true /\
  Forall (fun l => no_linebreak l = true)
         ([] ++ key_line 0 "hall" "" :: key_line 1 "hall" " x" :: []) /\
  dict_lookup "hall" (owner 0 (stack_after 1 [] initial_stack)) = None /\
  filter (reported_at 2)
    (errors (emitted (check_duplicate_keys_raw
       (unlines ([] ++ key_line 0 "hall" "" :: key_line 1 "hall" " x" :: [])))))
  = [DuplicateKey 2 "hall" 1].
Proof.
  assert (Hnl : Forall (fun l => no_linebreak l = true)
                  ([] ++ key_line 0 "hall" "" :: key_line 1 "hall" " x" :: []))
    by (repeat constructor).
  split; [reflexivity|]. split; [reflexivity|]. split; [exact Hnl|].
  split; [reflexivity|].
  exact (key_one_column_deeper_joins_its_parent 0 "hall" "" " x" [] []
           eq_refl eq_refl Hnl eq_refl).
Defined.

Local Open Scope string_scope.

Lemma is_quote_inv (q : ascii) :
  PyStr.is_quote q = true -> q = "039"%char \/ q = "034"%char.
Proof.
  unfold PyStr.is_quote. intros H. apply orb_prop in H as [H|H];
    apply Ascii.eqb_eq in H; auto.
Qed.

(** Group 2 of the pattern of line 105 on a key in quotes. *)
Lemma quoted_body_closed (q : ascii) (body rest : string) :
  all_chars (fun c => negb (Ascii.eqb c q) && negb (Ascii.eqb c "010")) body = true ->
  quoted_body q (body ++ String q (String ":" rest)) = Some body.
Proof.
  induction body as [|c body IH]; cbn [all_chars append quoted_body]; intros H.
  - rewrite Ascii.eqb_refl. unfold spaces_then_colon.
    rewrite lstrip_nonspace by reflexivity.
    unfold PyStr.startswith. cbn [prefix]. now rewrite prefix_empty.
  - apply andb_prop in H as [Hc Hb]. apply andb_prop in Hc as [Hq Hlf].
    apply negb_true_iff in Hq, Hlf. rewrite Hq, Hlf. cbn [andb].
    now rewrite (IH Hb).
Qed.

Lemma contains_append_r (sub s t : string) :
  PyStr.contains sub t = true -> PyStr.contains sub (s ++ t) = true.
Proof.
  intros H. induction s as [|c s IH]; [exact H|].
  cbn [append PyStr.contains]. rewrite IH. apply orb_true_r.
Qed.

(** A line with a key in quotes is handed to [record_key] with the text
    between the quotes. *)
Lemma scan_line_quoted_line (lineno n : nat) (q : ascii) (body rest : string)
    (st : list scope) :
  PyStr.is_quote q = true -> quotable q body = true ->
  scan_line lineno (quoted_line n q body rest) st =
  record_key lineno body (Z.of_nat n)
    (opens_block (String q (body ++ String q (String ":" rest)))) st.
Proof.
  intros Hq Hb. unfold quoted_line.
  assert (Hsp : PyStr.is_space q = false)
    by (destruct (is_quote_inv q Hq) as [->| ->]; reflexivity).
  rewrite scan_line_pad by (try reflexivity; now apply lstrip_nonspace).
  assert (Hh : PyStr.startswith "#" (String q (body ++ String q (String ":" rest))) = false)
    by (destruct (is_quote_inv q Hq) as [->| ->]; reflexivity).
  assert (Hd : PyStr.startswith "- " (String q (body ++ String q (String ":" rest))) = false)
    by (destruct (is_quote_inv q Hq) as [->| ->]; reflexivity).
  rewrite Hh, Hd. unfold scan_key.
  assert (Hc : PyStr.contains ":" (String q (body ++ String q (String ":" rest))) = true).
  { change (String q (body ++ String q (String ":" rest)))
      with (String q "" ++ (body ++ String q (String ":" rest))).
    apply contains_append_r, contains_append_r.
    change (String q (String ":" rest)) with (String q "" ++ String ":" rest).
    apply contains_append_r. cbn. now rewrite prefix_empty. }
  rewrite Hc. cbn [negb].
  unfold quotable in Hb. destruct body as [|c body]; [discriminate|].
  apply andb_prop in Hb as [Hbrace Hall]. apply negb_true_iff in Hbrace.
  assert (Hkey : extract_key (String q (String c body ++ String q (String ":" rest)))
                 = String c body).
  { unfold extract_key, match_quoted. rewrite Hq.
    now rewrite (quoted_body_closed q (String c body) rest Hall). }
  rewrite Hkey. cbn [PyStr.is_empty orb].
  assert (Hb' : PyStr.startswith "{" (String c body) = false).
  { unfold PyStr.startswith. cbn [prefix].
    destruct (ascii_dec "{" c) as [<-|]; [discriminate Hbrace|reflexivity]. }
  now rewrite Hb'.
Qed.

Local Open Scope list_scope.

(** What the owner of indentation [n] has seen once it has recorded a
    key for the first time. *)
Lemma record_key_owner (n : nat) (a : string) (l1 : nat) (opens : bool)
    (st st' : list scope) :
  st <> [] -> dict_lookup a (owner n st) = None ->
  outcome (record_key l1 a (Z.of_nat n) opens st) = inr st' ->
  st' <> [] /\ owner n st' = owner n st ++ [(a, l1)].
Proof.
  intros Hne Hl. rewrite record_key_unfold. unfold owner in *.
  pose proof (pop_scopes_nonempty (Z.of_nat n) st Hne) as Hp.
  destruct (pop_scopes (Z.of_nat n) st) as [|[[ind li] seen] rest] eqn:Epop; [tauto|].
  cbn [scope_seen snd] in *. rewrite Hl. cbn. intros H. injection H as <-.
  assert (Hkeep : pop_scopes (Z.of_nat n) ((ind, li, seen ++ [(a, l1)]) :: rest)
                  = (ind, li, seen ++ [(a, l1)]) :: rest)
    by (apply pop_scopes_keep, (pop_scopes_top _ _ _ _ Epop)).
  destruct opens.
  - split; [discriminate|].
    rewrite pop_scopes_push by (try discriminate; cbn; lia). now rewrite Hkeep.
  - split; [discriminate|]. now rewrite Hkeep.
Qed.

(** X10. Keys in quotes are compared by the text between the quotes,
    whatever that text holds (colons, spaces) and whichever of the two
    quotes is used.  Of two consecutive lines at one indentation, each
    with a key in quotes that the scope has not seen, the second is
    reported exactly when the two texts are equal, with the text as the
    key and the first line as the place of the first occurrence: '10:28'
    and '10:45' are different keys, and a key in single quotes repeats
    the same key in double quotes. *)
Theorem quoted_keys_compared_by_their_text :
  forall (n : nat) (q1 q2 : ascii) (body1 body2 rest1 rest2 : string)
         (before after : list string),
    PyStr.is_quote q1 = true -> PyStr.is_quote q2 = true ->
    quotable q1 body1 = true -> quotable q2 body2 = true ->
    Forall (fun l => no_linebreak l = true)
           (before ++ quoted_line n q1 body1 rest1
                   :: quoted_line n q2 body2 rest2 :: after) ->
    dict_lookup body1 (owner n (stack_after 1 before initial_stack)) = None ->
    dict_lookup body2 (owner n (stack_after 1 before initial_stack)) = None ->
    filter (reported_at (S (S (List.length before))))
      (errors (emitted (check_duplicate_keys_raw
         (unlines (before ++ quoted_line n q1 body1 rest1
                          :: quoted_line n q2 body2 rest2 :: after)))))
    = if String.eqb body1 body2
      then [DuplicateKey (S (S (List.length before))) body2 (S (List.length before))]
      else [].
Proof.
  intros n q1 q2 body1 body2 rest1 rest2 before after Hq1 Hq2 Hb1 Hb2 Hnl Ho1 Ho2.
  rewrite app_cons_assoc in *.
  replace (S (S (List.length before)))
    with (S (List.length (before ++ [quoted_line n q1 body1 rest1])))
    by (rewrite length_app; cbn; lia).
  rewrite errors_at_line by exact Hnl.
  pose proof (stack_after_snoc before (quoted_line n q1 body1 rest1) 1 initial_stack) as Hst.
  rewrite (scan_line_quoted_line _ n q1 body1 rest1 _ Hq1 Hb1) in Hst.
  destruct (record_key_owner n body1 _ _ _ _
              (stack_after_nonempty before 1 _ initial_stack_nonempty) Ho1 Hst)
    as (Hne & Hown).
  rewrite (scan_line_quoted_line _ n q2 body2 rest2 _ Hq2 Hb2).
  destruct (String.eqb_spec body1 body2) as [<-|Hdiff].
  - rewrite (record_key_again n body1 (1 + List.length before)).
    + rewrite length_app. cbn [List.length]. now rewrite Nat.add_comm.
    + split; [exact Hne|]. rewrite Hown. now apply dict_lookup_app_none.
  - apply (record_key_first n body2); [exact Hne|].
    rewrite Hown. apply dict_lookup_app_other; [exact Ho2|congruence].
Qed.

Lemma quoted_keys_compared_by_their_text_witness :
  PyStr.is_quote "039" = true /\ PyStr.is_quote "034" = true /\
  quotable "039" "10:28" = true /\ quotable "034" "10:28" = true /\
  Forall (fun l => no_linebreak l = true)
         ([] ++ quoted_line 0 "039" "10:28" " arrives"
              :: quoted_line 0 "034" "10:28" " leaves" :: []) /\
  dict_lookup "10:28"%string (owner 0 (stack_after 1 [] initial_stack)) = None /\
  dict_lookup "10:28"%string (owner 0 (stack_after 1 [] initial_stack)) = None /\
  filter (reported_at 2)
    (errors (emitted (check_duplicate_keys_raw
       (unlines ([] ++ quoted_line 0 "039" "10:28" " arrives"
                    :: quoted_line 0 "034" "10:28" " leaves" :: [])))))
  = if String.eqb "10:28" "10:28" then [DuplicateKey 2 "10:28" 1] else [].
Proof.
  assert (Hnl : Forall (fun l => no_linebreak l = true)
                  ([] ++ quoted_line 0 "039" "10:28" " arrives"
                       :: quoted_line 0 "034" "10:28" " leaves" :: []))
    by (repeat constructor).
  split; [reflexivity|]. split; [reflexivity|]. split; [reflexivity|].
  split; [reflexivity|]. split; [exact Hnl|]. split; [reflexivity|].
  split; [reflexivity|].
  exact (quoted_keys_compared_by_their_text 0 "039" "034" "10:28" "10:28"
           " arrives" " leaves" [] [] eq_refl eq_refl eq_refl eq_refl Hnl
           eq_refl eq_refl).
Defined.

(** Two times of day as keys: in quotes they are two keys, bare they are
    both read as the key '10'. *)
Example quoted_times_are_two_keys :
  errors (emitted (check_duplicate_keys_raw
     (unlines [quoted_line 0 "039" "10:28" " arrives";
               quoted_line 0 "039" "10:45" " leaves"]))) = [] /\
  errors (emitted (check_duplicate_keys_raw
     (unlines ["10:28: arrives"%string; "10:45: leaves"%string])))
  = [DuplicateKey 2 "10" 1].
Proof. split; reflexivity. Qed.

(* ------------------------------------------------------------------ *)
(** ** Blank lines and comments *)

Lemma pop_scopes_shift (p : nat) (m : Z) (st : list scope) :
  pop_scopes m (map (shift_scope p) st) = map (shift_scope p) (pop_scopes m st).
Proof.
  induction st as [|x st IH]; [reflexivity|].
  cbn [map pop_scopes]. destruct st as [|y r]; [reflexivity|].
  cbn [map] in *. change (scope_indent (shift_scope p x)) with (scope_indent x).
  destruct (scope_indent x >=? m)%Z; [exact IH|reflexivity].
Qed.

Lemma dict_lookup_shift (p : nat) (key : string) (seen : list (string * nat)) :
  dict_lookup key (map (fun kv => (fst kv, shift_line p (snd kv))) seen)
  = option_map (shift_line p) (dict_lookup key seen).
Proof.
  induction seen as [|[k l] seen IH]; [reflexivity|].
  cbn [map dict_lookup fst snd]. now destruct (String.eqb key k).
Qed.

Lemma shift_run_ret (p : nat) (st : list scope) :
  shift_run p (ret st) = ret (map (shift_scope p) st).
Proof. reflexivity. Qed.

Lemma record_key_shift (p lineno : nat) (key : string) (indent : Z) (opens : bool)
    (st : list scope) :
  record_key (shift_line p lineno) key indent opens (map (shift_scope p) st)
  = shift_run p (record_key lineno key indent opens st).
Proof.
  rewrite !record_key_unfold, pop_scopes_shift.
  destruct (pop_scopes indent st) as [|[[ind li] seen] rest].
  - now destruct opens.
  - cbn [map shift_scope fst snd]. rewrite dict_lookup_shift.
    destruct (dict_lookup key seen) as [first|]; cbn [option_map].
    + now destruct opens.
    + unfold shift_run. cbn [emitted outcome fst snd errors warnings empty map].
      destruct opens; cbn [map]; unfold shift_scope; cbn [fst snd map];
        now rewrite map_app.
Qed.

Lemma scan_line_shift (p lineno : nat) (raw_line : string) (st : list scope) :
  scan_line (shift_line p lineno) raw_line (map (shift_scope p) st)
  = shift_run p (scan_line lineno raw_line st).
Proof.
  assert (Hkey : forall stripped indent st0,
            scan_key (shift_line p lineno) stripped indent (map (shift_scope p) st0)
            = shift_run p (scan_key lineno stripped indent st0)).
  { intros stripped indent st0. unfold scan_key.
    destruct (negb _); [reflexivity|].
    destruct (_ || _); [reflexivity|]. apply record_key_shift. }
  unfold scan_line. cbv zeta.
  destruct (_ || _); [reflexivity|].
  destruct (PyStr.startswith "- " _); [|apply Hkey].
  rewrite pop_scopes_shift.
  destruct (_ || _); [reflexivity|].
  apply (Hkey _ _ ((_, true, []) :: pop_scopes _ st)).
Qed.

Lemma shift_run_bind (p : nat) (m : M (list scope))
    (f f' : list scope -> M (list scope)) :
  (forall st, f' (map (shift_scope p) st) = shift_run p (f st)) ->
  bind (shift_run p m) f' = shift_run p (bind m f).
Proof.
  intros Hf. destruct m as [w [e|st]].
  - reflexivity.
  - unfold shift_run at 1. cbn [emitted outcome fst snd]. unfold bind.
    rewrite Hf. destruct (f st) as [w' o']. unfold shift_run.
    cbn [emitted outcome fst snd plus errors warnings]. now rewrite !map_app.
Qed.

Lemma scan_lines_shift (p : nat) (lines : list string) (lineno : nat)
    (st : list scope) :
  p <= lineno ->
  scan_lines (S lineno) lines (map (shift_scope p) st)
  = shift_run p (scan_lines lineno lines st).
Proof.
  revert lineno st. induction lines as [|line lines IH]; intros lineno st Hp.
  - reflexivity.
  - cbn [scan_lines].
    assert (Hs : shift_line p lineno = S lineno).
    { unfold shift_line. now apply Nat.leb_le in Hp as ->. }
    rewrite <- Hs at 1. rewrite scan_line_shift.
    apply shift_run_bind. intros st'. apply IH. lia.
Qed.

(** A stack that remembers only lines before [p] is not moved. *)
Lemma shift_stack_below (p : nat) (st : list scope) :
  stack_below p st -> map (shift_scope p) st = st.
Proof.
  unfold stack_below. induction 1 as [|[[ind li] seen] st Hseen _ IH]; [reflexivity|].
  cbn [map]. rewrite IH. f_equal. unfold shift_scope. cbn [fst snd]. f_equal.
  cbn [scope_seen snd] in Hseen.
  induction Hseen as [|[k l] seen Hl _ IHs]; [reflexivity|].
  cbn [map fst snd] in *. rewrite IHs. unfold shift_line.
  destruct (Nat.leb_spec p l); [lia|reflexivity].
Qed.

Lemma skipped_line_scan (lineno : nat) (raw_line : string) (st : list scope) :
  skipped_line raw_line = true -> scan_line lineno raw_line st = ret st.
Proof.
  unfold skipped_line, scan_line. cbv zeta. now intros ->.
Qed.

(** X11. Blank lines and comment lines only move line numbers.  A text
    with one more blank line or comment line gets the errors of the text
    without that line, in the same order, with every line number from the
    place of the new line on raised by one, in the line an error is
    reported for as well as in the line it names as the first occurrence;
    no error is gained or lost. *)
Theorem skipped_lines_only_shift_line_numbers :
  forall (before after : list string) (line : string),
    skipped_line line = true ->
    Forall (fun l => no_linebreak l = true) (before ++ line :: after) ->
    errors (emitted (check_duplicate_keys_raw (unlines (before ++ line :: after))))
    = map (shift_diag (S (List.length before)))
          (errors (emitted (check_duplicate_keys_raw (unlines (before ++ after))))).
Proof.
  intros before after line Hskip Hnl.
  assert (Hnl' : Forall (fun l => no_linebreak l = true) (before ++ after)).
  { apply Forall_app in Hnl as [Hb Ha]. apply Forall_app. split; [exact Hb|].
    now inversion Ha. }
  rewrite !check_duplicate_keys_raw_lines by assumption.
  destruct (scan_lines_app before (line :: after) 1 initial_stack) as (_ & ->).
  destruct (scan_lines_app before after 1 initial_stack) as (_ & ->).
  destruct (scan_lines_below before 1 initial_stack (le_n 1) stack_below_initial)
    as (Hall & _ & _ & Hbelow).
  set (st := stack_after 1 before initial_stack) in *.
  set (p := 1 + List.length before) in *.
  change (S (List.length before)) with p.
  rewrite map_app. f_equal.
  - symmetry. erewrite map_ext_in; [apply map_id|].
    intros d Hd. rewrite Forall_forall in Hall.
    destruct (Hall d Hd) as (l & key & first & -> & Hf & Hl).
    unfold shift_diag, shift_line.
    destruct (Nat.leb_spec p l); [lia|]. destruct (Nat.leb_spec p first); [lia|].
    reflexivity.
  - cbn [scan_lines]. rewrite (skipped_line_scan p line st Hskip), bind_ret.
    rewrite <- (shift_stack_below p st Hbelow) at 1.
    rewrite scan_lines_shift by lia. reflexivity.
Qed.

Lemma skipped_lines_only_shift_line_numbers_witness :
  skipped_line "  # the rooms" = true /\
  Forall (fun l => no_linebreak l = true)
         (["a: 1"; "b: 2"] ++ "  # the rooms" :: ["a: 3"; "b: 4"]) /\
  errors (emitted (check_duplicate_keys_raw
     (unlines (["a: 1"; "b: 2"] ++ "  # the rooms" :: ["a: 3"; "b: 4"]))))
  = map (shift_diag (S (List.length ["a: 1"; "b: 2"])))
        (errors (emitted (check_duplicate_keys_raw
           (unlines (["a: 1"; "b: 2"] ++ ["a: 3"; "b: 4"]))))).
Proof.
  assert (Hnl : Forall (fun l => no_linebreak l = true)
                  (["a: 1"; "b: 2"] ++ "  # the rooms" :: ["a: 3"; "b: 4"]))
    by (repeat constructor).
  split; [reflexivity|]. split; [exact Hnl|].
  exact (skipped_lines_only_shift_line_numbers ["a: 1"; "b: 2"] ["a: 3"; "b: 4"]
           "  # the rooms" eq_refl Hnl).
Defined.

(** The errors of that text: the two repeated keys, reported for the
    lines after the comment and naming the lines before it. *)
Example skipped_line_case_errors :
  errors (emitted (check_duplicate_keys_raw
     (unlines (["a: 1"; "b: 2"] ++ "  # the rooms" :: ["a: 3"; "b: 4"]))))
  = [DuplicateKey 4 "a" 1; DuplicateKey 5 "b" 2].
Proof. reflexivity. Qed.

(** X12. A key opens a block only if its line, trailing white space
    removed, ends with a colon (line 128).  A key whose colon is followed
    by anything else, a comment included, opens no scope, and a key on the
    next line, however deep it is indented, is looked up among the
    siblings of that key: if one of them has the same name, it is
    reported as its duplicate. *)
Theorem key_with_trailing_text_opens_no_block :
  forall (n m first : nat) (k a rest1 rest2 : string) (before after : list string),
    plain_key k = true -> plain_key a = true ->
    opens_block (k ++ ":" ++ rest1) = false ->
    n <= m ->
    Forall (fun l => no_linebreak l = true)
           (before ++ key_line n k rest1 :: key_line m a rest2 :: after) ->
    dict_lookup a (owner n (stack_after 1 before initial_stack)) = Some first ->
    filter (reported_at (S (S (List.length before))))
      (errors (emitted (check_duplicate_keys_raw
         (unlines (before ++ key_line n k rest1 :: key_line m a rest2 :: after)))))
    = [DuplicateKey (S (S (List.length before))) a first].
Proof.
  intros n m first k a rest1 rest2 before after Hk Ha Hopen Hm Hnl Hown.
  rewrite app_cons_assoc in *.
  replace (S (S (List.length before))) with (S (List.length (before ++ [key_line n k rest1])))
    by (rewrite length_app; cbn; lia).
  rewrite errors_at_line by exact Hnl.
  pose proof (stack_after_snoc before (key_line n k rest1) 1 initial_stack) as Hst.
  rewrite (scan_line_key_line _ n k rest1 _ Hk), Hopen, record_key_unfold in Hst.
  unfold owner in Hown.
  pose proof (pop_scopes_nonempty (Z.of_nat n) _
                (stack_after_nonempty before 1 _ initial_stack_nonempty)) as Hne.
  destruct (pop_scopes (Z.of_nat n) (stack_after 1 before initial_stack))
    as [|[[ind li] seen] rest] eqn:Epop; [tauto|].
  cbn [scope_seen snd] in Hown.
  assert (Htop : rest = [] \/ (ind < Z.of_nat m)%Z).
  { destruct (pop_scopes_top _ _ _ _ Epop) as [->|Hlt]; [now left|right; cbn in *; lia]. }
  rewrite (scan_line_key_line _ m a rest2 _ Ha), record_key_unfold.
  destruct (dict_lookup k seen); cbn in Hst; injection Hst as <-;
    rewrite pop_scopes_keep by exact Htop.
  - now rewrite Hown.
  - now rewrite (dict_lookup_app_some a seen _ _ Hown).
Qed.

Lemma key_with_trailing_text_opens_no_block_witness :
  plain_key "hall" = true /\ plain_key "name" = true /\
  opens_block ("hall" ++ ":" ++ " # the hall") = false /\ 0 <= 2 /\
  Forall (fun l => no_linebreak l = true)
         (["name: The Hall"] ++ key_line 0 "hall" " # the hall"
            :: key_line 2 "name" " Hall" :: []) /\
  dict_lookup "name" (owner 0 (stack_after 1 ["name: The Hall"] initial_stack)) = Some 1 /\
  filter (reported_at 3)
    (errors (emitted (check_duplicate_keys_raw
       (unlines (["name: The Hall"] ++ key_line 0 "hall" " # the hall"
                   :: key_line 2 "name" " Hall" :: [])))))
  = [DuplicateKey 3 "name" 1].
Proof.
  assert (Hnl : Forall (fun l => no_linebreak l = true)
                  (["name: The Hall"] ++ key_line 0 "hall" " # the hall"
                     :: key_line 2 "name" " Hall" :: []))
    by (repeat constructor).
  split; [reflexivity|]. split; [reflexivity|]. split; [reflexivity|].
  split; [lia|]. split; [exact Hnl|]. split; [reflexivity|].
  exact (key_with_trailing_text_opens_no_block 0 2 1 "hall" "name" " # the hall" " Hall"
           ["name: The Hall"] [] eq_refl eq_refl eq_refl (Nat.le_0_l 2) Hnl eq_refl).
Defined.

(* ------------------------------------------------------------------ *)
(** ** The schema check *)

Lemma for_each_ext {A} (l : list A) (body body' : A -> M unit) :
  (forall x, In x l -> body x = body' x) -> for_each l body = for_each l body'.
Proof.
  induction l as [|x l IH]; intros H; [reflexivity|].
  cbn [for_each]. rewrite (H x) by now left.
  rewrite IH; [reflexivity|]. intros y Hy. apply H. now right.
Qed.

(** A loop that records an error for the elements that satisfy a test. *)
Lemma for_each_err {A} (l : list A) (c : A -> bool) (f : A -> diag) :
  for_each l (fun x => when (c x) (err (f x)))
  = (mkResult (map f (filter c l)) [], inr tt).
Proof.
  induction l as [|x l IH]; [reflexivity|].
  cbn [for_each filter]. rewrite IH. now destruct (c x).
Qed.

Lemma required_loop (d : list (string * value)) :
  for_each required (fun field =>
    present <~ py_in (VStr field) (VDict d) ;;
    when (negb present) (err (SchemaMissingField field)))
  = (mkResult (map SchemaMissingField (filter (lacks d) required)) [], inr tt).
Proof.
  rewrite <- for_each_err. apply for_each_ext. intros field _.
  rewrite py_in_dict, bind_lift_inr. unfold lacks.
  now destruct (dict_lookup field d).
Qed.

(** X13. On a document that is a mapping, the errors of [check_schema]
    are the errors for the required top-level fields that the document
    lacks, one for each, in the order of the list of line 47, and nothing
    else: the values of the fields are not looked at, and what is missing
    in the victim or in the point system is never an error.  This holds
    whether the check returns or raises. *)
Theorem check_schema_errors_are_the_missing_fields (d : list (string * value)) :
  errors (emitted (check_schema (VDict d)))
  = map SchemaMissingField (filter (lacks d) required).
Proof.
  unfold check_schema. rewrite required_loop.
  rewrite errors_bind. cbn [emitted outcome fst snd errors].
  rewrite errors_all_False; [apply app_nil_r|].
  appends.
Qed.

Lemma py_in_container (k : string) (v : value) :
  if is_container v then exists b, py_in (VStr k) v = inr b
  else py_in (VStr k) v = inl TypeError.
Proof.
  destruct v; cbn [is_container]; try reflexivity.
  - now eexists.
  - now eexists.
  - rewrite py_in_dict. now eexists.
Qed.

(** The loops of lines 54-56 and 59-61 over the fields of a part of the
    document. *)
Lemma part_loop_outcome (d : list (string * value)) (part : string) (v : value)
    (fields : list string) (msg : string -> diag) :
  dict_lookup part d = Some v -> fields <> [] ->
  outcome (for_each fields (fun f =>
             x <~ py_getitem (VDict d) part ;;
             present <~ py_in (VStr f) x ;;
             when (negb present) (warn (msg f))))
  = if is_container v then inr tt else inl TypeError.
Proof.
  intros Hv Hne.
  assert (Hbody : forall f,
            outcome (x <~ py_getitem (VDict d) part ;;
                     present <~ py_in (VStr f) x ;;
                     when (negb present) (warn (msg f)))
            = if is_container v then inr tt else inl TypeError).
  { intros f. cbn [py_getitem]. rewrite Hv, bind_lift_inr.
    pose proof (py_in_container f v) as Hin.
    destruct (is_container v).
    - destruct Hin as (b & ->). rewrite bind_lift_inr. now destruct b.
    - now rewrite Hin. }
  destruct (is_container v) eqn:Ec.
  - apply for_each_total. intros f. rewrite Hbody. reflexivity.
  - destruct fields as [|f fields]; [tauto|].
    cbn [for_each]. apply outcome_bind_raises. apply Hbody.
Qed.

(** X14. On a document that is a mapping, [check_schema] returns when
    'victim' and 'point_system' are each absent or a mapping, a list or a
    string, and raises [TypeError] otherwise: a victim or a point system
    that is null, a number or a truth value ends the run at line 55 or 60,
    the required-field errors already recorded. *)
Theorem check_schema_needs_containers (d : list (string * value)) :
  outcome (check_schema (VDict d))
  = if container_if_present d "victim" && container_if_present d "point_system"
    then inr tt else inl TypeError.
Proof.
  unfold check_schema, container_if_present.
  rewrite required_loop, outcome_bind_eq with (a := tt) by reflexivity.
  rewrite py_in_dict, bind_lift_inr.
  assert (Hpoints :
    outcome (has_points <~ py_in (VStr "point_system") (VDict d) ;;
             when has_points
               (for_each ["question_cost"; "search_cost"; "correct_deduction_reward";
                          "key_evidence_reward"] (fun pf =>
                  points <~ py_getitem (VDict d) "point_system" ;;
                  present <~ py_in (VStr pf) points ;;
                  when (negb present) (warn (SchemaPointSystemMissing pf)))))
    = if match dict_lookup "point_system" d with
         | Some v => is_container v | None => true end
      then inr tt else inl TypeError).
  { rewrite py_in_dict, bind_lift_inr.
    destruct (dict_lookup "point_system" d) as [v|] eqn:Ev; [|reflexivity].
    cbn [when]. now apply part_loop_outcome. }
  destruct (dict_lookup "victim" d) as [v|] eqn:Ev; cbn [when].
  - rewrite outcome_bind.
    rewrite (part_loop_outcome d "victim" v _ SchemaVictimMissing Ev) by discriminate.
    destruct (is_container v); cbn [andb]; [exact Hpoints|reflexivity].
  - rewrite bind_ret. cbn [andb]. exact Hpoints.
Qed.

(* ------------------------------------------------------------------ *)
(** ** When the suspect checks return, and what they return *)

Lemma map_res_spec {A B} (f : A -> res B) (l : list A) (ys : list B) :
  map_res f l = inr ys <-> Forall2 (fun x y => f x = inr y) l ys.
Proof.
  split; [apply map_res_inr|].
  induction 1 as [|x y l ys Hx _ IH]; [reflexivity|].
  cbn [map_res]. rewrite Hx. cbn [rbind]. now rewrite IH.
Qed.

Lemma id_set_spec (c : value) (ids : list value) :
  id_set c = inr ids <->
  exists l, py_iter c = inr l /\ forallb has_id l = true /\ ids = map id_of l.
Proof.
  unfold id_set. destruct (py_iter c) as [e|l]; cbn [rbind].
  { split; [discriminate|]. intros (l & H & _). discriminate. }
  rewrite map_res_spec. split.
  - intros H. exists l. split; [reflexivity|].
    induction H as [|s i l ids Hs _ [IH1 IH2]]; [split; reflexivity|].
    cbn [forallb map]. rewrite IH1, IH2.
    assert (Hsi : has_id s = true /\ id_of s = i).
    { unfold has_id, id_of.
      destruct (py_getitem s "id") as [e|i']; [discriminate|]. cbn [rbind] in Hs.
      destruct (hashable i'); [|discriminate]. injection Hs as ->. now split. }
    destruct Hsi as [-> ->]. split; reflexivity.
  - intros (l' & Hl & Hall & ->). injection Hl as <-.
    induction l as [|s l IH]; [constructor|].
    cbn [forallb map] in *. apply andb_prop in Hall as [Hs Hall].
    constructor; [|now apply IH].
    unfold has_id, id_of in *.
    destruct (py_getitem s "id") as [e|i]; [discriminate|]. cbn [rbind].
    now rewrite Hs.
Qed.

Lemma check_role_id_returns (ro : role) (sentinel : bool) (id : value)
    (ids : list value) :
  outcome (check_role_id ro sentinel id ids) = inr tt <->
  (sentinel && py_eq id (VStr "none")) || hashable id = true.
Proof.
  unfold check_role_id, set_mem.
  destruct (sentinel && py_eq id (VStr "none")); cbn [negb when orb]; [tauto|].
  destruct (hashable id).
  - rewrite bind_lift_inr. split; [reflexivity|]. intros _.
    now destruct (existsb (py_eq id) ids).
  - split; discriminate.
Qed.

(** A loop whose iterations all return. *)
Lemma for_each_run {A} (l : list A) (body : A -> M unit)
    (E W : A -> list diag) :
  (forall x, In x l -> body x = (mkResult (E x) (W x), inr tt)) ->
  for_each l body = (mkResult (flat_map E l) (flat_map W l), inr tt).
Proof.
  induction l as [|x l IH]; intros H; [reflexivity|].
  cbn [for_each flat_map]. rewrite (H x) by now left.
  rewrite IH by (intros y Hy; apply H; now right). reflexivity.
Qed.

Lemma in_rooms_hashable (x : value) (rooms : list string) :
  hashable x = true -> in_rooms x rooms = inr (among rooms x).
Proof.
  unfold in_rooms, find_room, among. intros ->. cbn [rbind].
  destruct x; try reflexivity. now destruct (str_mem s rooms).
Qed.

(** The run of [check_suspect] on a suspect of the right shape. *)
Lemma check_suspect_run (data : value) (rooms : list string) (suspect : value) :
  has_id suspect = true -> location_shape suspect = true ->
  check_suspect rooms (solution_role data Killer) (solution_role data Accomplice)
    (solution_role data SilentWitness) suspect
  = (mkResult (suspect_errors data rooms suspect) (suspect_warnings suspect), inr tt).
Proof.
  unfold has_id, location_shape, check_suspect, suspect_errors, suspect_warnings,
    location_errors, attribute, id_of.
  intros Hid Hloc.
  destruct (py_getitem suspect "id") as [e|sid] eqn:Esid; [discriminate|].
  destruct suspect as [| | | | | |d]; try discriminate Esid.
  cbn [py_get] in *. rewrite !bind_lift_inr.
  rewrite !check_role_flag_emitted.
  set (cl := match dict_lookup "currentLocation" d with Some v => v | None => VNone end) in *.
  assert (Hl : when (truthy cl)
                 (known <~ in_rooms cl rooms ;;
                  when (negb known) (err (SuspectLocation sid cl)))
               = (mkResult (if truthy cl && negb (among rooms cl)
                            then [SuspectLocation sid cl] else []) [], inr tt)).
  { destruct (truthy cl); cbn [when andb negb orb] in *; [|reflexivity].
    rewrite (in_rooms_hashable cl rooms Hloc), bind_lift_inr.
    now destruct (among rooms cl). }
  rewrite Hl.
  destruct (truthy cl && negb (among rooms cl)),
    (truthy match dict_lookup "alibi" d with Some v => v | None => VNone end),
    (truthy match dict_lookup "secrets" d with Some v => v | None => VNone end),
    (truthy match dict_lookup "resistance_level" d with Some v => v | None => VNone end
     && negb (list_mem match dict_lookup "resistance_level" d with
                       | Some v => v | None => VNone end resistance_levels));
    cbv [when negb bind err warn ret plus errors warnings empty];
    cbn [app]; rewrite ?app_nil_r; reflexivity.
Qed.

(** The run of [check_role_id] on an id of the right shape. *)
Lemma check_role_id_run (data : value) (ids : list value) (ro : role) :
  role_shape data ro = true ->
  check_role_id ro (has_sentinel ro) (solution_role data ro) ids
  = (mkResult (role_id_errors data ids ro) [], inr tt).
Proof.
  unfold role_shape, check_role_id, role_id_errors, set_mem.
  destruct (has_sentinel ro && py_eq (solution_role data ro) (VStr "none"));
    cbn [orb negb when andb]; [reflexivity|].
  intros ->. rewrite bind_lift_inr. unfold list_mem.
  now destruct (existsb (py_eq (solution_role data ro)) ids).
Qed.

(** A document of the right shape: the run of
    [check_suspects_and_solution], in full. *)
Lemma check_suspects_and_solution_run (data : value) (rooms : list string) :
  suspects_shape data = true ->
  check_suspects_and_solution data rooms
  = (mkResult
       (role_id_errors data (map id_of (suspects_of data)) Killer
        ++ role_id_errors data (map id_of (suspects_of data)) Accomplice
        ++ role_id_errors data (map id_of (suspects_of data)) SilentWitness
        ++ flat_map (suspect_errors data rooms) (suspects_of data))
       (flat_map suspect_warnings (suspects_of data)),
     inr (map id_of (suspects_of data), solution_role data Killer,
          solution_role data Accomplice, solution_role data SilentWitness)).
Proof.
  unfold check_suspects_and_solution, suspects_shape, suspects_of, iter_all.
  destruct (py_get data "suspects" (VList [])) as [e|suspects] eqn:Esus; [discriminate|].
  rewrite bind_lift_inr. cbn [rbind].
  destruct (py_get data "solution" (VDict [])) as [e|solution] eqn:Esol.
  { destruct data; discriminate. }
  destruct (role_ids_of_solution data solution Esol) as (Hk & Ha & Hw).
  intros Hshape.
  destruct (py_iter suspects) as [e|l] eqn:El; [discriminate|].
  apply andb_prop in Hshape as [Hshape Hr3].
  apply andb_prop in Hshape as [Hshape Hr2].
  apply andb_prop in Hshape as [Hall Hr1].
  rewrite forallb_forall in Hall.
  assert (Hids : id_set suspects = inr (map id_of l)).
  { apply id_set_spec. exists l. split; [exact El|]. split; [|reflexivity].
    apply forallb_forall. intros s Hs. now destruct (andb_prop _ _ (Hall s Hs)). }
  rewrite Hids, !bind_lift_inr, Hk, Ha, Hw, !bind_lift_inr.
  change false with (has_sentinel Killer) at 1.
  change true with (has_sentinel Accomplice) at 1.
  change true with (has_sentinel SilentWitness) at 1.
  rewrite !check_role_id_run by assumption.
  rewrite (for_each_run l _ (suspect_errors data rooms) suspect_warnings).
  2:{ intros s Hs. destruct (andb_prop _ _ (Hall s Hs)) as [Hid Hloc].
      now apply check_suspect_run. }
  cbv [bind ret plus errors warnings empty]. cbn [app]. now rewrite ?app_nil_r.
Qed.

(** A run that returned was on a document of the right shape. *)
Lemma check_suspects_and_solution_shape (data : value) (rooms : list string)
    (v : list value * value * value * value) :
  outcome (check_suspects_and_solution data rooms) = inr v ->
  suspects_shape data = true.
Proof.
  unfold check_suspects_and_solution, suspects_shape, role_shape, iter_all.
  destruct (py_get data "suspects" (VList [])) as [e|suspects] eqn:Esus;
    [discriminate|].
  rewrite bind_lift_inr.
  destruct (py_get data "solution" (VDict [])) as [e|solution] eqn:Esol.
  { destruct data; discriminate. }
  destruct (role_ids_of_solution data solution Esol) as (Hk & Ha & Hw).
  intros H. returned H as ids. rewrite bind_lift_inr in H.
  rewrite Hk, Ha, Hw, !bind_lift_inr in H.
  apply id_set_spec in Eids as (l & Hl & Hids & ->). rewrite Hl in H |- *.
  apply outcome_bind_inr in H as ([] & Hr1 & H).
  apply outcome_bind_inr in H as ([] & Hr2 & H).
  apply outcome_bind_inr in H as ([] & Hr3 & H).
  rewrite bind_lift_inr in H.
  apply outcome_bind_inr in H as ([] & Hloop & H).
  apply check_role_id_returns in Hr1, Hr2, Hr3. cbn [has_sentinel].
  rewrite Hr1, Hr2, Hr3, !andb_true_r.
  apply for_each_returns in Hloop. rewrite Forall_forall in Hloop.
  apply forallb_forall. intros s Hs.
  rewrite forallb_forall in Hids. rewrite (Hids s Hs). cbn [andb].
  assert (Hret : exists sid, py_getitem s "id" = inr sid).
  { specialize (Hids s Hs). unfold has_id in Hids.
    destruct (py_getitem s "id") as [e|sid]; [discriminate|]. now exists sid. }
  destruct Hret as (sid & Hsid).
  specialize (Hloop s Hs). unfold check_suspect in Hloop.
  rewrite Hsid, bind_lift_inr in Hloop.
  unfold location_shape.
  destruct s as [| | | | | |d]; try discriminate Hsid.
  cbn [py_get] in *. rewrite bind_lift_inr in Hloop.
  apply outcome_bind_inr in Hloop as ([] & Hloc & _).
  destruct (truthy _); cbn [when negb orb] in *; [|reflexivity].
  returned Hloc as known. now destruct (in_rooms_inr _ _ _ Eknown).
Qed.

(** X15. [check_suspects_and_solution] returns exactly on the documents
    of the following shape, and what it returns is fixed by the document.
    The shape: the document is a mapping, its 'suspects' can be run
    through, every suspect is a mapping with an 'id' that can be hashed
    and a 'currentLocation' that is falsy or can be hashed, and each of
    the three role ids is 'none' (for accomplice and silent witness) or
    can be hashed.  The result: the set of the ids of the suspects (kept
    here as the list of the ids in document order), then the killer,
    accomplice and silent-witness ids of the solution, where a solution that is not a mapping is itself the killer
    id and an absent accomplice or silent witness is 'none'.  On every
    other document the check raises. *)
Theorem check_suspects_and_solution_returns (data : value) (rooms : list string)
    (v : list value * value * value * value) :
  outcome (check_suspects_and_solution data rooms) = inr v
  <->
  suspects_shape data = true /\
  v = (map id_of (suspects_of data), solution_role data Killer,
       solution_role data Accomplice, solution_role data SilentWitness).
Proof.
  split.
  - intros H.
    pose proof (check_suspects_and_solution_shape data rooms v H) as Hshape.
    split; [exact Hshape|].
    rewrite (check_suspects_and_solution_run data rooms Hshape) in H.
    cbn in H. now injection H as <-.
  - intros (Hshape & ->).
    now rewrite (check_suspects_and_solution_run data rooms Hshape).
Qed.

(** X16. When [check_suspects_and_solution] returns, what it has
    appended is fixed by the document and the rooms.  The errors are the
    unresolved role ids of the solution, killer first, then for each
    suspect in document order the error for a truthy 'currentLocation'
    that is no room and the flag errors of the three roles.  The warnings
    are, for each suspect in document order, the warning for a missing or
    falsy 'alibi', the warning for missing or empty 'secrets', and the
    warning for a truthy 'resistance_level' that is not one of low,
    moderate, high, expert, spelled exactly so. *)
Theorem check_suspects_and_solution_report (data : value) (rooms : list string)
    (v : list value * value * value * value) :
  outcome (check_suspects_and_solution data rooms) = inr v ->
  errors (emitted (check_suspects_and_solution data rooms))
  = role_id_errors data (map id_of (suspects_of data)) Killer
    ++ role_id_errors data (map id_of (suspects_of data)) Accomplice
    ++ role_id_errors data (map id_of (suspects_of data)) SilentWitness
    ++ flat_map (suspect_errors data rooms) (suspects_of data)
  /\
  warnings (emitted (check_suspects_and_solution data rooms))
  = flat_map suspect_warnings (suspects_of data).
Proof.
  intros H.
  pose proof (check_suspects_and_solution_shape data rooms v H) as Hshape.
  rewrite (check_suspects_and_solution_run data rooms Hshape).
  split; reflexivity.
Qed.

Lemma check_suspects_and_solution_report_witness :
  outcome (check_suspects_and_solution bare_solution_case ["study"])
  = inr ([VStr "butler"; VStr "maid"], VStr "butler", VStr "none", VStr "none") /\
  errors (emitted (check_suspects_and_solution bare_solution_case ["study"]))
  = role_id_errors bare_solution_case (map id_of (suspects_of bare_solution_case)) Killer
    ++ role_id_errors bare_solution_case (map id_of (suspects_of bare_solution_case))
         Accomplice
    ++ role_id_errors bare_solution_case (map id_of (suspects_of bare_solution_case))
         SilentWitness
    ++ flat_map (suspect_errors bare_solution_case ["study"])
                (suspects_of bare_solution_case)
  /\
  warnings (emitted (check_suspects_and_solution bare_solution_case ["study"]))
  = flat_map suspect_warnings (suspects_of bare_solution_case).
Proof.
  split; [reflexivity|].
  exact (check_suspects_and_solution_report bare_solution_case ["study"] _ eq_refl).
Defined.

(** The messages of that document, spelled out. *)
Example bare_solution_case_report :
  emitted (check_suspects_and_solution bare_solution_case ["study"])
  = mkResult [SuspectLocation (VStr "butler") (VStr "hall")]
             [SuspectNoAlibi (VStr "butler"); SuspectNoSecrets (VStr "butler");
              SuspectResistance (VStr "butler") (VStr "stubborn")].
Proof. reflexivity. Qed.

(* ------------------------------------------------------------------ *)
(** ** The warnings of the evidence checks *)

Lemma warnings_bind_inr {A B} (m : M A) (f : A -> M B) (a : A) :
  outcome m = inr a ->
  warnings (emitted (bind m f)) = warnings (emitted m) ++ warnings (emitted (f a)).
Proof. intros H. now rewrite warnings_bind, H. Qed.

Lemma all_hashable_inr (l r : list value) : all_hashable l = inr r -> r = l.
Proof.
  revert r. induction l as [|x l IH]; cbn [all_hashable]; intros r H.
  - now injection H as <-.
  - destruct (hashable x); [|discriminate].
    destruct (all_hashable l) as [e|r']; [discriminate|]. cbn [rbind] in H.
    injection H as <-. now rewrite (IH r' eq_refl).
Qed.

Lemma collect_discoverable_inr (ev_lists discoverable : list value) :
  collect_discoverable ev_lists = inr discoverable ->
  discoverable = flat_map listed ev_lists.
Proof.
  revert discoverable. induction ev_lists as [|ev_list rest IH];
    cbn [collect_discoverable flat_map]; intros discoverable H.
  - now injection H as <-.
  - destruct ev_list; try (cbn [listed app]; now apply IH).
    destruct (all_hashable l) as [e|here] eqn:Eh; [discriminate|]. cbn [rbind] in H.
    destruct (collect_discoverable rest) as [e|there]; [discriminate|].
    cbn [rbind] in H. injection H as <-.
    cbn [listed]. now rewrite (all_hashable_inr _ _ Eh), (IH there eq_refl).
Qed.

Lemma check_dna_entry_warnings (rooms : list string) (suspect_ids : list value)
    (victim_id victim_name : string) (entry : string * value) :
  outcome (check_dna_entry rooms suspect_ids victim_id victim_name entry) = inr tt ->
  warnings (emitted (check_dna_entry rooms suspect_ids victim_id victim_name entry))
  = dna_warnings suspect_ids victim_id victim_name entry.
Proof.
  unfold check_dna_entry, dna_warnings. destruct entry as [room_id names].
  cbn [fst snd]. intros H.
  apply outcome_bind_inr in H as ([] & Hroom & H).
  rewrite (warnings_bind_inr _ _ tt Hroom).
  rewrite (warnings_all_False (when _ _)) by appends. cbn [app].
  destruct names; try reflexivity.
  cbn [listed]. fold (known_profiles suspect_ids victim_id victim_name) in *.
  set (known := known_profiles suspect_ids victim_id victim_name) in *.
  destruct (for_each_inr _ _ H) as (Hall & _ & ->). clear H.
  induction l as [|name l IH]; [reflexivity|].
  inversion Hall as [|? ? Hname Hall']; subst.
  cbn [flat_map filter]. rewrite (IH Hall').
  unfold set_mem in *. destruct (hashable name); [|discriminate Hname].
  rewrite bind_lift_inr. unfold list_mem.
  now destruct (existsb (py_eq name) known).
Qed.

Lemma entries_of_items (c x : value) (k : string) (items : list (string * value)) :
  py_get c k (VDict []) = inr x -> py_items x = inr items ->
  entries_of c k = items.
Proof. unfold entries_of. intros -> H. cbn [rbind]. now rewrite H. Qed.

Lemma entries_of_keys (c x : value) (k : string) (keys : list string) :
  py_get c k (VDict []) = inr x -> py_keys x = inr keys ->
  map fst (entries_of c k) = keys.
Proof.
  unfold entries_of. intros -> H. cbn [rbind].
  destruct x; try discriminate. cbn in *. now injection H as <-.
Qed.

Lemma entries_of_values (c x : value) (k : string) (values : list value) :
  py_get c k (VDict []) = inr x -> py_values x = inr values ->
  map snd (entries_of c k) = values.
Proof.
  unfold entries_of. intros -> H. cbn [rbind].
  destruct x; try discriminate. cbn in *. now injection H as <-.
Qed.

(** The warnings of a run of [check_evidence_ids] that returned. *)
Lemma check_evidence_ids_warnings (set_order : list string -> list string)
    (data : value) (rooms : list string) (suspect_ids : list value)
    (killer_id : value) :
  outcome (check_evidence_ids set_order data rooms suspect_ids killer_id) = inr tt ->
  warnings (emitted (check_evidence_ids set_order data rooms suspect_ids killer_id))
  = map EvidenceNotDiscoverable
        (filter (fun ev_id =>
                   negb (list_mem (VStr ev_id)
                           (flat_map listed (map snd (discovery_of data)))))
                (set_order (physical_ids data)))
    ++ flat_map (dna_warnings suspect_ids (victim_id_of data) (victim_name_of data))
                (dna_of data)
    ++ (if truthy (murder_location data) && truthy killer_id
           && negb (list_mem (murder_location data)
                      (map VStr (killer_dna_rooms killer_id (dna_of data))))
        then [KillerNoDna killer_id (murder_location data)] else []).
Proof.
  unfold check_evidence_ids. intros H.
  set (P := physical_ids data). set (D := discovery_of data).
  set (N := dna_of data). set (vid := victim_id_of data).
  set (vname := victim_name_of data). set (m := murder_location data).
  returned H as evidence. returned H as phys_ev. returned H as phys_ev_ids.
  returned H as solution. returned H as discovery. returned H as discovery_items.
  assert (Hev : evidence_of data = evidence)
    by (unfold evidence_of; now rewrite Eevidence).
  assert (HP : P = phys_ev_ids).
  { subst P. unfold physical_ids. rewrite Hev.
    now apply (entries_of_keys evidence phys_ev). }
  assert (HD : D = discovery_items).
  { subst D. unfold discovery_of. rewrite Hev.
    now apply (entries_of_items evidence discovery). }
  apply outcome_bind_inr in H as ([] & H1 & H).
  rewrite (warnings_bind_inr _ _ tt H1).
  rewrite (warnings_all_False (for_each discovery_items _))
    by (apply warnings_all_for_each; intros [room_id ev_list] _;
        unfold check_discovery_entry; appends).
  cbn [app].
  returned H as map_. returned H as map_items.
  apply outcome_bind_inr in H as ([] & H2 & H).
  rewrite (warnings_bind_inr _ _ tt H2).
  rewrite (warnings_all_False (for_each map_items _))
    by (apply warnings_all_for_each; intros [room_id room_info] _;
        unfold check_interactables; appends).
  cbn [app].
  rewrite ?bind_lift_inr in *.
  returned H as ev_lists. returned H as discoverable.
  assert (Hdisc : discoverable = flat_map listed (map snd D)).
  { rewrite (collect_discoverable_inr _ _ Ediscoverable). f_equal.
    subst D. unfold discovery_of. rewrite Hev. symmetry.
    now apply (entries_of_values evidence discovery). }
  apply outcome_bind_inr in H as ([] & H3 & H).
  rewrite (warnings_bind_inr _ _ tt H3).
  assert (W3 : warnings (emitted (for_each (set_order phys_ev_ids) (fun ev_id =>
                  when (negb (list_mem (VStr ev_id) discoverable))
                       (warn (EvidenceNotDiscoverable ev_id)))))
               = map EvidenceNotDiscoverable
                   (filter (fun ev_id => negb (list_mem (VStr ev_id) discoverable))
                           (set_order phys_ev_ids))).
  { clear. induction (set_order phys_ev_ids) as [|ev l IH]; [reflexivity|].
    cbn [for_each filter]. rewrite warnings_bind.
    destruct (negb (list_mem (VStr ev) discoverable)); cbn [when].
    - cbn [warn emitted fst warnings outcome snd app map]. now rewrite IH.
    - cbn [ret emitted fst warnings outcome snd empty app]. exact IH. }
  rewrite W3, HP, Hdisc. f_equal.
  apply outcome_bind_inr in H as ([] & H4 & H).
  rewrite (warnings_bind_inr _ _ tt H4).
  rewrite (warnings_all_False (when (is_dict solution) _)) by appends.
  cbn [app].
  returned H as all_locations. returned H as locs.
  apply outcome_bind_inr in H as ([] & H5 & H).
  rewrite (warnings_bind_inr _ _ tt H5).
  rewrite (warnings_all_False (for_each locs _)) by appends.
  cbn [app].
  returned H as victim_data. returned H as victim_id_raw. returned H as victim_id.
  returned H as victim_name_raw. returned H as victim_first.
  cbv zeta in *.
  assert (Hvid : vid = victim_id).
  { subst vid. unfold victim_id_of. rewrite Evictim_data. cbn [rbind].
    rewrite Evictim_id_raw. cbn [rbind]. now rewrite Evictim_id. }
  assert (Hvname : vname = PyStr.lower victim_first).
  { subst vname. unfold victim_name_of. rewrite Evictim_data. cbn [rbind].
    rewrite Evictim_name_raw. cbn [rbind]. now rewrite Evictim_first. }
  returned H as dna. returned H as dna_items.
  assert (HN : N = dna_items).
  { subst N. unfold dna_of. rewrite Hev. now apply (entries_of_items evidence dna). }
  apply outcome_bind_inr in H as ([] & H6 & H).
  rewrite (warnings_bind_inr _ _ tt H6).
  destruct (for_each_inr _ _ H6) as (Hall6 & _ & ->).
  rewrite (flat_map_ext_in _ (dna_warnings suspect_ids victim_id (PyStr.lower victim_first))).
  2:{ intros entry Hentry. apply check_dna_entry_warnings.
      rewrite Forall_forall in Hall6. now apply Hall6. }
  rewrite HN, Hvid, Hvname. f_equal.
  rewrite ?bind_lift_inr in *.
  returned H as murder_loc.
  assert (Hm : m = murder_loc)
    by (subst m; unfold murder_location; now rewrite Emurder_loc).
  rewrite Hm.
  destruct (truthy murder_loc && truthy killer_id); cbn [when andb]; [|reflexivity].
  rewrite ?bind_lift_inr. rewrite Edna_items, bind_lift_inr.
  now destruct (negb (list_mem murder_loc _)).
Qed.

Lemma list_mem_str (s : string) (l : list value) :
  list_mem (VStr s) l = true <-> In (VStr s) l.
Proof.
  unfold list_mem. rewrite existsb_exists. split.
  - intros (x & Hx & Heq). rewrite py_eq_str_l in Heq.
    destruct x; try discriminate. apply String.eqb_eq in Heq. now subst.
  - intros H. exists (VStr s). split; [exact H|]. cbn. apply String.eqb_refl.
Qed.

Lemma In_listed (x v : value) :
  In x (listed v) <-> exists l, v = VList l /\ In x l.
Proof.
  split.
  - destruct v; cbn [listed]; try (intros []). intros H. now exists l.
  - intros (l & -> & H). exact H.
Qed.

Lemma dna_warnings_kind (ids : list value) (vid vname : string)
    (entry : string * value) (d : diag) :
  In d (dna_warnings ids vid vname entry) ->
  exists name, d = DnaUnknownProfile name (fst entry).
Proof.
  unfold dna_warnings. intros H. apply in_map_iff in H as (name & <- & _).
  now exists name.
Qed.

(** X17. When [check_evidence_ids] returns, the warning that a piece of
    evidence can never be found is there exactly for the ids declared in
    'physical_evidence' that no room of 'physical_discovery' holds in its
    list; an entry of 'physical_discovery' that is not a list holds
    nothing. *)
Theorem undiscoverable_evidence_warned (set_order : list string -> list string)
    (data : value) (rooms : list string) (suspect_ids : list value)
    (killer_id : value) :
  arrangement set_order ->
  outcome (check_evidence_ids set_order data rooms suspect_ids killer_id) = inr tt ->
  forall ev_id,
    In (EvidenceNotDiscoverable ev_id)
       (warnings (emitted (check_evidence_ids set_order data rooms suspect_ids killer_id)))
    <->
    In ev_id (physical_ids data) /\
    forall room_id ev_list,
      In (room_id, VList ev_list) (discovery_of data) -> ~ In (VStr ev_id) ev_list.
Proof.
  intros Harr H ev_id.
  rewrite (check_evidence_ids_warnings _ _ _ _ _ H), !in_app_iff.
  assert (Hfound : list_mem (VStr ev_id) (flat_map listed (map snd (discovery_of data)))
                   = false
                   <-> forall room_id ev_list,
                         In (room_id, VList ev_list) (discovery_of data) ->
                         ~ In (VStr ev_id) ev_list).
  { rewrite <- not_true_iff_false, list_mem_str, in_flat_map. split.
    - intros Hnot room_id ev_list Hentry Hin. apply Hnot.
      exists (VList ev_list). split; [|exact Hin].
      apply in_map_iff. now exists (room_id, VList ev_list).
    - intros Hnone (v & Hv & Hin). apply in_map_iff in Hv as ([room_id v'] & <- & Hentry).
      apply In_listed in Hin as (l & Heq & Hin). cbn [snd] in Heq. subst v'.
      exact (Hnone room_id l Hentry Hin). }
  rewrite <- Hfound. split.
  - intros [Hin|[Hin|Hin]].
    + apply in_map_iff in Hin as (ev & Heq & Hin). injection Heq as ->.
      apply filter_In in Hin as (Hin & Hnot).
      split; [now apply (Permutation_in _ (Harr _))|]. now apply negb_true_iff.
    + apply in_flat_map in Hin as (entry & _ & Hin).
      apply dna_warnings_kind in Hin as (name & Hd). discriminate.
    + destruct (_ && _); [|destruct Hin]. destruct Hin as [Hd|[]]. discriminate.
  - intros (Hin & Hnot). left. apply in_map. apply filter_In.
    split; [now apply (Permutation_in _ (Permutation_sym (Harr _)))|].
    now apply negb_true_iff.
Qed.

Lemma undiscoverable_evidence_warned_witness :
  arrangement (fun l => l) /\
  outcome (check_evidence_ids (fun l => l) lost_knife_case ["hall"] [VStr "butler"]
             (VStr "butler")) = inr tt /\
  (In (EvidenceNotDiscoverable "knife")
      (warnings (emitted (check_evidence_ids (fun l => l) lost_knife_case ["hall"]
                            [VStr "butler"] (VStr "butler"))))
   <->
   In "knife" (physical_ids lost_knife_case) /\
   forall room_id ev_list,
     In (room_id, VList ev_list) (discovery_of lost_knife_case) ->
     ~ In (VStr "knife") ev_list).
Proof.
  split; [exact arrangement_id|]. split; [reflexivity|].
  exact (undiscoverable_evidence_warned (fun l => l) lost_knife_case ["hall"]
           [VStr "butler"] (VStr "butler") arrangement_id eq_refl "knife").
Defined.

Lemma list_mem_app (x : value) (l m : list value) :
  list_mem x (l ++ m) = list_mem x l || list_mem x m.
Proof. unfold list_mem. apply existsb_app. Qed.

(** A name against the set of line 311. *)
Lemma known_profiles_mem (ids : list value) (vid vname : string) (name : value) :
  list_mem name (known_profiles ids vid vname) = false <->
  list_mem name ids = false /\
  py_eq name (VStr "victim") = false /\
  (vid = EmptyString \/ py_eq name (VStr vid) = false) /\
  (vname = EmptyString \/ py_eq name (VStr vname) = false).
Proof.
  unfold known_profiles. rewrite list_mem_app, orb_false_iff.
  cbn [filter]. change (py_eq (VStr "victim") (VStr "")) with false. cbn [negb].
  assert (He : forall s, py_eq (VStr s) (VStr "") = true <-> s = EmptyString).
  { intros s. cbn. apply String.eqb_eq. }
  assert (Hone : forall s rest,
            list_mem name (if negb (py_eq (VStr s) (VStr "")) then VStr s :: rest else rest)
            = false
            <-> (s = EmptyString \/ py_eq name (VStr s) = false) /\ list_mem name rest = false).
  { intros s rest. destruct (py_eq (VStr s) (VStr "")) eqn:Es; cbn [negb].
    - apply He in Es. tauto.
    - unfold list_mem at 1. cbn [existsb]. rewrite orb_false_iff.
      assert (s <> EmptyString) by (intros Hs; apply He in Hs; congruence).
      tauto. }
  unfold list_mem at 2. cbn [existsb]. rewrite orb_false_iff.
  fold (list_mem name (if negb (py_eq (VStr vid) (VStr ""))
                       then VStr vid :: (if negb (py_eq (VStr vname) (VStr ""))
                                         then [VStr vname] else [])
                       else (if negb (py_eq (VStr vname) (VStr ""))
                             then [VStr vname] else []))).
  rewrite Hone, Hone. unfold list_mem at 2. cbn [existsb]. tauto.
Qed.

(** X18. When [check_evidence_ids] returns, the warning that a DNA
    profile is unknown is there exactly for the names that the DNA list of
    some room holds and that are none of: a suspect id, the word 'victim',
    the lower-cased id of the victim, the lower-cased first word of the
    name of the victim (the last two only when not empty).  Names are
    compared as written: a name that differs from a known profile in case
    only is unknown. *)
Theorem unknown_dna_profiles_warned (set_order : list string -> list string)
    (data : value) (rooms : list string) (suspect_ids : list value)
    (killer_id : value) :
  outcome (check_evidence_ids set_order data rooms suspect_ids killer_id) = inr tt ->
  forall name room_id,
    In (DnaUnknownProfile name room_id)
       (warnings (emitted (check_evidence_ids set_order data rooms suspect_ids killer_id)))
    <->
    (exists names, In (room_id, VList names) (dna_of data) /\ In name names) /\
    list_mem name suspect_ids = false /\
    py_eq name (VStr "victim") = false /\
    (victim_id_of data = EmptyString \/ py_eq name (VStr (victim_id_of data)) = false) /\
    (victim_name_of data = EmptyString
     \/ py_eq name (VStr (victim_name_of data)) = false).
Proof.
  intros H name room_id.
  rewrite (check_evidence_ids_warnings _ _ _ _ _ H), !in_app_iff.
  rewrite <- known_profiles_mem. split.
  - intros [Hin|[Hin|Hin]].
    + apply in_map_iff in Hin as (ev & Hd & _). discriminate.
    + apply in_flat_map in Hin as ([room v] & Hentry & Hin).
      unfold dna_warnings in Hin. cbn [fst snd] in Hin.
      apply in_map_iff in Hin as (name' & Heq & Hin). injection Heq as -> ->.
      apply filter_In in Hin as (Hin & Hnot).
      apply In_listed in Hin as (names & -> & Hin).
      split; [now exists names|]. now apply negb_true_iff.
    + destruct (_ && _); [|destruct Hin]. destruct Hin as [Hd|[]]. discriminate.
  - intros ((names & Hentry & Hin) & Hnot). right; left.
    apply in_flat_map. exists (room_id, VList names). split; [exact Hentry|].
    unfold dna_warnings. cbn [fst snd listed].
    apply in_map_iff. exists name. split; [reflexivity|].
    apply filter_In. split; [exact Hin|]. now apply negb_true_iff.
Qed.

Lemma unknown_dna_profiles_warned_witness :
  outcome (check_evidence_ids (fun l => l) lost_knife_case ["hall"] [VStr "butler"]
             (VStr "butler")) = inr tt /\
  (In (DnaUnknownProfile (VStr "Ann") "hall")
      (warnings (emitted (check_evidence_ids (fun l => l) lost_knife_case ["hall"]
                            [VStr "butler"] (VStr "butler"))))
   <->
   (exists names, In ("hall", VList names) (dna_of lost_knife_case)
                  /\ In (VStr "Ann") names) /\
   list_mem (VStr "Ann") [VStr "butler"] = false /\
   py_eq (VStr "Ann") (VStr "victim") = false /\
   (victim_id_of lost_knife_case = EmptyString
    \/ py_eq (VStr "Ann") (VStr (victim_id_of lost_knife_case)) = false) /\
   (victim_name_of lost_knife_case = EmptyString
    \/ py_eq (VStr "Ann") (VStr (victim_name_of lost_knife_case)) = false)).
Proof.
  split; [reflexivity|].
  exact (unknown_dna_profiles_warned (fun l => l) lost_knife_case ["hall"]
           [VStr "butler"] (VStr "butler") eq_refl (VStr "Ann") "hall").
Defined.

(** X19. When [check_evidence_ids] returns, the warning that the killer
    has left no DNA at the murder location is there exactly when the
    murder location and the killer id it was given are both truthy and no
    room of the DNA whose id equals the murder location holds the killer
    id in its list. *)
Theorem killer_without_dna_warned (set_order : list string -> list string)
    (data : value) (rooms : list string) (suspect_ids : list value)
    (killer_id : value) :
  outcome (check_evidence_ids set_order data rooms suspect_ids killer_id) = inr tt ->
  forall k m,
    In (KillerNoDna k m)
       (warnings (emitted (check_evidence_ids set_order data rooms suspect_ids killer_id)))
    <->
    k = killer_id /\ m = murder_location data /\
    truthy m = true /\ truthy k = true /\
    forall room_id names,
      In (room_id, VList names) (dna_of data) ->
      py_eq m (VStr room_id) = true -> list_mem k names = false.
Proof.
  intros H k m.
  rewrite (check_evidence_ids_warnings _ _ _ _ _ H), !in_app_iff.
  assert (Hrooms : list_mem (murder_location data)
                     (map VStr (killer_dna_rooms killer_id (dna_of data))) = false
                   <-> forall room_id names,
                         In (room_id, VList names) (dna_of data) ->
                         py_eq (murder_location data) (VStr room_id) = true ->
                         list_mem killer_id names = false).
  { unfold list_mem at 1, killer_dna_rooms.
    rewrite <- not_true_iff_false, existsb_exists. split.
    - intros Hnot room_id names Hentry Heq.
      destruct (list_mem killer_id names) eqn:Ek; [|reflexivity].
      exfalso. apply Hnot. exists (VStr room_id). split; [|exact Heq].
      apply in_map, in_map_iff. exists (room_id, VList names). split; [reflexivity|].
      apply filter_In. split; [exact Hentry|exact Ek].
    - intros Hnone (x & Hx & Heq). apply in_map_iff in Hx as (room_id & <- & Hx).
      apply in_map_iff in Hx as ([room v] & <- & Hx).
      apply filter_In in Hx as (Hentry & Hk). cbn [snd fst] in *.
      destruct v; try discriminate.
      rewrite (Hnone room l Hentry Heq) in Hk. discriminate. }
  split.
  - intros [Hin|[Hin|Hin]].
    + apply in_map_iff in Hin as (ev & Hd & _). discriminate.
    + apply in_flat_map in Hin as (entry & _ & Hin).
      apply dna_warnings_kind in Hin as (name & Hd). discriminate.
    + destruct (truthy (murder_location data)) eqn:Et; [|destruct Hin].
      destruct (truthy killer_id) eqn:Ek; [|destruct Hin].
      destruct (list_mem (murder_location data) _) eqn:El; [destruct Hin|].
      destruct Hin as [Heq|[]]. injection Heq as <- <-.
      repeat split; auto. now apply Hrooms.
  - intros (-> & -> & Ht & Hk & Hnone). right; right.
    rewrite Ht, Hk. apply Hrooms in Hnone. rewrite Hnone. now left.
Qed.

Lemma killer_without_dna_warned_witness :
  outcome (check_evidence_ids (fun l => l) lost_knife_case ["hall"] [VStr "butler"]
             (VStr "butler")) = inr tt /\
  (In (KillerNoDna (VStr "butler") (VStr "hall"))
      (warnings (emitted (check_evidence_ids (fun l => l) lost_knife_case ["hall"]
                            [VStr "butler"] (VStr "butler"))))
   <->
   VStr "butler" = VStr "butler" /\ VStr "hall" = murder_location lost_knife_case /\
   truthy (VStr "hall") = true /\ truthy (VStr "butler") = true /\
   forall room_id names,
     In (room_id, VList names) (dna_of lost_knife_case) ->
     py_eq (VStr "hall") (VStr room_id) = true ->
     list_mem (VStr "butler") names = false).
Proof.
  split; [reflexivity|].
  exact (killer_without_dna_warned (fun l => l) lost_knife_case ["hall"]
           [VStr "butler"] (VStr "butler") eq_refl (VStr "butler") (VStr "hall")).
Defined.

(** The messages of the case of the lost knife. *)
Example lost_knife_case_report :
  emitted (check_evidence_ids (fun l => l) lost_knife_case ["hall"] [VStr "butler"]
             (VStr "butler"))
  = mkResult [DiscoveryRoom "_note"; DiscoveryNotList "_note" "str"; DnaRoom "study"]
             [EvidenceNotDiscoverable "knife";
              DnaUnknownProfile (VStr "Ann") "hall";
              DnaUnknownProfile (VStr "maid") "hall";
              KillerNoDna (VStr "butler") (VStr "hall")].
Proof. reflexivity. Qed.

(* ------------------------------------------------------------------ *)
(** ** The trigger checks, secret by secret *)

(** A loop over values whose body records an error or nothing, after a
    test that can raise. *)
Lemma for_each_flat_errors {A} (l : list A) (body : A -> M unit)
    (E : A -> list diag) :
  outcome (for_each l body) = inr tt ->
  (forall x, In x l -> outcome (body x) = inr tt ->
             emitted (body x) = mkResult (E x) []) ->
  emitted (for_each l body) = mkResult (flat_map E l) [].
Proof.
  induction l as [|x l IH]; intros H Hbody; [reflexivity|].
  cbn [for_each flat_map] in *.
  apply outcome_bind_inr in H as ([] & Hx & Hl).
  rewrite (bind_inr _ _ tt Hx). cbn [emitted fst].
  rewrite (Hbody x (or_introl eq_refl) Hx), (IH Hl).
  - reflexivity.
  - intros y Hy. apply Hbody. now right.
Qed.

(** The run of [check_trigger] on a secret, when it returns. *)
Lemma check_trigger_emitted (valid flat : list value) (sid secret : value) :
  outcome (check_trigger valid flat sid secret) = inr tt ->
  emitted (check_trigger valid flat sid secret)
  = mkResult (trigger_errors valid flat sid secret) (pressure_warnings sid secret).
Proof.
  unfold check_trigger. intros H.
  returned H as sec_id. returned H as trigger.
  returned H as revs. returned H as reqs.
  apply outcome_bind_inr in H as ([] & Hev & H).
  returned H as rsecs. returned H as sreqs.
  apply outcome_bind_inr in H as ([] & Hsec & H).
  rewrite ?bind_lift_inr in *.
  returned H as self.
  apply outcome_bind_inr in H as ([] & _ & H).
  returned H as mp.
  assert (Hid : id_of secret = sec_id) by (unfold id_of; now rewrite Esec_id).
  assert (Hself : self_referencing secret = self).
  { unfold self_referencing. rewrite Etrigger. cbn [rbind].
    rewrite Ersecs. cbn [rbind]. now rewrite Hid, Eself. }
  assert (Hreqs : requires_secrets secret = sreqs).
  { unfold requires_secrets. rewrite Etrigger. cbn [rbind].
    rewrite Ersecs. cbn [rbind]. now rewrite Esreqs. }
  assert (Hevs : requires_evidence secret = reqs).
  { unfold requires_evidence. rewrite Etrigger. cbn [rbind].
    rewrite Erevs. cbn [rbind]. now rewrite Ereqs. }
  assert (Hmp : min_pressure secret = mp).
  { unfold min_pressure. rewrite Etrigger. cbn [rbind]. now rewrite Emp. }
  unfold trigger_errors, evidence_errors, unknown_secret_errors, pressure_errors,
    pressure_warnings.
  rewrite Hid, Hself, Hreqs, Hevs, Hmp. clear Hid Hself Hreqs Hevs Hmp.
  rewrite (bind_inr _ _ tt Hev), (bind_inr _ _ tt Hsec). cbn [emitted fst].
  rewrite (for_each_flat_errors reqs _
             (fun req => if dotted req then [TriggerDotNotation sid sec_id req]
                         else if list_mem req valid then []
                              else [TriggerUndeclaredEvidence sid sec_id req]) Hev).
  2:{ intros req _ Hreq. unfold dotted.
      destruct (py_in (VStr ".") req) as [e|b]; [discriminate Hreq|].
      rewrite bind_lift_inr in *. destruct b; [reflexivity|].
      unfold set_mem in *. destruct (hashable req); [|discriminate Hreq].
      rewrite bind_lift_inr. unfold list_mem.
      now destruct (existsb (py_eq req) valid). }
  rewrite (for_each_flat_errors sreqs _
             (fun req => if list_mem req flat then []
                         else [TriggerUnknownSecret sid sec_id req]) Hsec).
  2:{ intros req _ Hreq. unfold set_mem in *.
      destruct (hashable req); [|discriminate Hreq].
      rewrite bind_lift_inr. unfold list_mem.
      now destruct (existsb (py_eq req) flat). }
  destruct self, (negb (is_none mp) && negb (is_number mp)), (is_number mp && gt_80 mp);
    cbv [when bind err warn ret plus errors warnings empty]; cbn [app];
    rewrite ?app_nil_r; reflexivity.
Qed.

Lemma for_each_flat {A} (l : list A) (body : A -> M unit)
    (E W : A -> list diag) :
  outcome (for_each l body) = inr tt ->
  (forall x, In x l -> outcome (body x) = inr tt ->
             emitted (body x) = mkResult (E x) (W x)) ->
  emitted (for_each l body) = mkResult (flat_map E l) (flat_map W l).
Proof.
  induction l as [|x l IH]; intros H Hbody; [reflexivity|].
  cbn [for_each flat_map] in *.
  apply outcome_bind_inr in H as ([] & Hx & Hl).
  rewrite (bind_inr _ _ tt Hx). cbn [emitted fst].
  rewrite (Hbody x (or_introl eq_refl) Hx), (IH Hl).
  - reflexivity.
  - intros y Hy. apply Hbody. now right.
Qed.

(** The second loop of [check_secret_triggers] on one suspect. *)
Lemma check_suspect_pressures_emitted (suspect : value) :
  outcome (check_suspect_pressures suspect) = inr tt ->
  emitted (check_suspect_pressures suspect)
  = mkResult [] (flat_map (order_warnings suspect) (secrets_of suspect)).
Proof.
  unfold check_suspect_pressures. intros H.
  returned H as sid. returned H as secrets. returned H as secret_list.
  returned H as sp. rewrite ?bind_lift_inr in *.
  rewrite Esecret_list, bind_lift_inr in H. rewrite Esecret_list, bind_lift_inr.
  assert (Hid : id_of suspect = sid) by (unfold id_of; now rewrite Esid).
  assert (Hsec : secrets_of suspect = secret_list).
  { unfold secrets_of. rewrite Esecrets. cbn [rbind]. now rewrite Esecret_list. }
  assert (Hsp : pressures_of suspect = sp).
  { unfold pressures_of. now rewrite Hsec, Esp. }
  rewrite Hsec.
  rewrite (for_each_flat secret_list _ (fun _ => []) (order_warnings suspect) H).
  { f_equal. now apply flat_map_nil. }
  intros secret _. unfold check_pressure_order, order_warnings, own_pressure.
  rewrite Hsp, Hid. clear. intros H.
  returned H as sec_id. returned H as found. returned H as trigger.
  returned H as rsecs. returned H as reqs.
  assert (Hsid : id_of secret = sec_id) by (unfold id_of; now rewrite Esec_id).
  assert (Hreqs : requires_secrets secret = reqs).
  { unfold requires_secrets. rewrite Etrigger. cbn [rbind].
    rewrite Ersecs. cbn [rbind]. now rewrite Ereqs. }
  assert (Hfound : vdict_find sec_id sp = found).
  { unfold vdict_get in Efound. destruct (hashable sec_id); [|discriminate].
    now injection Efound as <-. }
  rewrite Hsid, Hreqs, Hfound. cbv zeta in *.
  set (sec_mp := match found with Some mp => mp | None => VInt 0 end) in *.
  rewrite (for_each_flat reqs _ (fun _ => [])
             (fun req => match vdict_find req sp with
                         | Some req_mp =>
                             if is_none req_mp then []
                             else match py_le sec_mp req_mp with
                                  | inr true =>
                                      [TriggerPressureOrder sid sec_id sec_mp req req_mp]
                                  | _ => []
                                  end
                         | None => []
                         end) H).
  { f_equal. now apply flat_map_nil. }
  intros req _ Hreq. unfold vdict_get in *.
  destruct (hashable req); [|discriminate Hreq]. rewrite bind_lift_inr in *.
  destruct (vdict_find req sp) as [req_mp|]; [|reflexivity].
  destruct (is_none req_mp); [reflexivity|].
  destruct (py_le sec_mp req_mp) as [e|lower]; [discriminate Hreq|].
  rewrite bind_lift_inr. now destruct lower.
Qed.

Lemma check_suspect_triggers_emitted (valid flat : list value)
    (all : list (value * list value)) (suspect : value) :
  outcome (check_suspect_triggers valid flat all suspect) = inr tt ->
  emitted (check_suspect_triggers valid flat all suspect)
  = mkResult (flat_map (trigger_errors valid flat (id_of suspect)) (secrets_of suspect))
             (flat_map (pressure_warnings (id_of suspect)) (secrets_of suspect)).
Proof.
  unfold check_suspect_triggers. intros H.
  returned H as sid. returned H as own. returned H as secrets.
  returned H as secret_list.
  assert (Hid : id_of suspect = sid) by (unfold id_of; now rewrite Esid).
  assert (Hsec : secrets_of suspect = secret_list).
  { unfold secrets_of. rewrite Esecrets. cbn [rbind]. now rewrite Esecret_list. }
  rewrite Hid, Hsec.
  apply (for_each_flat secret_list _ (trigger_errors valid flat sid)
           (pressure_warnings sid) H).
  intros secret _. apply check_trigger_emitted.
Qed.

Lemma flat_map_flat_map {A B C} (f : B -> list C) (g : A -> list B) (l : list A) :
  flat_map f (flat_map g l) = flat_map (fun x => flat_map f (g x)) l.
Proof.
  induction l as [|x l IH]; cbn [flat_map]; [reflexivity|].
  now rewrite flat_map_app, IH.
Qed.

Lemma flat_map_map {A B C} (f : B -> list C) (g : A -> B) (l : list A) :
  flat_map f (map g l) = flat_map (fun x => f (g x)) l.
Proof.
  induction l as [|x l IH]; cbn [flat_map map]; [reflexivity|]. now rewrite IH.
Qed.

(** The run of [check_secret_triggers], when it returns: the errors of
    the secrets in document order, the high-pressure warnings of the
    secrets, then the ordering warnings. *)
Lemma check_secret_triggers_emitted (data : value) (rooms : list string) :
  outcome (check_secret_triggers data rooms) = inr tt ->
  emitted (check_secret_triggers data rooms)
  = mkResult
      (flat_map (fun entry => trigger_errors (flat_evidence_ids data rooms)
                                (all_secret_ids_of data) (fst entry) (snd entry))
                (declared_secrets data))
      (flat_map (fun entry => pressure_warnings (fst entry) (snd entry))
                (declared_secrets data)
       ++ flat_map (fun suspect => flat_map (order_warnings suspect) (secrets_of suspect))
                   (suspects_of data)).
Proof.
  unfold check_secret_triggers. intros H.
  returned H as evidence. returned H as phys_ev. returned H as phys_ev_ids.
  returned H as digital_logs. returned H as digital_log_ids.
  returned H as footage. returned H as footage_ids.
  returned H as all_secret_ids. returned H as suspects.
  returned H as suspect_list.
  rewrite ?bind_lift_inr in *.
  assert (Hev : evidence_of data = evidence)
    by (unfold evidence_of; now rewrite Eevidence).
  assert (Hvalid : flat_evidence_ids data rooms
                   = map VStr (phys_ev_ids ++ digital_log_ids ++ footage_ids ++ rooms)).
  { unfold flat_evidence_ids. rewrite Hev.
    rewrite (entries_of_keys evidence phys_ev "physical_evidence" phys_ev_ids),
      (entries_of_keys evidence digital_logs "digital_logs" digital_log_ids),
      (entries_of_keys evidence footage "footage" footage_ids); auto. }
  assert (Hflat : all_secret_ids_of data = List.concat (map snd all_secret_ids)).
  { unfold all_secret_ids_of. now rewrite Eall_secret_ids. }
  assert (Hsus : suspects_of data = suspect_list).
  { unfold suspects_of. rewrite Esuspects. cbn [rbind]. now rewrite Esuspect_list. }
  rewrite Hvalid, Hflat. unfold declared_secrets. rewrite Hsus.
  set (valid := map VStr _) in *. set (flat := List.concat _) in *.
  apply outcome_bind_inr in H as ([] & H1 & H2).
  rewrite (bind_inr _ _ tt H1). cbn [emitted fst].
  rewrite Esuspect_list, bind_lift_inr in H2. rewrite Esuspect_list, bind_lift_inr.
  rewrite (for_each_flat suspect_list _
             (fun s => flat_map (trigger_errors valid flat (id_of s)) (secrets_of s))
             (fun s => flat_map (pressure_warnings (id_of s)) (secrets_of s)) H1)
    by (intros s _; apply check_suspect_triggers_emitted).
  rewrite (for_each_flat suspect_list _ (fun _ => [])
             (fun s => flat_map (order_warnings s) (secrets_of s)) H2)
    by (intros s _; apply check_suspect_pressures_emitted).
  unfold plus. cbn [errors warnings].
  rewrite (flat_map_nil (fun _ : value => [])) by reflexivity. rewrite app_nil_r.
  rewrite !flat_map_flat_map. f_equal; [|f_equal];
    apply flat_map_ext_in; intros s _; now rewrite flat_map_map.
Qed.

Lemma In_trigger_errors (valid flat : list value) (sid secret : value) (d : diag) :
  In d (trigger_errors valid flat sid secret) <->
  (exists req, In req (requires_evidence secret) /\
     (dotted req = true /\ d = TriggerDotNotation sid (id_of secret) req
      \/ dotted req = false /\ list_mem req valid = false /\
         d = TriggerUndeclaredEvidence sid (id_of secret) req))
  \/ (exists req, In req (requires_secrets secret) /\ list_mem req flat = false /\
        d = TriggerUnknownSecret sid (id_of secret) req)
  \/ (self_referencing secret = true /\ d = TriggerSelfReference sid (id_of secret))
  \/ (is_none (min_pressure secret) = false /\ is_number (min_pressure secret) = false /\
      d = TriggerPressureType sid (id_of secret) (min_pressure secret)).
Proof.
  unfold trigger_errors, evidence_errors, unknown_secret_errors, pressure_errors.
  rewrite !in_app_iff, !in_flat_map.
  assert (H1 : forall req,
            In d (if dotted req then [TriggerDotNotation sid (id_of secret) req]
                  else if list_mem req valid then []
                       else [TriggerUndeclaredEvidence sid (id_of secret) req])
            <-> (dotted req = true /\ d = TriggerDotNotation sid (id_of secret) req
                 \/ dotted req = false /\ list_mem req valid = false /\
                    d = TriggerUndeclaredEvidence sid (id_of secret) req)).
  { intros req. destruct (dotted req); [|destruct (list_mem req valid)]; cbn [In];
      intuition (try discriminate; auto). }
  assert (H2 : forall req,
            In d (if list_mem req flat then []
                  else [TriggerUnknownSecret sid (id_of secret) req])
            <-> list_mem req flat = false /\
                d = TriggerUnknownSecret sid (id_of secret) req).
  { intros req. destruct (list_mem req flat); cbn [In];
      intuition (try discriminate; auto). }
  assert (H3 : In d (if self_referencing secret
                     then [TriggerSelfReference sid (id_of secret)] else [])
               <-> self_referencing secret = true /\
                   d = TriggerSelfReference sid (id_of secret)).
  { destruct (self_referencing secret); cbn [In];
      intuition (try discriminate; auto). }
  assert (H4 : In d (if negb (is_none (min_pressure secret))
                        && negb (is_number (min_pressure secret))
                     then [TriggerPressureType sid (id_of secret) (min_pressure secret)]
                     else [])
               <-> is_none (min_pressure secret) = false /\
                   is_number (min_pressure secret) = false /\
                   d = TriggerPressureType sid (id_of secret) (min_pressure secret)).
  { destruct (is_none (min_pressure secret)), (is_number (min_pressure secret));
      cbn [negb andb In]; intuition (try discriminate; auto). }
  rewrite H3, H4. split.
  - intros [(req & Hin & Hd)|[(req & Hin & Hd)|[Hd|Hd]]].
    + left. exists req. split; [exact Hin|]. now apply H1.
    + right; left. exists req. split; [exact Hin|]. now apply H2.
    + auto.
    + auto.
  - intros [(req & Hin & Hd)|[(req & Hin & Hd)|[Hd|Hd]]].
    + left. exists req. split; [exact Hin|]. now apply H1.
    + right; left. exists req. split; [exact Hin|]. now apply H2.
    + auto.
    + auto.
Qed.

(** X20. When [check_secret_triggers] returns, an entry of the
    'requiresEvidence' of a declared secret is reported as dot-notation
    exactly when it holds a dot, and is then never looked up, also when an
    id with that very name is declared; an entry without a dot is reported
    as undeclared exactly when it is none of: an id of the physical
    evidence, an id of the digital logs, an id of the footage, a room.  No
    other entry is reported under either message. *)
Theorem required_evidence_is_flat_and_declared (data : value) (rooms : list string) :
  outcome (check_secret_triggers data rooms) = inr tt ->
  forall sid sec_id req,
    (In (TriggerDotNotation sid sec_id req)
        (errors (emitted (check_secret_triggers data rooms)))
     <->
     dotted req = true /\
     exists secret, In (sid, secret) (declared_secrets data) /\
                    id_of secret = sec_id /\ In req (requires_evidence secret))
    /\
    (In (TriggerUndeclaredEvidence sid sec_id req)
        (errors (emitted (check_secret_triggers data rooms)))
     <->
     dotted req = false /\
     list_mem req (flat_evidence_ids data rooms) = false /\
     exists secret, In (sid, secret) (declared_secrets data) /\
                    id_of secret = sec_id /\ In req (requires_evidence secret)).
Proof.
  intros H sid sec_id req.
  rewrite (check_secret_triggers_emitted data rooms H). cbn [emitted fst errors].
  rewrite !in_flat_map. split; split.
  - intros ([sid' secret] & Hin & Hd). cbn [fst snd] in Hd.
    apply In_trigger_errors in Hd
      as [(req' & Hreq & [(Hdot & Heq)|(_ & _ & Heq)])|[(req' & _ & _ & Heq)|[(_ & Heq)|(_ & _ & Heq)]]];
      try discriminate Heq.
    injection Heq as Hs Hi Hr. subst. split; [exact Hdot|]. now exists secret.
  - intros (Hdot & secret & Hin & <- & Hreq). exists (sid, secret).
    split; [exact Hin|]. apply In_trigger_errors. left. exists req. cbn [fst snd].
    split; [exact Hreq|]. left. auto.
  - intros ([sid' secret] & Hin & Hd). cbn [fst snd] in Hd.
    apply In_trigger_errors in Hd
      as [(req' & Hreq & [(_ & Heq)|(Hdot & Hval & Heq)])|[(req' & _ & _ & Heq)|[(_ & Heq)|(_ & _ & Heq)]]];
      try discriminate Heq.
    injection Heq as Hs Hi Hr. subst. split; [exact Hdot|]. split; [exact Hval|].
    now exists secret.
  - intros (Hdot & Hval & secret & Hin & <- & Hreq). exists (sid, secret).
    split; [exact Hin|]. apply In_trigger_errors. left. exists req. cbn [fst snd].
    split; [exact Hreq|]. right. auto.
Qed.

Lemma required_evidence_is_flat_and_declared_witness :
  outcome (check_secret_triggers pressure_case ["hall"]) = inr tt /\
  (In (TriggerDotNotation (VStr "maid") (VStr "debt") (VStr "butler.will"))
      (errors (emitted (check_secret_triggers pressure_case ["hall"])))
   <->
   dotted (VStr "butler.will") = true /\
   exists secret, In (VStr "maid", secret) (declared_secrets pressure_case) /\
                  id_of secret = VStr "debt" /\
                  In (VStr "butler.will") (requires_evidence secret))
  /\
  (In (TriggerUndeclaredEvidence (VStr "maid") (VStr "debt") (VStr "butler.will"))
      (errors (emitted (check_secret_triggers pressure_case ["hall"])))
   <->
   dotted (VStr "butler.will") = false /\
   list_mem (VStr "butler.will") (flat_evidence_ids pressure_case ["hall"]) = false /\
   exists secret, In (VStr "maid", secret) (declared_secrets pressure_case) /\
                  id_of secret = VStr "debt" /\
                  In (VStr "butler.will") (requires_evidence secret)).
Proof.
  split; [reflexivity|].
  exact (required_evidence_is_flat_and_declared pressure_case ["hall"] eq_refl
           (VStr "maid") (VStr "debt") (VStr "butler.will")).
Defined.

Lemma order_warnings_kind (suspect secret : value) (d : diag) :
  In d (order_warnings suspect secret) ->
  exists req req_mp,
    In req (requires_secrets secret) /\
    vdict_find req (pressures_of suspect) = Some req_mp /\
    is_none req_mp = false /\
    py_le (own_pressure suspect secret) req_mp = inr true /\
    d = TriggerPressureOrder (id_of suspect) (id_of secret)
          (own_pressure suspect secret) req req_mp.
Proof.
  unfold order_warnings. intros H. apply in_flat_map in H as (req & Hreq & H).
  destruct (vdict_find req (pressures_of suspect)) as [req_mp|] eqn:Ef; [|destruct H].
  destruct (is_none req_mp) eqn:En; [destruct H|].
  destruct (py_le (own_pressure suspect secret) req_mp) as [e|[|]] eqn:El;
    [destruct H| |destruct H].
  destruct H as [<-|[]]. now exists req, req_mp.
Qed.

Lemma pressure_warnings_In (sid secret : value) (d : diag) :
  In d (pressure_warnings sid secret) <->
  is_number (min_pressure secret) = true /\ gt_80 (min_pressure secret) = true /\
  d = TriggerPressureHigh sid (id_of secret) (min_pressure secret).
Proof.
  unfold pressure_warnings.
  destruct (is_number (min_pressure secret)), (gt_80 (min_pressure secret));
    cbn [andb In]; intuition (try discriminate; auto).
Qed.

(** X21. When [check_secret_triggers] returns, the 'minPressure' of a
    declared secret is reported as an error exactly when it is given, not
    null, and not a number, and as a warning exactly when it is a number
    greater than 80; whole numbers, floats and truth values are numbers.
    A secret without a 'minPressure' gets neither message. *)
Theorem min_pressure_is_a_number_up_to_80 (data : value) (rooms : list string) :
  outcome (check_secret_triggers data rooms) = inr tt ->
  forall sid sec_id mp,
    (In (TriggerPressureType sid sec_id mp)
        (errors (emitted (check_secret_triggers data rooms)))
     <->
     is_none mp = false /\ is_number mp = false /\
     exists secret, In (sid, secret) (declared_secrets data) /\
                    id_of secret = sec_id /\ min_pressure secret = mp)
    /\
    (In (TriggerPressureHigh sid sec_id mp)
        (warnings (emitted (check_secret_triggers data rooms)))
     <->
     is_number mp = true /\ gt_80 mp = true /\
     exists secret, In (sid, secret) (declared_secrets data) /\
                    id_of secret = sec_id /\ min_pressure secret = mp).
Proof.
  intros H sid sec_id mp.
  rewrite (check_secret_triggers_emitted data rooms H).
  cbn [emitted fst errors warnings].
  rewrite in_app_iff, !in_flat_map. split; split.
  - intros ([sid' secret] & Hin & Hd). cbn [fst snd] in Hd.
    apply In_trigger_errors in Hd
      as [(req' & Hreq & [(_ & Heq)|(_ & _ & Heq)])|[(req' & _ & _ & Heq)|[(_ & Heq)|(Hn & Hnum & Heq)]]];
      try discriminate Heq.
    injection Heq as Hs Hi Hr. subst. split; [exact Hn|]. split; [exact Hnum|].
    now exists secret.
  - intros (Hn & Hnum & secret & Hin & <- & <-). exists (sid, secret).
    split; [exact Hin|]. apply In_trigger_errors. right; right; right. auto.
  - intros [([sid' secret] & Hin & Hd)|(suspect & _ & Hd)].
    + cbn [fst snd] in Hd. apply pressure_warnings_In in Hd as (Hnum & Hgt & Heq).
      injection Heq as Hs Hi Hr. subst. split; [exact Hnum|]. split; [exact Hgt|].
      now exists secret.
    + apply in_flat_map in Hd as (secret & _ & Hd).
      apply order_warnings_kind in Hd as (req & req_mp & _ & _ & _ & _ & Heq).
      discriminate.
  - intros (Hnum & Hgt & secret & Hin & <- & <-). left. exists (sid, secret).
    split; [exact Hin|]. apply pressure_warnings_In. auto.
Qed.

Lemma min_pressure_is_a_number_up_to_80_witness :
  outcome (check_secret_triggers pressure_case ["hall"]) = inr tt /\
  (In (TriggerPressureType (VStr "maid") (VStr "debt") (VInt 81))
      (errors (emitted (check_secret_triggers pressure_case ["hall"])))
   <->
   is_none (VInt 81) = false /\ is_number (VInt 81) = false /\
   exists secret, In (VStr "maid", secret) (declared_secrets pressure_case) /\
                  id_of secret = VStr "debt" /\ min_pressure secret = VInt 81)
  /\
  (In (TriggerPressureHigh (VStr "maid") (VStr "debt") (VInt 81))
      (warnings (emitted (check_secret_triggers pressure_case ["hall"])))
   <->
   is_number (VInt 81) = true /\ gt_80 (VInt 81) = true /\
   exists secret, In (VStr "maid", secret) (declared_secrets pressure_case) /\
                  id_of secret = VStr "debt" /\ min_pressure secret = VInt 81).
Proof.
  split; [reflexivity|].
  exact (min_pressure_is_a_number_up_to_80 pressure_case ["hall"] eq_refl
           (VStr "maid") (VStr "debt") (VInt 81)).
Defined.

(** X22. When [check_secret_triggers] returns, the warning about the
    order of two pressures is there exactly for a secret of a suspect and
    an entry of its 'requiresSecrets' that is the id of a secret of the
    same suspect, when the pressure of the required secret is not null
    and the pressure of the requiring secret is less than or equal to it.
    The pressure of a secret is its 'minPressure', 0 when it gives none;
    equal pressures are warned about; what a secret requires of another
    suspect is never compared. *)
Theorem pressure_order_within_a_suspect (data : value) (rooms : list string) :
  outcome (check_secret_triggers data rooms) = inr tt ->
  forall sid sec_id sec_mp req req_mp,
    In (TriggerPressureOrder sid sec_id sec_mp req req_mp)
       (warnings (emitted (check_secret_triggers data rooms)))
    <->
    exists suspect secret,
      In suspect (suspects_of data) /\ In secret (secrets_of suspect) /\
      id_of suspect = sid /\ id_of secret = sec_id /\
      In req (requires_secrets secret) /\
      own_pressure suspect secret = sec_mp /\
      vdict_find req (pressures_of suspect) = Some req_mp /\
      is_none req_mp = false /\
      py_le sec_mp req_mp = inr true.
Proof.
  intros H sid sec_id sec_mp req req_mp.
  rewrite (check_secret_triggers_emitted data rooms H).
  cbn [emitted fst warnings]. rewrite in_app_iff, !in_flat_map. split.
  - intros [([sid' secret] & _ & Hd)|(suspect & Hs & Hd)].
    + apply pressure_warnings_In in Hd as (_ & _ & Heq). discriminate.
    + apply in_flat_map in Hd as (secret & Hsec & Hd).
      apply order_warnings_kind in Hd as (req' & req_mp' & Hreq & Hf & Hn & Hle & Heq).
      injection Heq as H1 H2 H3 H4 H5. subst.
      exists suspect, secret. repeat split; auto.
  - intros (suspect & secret & Hs & Hsec & <- & <- & Hreq & <- & Hf & Hn & Hle).
    right. exists suspect. split; [exact Hs|].
    apply in_flat_map. exists secret. split; [exact Hsec|].
    unfold order_warnings. apply in_flat_map. exists req. split; [exact Hreq|].
    rewrite Hf, Hn, Hle. now left.
Qed.

Lemma pressure_order_within_a_suspect_witness :
  outcome (check_secret_triggers pressure_case ["hall"]) = inr tt /\
  (In (TriggerPressureOrder (VStr "maid") (VStr "affair") (VInt 80) (VStr "debt") (VInt 81))
      (warnings (emitted (check_secret_triggers pressure_case ["hall"])))
   <->
   exists suspect secret,
     In suspect (suspects_of pressure_case) /\ In secret (secrets_of suspect) /\
     id_of suspect = VStr "maid" /\ id_of secret = VStr "affair" /\
     In (VStr "debt") (requires_secrets secret) /\
     own_pressure suspect secret = VInt 80 /\
     vdict_find (VStr "debt") (pressures_of suspect) = Some (VInt 81) /\
     is_none (VInt 81) = false /\
     py_le (VInt 80) (VInt 81) = inr true).
Proof.
  split; [reflexivity|].
  exact (pressure_order_within_a_suspect pressure_case ["hall"] eq_refl
           (VStr "maid") (VStr "affair") (VInt 80) (VStr "debt") (VInt 81)).
Defined.

(** The messages of the pressure case: the dotted name and the name
    nobody declares; the pressure above 80; the secret of the maid that
    requires 'debt' under a lower pressure, while 'will', a secret of the
    butler under a higher pressure, and 'theft', under the pressure
    [True], are not warned about. *)
Example pressure_case_report :
  emitted (check_secret_triggers pressure_case ["hall"])
  = mkResult
      [TriggerDotNotation (VStr "maid") (VStr "debt") (VStr "butler.will");
       TriggerUndeclaredEvidence (VStr "maid") (VStr "debt") (VStr "letter")]
      [TriggerPressureHigh (VStr "maid") (VStr "debt") (VInt 81);
       TriggerPressureHigh (VStr "butler") (VStr "will") (VInt 90);
       TriggerPressureOrder (VStr "maid") (VStr "affair") (VInt 80)
         (VStr "debt") (VInt 81)].
Proof. reflexivity. Qed.

(* ------------------------------------------------------------------ *)
(** ** The asset check *)

Local Open Scope string_scope.

Lemma endswith_slash_public (s : string) :
  PyStr.endswith "/" (s ++ "public") = false.
Proof.
  induction s as [|c s IH]; [reflexivity|].
  cbn [append PyStr.endswith]. rewrite IH, orb_false_r.
  cbn [String.eqb]. destruct (Ascii.eqb "/" c); [|reflexivity].
  now destruct s.
Qed.

Lemma lstrip_slashes_relative (s : string) :
  PyStr.startswith "/" (PyStr.lstrip_chars (Ascii.eqb "/") s) = false.
Proof.
  induction s as [|c s IH]; [reflexivity|].
  cbn [PyStr.lstrip_chars]. destruct (Ascii.eqb "/" c) eqn:Ec; [exact IH|].
  unfold PyStr.startswith. cbn [prefix].
  destruct (ascii_dec "/" c) as [<-|]; [|reflexivity].
  now rewrite Ascii.eqb_refl in Ec.
Qed.

(** The path that line 404 joins lies below 'public', whatever the
    asset path is. *)
Lemma joined_path_is_public_file (project_root s : string) :
  PyStr.path_join3 project_root "public" (PyStr.lstrip_chars (Ascii.eqb "/") s)
  = public_file project_root s.
Proof.
  unfold PyStr.path_join3, public_file.
  unfold PyStr.path_join2 at 1.
  rewrite (lstrip_slashes_relative s).
  assert (Hdir : exists t, PyStr.path_join2 project_root "public" = t ++ "public").
  { unfold PyStr.path_join2. change (PyStr.startswith "/" "public") with false.
    cbv iota. destruct (_ || _).
    - now exists project_root.
    - exists (project_root ++ "/"). now rewrite append_assoc. }
  destruct Hdir as (t & ->). rewrite endswith_slash_public.
  destruct (t ++ "public") eqn:Et; [destruct t; discriminate|]. reflexivity.
Qed.

Local Open Scope list_scope.

(** The run of [check_asset]. *)
Lemma check_asset_run (path_exists : string -> bool) (project_root : string)
    (asset_path : value) (context : asset_context) :
  outcome (check_asset path_exists project_root asset_path context) = inr tt ->
  check_asset path_exists project_root asset_path context
  = (mkResult (asset_errors path_exists project_root context asset_path) [], inr tt).
Proof.
  unfold check_asset, asset_errors.
  destruct asset_path; cbn [truthy negb py_lstrip_slash];
    try reflexivity; try discriminate.
  - now destruct b.
  - now destruct (negb (Z.eqb z 0)).
  - now destruct (negb (Qeq_bool q 0)).
  - destruct (PyStr.is_empty s); cbn [negb andb]; [reflexivity|].
    rewrite bind_lift_inr. cbv zeta. rewrite joined_path_is_public_file.
    now destruct (path_exists _).
  - now destruct l.
  - now destruct d.
Qed.

Lemma asset_errors_In (path_exists : string -> bool) (project_root : string)
    (context : asset_context) (asset_path : value) (d : diag) :
  In d (asset_errors path_exists project_root context asset_path) <->
  exists s, asset_path = VStr s /\ s <> EmptyString /\
            path_exists (public_file project_root s) = false /\
            d = ResourceNotFound context asset_path (public_file project_root s).
Proof.
  unfold asset_errors. split.
  - destruct asset_path; try (intros []).
    destruct (PyStr.is_empty s) eqn:Ee; cbn [negb andb]; [intros []|].
    destruct (path_exists _) eqn:Ep; cbn [negb]; [intros []|].
    intros [<-|[]]. exists s. repeat split; auto. intros ->. discriminate.
  - intros (s & -> & Hne & Hp & ->). rewrite Hp.
    destruct s; [tauto|]. now left.
Qed.

(** The run of [check_assets], when it returns. *)
Lemma check_assets_errors (path_exists : string -> bool) (data : value)
    (project_root : string) :
  outcome (check_assets path_exists data project_root) = inr tt ->
  warnings (emitted (check_assets path_exists data project_root)) = [] /\
  errors (emitted (check_assets path_exists data project_root))
  = asset_errors path_exists project_root VictimAvatar
      (attribute (victim_of data) "avatar")
    ++ flat_map (fun suspect =>
                   asset_errors path_exists project_root (SuspectAvatar (id_of suspect))
                     (attribute suspect "avatar"))
                (suspects_of data)
    ++ flat_map (fun entry =>
                   match snd entry with
                   | VDict info =>
                       match dict_lookup "image" info with
                       | Some image =>
                           asset_errors path_exists project_root (RoomImage (fst entry))
                             image
                       | None => []
                       end
                   | _ => []
                   end)
                (entries_of data "map").
Proof.
  intros H. split.
  { apply warnings_all_False. unfold check_assets, check_asset. appends. }
  revert H. unfold check_assets. intros H.
  returned H as victim. returned H as avatar.
  assert (Hav : attribute (victim_of data) "avatar" = avatar).
  { unfold attribute, victim_of. now rewrite Evictim, Eavatar. }
  apply outcome_bind_inr in H as ([] & H1 & H).
  rewrite (errors_bind_inr _ _ tt H1), (check_asset_run _ _ _ _ H1), Hav.
  cbn [emitted fst errors]. f_equal.
  returned H as suspects. returned H as suspect_list.
  assert (Hsus : suspects_of data = suspect_list).
  { unfold suspects_of. rewrite Esuspects. cbn [rbind]. now rewrite Esuspect_list. }
  apply outcome_bind_inr in H as ([] & H2 & H).
  rewrite (errors_bind_inr _ _ tt H2), Hsus.
  rewrite (for_each_flat suspect_list _
             (fun suspect => asset_errors path_exists project_root
                               (SuspectAvatar (id_of suspect))
                               (attribute suspect "avatar"))
             (fun _ => []) H2).
  2:{ intros suspect _ Hs. unfold attribute, id_of.
      returned Hs as av. returned Hs as sid.
      now rewrite (check_asset_run _ _ _ _ Hs). }
  cbn [emitted fst errors]. f_equal.
  returned H as map_. returned H as map_items.
  assert (Hmap : entries_of data "map" = map_items)
    by now apply (entries_of_items data map_).
  rewrite Hmap.
  rewrite (for_each_flat map_items _
             (fun entry => match snd entry with
                           | VDict info =>
                               match dict_lookup "image" info with
                               | Some image =>
                                   asset_errors path_exists project_root
                                     (RoomImage (fst entry)) image
                               | None => []
                               end
                           | _ => []
                           end)
             (fun _ => []) H); [reflexivity|].
  intros [room_id room_info] _ Hr. cbn [fst snd] in *.
  destruct room_info; cbn [is_dict] in *; try reflexivity.
  rewrite py_in_dict, bind_lift_inr in *. cbn [py_getitem] in *.
  destruct (dict_lookup "image" d) as [image|]; cbn [when] in *; [|reflexivity].
  rewrite bind_lift_inr in *. now rewrite (check_asset_run _ _ _ _ Hr).
Qed.

(** X23. When [check_assets] returns, it has recorded no warning, and
    the error that a resource is not found is there exactly for the assets
    the document names (the avatar of the victim, the avatar of a suspect,
    the image of a room that is a mapping) that are non-empty strings and
    whose file does not exist.  The file looked for is always the asset
    path, leading slashes removed, below the directory 'public' of the
    project root: an absolute asset path does not leave the project. *)
Theorem missing_assets_reported (path_exists : string -> bool) (data : value)
    (project_root : string) :
  outcome (check_assets path_exists data project_root) = inr tt ->
  warnings (emitted (check_assets path_exists data project_root)) = [] /\
  forall context asset_path full_path,
    In (ResourceNotFound context asset_path full_path)
       (errors (emitted (check_assets path_exists data project_root)))
    <->
    asset_at data context asset_path /\
    exists s, asset_path = VStr s /\ s <> EmptyString /\
              full_path = public_file project_root s /\
              path_exists full_path = false.
Proof.
  intros H. destruct (check_assets_errors path_exists data project_root H) as (Hw & ->).
  split; [exact Hw|]. intros context asset_path full_path.
  rewrite !in_app_iff, !in_flat_map. split.
  - intros [Hin|[(suspect & Hs & Hin)|([room_id room_info] & Hr & Hin)]].
    + apply asset_errors_In in Hin as (s & Hp & Hne & Hex & Heq).
      injection Heq as -> -> ->. split; [constructor|]. now exists s.
    + apply asset_errors_In in Hin as (s & Hp & Hne & Hex & Heq).
      injection Heq as -> -> ->. split; [now constructor|]. now exists s.
    + cbn [fst snd] in Hin. destruct room_info; try destruct Hin.
      destruct (dict_lookup "image" d) as [image|] eqn:Ei; [|destruct Hin].
      apply asset_errors_In in Hin as (s & Hp & Hne & Hex & Heq).
      injection Heq as -> -> ->. split; [now apply (room_asset data room_id d)|].
      now exists s.
  - intros (Hat & s & Hp & Hne & -> & Hex).
    assert (Hin : forall ctx p, p = VStr s ->
              In (ResourceNotFound ctx p (public_file project_root s))
                 (asset_errors path_exists project_root ctx p)).
    { intros ctx p ->. apply asset_errors_In. exists s. auto. }
    destruct Hat as [|suspect Hs|room_id info image Hr Hi].
    + left. now apply Hin.
    + right; left. exists suspect. split; [exact Hs|]. now apply Hin.
    + right; right. exists (room_id, VDict info). split; [exact Hr|].
      cbn [fst snd]. rewrite Hi. now apply Hin.
Qed.

Lemma missing_assets_reported_witness :
  outcome (check_assets only_ann gallery_case "/srv/case") = inr tt /\
  warnings (emitted (check_assets only_ann gallery_case "/srv/case")) = [] /\
  forall context asset_path full_path,
    In (ResourceNotFound context asset_path full_path)
       (errors (emitted (check_assets only_ann gallery_case "/srv/case")))
    <->
    asset_at gallery_case context asset_path /\
    exists s, asset_path = VStr s /\ s <> EmptyString /\
              full_path = public_file "/srv/case" s /\
              only_ann full_path = false.
Proof.
  split; [reflexivity|].
  exact (missing_assets_reported only_ann gallery_case "/srv/case" eq_refl).
Defined.

(** The errors of the gallery: the avatar of the victim exists, the
    avatar of the butler and the image of the hall do not, and the file of
    an asset path with leading slashes lies below 'public'. *)
Example gallery_case_errors :
  errors (emitted (check_assets only_ann gallery_case "/srv/case"))
  = [ResourceNotFound (SuspectAvatar (VStr "butler")) (VStr "img/butler.png")
       "/srv/case/public/img/butler.png";
     ResourceNotFound (RoomImage "hall") (VStr "//img/hall.png")
       "/srv/case/public/img/hall.png"].
Proof. reflexivity. Qed.

(* ------------------------------------------------------------------ *)
(** ** The run as a whole *)

Lemma check_suspects_and_solution_needs_mapping (data : value) (rooms : list string) :
  is_dict data = false ->
  outcome (check_suspects_and_solution data rooms) = inl AttributeError.
Proof. destruct data; try discriminate; reflexivity. Qed.

(** X24. A document whose top level is not a mapping (an empty file, a
    list, a bare string or number) gets no report: one of the checks
    raises, and [validate_case] ends without printing what was
    collected. *)
Theorem top_level_must_be_a_mapping (set_order : list string -> list string)
    (path_exists : string -> bool) (json_dumps : value -> string)
    (raw_text : string) (data : value) :
  is_dict data = false ->
  (exists e, outcome (run_checks set_order path_exists json_dumps data) = inl e) /\
  validate_case set_order path_exists json_dumps raw_text data = None.
Proof.
  intros Hd.
  assert (Hrun : exists e, outcome (run_checks set_order path_exists json_dumps data)
                           = inl e).
  { unfold run_checks. rewrite outcome_bind.
    destruct (outcome (check_schema data)) as [e|[]]; [now exists e|].
    rewrite outcome_bind.
    destruct (outcome (check_map set_order data)) as [e|[rooms adj]]; [now exists e|].
    cbv zeta. rewrite outcome_bind. cbn [fst].
    rewrite (check_suspects_and_solution_needs_mapping data rooms Hd).
    now exists AttributeError. }
  split; [exact Hrun|]. destruct Hrun as (e & Hrun).
  unfold validate_case, verifier_run.
  now rewrite outcome_bind, check_duplicate_keys_raw_returns, Hrun.
Qed.

Lemma top_level_must_be_a_mapping_witness :
  is_dict VNone = false /\
  (exists e, outcome (run_checks (fun l => l) (fun _ => true) (fun _ => "{}") VNone)
             = inl e) /\
  validate_case (fun l => l) (fun _ => true) (fun _ => "{}") "" VNone = None.
Proof.
  split; [reflexivity|].
  exact (top_level_must_be_a_mapping (fun l => l) (fun _ => true) (fun _ => "{}")
           "" VNone eq_refl).
Defined.

Lemma check_duplicate_keys_raw_warnings (text : string) :
  warnings (emitted (check_duplicate_keys_raw text)) = [].
Proof.
  unfold check_duplicate_keys_raw.
  destruct (scan_lines_below (PyStr.splitlines text) 1 initial_stack
              (le_n 1) stack_below_initial) as (_ & _ & Hw & _).
  destruct (scan_lines_returns (PyStr.splitlines text) 1 initial_stack) as (st & Hst).
  now rewrite warnings_bind, Hst, Hw.
Qed.

Lemma check_narrative_consistency_errors (json_dumps : value -> string) (data : value) :
  errors (emitted (check_narrative_consistency json_dumps data)) = [].
Proof.
  apply errors_all_False.
  unfold check_narrative_consistency, check_key_evidence_used, check_murder_evidence,
    check_confession, check_statements, check_win_conditions, find_killer.
  appends.
Qed.

(** X25. A report is the sections of the run in their fixed order.
    When [validate_case] gets to its report, the errors it prints are
    those of the raw scan of the text, then those of the schema check, of
    the map check, of the suspect check, of the evidence check, of the
    trigger check and of the asset check, and the warnings are those of
    the schema, map, suspect, evidence, trigger and narrative checks;
    the raw scan and the asset check add no warning and the narrative
    check adds no error.  The later checks are run with the room ids of
    the map, the ids of the suspects and the killer id of the solution. *)
Theorem report_is_the_sections_in_order (set_order : list string -> list string)
    (path_exists : string -> bool) (json_dumps : value -> string)
    (raw_text : string) (data : value) (r : Result) :
  validate_case set_order path_exists json_dumps raw_text data = Some r ->
  errors r
  = errors (emitted (check_duplicate_keys_raw raw_text))
    ++ errors (emitted (check_schema data))
    ++ errors (emitted (check_map set_order data))
    ++ errors (emitted (check_suspects_and_solution data (map fst (room_entries data))))
    ++ errors (emitted (check_evidence_ids set_order data (map fst (room_entries data))
                          (map id_of (suspects_of data)) (solution_role data Killer)))
    ++ errors (emitted (check_secret_triggers data (map fst (room_entries data))))
    ++ errors (emitted (check_assets path_exists data project_root))
  /\
  warnings r
  = warnings (emitted (check_schema data))
    ++ warnings (emitted (check_map set_order data))
    ++ warnings (emitted (check_suspects_and_solution data (map fst (room_entries data))))
    ++ warnings (emitted (check_evidence_ids set_order data (map fst (room_entries data))
                            (map id_of (suspects_of data)) (solution_role data Killer)))
    ++ warnings (emitted (check_secret_triggers data (map fst (room_entries data))))
    ++ warnings (emitted (check_narrative_consistency json_dumps data)).
Proof.
  unfold validate_case.
  destruct (outcome (verifier_run set_order path_exists json_dumps raw_text data))
    as [e|[]] eqn:H; [discriminate|].
  intros Hr. injection Hr as <-. unfold run_on. rewrite plus_empty_l.
  unfold verifier_run, run_checks in *.
  pose proof (check_duplicate_keys_raw_returns raw_text) as H0.
  rewrite (outcome_bind_eq _ _ tt H0) in H.
  rewrite (errors_bind_inr _ _ tt H0), (warnings_bind_inr _ _ tt H0).
  rewrite check_duplicate_keys_raw_warnings. cbn [app].
  apply outcome_bind_inr in H as ([] & H1 & H).
  rewrite (errors_bind_inr _ _ tt H1), (warnings_bind_inr _ _ tt H1).
  apply outcome_bind_inr in H as ([rooms adj] & H2 & H).
  rewrite (errors_bind_inr _ _ _ H2), (warnings_bind_inr _ _ _ H2).
  assert (Hrooms : rooms = map fst (room_entries data)).
  { destruct (check_map_parts set_order data _ H2)
      as [(_ & Hv & Hent & _)|(_ & adj' & Hv & _)]; injection Hv as -> ->;
      [now rewrite Hent|reflexivity]. }
  subst rooms. cbv zeta in *. cbn [fst] in *.
  apply outcome_bind_inr in H as ([[[ids k] a] w] & H3 & H).
  rewrite (errors_bind_inr _ _ _ H3), (warnings_bind_inr _ _ _ H3).
  pose proof (check_suspects_and_solution_shape data _ _ H3) as Hshape.
  rewrite (check_suspects_and_solution_run data _ Hshape) in H3.
  cbn [outcome snd] in H3. injection H3 as <- <- <- <-.
  apply outcome_bind_inr in H as ([] & H4 & H).
  rewrite (errors_bind_inr _ _ tt H4), (warnings_bind_inr _ _ tt H4).
  apply outcome_bind_inr in H as ([] & H5 & H).
  rewrite (errors_bind_inr _ _ tt H5), (warnings_bind_inr _ _ tt H5).
  apply outcome_bind_inr in H as ([] & H6 & H).
  rewrite (errors_bind_inr _ _ tt H6), (warnings_bind_inr _ _ tt H6).
  destruct (check_assets_errors path_exists data project_root H6) as (Hw6 & _).
  rewrite Hw6, check_narrative_consistency_errors. cbn [app].
  now rewrite app_nil_r.
Qed.

Lemma report_is_the_sections_in_order_witness :
  validate_case (fun l => l) (fun _ => false) (fun _ => "{}") "a: 1"
    (hall_case named_victim)
  = Some (mkResult [ResourceNotFound VictimAvatar (VStr "/v1.png")
                      "/home/henry/Coding/Node/SherbotV2/public/v1.png"] []) /\
  errors (mkResult [ResourceNotFound VictimAvatar (VStr "/v1.png")
                      "/home/henry/Coding/Node/SherbotV2/public/v1.png"] [])
  = errors (emitted (check_duplicate_keys_raw "a: 1"))
    ++ errors (emitted (check_schema (hall_case named_victim)))
    ++ errors (emitted (check_map (fun l => l) (hall_case named_victim)))
    ++ errors (emitted (check_suspects_and_solution (hall_case named_victim)
                          (map fst (room_entries (hall_case named_victim)))))
    ++ errors (emitted (check_evidence_ids (fun l => l) (hall_case named_victim)
                          (map fst (room_entries (hall_case named_victim)))
                          (map id_of (suspects_of (hall_case named_victim)))
                          (solution_role (hall_case named_victim) Killer)))
    ++ errors (emitted (check_secret_triggers (hall_case named_victim)
                          (map fst (room_entries (hall_case named_victim)))))
    ++ errors (emitted (check_assets (fun _ => false) (hall_case named_victim)
                          project_root))
  /\
  warnings (mkResult [ResourceNotFound VictimAvatar (VStr "/v1.png")
                        "/home/henry/Coding/Node/SherbotV2/public/v1.png"] [])
  = warnings (emitted (check_schema (hall_case named_victim)))
    ++ warnings (emitted (check_map (fun l => l) (hall_case named_victim)))
    ++ warnings (emitted (check_suspects_and_solution (hall_case named_victim)
                            (map fst (room_entries (hall_case named_victim)))))
    ++ warnings (emitted (check_evidence_ids (fun l => l) (hall_case named_victim)
                            (map fst (room_entries (hall_case named_victim)))
                            (map id_of (suspects_of (hall_case named_victim)))
                            (solution_role (hall_case named_victim) Killer)))
    ++ warnings (emitted (check_secret_triggers (hall_case named_victim)
                            (map fst (room_entries (hall_case named_victim)))))
    ++ warnings (emitted (check_narrative_consistency (fun _ => "{}")
                            (hall_case named_victim))).
Proof.
  split; [reflexivity|].
  exact (report_is_the_sections_in_order (fun l => l) (fun _ => false) (fun _ => "{}")
           "a: 1" (hall_case named_victim) _ eq_refl).
Defined.

(* ------------------------------------------------------------------ *)
(** ** The errors of the evidence check *)

(** A loop that looks each element up in a set of strings and records an
    error for those it does not find. *)
Lemma for_each_unknown (l : list value) (ids : list string) (f : value -> diag) :
  outcome (for_each l (fun x =>
             known <~ in_strs x ids ;; when (negb known) (err (f x)))) = inr tt ->
  errors (emitted (for_each l (fun x =>
             known <~ in_strs x ids ;; when (negb known) (err (f x)))))
  = map f (filter (fun x => negb (among ids x)) l).
Proof.
  induction l as [|x l IH]; [reflexivity|].
  cbn [for_each filter]. intros H.
  apply outcome_bind_inr in H as ([] & Hx & Hl).
  rewrite (errors_bind_inr _ _ tt Hx), (IH Hl).
  unfold in_strs in *. returned Hx as known.
  destruct (in_rooms_inr _ _ _ Eknown) as (Hh & ->).
  fold (among ids x). now destruct (among ids x).
Qed.

Lemma check_discovery_entry_errors (rooms phys_ev_ids : list string)
    (entry : string * value) :
  outcome (check_discovery_entry rooms phys_ev_ids entry) = inr tt ->
  errors (emitted (check_discovery_entry rooms phys_ev_ids entry))
  = discovery_errors rooms phys_ev_ids entry.
Proof.
  unfold check_discovery_entry, discovery_errors. destruct entry as [room_id ev_list].
  cbn [fst snd]. intros H.
  apply outcome_bind_inr in H as ([] & Hroom & H).
  rewrite (errors_bind_inr _ _ tt Hroom). f_equal.
  - now destruct (str_mem room_id rooms).
  - destruct ev_list; try reflexivity. now apply for_each_unknown.
Qed.

Lemma check_interactables_errors (phys_ev_ids : list string) (entry : string * value) :
  outcome (check_interactables phys_ev_ids entry) = inr tt ->
  errors (emitted (check_interactables phys_ev_ids entry))
  = interactable_errors phys_ev_ids entry.
Proof.
  unfold check_interactables, interactable_errors. destruct entry as [room_id room_info].
  cbn [fst snd]. destruct (is_dict room_info); cbn [negb]; [|reflexivity].
  intros H. returned H as interactables. returned H as items.
  unfold interactables_of. rewrite Einteractables. cbn [rbind]. rewrite Eitems.
  clear Eitems. induction items as [|item items IH]; [reflexivity|].
  cbn [for_each filter] in *.
  apply outcome_bind_inr in H as ([] & Hx & Hl).
  rewrite (errors_bind_inr _ _ tt Hx), (IH Hl).
  assert (Hitem : errors (emitted (
             eid <~ py_get item "evidence_id" VNone ;;
             when (truthy eid)
               (known <~ in_strs eid phys_ev_ids ;;
                when (negb known)
                  (name <~ py_get item "name" VNone ;;
                   err (InteractableEvidence name room_id eid)))))
           = if truthy (attribute item "evidence_id")
                && negb (among phys_ev_ids (attribute item "evidence_id"))
             then [InteractableEvidence (attribute item "name") room_id
                     (attribute item "evidence_id")]
             else []).
  { clear IH Hl. returned Hx as eid.
    assert (Ha : attribute item "evidence_id" = eid)
      by (unfold attribute; now rewrite Eeid).
    rewrite Ha. destruct (truthy eid); cbn [when andb] in *; [|reflexivity].
    unfold in_strs in *. returned Hx as known.
    destruct (in_rooms_inr _ _ _ Eknown) as (Hh & ->).
    fold (among phys_ev_ids eid) in *.
    destruct (among phys_ev_ids eid); cbn [when negb] in *; [reflexivity|].
    returned Hx as name. unfold attribute. now rewrite Ename. }
  rewrite Hitem.
  now destruct (truthy (attribute item "evidence_id")
                && negb (among phys_ev_ids (attribute item "evidence_id"))).
Qed.

Lemma check_dna_entry_errors (rooms : list string) (suspect_ids : list value)
    (victim_id victim_name : string) (entry : string * value) :
  outcome (check_dna_entry rooms suspect_ids victim_id victim_name entry) = inr tt ->
  errors (emitted (check_dna_entry rooms suspect_ids victim_id victim_name entry))
  = dna_errors rooms entry.
Proof.
  unfold check_dna_entry, dna_errors. destruct entry as [room_id names].
  cbn [fst snd]. intros H.
  apply outcome_bind_inr in H as ([] & Hroom & H).
  rewrite (errors_bind_inr _ _ tt Hroom). f_equal.
  - now destruct (str_mem room_id rooms).
  - destruct names; try reflexivity.
    apply errors_all_False. appends.
Qed.

(** The errors of a run of [check_evidence_ids] that returned. *)
Lemma check_evidence_ids_errors (set_order : list string -> list string)
    (data : value) (rooms : list string) (suspect_ids : list value)
    (killer_id : value) :
  outcome (check_evidence_ids set_order data rooms suspect_ids killer_id) = inr tt ->
  errors (emitted (check_evidence_ids set_order data rooms suspect_ids killer_id))
  = flat_map (discovery_errors rooms (physical_ids data)) (discovery_of data)
    ++ flat_map (interactable_errors (physical_ids data)) (entries_of data "map")
    ++ map KeyEvidenceUndeclared
           (filter (fun ev_id => negb (among (physical_ids data) ev_id))
                   (key_evidence_of data))
    ++ map AllLocationsRoom
           (filter (fun loc => negb (among rooms loc)) (all_locations_of data))
    ++ flat_map (dna_errors rooms) (dna_of data).
Proof.
  unfold check_evidence_ids. intros H.
  set (P := physical_ids data). set (D := discovery_of data).
  set (N := dna_of data). set (K := key_evidence_of data).
  set (L := all_locations_of data). set (R := entries_of data "map").
  returned H as evidence. returned H as phys_ev. returned H as phys_ev_ids.
  returned H as solution. returned H as discovery. returned H as discovery_items.
  assert (Hev : evidence_of data = evidence)
    by (unfold evidence_of; now rewrite Eevidence).
  assert (HP : P = phys_ev_ids).
  { subst P. unfold physical_ids. rewrite Hev.
    now apply (entries_of_keys evidence phys_ev). }
  assert (HD : D = discovery_items).
  { subst D. unfold discovery_of. rewrite Hev.
    now apply (entries_of_items evidence discovery). }
  apply outcome_bind_inr in H as ([] & H1 & H).
  rewrite (errors_bind_inr _ _ tt H1).
  destruct (for_each_inr _ _ H1) as (Hall1 & -> & _).
  rewrite (flat_map_ext_in _ (discovery_errors rooms phys_ev_ids)).
  2:{ intros entry Hentry. apply check_discovery_entry_errors.
      rewrite Forall_forall in Hall1. now apply Hall1. }
  rewrite HP, HD. f_equal.
  returned H as map_. returned H as map_items.
  assert (HR : R = map_items)
    by (subst R; now apply (entries_of_items data map_)).
  apply outcome_bind_inr in H as ([] & H2 & H).
  rewrite (errors_bind_inr _ _ tt H2).
  destruct (for_each_inr _ _ H2) as (Hall2 & -> & _).
  rewrite (flat_map_ext_in _ (interactable_errors phys_ev_ids)).
  2:{ intros entry Hentry. apply check_interactables_errors.
      rewrite Forall_forall in Hall2. now apply Hall2. }
  rewrite HR. f_equal.
  rewrite ?bind_lift_inr in *.
  returned H as ev_lists. returned H as discoverable.
  apply outcome_bind_inr in H as ([] & H3 & H).
  rewrite (errors_bind_inr _ _ tt H3).
  rewrite (errors_all_False (for_each (set_order phys_ev_ids) _)) by appends.
  cbn [app].
  apply outcome_bind_inr in H as ([] & H4 & H).
  rewrite (errors_bind_inr _ _ tt H4).
  assert (E4 : errors (emitted (when (is_dict solution)
                 (key_evidence <~ py_get solution "key_evidence" (VList []) ;;
                  evs <~ py_iter key_evidence ;;
                  for_each evs (fun ev_id =>
                    known <~ in_strs ev_id phys_ev_ids ;;
                    when (negb known) (err (KeyEvidenceUndeclared ev_id))))))
               = map KeyEvidenceUndeclared
                   (filter (fun ev_id => negb (among phys_ev_ids ev_id)) K)).
  { subst K. unfold key_evidence_of. rewrite Esolution.
    destruct (is_dict solution); cbn [when] in *; [|reflexivity].
    returned H4 as key_evidence. returned H4 as evs.
    cbn [rbind]. rewrite Eevs. now apply for_each_unknown. }
  rewrite E4. f_equal.
  returned H as all_locations. returned H as locs.
  assert (HL : L = locs).
  { subst L. unfold all_locations_of. rewrite Hev, Eall_locations. cbn [rbind].
    now rewrite Elocs. }
  apply outcome_bind_inr in H as ([] & H5 & H).
  rewrite (errors_bind_inr _ _ tt H5).
  pose proof (for_each_unknown locs rooms AllLocationsRoom H5) as E5.
  unfold in_strs in E5. rewrite E5, HL. f_equal.
  returned H as victim_data. returned H as victim_id_raw. returned H as victim_id.
  returned H as victim_name_raw. returned H as victim_first.
  cbv zeta in *.
  returned H as dna. returned H as dna_items.
  assert (HN : N = dna_items).
  { subst N. unfold dna_of. rewrite Hev. now apply (entries_of_items evidence dna). }
  apply outcome_bind_inr in H as ([] & H6 & H).
  rewrite (errors_bind_inr _ _ tt H6).
  destruct (for_each_inr _ _ H6) as (Hall6 & -> & _).
  rewrite (flat_map_ext_in _ (dna_errors rooms)).
  2:{ intros entry Hentry.
      apply (check_dna_entry_errors rooms suspect_ids victim_id (PyStr.lower victim_first)).
      rewrite Forall_forall in Hall6. now apply Hall6. }
  rewrite HN.
  rewrite (errors_all_False (bind (lift (py_get data "murderLocation" VNone)) _))
    by appends.
  now rewrite app_nil_r.
Qed.

Lemma In_discovery_errors (rooms phys_ev_ids : list string) (entry : string * value)
    (d : diag) :
  In d (discovery_errors rooms phys_ev_ids entry) <->
  (str_mem (fst entry) rooms = false /\ d = DiscoveryRoom (fst entry)) \/
  (exists evs ev_id, snd entry = VList evs /\ In ev_id evs /\
                     among phys_ev_ids ev_id = false /\
                     d = DiscoveryUndeclared (fst entry) ev_id) \/
  (is_list (snd entry) = false /\
   d = DiscoveryNotList (fst entry) (type_name (snd entry))).
Proof.
  unfold discovery_errors. rewrite in_app_iff. split.
  - intros [H|H].
    + left. destruct (str_mem (fst entry) rooms); [destruct H|].
      destruct H as [<-|[]]. now split.
    + right. destruct (snd entry) as [|b|z|q|s|evs|m] eqn:E;
        try (right; destruct H as [<-|[]]; now split).
      left. apply in_map_iff in H as (ev_id & <- & H).
      apply filter_In in H as (H & Hnot). apply negb_true_iff in Hnot.
      exists evs, ev_id. now repeat split.
  - intros [(Hroom & ->)|[(evs & ev_id & E & Hin & Hnot & ->)|(Hlist & ->)]].
    + left. rewrite Hroom. now left.
    + right. rewrite E. apply in_map. apply filter_In. split; [exact Hin|].
      now apply negb_true_iff.
    + right. destruct (snd entry); try (now left). discriminate.
Qed.

Lemma In_interactable_errors (phys_ev_ids : list string) (entry : string * value)
    (d : diag) :
  In d (interactable_errors phys_ev_ids entry) <->
  is_dict (snd entry) = true /\
  exists item, In item (interactables_of (snd entry)) /\
               truthy (attribute item "evidence_id") = true /\
               among phys_ev_ids (attribute item "evidence_id") = false /\
               d = InteractableEvidence (attribute item "name") (fst entry)
                     (attribute item "evidence_id").
Proof.
  unfold interactable_errors. destruct (is_dict (snd entry)).
  - rewrite in_map_iff. split.
    + intros (item & <- & H). apply filter_In in H as (H & Hc).
      apply andb_true_iff in Hc as (Ht & Hnot). apply negb_true_iff in Hnot.
      split; [reflexivity|]. exists item. now repeat split.
    + intros (_ & item & Hin & Ht & Hnot & ->). exists item. split; [reflexivity|].
      apply filter_In. split; [exact Hin|]. now rewrite Ht, Hnot.
  - split; [intros []|]. intros (Hd & _). discriminate.
Qed.

Lemma In_dna_errors (rooms : list string) (entry : string * value) (d : diag) :
  In d (dna_errors rooms entry) <->
  (str_mem (fst entry) rooms = false /\ d = DnaRoom (fst entry)) \/
  (is_list (snd entry) = false /\ d = DnaNotList (fst entry) (type_name (snd entry))).
Proof.
  unfold dna_errors. rewrite in_app_iff. split.
  - intros [H|H].
    + left. destruct (str_mem (fst entry) rooms); [destruct H|].
      destruct H as [<-|[]]. now split.
    + right. destruct (snd entry); try (destruct H as [<-|[]]; now split).
      destruct H.
  - intros [(Hroom & ->)|(Hlist & ->)].
    + left. rewrite Hroom. now left.
    + right. destruct (snd entry); try (now left). discriminate.
Qed.

(** Where an error of a run of [check_evidence_ids] that returned comes
    from. *)
Lemma In_evidence_errors (set_order : list string -> list string)
    (data : value) (rooms : list string) (suspect_ids : list value)
    (killer_id : value) (d : diag) :
  outcome (check_evidence_ids set_order data rooms suspect_ids killer_id) = inr tt ->
  In d (errors (emitted (check_evidence_ids set_order data rooms suspect_ids killer_id)))
  <->
  (exists entry, In entry (discovery_of data) /\
                 In d (discovery_errors rooms (physical_ids data) entry)) \/
  (exists entry, In entry (entries_of data "map") /\
                 In d (interactable_errors (physical_ids data) entry)) \/
  (exists ev_id, In ev_id (key_evidence_of data) /\
                 among (physical_ids data) ev_id = false /\
                 d = KeyEvidenceUndeclared ev_id) \/
  (exists loc, In loc (all_locations_of data) /\ among rooms loc = false /\
               d = AllLocationsRoom loc) \/
  (exists entry, In entry (dna_of data) /\ In d (dna_errors rooms entry)).
Proof.
  intros H. rewrite (check_evidence_ids_errors _ _ _ _ _ H).
  rewrite !in_app_iff, !in_flat_map, !in_map_iff.
  repeat apply or_iff_compat_l.
  assert (Hfilter : forall (ids : list string) (l : list value) (f : value -> diag),
             (exists x, f x = d /\ In x (filter (fun x => negb (among ids x)) l))
             <-> exists x, In x l /\ among ids x = false /\ d = f x).
  { intros ids l f. split.
    - intros (x & <- & Hx). apply filter_In in Hx as (Hx & Hnot).
      apply negb_true_iff in Hnot. now exists x.
    - intros (x & Hx & Hnot & ->). exists x. split; [reflexivity|].
      apply filter_In. split; [exact Hx|]. now apply negb_true_iff. }
  rewrite !Hfilter. reflexivity.
Qed.

(** The errors of [loose_ends_case], in the order of the run. *)
Example loose_ends_case_errors :
  check_evidence_ids (fun l => l) loose_ends_case ["hall"] [] VNone
  = (mkResult [DiscoveryUndeclared "hall" (VStr "glove");
               DiscoveryRoom "cellar";
               DiscoveryRoom "_note"; DiscoveryNotList "_note" "str";
               InteractableEvidence (VStr "desk") "hall" (VStr "letter");
               KeyEvidenceUndeclared (VStr "rope");
               AllLocationsRoom (VStr "attic");
               DnaRoom "garden";
               DnaRoom "_note"; DnaNotList "_note" "str"]
              [],
     inr tt).
Proof. reflexivity. Qed.

Ltac evidence_sources H :=
  destruct H as [(entry & Hentry & H)|[(entry & Hentry & H)|[(x & Hx & Hnot & H)
                 |[(x & Hx & Hnot & H)|(entry & Hentry & H)]]]];
  [ apply In_discovery_errors in H
      as [(Hroom & H)|[(evs0 & ev0 & E & Hin & Hnot & H)|(Hlist & H)]]
  | apply In_interactable_errors in H as (Hdict & item0 & Hin & Ht & Hnot & H)
  | | 
  | apply In_dna_errors in H as [(Hroom & H)|(Hlist & H)] ];
  try discriminate H.

(** X26. When [check_evidence_ids] returns, a room the evidence names is
    an error exactly when it is not among the rooms the check was given:
    each key of 'physical_discovery', each entry of 'all_locations' and
    each key of 'dna' is looked up by itself, and an entry of
    'all_locations' that is no string is never a room. *)
Theorem evidence_rooms_must_be_on_the_map (set_order : list string -> list string)
    (data : value) (rooms : list string) (suspect_ids : list value)
    (killer_id : value) :
  outcome (check_evidence_ids set_order data rooms suspect_ids killer_id) = inr tt ->
  let errs :=
    errors (emitted (check_evidence_ids set_order data rooms suspect_ids killer_id)) in
  (forall room_id,
     In (DiscoveryRoom room_id) errs <->
     In room_id (map fst (discovery_of data)) /\ ~ In room_id rooms) /\
  (forall loc,
     In (AllLocationsRoom loc) errs <->
     In loc (all_locations_of data) /\ forall room, loc = VStr room -> ~ In room rooms) /\
  (forall room_id,
     In (DnaRoom room_id) errs <->
     In room_id (map fst (dna_of data)) /\ ~ In room_id rooms).
Proof.
  intros H errs. subst errs.
  assert (Hmem : forall room, str_mem room rooms = false <-> ~ In room rooms)
    by (intros room; now rewrite <- not_true_iff_false, str_mem_In).
  assert (Hamong : forall loc, among rooms loc = false
                     <-> forall room, loc = VStr room -> ~ In room rooms).
  { intros loc. destruct loc; cbn [among];
      try (split; [intros _ room Heq; discriminate|reflexivity]).
    rewrite Hmem. split; [intros Hn room Heq; now injection Heq as <-|].
    intros Hn. now apply Hn. }
  split; [|split]; intros x0; rewrite (In_evidence_errors _ _ _ _ _ _ H).
  - split.
    + intros Hd. evidence_sources Hd. injection Hd as ->.
      split; [now apply in_map|now apply Hmem].
    + intros (Hin & Hnot). apply in_map_iff in Hin as (entry & <- & Hin).
      left. exists entry. split; [exact Hin|]. apply In_discovery_errors. left.
      split; [now apply Hmem|reflexivity].
  - split.
    + intros Hd. evidence_sources Hd. injection Hd as ->. split; [exact Hx|].
      now apply Hamong.
    + intros (Hin & Hnot). do 3 right. left. exists x0.
      split; [exact Hin|]. split; [now apply Hamong|reflexivity].
  - split.
    + intros Hd. evidence_sources Hd. injection Hd as ->.
      split; [now apply in_map|now apply Hmem].
    + intros (Hin & Hnot). apply in_map_iff in Hin as (entry & <- & Hin).
      do 4 right. exists entry. split; [exact Hin|]. apply In_dna_errors. left.
      split; [now apply Hmem|reflexivity].
Qed.

Lemma evidence_rooms_must_be_on_the_map_witness :
  outcome (check_evidence_ids (fun l => l) loose_ends_case ["hall"] [] VNone) = inr tt /\
  let errs :=
    errors (emitted (check_evidence_ids (fun l => l) loose_ends_case ["hall"] [] VNone)) in
  (forall room_id,
     In (DiscoveryRoom room_id) errs <->
     In room_id (map fst (discovery_of loose_ends_case)) /\ ~ In room_id ["hall"]) /\
  (forall loc,
     In (AllLocationsRoom loc) errs <->
     In loc (all_locations_of loose_ends_case) /\
     forall room, loc = VStr room -> ~ In room ["hall"]) /\
  (forall room_id,
     In (DnaRoom room_id) errs <->
     In room_id (map fst (dna_of loose_ends_case)) /\ ~ In room_id ["hall"]).
Proof.
  split; [reflexivity|].
  exact (evidence_rooms_must_be_on_the_map (fun l => l) loose_ends_case ["hall"] []
           VNone eq_refl).
Defined.

(** X27. When [check_evidence_ids] returns, a reference to a piece of
    evidence is an error exactly when it is not a key of
    'physical_evidence': each entry of a list of 'physical_discovery',
    each entry of the 'key_evidence' of a solution that is a mapping, and
    the 'evidence_id' of each interactable of a room descriptor when that
    id is truthy.  A reference that is no string is never declared. *)
Theorem evidence_references_must_be_declared (set_order : list string -> list string)
    (data : value) (rooms : list string) (suspect_ids : list value)
    (killer_id : value) :
  outcome (check_evidence_ids set_order data rooms suspect_ids killer_id) = inr tt ->
  let errs :=
    errors (emitted (check_evidence_ids set_order data rooms suspect_ids killer_id)) in
  (forall room_id ev_id,
     In (DiscoveryUndeclared room_id ev_id) errs <->
     exists evs, In (room_id, VList evs) (discovery_of data) /\ In ev_id evs /\
                 among (physical_ids data) ev_id = false) /\
  (forall ev_id,
     In (KeyEvidenceUndeclared ev_id) errs <->
     In ev_id (key_evidence_of data) /\ among (physical_ids data) ev_id = false) /\
  (forall name room_id eid,
     In (InteractableEvidence name room_id eid) errs <->
     exists room_info item,
       In (room_id, room_info) (entries_of data "map") /\ is_dict room_info = true /\
       In item (interactables_of room_info) /\
       name = attribute item "name" /\ eid = attribute item "evidence_id" /\
       truthy eid = true /\ among (physical_ids data) eid = false).
Proof.
  intros H errs. subst errs.
  split; [|split]; intros; rewrite (In_evidence_errors _ _ _ _ _ _ H).
  - split.
    + intros Hd. evidence_sources Hd. injection Hd as -> ->.
      destruct entry as [r v]. cbn [fst snd] in *. subst v.
      exists evs0. now repeat split.
    + intros (evs & Hentry & Hin & Hnot). left. exists (room_id, VList evs).
      split; [exact Hentry|]. apply In_discovery_errors. right. left.
      exists evs, ev_id. now repeat split.
  - split.
    + intros Hd. evidence_sources Hd. injection Hd as ->. now split.
    + intros (Hin & Hnot). do 2 right. left. exists ev_id. now repeat split.
  - split.
    + intros Hd. evidence_sources Hd. injection Hd as -> -> ->.
      destruct entry as [r v]. cbn [fst snd] in *.
      exists v, item0. now repeat split.
    + intros (room_info & item & Hentry & Hdict & Hin & -> & -> & Ht & Hnot).
      right. left. exists (room_id, room_info). split; [exact Hentry|].
      apply In_interactable_errors. split; [exact Hdict|]. exists item.
      now repeat split.
Qed.

Lemma evidence_references_must_be_declared_witness :
  outcome (check_evidence_ids (fun l => l) loose_ends_case ["hall"] [] VNone) = inr tt /\
  let errs :=
    errors (emitted (check_evidence_ids (fun l => l) loose_ends_case ["hall"] [] VNone)) in
  (forall room_id ev_id,
     In (DiscoveryUndeclared room_id ev_id) errs <->
     exists evs, In (room_id, VList evs) (discovery_of loose_ends_case) /\ In ev_id evs /\
                 among (physical_ids loose_ends_case) ev_id = false) /\
  (forall ev_id,
     In (KeyEvidenceUndeclared ev_id) errs <->
     In ev_id (key_evidence_of loose_ends_case) /\
     among (physical_ids loose_ends_case) ev_id = false) /\
  (forall name room_id eid,
     In (InteractableEvidence name room_id eid) errs <->
     exists room_info item,
       In (room_id, room_info) (entries_of loose_ends_case "map") /\
       is_dict room_info = true /\
       In item (interactables_of room_info) /\
       name = attribute item "name" /\ eid = attribute item "evidence_id" /\
       truthy eid = true /\ among (physical_ids loose_ends_case) eid = false).
Proof.
  split; [reflexivity|].
  exact (evidence_references_must_be_declared (fun l => l) loose_ends_case ["hall"] []
           VNone eq_refl).
Defined.

(** X28. When [check_evidence_ids] returns, the error that an entry
    must be a list is there exactly for the entries of
    'physical_discovery' and of 'dna' whose value is not a list, each with
    the room of the entry and the name of the type of its value. *)
Theorem entries_that_are_no_list_reported (set_order : list string -> list string)
    (data : value) (rooms : list string) (suspect_ids : list value)
    (killer_id : value) :
  outcome (check_evidence_ids set_order data rooms suspect_ids killer_id) = inr tt ->
  let errs :=
    errors (emitted (check_evidence_ids set_order data rooms suspect_ids killer_id)) in
  (forall room_id type,
     In (DiscoveryNotList room_id type) errs <->
     exists ev_list, In (room_id, ev_list) (discovery_of data) /\
                     is_list ev_list = false /\ type = type_name ev_list) /\
  (forall room_id type,
     In (DnaNotList room_id type) errs <->
     exists names, In (room_id, names) (dna_of data) /\
                   is_list names = false /\ type = type_name names).
Proof.
  intros H errs. subst errs.
  split; intros; rewrite (In_evidence_errors _ _ _ _ _ _ H).
  - split.
    + intros Hd. evidence_sources Hd. injection Hd as -> ->.
      destruct entry as [r v]. cbn [fst snd] in *. exists v. now repeat split.
    + intros (ev_list & Hentry & Hlist & ->). left. exists (room_id, ev_list).
      split; [exact Hentry|]. apply In_discovery_errors. right. right. now split.
  - split.
    + intros Hd. evidence_sources Hd. injection Hd as -> ->.
      destruct entry as [r v]. cbn [fst snd] in *. exists v. now repeat split.
    + intros (names & Hentry & Hlist & ->). do 4 right. exists (room_id, names).
      split; [exact Hentry|]. apply In_dna_errors. right. now split.
Qed.

Lemma entries_that_are_no_list_reported_witness :
  outcome (check_evidence_ids (fun l => l) loose_ends_case ["hall"] [] VNone) = inr tt /\
  let errs :=
    errors (emitted (check_evidence_ids (fun l => l) loose_ends_case ["hall"] [] VNone)) in
  (forall room_id type,
     In (DiscoveryNotList room_id type) errs <->
     exists ev_list, In (room_id, ev_list) (discovery_of loose_ends_case) /\
                     is_list ev_list = false /\ type = type_name ev_list) /\
  (forall room_id type,
     In (DnaNotList room_id type) errs <->
     exists names, In (room_id, names) (dna_of loose_ends_case) /\
                   is_list names = false /\ type = type_name names).
Proof.
  split; [reflexivity|].
  exact (entries_that_are_no_list_reported (fun l => l) loose_ends_case ["hall"] []
           VNone eq_refl).
Defined.

(* ------------------------------------------------------------------ *)
(** ** The narrative checks *)

Lemma required_by_secrets_inr (secrets required : list value) :
  required_by_secrets secrets = inr required ->
  required = flat_map requires_evidence secrets.
Proof.
  revert required. induction secrets as [|secret secrets IH];
    cbn [required_by_secrets flat_map]; intros required H.
  - now injection H as <-.
  - unfold requires_evidence at 1.
    destruct (py_get secret "trigger" (VDict [])) as [e|trigger]; [discriminate|].
    cbn [rbind] in *.
    destruct (py_get trigger "requiresEvidence" (VList [])) as [e|requires];
      [discriminate|].
    cbn [rbind] in *. unfold py_set in H.
    destruct (py_iter requires) as [e|l]; [discriminate|]. cbn [rbind] in H.
    destruct (all_hashable l) as [e|here] eqn:Ehere; [discriminate|]. cbn [rbind] in H.
    destruct (required_by_secrets secrets) as [e|there]; [discriminate|].
    cbn [rbind] in H. injection H as <-.
    now rewrite (all_hashable_inr _ _ Ehere), (IH there eq_refl).
Qed.

Lemma required_by_suspects_inr (suspects required : list value) :
  required_by_suspects suspects = inr required ->
  required = flat_map (fun suspect => flat_map requires_evidence (secrets_of suspect))
                      suspects.
Proof.
  revert required. induction suspects as [|suspect suspects IH];
    cbn [required_by_suspects flat_map]; intros required H.
  - now injection H as <-.
  - unfold secrets_of at 1.
    destruct (py_get suspect "secrets" (VList [])) as [e|secrets]; [discriminate|].
    cbn [rbind] in *.
    destruct (py_iter secrets) as [e|secret_list]; [discriminate|]. cbn [rbind] in H.
    destruct (required_by_secrets secret_list) as [e|here] eqn:Ehere; [discriminate|].
    cbn [rbind] in H.
    destruct (required_by_suspects suspects) as [e|there]; [discriminate|].
    cbn [rbind] in H. injection H as <-.
    now rewrite (required_by_secrets_inr _ _ Ehere), (IH there eq_refl).
Qed.

(** The warnings of lines 427-434. *)
Lemma check_key_evidence_used_run (data : value) :
  outcome (check_key_evidence_used data (narrative_solution data)) = inr tt ->
  warnings (emitted (check_key_evidence_used data (narrative_solution data)))
  = map KeyEvidenceUnused
        (filter (fun ev_id => negb (list_mem ev_id (required_anywhere data)))
                (narrative_key_evidence data)).
Proof.
  unfold check_key_evidence_used, required_anywhere, narrative_key_evidence, suspects_of.
  intros H. returned H as suspects. returned H as suspect_list.
  returned H as all_required_evidence. returned H as key_evidence. returned H as evs.
  cbn [rbind]. rewrite Esuspect_list, Eevs.
  rewrite <- (required_by_suspects_inr _ _ Eall_required_evidence).
  clear - H. induction evs as [|ev evs IH]; [reflexivity|].
  cbn [for_each filter] in *.
  apply outcome_bind_inr in H as ([] & Hx & Hl).
  rewrite (warnings_bind_inr _ _ tt Hx), (IH Hl).
  unfold set_mem in *. destruct (hashable ev); [|discriminate Hx].
  rewrite bind_lift_inr. fold (list_mem ev all_required_evidence).
  now destruct (list_mem ev all_required_evidence).
Qed.

Lemma terminal_spec (secret : value) (b : bool) :
  (let? sec_id := py_getitem secret "id" in
   let? low_id := py_lower sec_id in
   if PyStr.contains "confession" low_id then inr true
   else
     let? text := py_get secret "text" (VStr "") in
     let? low_text := py_lower text in
     inr (PyStr.contains "confess" low_text)) = inr b ->
  terminal secret = b.
Proof.
  unfold terminal, id_of, text_of, lowered.
  destruct (py_getitem secret "id") as [e|sec_id]; [discriminate|]. cbn [rbind].
  destruct (py_lower sec_id) as [e|low_id]; [discriminate|]. cbn [rbind].
  destruct (PyStr.contains "confession" low_id); cbn [orb].
  - intros H. now injection H as <-.
  - destruct (py_get secret "text" (VStr "")) as [e|text]; [discriminate|]. cbn [rbind].
    destruct (py_lower text) as [e|low_text]; [discriminate|]. cbn [rbind].
    intros H. now injection H as <-.
Qed.

Lemma any_res_existsb {A} (f : A -> res bool) (g : A -> bool) (l : list A) (b : bool) :
  (forall x c, f x = inr c -> g x = c) ->
  any_res f l = inr b -> b = existsb g l.
Proof.
  intros Hfg. induction l as [|x l IH]; cbn [any_res existsb]; intros H.
  - now injection H as <-.
  - destruct (f x) as [e|c] eqn:E; [discriminate|]. cbn [rbind] in H.
    rewrite (Hfg x c E). destruct c; [now injection H as <-|]. now apply IH.
Qed.

(** The warning of lines 453-459. *)
Lemma check_confession_run (killer_id : value) (suspects : list (value * value)) :
  outcome (check_confession killer_id suspects) = inr tt ->
  warnings (emitted (check_confession killer_id suspects))
  = if truthy killer_id
    then match vdict_find killer_id suspects with
         | Some killer =>
             if existsb terminal (secrets_of killer) then []
             else [KillerNoConfession killer_id]
         | None => []
         end
    else [].
Proof.
  unfold check_confession, find_killer. destruct (truthy killer_id); [|reflexivity].
  intros H. returned H as killer.
  unfold vdict_get in Ekiller. destruct (hashable killer_id); [|discriminate].
  injection Ekiller as <-.
  destruct (vdict_find killer_id suspects) as [killer|]; [|reflexivity].
  returned H as killer_secrets. returned H as secret_list. returned H as has_terminal.
  unfold secrets_of. rewrite Ekiller_secrets. cbn [rbind]. rewrite Esecret_list.
  rewrite <- (any_res_existsb _ terminal _ _ terminal_spec Ehas_terminal).
  now destruct has_terminal.
Qed.

(** The warnings of lines 462-466. *)
Lemma check_statements_run (data : value) :
  outcome (check_statements data (evidence_of data)) = inr tt ->
  warnings (emitted (check_statements data (evidence_of data)))
  = map (fun suspect => SuspectNoStatement (id_of suspect))
        (filter (fun suspect => negb (has_statement (statements_of data) (id_of suspect)))
                (suspects_of data)).
Proof.
  unfold check_statements, statements_of, suspects_of.
  intros H. returned H as statements. returned H as suspects.
  returned H as suspect_list. cbn [rbind]. rewrite Esuspect_list.
  clear - H. induction suspect_list as [|suspect suspect_list IH]; [reflexivity|].
  cbn [for_each filter] in *.
  apply outcome_bind_inr in H as ([] & Hx & Hl).
  rewrite (warnings_bind_inr _ _ tt Hx), (IH Hl).
  returned Hx as sid. returned Hx as known.
  assert (Hk : has_statement statements (id_of suspect) = known)
    by (unfold has_statement, id_of; now rewrite Esid, Eknown).
  assert (Hid : id_of suspect = sid) by (unfold id_of; now rewrite Esid).
  rewrite Hk. destruct known; cbn [negb when map]; [reflexivity|].
  now rewrite Hid.
Qed.

Lemma check_murder_evidence_kind (data evidence killer_id : value)
    (suspects : list (value * value)) :
  warnings_all (fun d => exists k, d = KillerNoMurderEvidence k)
               (check_murder_evidence data evidence killer_id suspects).
Proof. unfold check_murder_evidence, find_killer. appends. now eexists. Qed.

Lemma check_win_conditions_kind (json_dumps : value -> string) (data killer_id : value)
    (suspects : list (value * value)) :
  warnings_all (fun d => exists k, d = WinConditionsVague k)
               (check_win_conditions json_dumps data killer_id suspects).
Proof. unfold check_win_conditions. appends. now eexists. Qed.

(** The warnings of a run of [check_narrative_consistency] that returned,
    check by check. *)
Lemma check_narrative_consistency_warnings (json_dumps : value -> string)
    (data : value) :
  outcome (check_narrative_consistency json_dumps data) = inr tt ->
  exists murder win,
    Forall (fun d => exists k, d = KillerNoMurderEvidence k) murder /\
    Forall (fun d => exists k, d = WinConditionsVague k) win /\
    warnings (emitted (check_narrative_consistency json_dumps data))
    = map KeyEvidenceUnused
          (filter (fun ev_id => negb (list_mem ev_id (required_anywhere data)))
                  (narrative_key_evidence data))
      ++ murder
      ++ (if truthy (narrative_killer data)
          then match resolved_killer data with
               | Some killer =>
                   if existsb terminal (secrets_of killer) then []
                   else [KillerNoConfession (narrative_killer data)]
               | None => []
               end
          else [])
      ++ map (fun suspect => SuspectNoStatement (id_of suspect))
             (filter (fun suspect =>
                        negb (has_statement (statements_of data) (id_of suspect)))
                     (suspects_of data))
      ++ win.
Proof.
  unfold check_narrative_consistency. intros H.
  returned H as solution'. cbv zeta in *.
  assert (Hsol : narrative_solution data
                 = if is_dict solution' then solution' else VDict [])
    by (unfold narrative_solution; now rewrite Esolution').
  rewrite <- Hsol in *.
  returned H as killer_id.
  assert (Hkid : narrative_killer data = killer_id)
    by (unfold narrative_killer, attribute; now rewrite Ekiller_id).
  returned H as suspects_. returned H as suspect_list. returned H as suspects.
  assert (Hres : resolved_killer data = vdict_find killer_id suspects).
  { unfold resolved_killer. rewrite Esolution'. cbv zeta. rewrite <- Hsol, Ekiller_id.
    rewrite Esuspects_. cbn [rbind]. rewrite Esuspect_list. cbn [rbind].
    now rewrite Esuspects. }
  returned H as evidence.
  assert (Hev : evidence_of data = evidence)
    by (unfold evidence_of; now rewrite Eevidence).
  rewrite <- Hev in *.
  returned H as phys_ev. returned H as phys_ev_ids.
  apply outcome_bind_inr in H as ([] & H1 & H).
  rewrite (warnings_bind_inr _ _ tt H1), (check_key_evidence_used_run data H1).
  apply outcome_bind_inr in H as ([] & H2 & H).
  rewrite (warnings_bind_inr _ _ tt H2).
  apply outcome_bind_inr in H as ([] & H3 & H).
  rewrite (warnings_bind_inr _ _ tt H3), (check_confession_run _ _ H3).
  apply outcome_bind_inr in H as ([] & H4 & H).
  rewrite (warnings_bind_inr _ _ tt H4), (check_statements_run data H4).
  rewrite Hkid, Hres.
  eexists _, _. split; [apply check_murder_evidence_kind|].
  split; [apply (check_win_conditions_kind json_dumps)|]. reflexivity.
Qed.

(** The report of [confession_case]. *)
Example confession_case_report :
  check_narrative_consistency (fun _ => "{}") confession_case
  = (mkResult []
       [KeyEvidenceUnused (VStr "rope");
        KillerNoConfession (VStr "butler");
        SuspectNoStatement (VStr "butler")],
     inr tt).
Proof. reflexivity. Qed.

Ltac narrative_sources H :=
  let murder := fresh "murder" in
  let win := fresh "win" in
  let Hmurder := fresh "Hmurder" in
  let Hwin := fresh "Hwin" in
  destruct (check_narrative_consistency_warnings _ _ H)
    as (murder & win & Hmurder & Hwin & ->);
  rewrite Forall_forall in Hmurder, Hwin;
  rewrite ?in_app_iff.

(** X29. When [check_narrative_consistency] returns, it warns that the
    killer has no confession exactly when the killer id of the solution is
    truthy, is the id of a suspect, and no secret of that suspect has
    'confession' in its lower-cased id or 'confess' in its lower-cased
    text.  The suspect is the one the dict of line 422 holds under the
    killer id; a confession among the secrets of another suspect does not
    count. *)
Theorem killer_without_confession_warned (json_dumps : value -> string)
    (data : value) :
  outcome (check_narrative_consistency json_dumps data) = inr tt ->
  forall killer_id,
    In (KillerNoConfession killer_id)
       (warnings (emitted (check_narrative_consistency json_dumps data)))
    <->
    killer_id = narrative_killer data /\ truthy killer_id = true /\
    exists killer, resolved_killer data = Some killer /\
                   forall secret, In secret (secrets_of killer) ->
                                  terminal secret = false.
Proof.
  intros H killer_id. narrative_sources H.
  assert (Hnone : forall killer,
             existsb terminal (secrets_of killer) = false
             <-> forall secret, In secret (secrets_of killer) -> terminal secret = false).
  { intros killer. rewrite <- not_true_iff_false, existsb_exists. split.
    - intros Hn secret Hin. apply not_true_iff_false. intros Ht. apply Hn. now exists secret.
    - intros Hall (secret & Hin & Ht). rewrite (Hall secret Hin) in Ht. discriminate. }
  split.
  - intros [Hin|[Hin|[Hin|[Hin|Hin]]]].
    + apply in_map_iff in Hin as (x & Hx & _). discriminate.
    + destruct (Hmurder _ Hin) as (k & Hk). discriminate.
    + destruct (truthy (narrative_killer data)) eqn:Ht; [|destruct Hin].
      destruct (resolved_killer data) as [killer|]; [|destruct Hin].
      destruct (existsb terminal (secrets_of killer)) eqn:Ex; [destruct Hin|].
      destruct Hin as [Hd|[]]. injection Hd as <-.
      split; [reflexivity|]. split; [exact Ht|]. exists killer.
      split; [reflexivity|]. now apply Hnone.
    + apply in_map_iff in Hin as (x & Hx & _). discriminate.
    + destruct (Hwin _ Hin) as (k & Hk). discriminate.
  - intros (-> & Ht & killer & Hres & Hall). do 2 right. left.
    rewrite Ht, Hres. apply Hnone in Hall. rewrite Hall. now left.
Qed.

Lemma killer_without_confession_warned_witness :
  outcome (check_narrative_consistency (fun _ => "{}") confession_case) = inr tt /\
  (In (KillerNoConfession (VStr "butler"))
      (warnings (emitted (check_narrative_consistency (fun _ => "{}") confession_case)))
   <->
   VStr "butler" = narrative_killer confession_case /\ truthy (VStr "butler") = true /\
   exists killer, resolved_killer confession_case = Some killer /\
                  forall secret, In secret (secrets_of killer) ->
                                 terminal secret = false).
Proof.
  split; [reflexivity|].
  exact (killer_without_confession_warned (fun _ => "{}") confession_case eq_refl
           (VStr "butler")).
Defined.

(** X30. When [check_narrative_consistency] returns, it warns of a piece
    of key evidence exactly when no secret of any suspect lists it in its
    'requiresEvidence', and of a suspect exactly when the id of the
    suspect is not found in 'initial_police_statements'. *)
Theorem unused_key_evidence_and_missing_statements_warned
    (json_dumps : value -> string) (data : value) :
  outcome (check_narrative_consistency json_dumps data) = inr tt ->
  (forall ev_id,
     In (KeyEvidenceUnused ev_id)
        (warnings (emitted (check_narrative_consistency json_dumps data)))
     <->
     In ev_id (narrative_key_evidence data) /\
     forall suspect secret required,
       In suspect (suspects_of data) -> In secret (secrets_of suspect) ->
       In required (requires_evidence secret) -> py_eq ev_id required = false) /\
  (forall sid,
     In (SuspectNoStatement sid)
        (warnings (emitted (check_narrative_consistency json_dumps data)))
     <->
     exists suspect, In suspect (suspects_of data) /\ id_of suspect = sid /\
                     has_statement (statements_of data) sid = false).
Proof.
  intros H. narrative_sources H.
  assert (Hunused : forall ev_id,
             list_mem ev_id (required_anywhere data) = false
             <-> forall suspect secret required,
                   In suspect (suspects_of data) -> In secret (secrets_of suspect) ->
                   In required (requires_evidence secret) ->
                   py_eq ev_id required = false).
  { intros ev_id. unfold list_mem, required_anywhere.
    rewrite <- not_true_iff_false, existsb_exists. split.
    - intros Hn suspect secret required Hs Hsec Hreq. apply not_true_iff_false.
      intros Heq. apply Hn. exists required. split; [|exact Heq].
      apply in_flat_map. exists suspect. split; [exact Hs|].
      apply in_flat_map. now exists secret.
    - intros Hall (required & Hin & Heq).
      apply in_flat_map in Hin as (suspect & Hs & Hin).
      apply in_flat_map in Hin as (secret & Hsec & Hreq).
      rewrite (Hall suspect secret required Hs Hsec Hreq) in Heq. discriminate. }
  split.
  - intros ev_id. rewrite !in_app_iff. split.
    + intros [Hin|[Hin|[Hin|[Hin|Hin]]]].
      * apply in_map_iff in Hin as (x & Hx & Hin). injection Hx as ->.
        apply filter_In in Hin as (Hin & Hnot). apply negb_true_iff in Hnot.
        split; [exact Hin|]. now apply Hunused.
      * destruct (Hmurder _ Hin) as (k & Hk). discriminate.
      * destruct (truthy (narrative_killer data)); [|destruct Hin].
        destruct (resolved_killer data) as [killer|]; [|destruct Hin].
        destruct (existsb terminal (secrets_of killer)); [destruct Hin|].
        destruct Hin as [Hd|[]]. discriminate.
      * apply in_map_iff in Hin as (x & Hx & _). discriminate.
      * destruct (Hwin _ Hin) as (k & Hk). discriminate.
    + intros (Hin & Hall). left. apply in_map. apply filter_In.
      split; [exact Hin|]. apply negb_true_iff. now apply Hunused.
  - intros sid. rewrite !in_app_iff. split.
    + intros [Hin|[Hin|[Hin|[Hin|Hin]]]].
      * apply in_map_iff in Hin as (x & Hx & _). discriminate.
      * destruct (Hmurder _ Hin) as (k & Hk). discriminate.
      * destruct (truthy (narrative_killer data)); [|destruct Hin].
        destruct (resolved_killer data) as [killer|]; [|destruct Hin].
        destruct (existsb terminal (secrets_of killer)); [destruct Hin|].
        destruct Hin as [Hd|[]]. discriminate.
      * apply in_map_iff in Hin as (suspect & Hx & Hin). injection Hx as <-.
        apply filter_In in Hin as (Hin & Hnot). apply negb_true_iff in Hnot.
        now exists suspect.
      * destruct (Hwin _ Hin) as (k & Hk). discriminate.
    + intros (suspect & Hin & <- & Hnot). do 3 right. left.
      apply in_map_iff. exists suspect. split; [reflexivity|].
      apply filter_In. split; [exact Hin|]. now apply negb_true_iff.
Qed.

Lemma unused_key_evidence_and_missing_statements_warned_witness :
  outcome (check_narrative_consistency (fun _ => "{}") confession_case) = inr tt /\
  (forall ev_id,
     In (KeyEvidenceUnused ev_id)
        (warnings (emitted (check_narrative_consistency (fun _ => "{}") confession_case)))
     <->
     In ev_id (narrative_key_evidence confession_case) /\
     forall suspect secret required,
       In suspect (suspects_of confession_case) -> In secret (secrets_of suspect) ->
       In required (requires_evidence secret) -> py_eq ev_id required = false) /\
  (forall sid,
     In (SuspectNoStatement sid)
        (warnings (emitted (check_narrative_consistency (fun _ => "{}") confession_case)))
     <->
     exists suspect, In suspect (suspects_of confession_case) /\ id_of suspect = sid /\
                     has_statement (statements_of confession_case) sid = false).
Proof.
  split; [reflexivity|].
  exact (unused_key_evidence_and_missing_statements_warned (fun _ => "{}")
           confession_case eq_refl).
Defined.
